(** * A TCP chat server: framing codec, account store, session handlers

    Shallow embedding of the server side of the chat service
    (common/Protocol.cpp, server/Database.cpp, server/Server.cpp,
    server/ClientSession.cpp) and the properties proved about it.

    Conventions.
    - [std::string] is [string] (a sequence of 8-bit characters);
      [std::vector<uint8_t>] is [list byte].
    - C++ integers are [Z]; where the source narrows or wraps, the
      wrap-around is written out.
    - An exception is a value of [json_exception] carried in a sum; a
      [try]/[catch] is a [match] on it.
    - One call of a handler runs atomically (the locks of the source
      serialise the accesses to the shared maps and to the store). *)

From Stdlib Require Import ZArith NArith String Ascii List Lia Bool.
From Stdlib Require Import Strings.Byte.
From Stdlib Require Import DecimalString DecimalFacts DecimalZ DecimalN DecimalPos.
From Stdlib Require Import Sorting.Sorted.
From stdpp Require Import gmap strings list finite.
Import ListNotations.

Local Open Scope Z_scope.

Abbreviation byte := Byte.byte.

#[local] Set Warnings "-register-all".

(** ** Characters and small helpers *)

Definition dquote : ascii := "034"%char.
Definition backslash : ascii := "092"%char.
Definition code (c : ascii) : N := N_of_ascii c.

Definition str1 (c : ascii) : string := String c EmptyString.

(** [quoted s] is s between two double quotes, with no escaping. *)
Definition quoted (s : string) : string :=
  String dquote (s +:+ str1 dquote).

(** Prefix test on strings, used to state what a reply starts with. *)
Fixpoint starts_with (p s : string) : bool :=
  match p, s with
  | EmptyString, _ => true
  | String a p', String b s' => Ascii.eqb a b && starts_with p' s'
  | String _ _, EmptyString => false
  end.

(** The string without its first n characters. *)
Fixpoint string_drop (n : nat) (s : string) : string :=
  match n, s with
  | O, _ => s
  | S n', String _ r => string_drop n' r
  | S _, EmptyString => EmptyString
  end.

(** Substring test, used to state what a reply contains. *)
Fixpoint contains (p s : string) : bool :=
  starts_with p s ||
  match s with
  | EmptyString => false
  | String _ s' => contains p s'
  end.

(** ** The JSON library *)

Module Json.

(** Modelled from the spec: the JSON library (thirdparty/json.hpp) is not
    among the sources.  The spec calls the payload "UTF-8 JSON" with an
    integer [type] and string fields, so a JSON value is one of the
    seven kinds of RFC 8259; a number written without fraction and
    exponent is an integer, any other number keeps its literal. *)
Inductive json : Type :=
  | JNull
  | JBool (b : bool)
  | JInt (z : Z)
  | JFloat (literal : string)
  | JString (s : string)
  | JArray (items : list json)
  | JObject (members : list (string * json)).

(** Modelled from the spec: the exceptions of the missing JSON library,
    by the situation that raises them ("malformed JSON", "missing
    required field" in the spec's error taxonomy). *)
Inductive json_exception : Type :=
  | parse_error
  | invalid_utf8
  | wrong_type (expected : string)
  | not_an_object.

(** Modelled from the spec: the text of an exception of the missing JSON
    library; only its existence matters to the callers, which prepend
    their own prefix. *)
Definition what (e : json_exception) : string :=
  match e with
  | parse_error => "syntax error while parsing value"
  | invalid_utf8 => "invalid UTF-8 byte"
  | wrong_type t => "type must be " +:+ t
  | not_an_object => "cannot use operator[] or value() with a non-object"
  end.

(** *** UTF-8 *)

(** Modelled from the spec: the payload is UTF-8, so a string can be
    written or read only when its bytes are well-formed UTF-8.  The
    automaton reads one byte at a time; the states after a lead byte say
    how many continuation bytes are due and which range the next one
    must fall in. *)
Inductive utf8_state : Type :=
  | U_ACCEPT   (* at a character boundary *)
  | U_T1       (* one continuation byte due *)
  | U_T2       (* two continuation bytes due *)
  | U_T3       (* three continuation bytes due *)
  | U_E0       (* after E0: next in A0..BF, then one more *)
  | U_ED       (* after ED: next in 80..9F, then one more *)
  | U_F0       (* after F0: next in 90..BF, then two more *)
  | U_F4.      (* after F4: next in 80..8F, then two more *)

Definition in_range (lo hi b : N) : bool := ((lo <=? b) && (b <=? hi))%N.

Definition utf8_step (st : utf8_state) (b : N) : option utf8_state :=
  match st with
  | U_ACCEPT =>
      if (b <? 128)%N then Some U_ACCEPT
      else if in_range 194 223 b then Some U_T1
      else if (b =? 224)%N then Some U_E0
      else if in_range 225 236 b then Some U_T2
      else if (b =? 237)%N then Some U_ED
      else if in_range 238 239 b then Some U_T2
      else if (b =? 240)%N then Some U_F0
      else if in_range 241 243 b then Some U_T3
      else if (b =? 244)%N then Some U_F4
      else None
  | U_T1 => if in_range 128 191 b then Some U_ACCEPT else None
  | U_T2 => if in_range 128 191 b then Some U_T1 else None
  | U_T3 => if in_range 128 191 b then Some U_T2 else None
  | U_E0 => if in_range 160 191 b then Some U_T1 else None
  | U_ED => if in_range 128 159 b then Some U_T1 else None
  | U_F0 => if in_range 144 191 b then Some U_T2 else None
  | U_F4 => if in_range 128 143 b then Some U_T2 else None
  end.

Definition is_accept (st : utf8_state) : bool :=
  match st with U_ACCEPT => true | _ => false end.

(** [utf8_from st s]: the bytes of s take the automaton from st back to
    a character boundary. *)
Fixpoint utf8_from (st : utf8_state) (s : string) : bool :=
  match s with
  | EmptyString => is_accept st
  | String c r =>
      match utf8_step st (code c) with
      | Some st' => utf8_from st' r
      | None => false
      end
  end.

Definition valid_utf8 (s : string) : bool := utf8_from U_ACCEPT s.

(** Strings of 7-bit characters: each is one UTF-8 character. *)
Fixpoint ascii_only (s : string) : bool :=
  match s with
  | EmptyString => true
  | String c r => (code c <? 128)%N && ascii_only r
  end.

(** The UTF-8 encoding of a code point below 0x110000. *)
Definition utf8_encode (cp : N) : string :=
  if (cp <? 128)%N then str1 (ascii_of_N cp)
  else if (cp <? 2048)%N then
    String (ascii_of_N (192 + cp / 64))
      (str1 (ascii_of_N (128 + cp mod 64)))
  else if (cp <? 65536)%N then
    String (ascii_of_N (224 + cp / 4096))
      (String (ascii_of_N (128 + (cp / 64) mod 64))
         (str1 (ascii_of_N (128 + cp mod 64))))
  else
    String (ascii_of_N (240 + cp / 262144))
      (String (ascii_of_N (128 + (cp / 4096) mod 64))
         (String (ascii_of_N (128 + (cp / 64) mod 64))
            (str1 (ascii_of_N (128 + cp mod 64))))).

(** *** Writing *)

Definition hex_digit (n : N) : ascii :=
  if (n <? 10)%N then ascii_of_N (48 + n) else ascii_of_N (87 + n).

(** Modelled from the spec: how the missing JSON library writes one
    byte of a string: the two characters that must be escaped, the
    control characters (short forms where JSON has one, [\u00XX]
    otherwise), everything else as it is. *)
Definition escape_char (c : ascii) : string :=
  let n := code c in
  if (n =? 34)%N then String backslash (str1 dquote)
  else if (n =? 92)%N then String backslash (str1 backslash)
  else if (n =? 8)%N then String backslash "b"
  else if (n =? 12)%N then String backslash "f"
  else if (n =? 10)%N then String backslash "n"
  else if (n =? 13)%N then String backslash "r"
  else if (n =? 9)%N then String backslash "t"
  else if (n <? 32)%N then
    String backslash
      (String "u" (String "0" (String "0"
         (String (hex_digit (n / 16)) (str1 (hex_digit (n mod 16)))))))
  else str1 c.

(** The body of a string literal; [None] when the bytes are not UTF-8. *)
Fixpoint escape (st : utf8_state) (s : string) : option string :=
  match s with
  | EmptyString => if is_accept st then Some EmptyString else None
  | String c r =>
      match utf8_step st (code c) with
      | None => None
      | Some st' =>
          match escape st' r with
          | Some body => Some (escape_char c +:+ body)
          | None => None
          end
      end
  end.

Definition dump_string (s : string) : option string :=
  match escape U_ACCEPT s with
  | Some body => Some (quoted body)
  | None => None
  end.

Definition dump_int (z : Z) : string := NilZero.string_of_int (Z.to_int z).

(** Modelled from the spec: the compact text of a JSON value (the
    [dump()] of the missing library): no white space, members in the
    order of the object; [None] stands for the exception raised on a
    string that is not UTF-8. *)
Fixpoint dump (j : json) : option string :=
  match j with
  | JNull => Some "null"%string
  | JBool true => Some "true"%string
  | JBool false => Some "false"%string
  | JInt z => Some (dump_int z)
  | JFloat lit => Some lit
  | JString s => dump_string s
  | JArray items =>
      let fix go (l : list json) (first : bool) : option string :=
        match l with
        | [] => Some "]"%string
        | x :: r =>
            match dump x, go r false with
            | Some a, Some b =>
                Some ((if first then "" else ",") +:+ a +:+ b)
            | _, _ => None
            end
        end in
      match go items true with
      | Some body => Some ("[" +:+ body)
      | None => None
      end
  | JObject members =>
      let fix go (l : list (string * json)) (first : bool) : option string :=
        match l with
        | [] => Some "}"%string
        | (k, v) :: r =>
            match dump_string k, dump v, go r false with
            | Some a, Some b, Some c =>
                Some ((if first then "" else ",") +:+ a +:+ ":" +:+ b +:+ c)
            | _, _, _ => None
            end
        end in
      match go members true with
      | Some body => Some ("{" +:+ body)
      | None => None
      end
  end.

(** *** Objects as ordered maps *)

(** Modelled from the spec: an object of the missing library is a map
    ordered by key; [obj_set] is the assignment [j[key] = v]. *)
Fixpoint obj_set (k : string) (v : json) (l : list (string * json))
  : list (string * json) :=
  match l with
  | [] => [(k, v)]
  | (k', v') :: r =>
      match String.compare k k' with
      | Lt => (k, v) :: (k', v') :: r
      | Eq => (k, v) :: r
      | Gt => (k', v') :: obj_set k v r
      end
  end.

Fixpoint obj_find (k : string) (l : list (string * json)) : option json :=
  match l with
  | [] => None
  | (k', v) :: r => if String.eqb k k' then Some v else obj_find k r
  end.

(** *** Reading *)

Definition is_ws (c : ascii) : bool :=
  let n := code c in
  ((n =? 32) || (n =? 9) || (n =? 10) || (n =? 13))%N.

Fixpoint skip_ws (s : string) : string :=
  match s with
  | String c r => if is_ws c then skip_ws r else s
  | EmptyString => s
  end.

Definition is_digit (c : ascii) : bool := in_range 48 57 (code c).

Definition hex_value (c : ascii) : option N :=
  let n := code c in
  if in_range 48 57 n then Some (n - 48)%N
  else if in_range 97 102 n then Some (n - 87)%N
  else if in_range 65 70 n then Some (n - 55)%N
  else None.

Definition hex4 (a b c d : ascii) : option N :=
  match hex_value a, hex_value b, hex_value c, hex_value d with
  | Some x, Some y, Some z, Some w =>
      Some (((x * 16 + y) * 16 + z) * 16 + w)%N
  | _, _, _, _ => None
  end.

(** The character a one-letter escape stands for. *)
Definition simple_escape (e : ascii) : option ascii :=
  let n := code e in
  if (n =? 34)%N then Some dquote
  else if (n =? 92)%N then Some backslash
  else if (n =? 47)%N then Some "/"%char
  else if (n =? 98)%N then Some (ascii_of_N 8)
  else if (n =? 102)%N then Some (ascii_of_N 12)
  else if (n =? 110)%N then Some (ascii_of_N 10)
  else if (n =? 114)%N then Some (ascii_of_N 13)
  else if (n =? 116)%N then Some (ascii_of_N 9)
  else None.

Definition prepend (pre : string) (r : option (string * string))
  : option (string * string) :=
  match r with
  | Some (body, rest) => Some (pre +:+ body, rest)
  | None => None
  end.

(** Modelled from the spec: reading a string literal of the missing
    library, after its opening quote: the decoded bytes and the input
    left after the closing quote.  Escapes are decoded, a [\u] pair of
    surrogates gives one code point, raw control characters and bytes
    that are not UTF-8 are refused. *)
Fixpoint lex_string (st : utf8_state) (s : string)
  : option (string * string) :=
  match s with
  | EmptyString => None
  | String c r =>
      if is_accept st then
        if (code c =? 34)%N then Some (EmptyString, r)
        else if (code c =? 92)%N then
          match r with
          | EmptyString => None
          | String e r1 =>
              if (code e =? 117)%N then
                match r1 with
                | String h1 (String h2 (String h3 (String h4 r2))) =>
                    match hex4 h1 h2 h3 h4 with
                    | None => None
                    | Some hi =>
                        if in_range 55296 56319 hi then
                          match r2 with
                          | String b (String u (String g1 (String g2
                              (String g3 (String g4 r3))))) =>
                              if ((code b =? 92) && (code u =? 117))%N then
                                match hex4 g1 g2 g3 g4 with
                                | Some lo =>
                                    if in_range 56320 57343 lo then
                                      prepend
                                        (utf8_encode
                                           (65536 + (hi - 55296) * 1024
                                            + (lo - 56320))%N)
                                        (lex_string U_ACCEPT r3)
                                    else None
                                | None => None
                                end
                              else None
                          | _ => None
                          end
                        else if in_range 56320 57343 hi then None
                        else prepend (utf8_encode hi) (lex_string U_ACCEPT r2)
                    end
                | _ => None
                end
              else
                match simple_escape e with
                | Some c' => prepend (str1 c') (lex_string U_ACCEPT r1)
                | None => None
                end
          end
        else if (code c <? 32)%N then None
        else
          match utf8_step U_ACCEPT (code c) with
          | Some st' => prepend (str1 c) (lex_string st' r)
          | None => None
          end
      else
        match utf8_step st (code c) with
        | Some st' => prepend (str1 c) (lex_string st' r)
        | None => None
        end
  end.

Fixpoint span_digits (s : string) : string * string :=
  match s with
  | String c r =>
      if is_digit c then
        let (ds, rest) := span_digits r in (String c ds, rest)
      else (EmptyString, s)
  | EmptyString => (EmptyString, s)
  end.

Definition digits_value (ds : string) : Z :=
  match NilZero.uint_of_string ds with
  | Some d => Z.of_uint d
  | None => 0
  end.

(** The fraction of a number, when there is one: its text and the rest. *)
Definition lex_fraction (s : string) : option (string * string) :=
  match s with
  | String c r =>
      if (code c =? 46)%N then
        let (fs, rest) := span_digits r in
        match fs with
        | EmptyString => None
        | _ => Some (String c fs, rest)
        end
      else Some (EmptyString, s)
  | EmptyString => Some (EmptyString, s)
  end.

(** The exponent of a number, when there is one: its text and the rest. *)
Definition lex_exponent (s : string) : option (string * string) :=
  match s with
  | String c r =>
      if ((code c =? 101) || (code c =? 69))%N then
        let (sign, r1) :=
          match r with
          | String g r' =>
              if ((code g =? 43) || (code g =? 45))%N
              then (str1 g, r') else (EmptyString, r)
          | EmptyString => (EmptyString, r)
          end in
        let (es, rest) := span_digits r1 in
        match es with
        | EmptyString => None
        | _ => Some (String c (sign +:+ es), rest)
        end
      else Some (EmptyString, s)
  | EmptyString => Some (EmptyString, s)
  end.

(** The digits of a number after its sign, with the fraction and the
    exponent when there are any.  Without them the value is the integer;
    otherwise the literal is kept. *)
Definition lex_unsigned (neg : bool) (s1 : string) : option (json * string) :=
  let (ds, s2) := span_digits s1 in
  match ds with
  | EmptyString => None
  | String dc more =>
      if ((code dc =? 48)%N && negb (String.eqb more EmptyString)) then None
      else
        match lex_fraction s2 with
        | None => None
        | Some (fs, s3) =>
            match lex_exponent s3 with
            | None => None
            | Some (es, s4) =>
                if (String.eqb fs EmptyString && String.eqb es EmptyString)
                then Some (JInt (if neg then - digits_value ds
                                 else digits_value ds), s4)
                else Some (JFloat ((if neg then "-" else "") +:+ ds
                                   +:+ fs +:+ es), s4)
            end
        end
  end.

(** Modelled from the spec: reading a number of the missing library: an
    optional minus, an integer part without a superfluous leading zero,
    an optional fraction and an optional exponent. *)
Definition lex_number (s : string) : option (json * string) :=
  match s with
  | String c r =>
      if (code c =? 45)%N then lex_unsigned true r else lex_unsigned false s
  | EmptyString => None
  end.

(** Where the text of a number may stop: before anything that does not
    continue it. *)
Definition number_stop (rest : string) : bool :=
  match rest with
  | EmptyString => true
  | String c _ =>
      negb (is_digit c) && negb (code c =? 46)%N && negb (code c =? 101)%N
      && negb (code c =? 69)%N
  end.

(** The result of a reader that may run out of fuel. *)
Inductive presult (A : Type) : Type :=
  | POk (a : A) (rest : string)
  | PErr
  | PFuel.
Arguments POk {A} a rest.
Arguments PErr {A}.
Arguments PFuel {A}.

(** A result that is not an exhaustion of the fuel and, when it is a
    value, leaves fewer than n characters. *)
Definition fuel_ok {A} (res : presult A) (n : nat) : Prop :=
  res <> PFuel /\ forall v r, res = POk v r -> (String.length r < n)%nat.

(** Modelled from the spec: the recursive-descent reader of the missing
    library for one JSON value.  The fuel bounds the number of nested
    calls: a call on an input of n characters never needs more than
    2 n + 1, which is what [json_parse] gives. *)
Fixpoint parse_value (fuel : nat) (s : string) : presult json :=
  match fuel with
  | O => PFuel
  | S f =>
      match skip_ws s with
      | EmptyString => PErr
      | String c r =>
          let n := code c in
          if (n =? 123)%N then
            match skip_ws r with
            | String c1 r1 =>
                if (code c1 =? 125)%N then POk (JObject []) r1
                else parse_members f [] (skip_ws r)
            | EmptyString => PErr
            end
          else if (n =? 91)%N then
            match skip_ws r with
            | String c1 r1 =>
                if (code c1 =? 93)%N then POk (JArray []) r1
                else parse_elements f [] (skip_ws r)
            | EmptyString => PErr
            end
          else if (n =? 34)%N then
            match lex_string U_ACCEPT r with
            | Some (str, rest) => POk (JString str) rest
            | None => PErr
            end
          else if starts_with "true" (String c r) then
            POk (JBool true) (string_drop 4 (String c r))
          else if starts_with "false" (String c r) then
            POk (JBool false) (string_drop 5 (String c r))
          else if starts_with "null" (String c r) then
            POk JNull (string_drop 4 (String c r))
          else
            match lex_number (String c r) with
            | Some (v, rest) => POk v rest
            | None => PErr
            end
      end
  end

(** The elements of an array from the first one on; [acc] holds the
    elements read so far, last first. *)
with parse_elements (fuel : nat) (acc : list json) (s : string)
  : presult json :=
  match fuel with
  | O => PFuel
  | S f =>
      match parse_value f s with
      | POk v rest =>
          match skip_ws rest with
          | String c r =>
              if (code c =? 44)%N then parse_elements f (v :: acc) r
              else if (code c =? 93)%N then POk (JArray (rev (v :: acc))) r
              else PErr
          | EmptyString => PErr
          end
      | PErr => PErr
      | PFuel => PFuel
      end
  end

(** The members of an object from the first one on; a key read twice
    keeps its last value. *)
with parse_members (fuel : nat) (acc : list (string * json)) (s : string)
  : presult json :=
  match fuel with
  | O => PFuel
  | S f =>
      match skip_ws s with
      | String q r =>
          if (code q =? 34)%N then
            match lex_string U_ACCEPT r with
            | Some (k, rest) =>
                match skip_ws rest with
                | String c r1 =>
                    if (code c =? 58)%N then
                      match parse_value f r1 with
                      | POk v rest1 =>
                          match skip_ws rest1 with
                          | String c2 r2 =>
                              if (code c2 =? 44)%N
                              then parse_members f (obj_set k v acc) r2
                              else if (code c2 =? 125)%N
                              then POk (JObject (obj_set k v acc)) r2
                              else PErr
                          | EmptyString => PErr
                          end
                      | PErr => PErr
                      | PFuel => PFuel
                      end
                    else PErr
                | EmptyString => PErr
                end
            | None => PErr
            end
          else PErr
      | EmptyString => PErr
      end
  end.

(** Modelled from the spec: [json::parse] of the missing library: one
    value, white space around it, nothing else. *)
Definition json_parse (s : string) : json_exception + json :=
  match parse_value (S (2 * String.length s)) s with
  | POk v rest =>
      match skip_ws rest with
      | EmptyString => inr v
      | String _ _ => inl parse_error
      end
  | PErr => inl parse_error
  | PFuel => inl parse_error
  end.

(** *** Access *)

(** Modelled from the spec: [j[key]] on a value that is not constant:
    the member of an object, [null] when the object has none (a [null]
    value becomes an empty object first); any other value has no
    members. *)
Definition at_key (j : json) (key : string) : json_exception + json :=
  match j with
  | JNull => inr JNull
  | JObject members =>
      match obj_find key members with
      | Some v => inr v
      | None => inr JNull
      end
  | _ => inl not_an_object
  end.

(** Two's-complement narrowing to a 32-bit [int]. *)
Definition wrap_int (z : Z) : Z := (z + 2^31) mod 2^32 - 2^31.

(** Modelled from the spec: [get<int>()] of the missing library; the
    spec's "integer code" is read as: the value must be an integer. *)
Definition get_int (j : json) : json_exception + Z :=
  match j with
  | JInt z => inr (wrap_int z)
  | _ => inl (wrong_type "number")
  end.

(** Modelled from the spec: [get<std::string>()] of the missing
    library. *)
Definition get_string (j : json) : json_exception + string :=
  match j with
  | JString s => inr s
  | _ => inl (wrong_type "string")
  end.

(** Modelled from the spec: [j.value(key, default)] of the missing
    library: "all string fields default to empty when absent on
    decode"; a member that is present must be a string. *)
Definition value (j : json) (key : string) (default : string)
  : json_exception + string :=
  match j with
  | JObject members =>
      match obj_find key members with
      | Some v => get_string v
      | None => inr default
      end
  | _ => inl not_an_object
  end.

End Json.

(** ** The wire protocol (common/Protocol.h, common/Protocol.cpp) *)

Module Protocol.
Import Json.

(** [enum class MessageType]: the integer codes of the wire contract.  A
    message holds any [int], as the cast in [deserialize] allows. *)
Definition REGISTER : Z := 1.
Definition LOGIN : Z := 2.
Definition LOGOUT : Z := 3.
Definition CHANGE_PASSWORD : Z := 4.
Definition MSG_GLOBAL : Z := 10.
Definition MSG_PRIVATE : Z := 11.
Definition ONLINE_LIST : Z := 20.
Definition USER_STATUS : Z := 21.
Definition USER_INFO : Z := 22.
Definition KICK_USER : Z := 30.
Definition BAN_USER : Z := 31.
Definition UNBAN_USER : Z := 32.
Definition MUTE_USER : Z := 33.
Definition UNMUTE_USER : Z := 34.
Definition PROMOTE_USER : Z := 35.
Definition DEMOTE_USER : Z := 36.
Definition GET_ALL_USERS : Z := 37.
Definition GET_BANNED_LIST : Z := 38.
Definition GET_MUTED_LIST : Z := 39.
Definition KICKED : Z := 40.
Definition BANNED : Z := 41.
Definition MUTED : Z := 42.
Definition UNMUTED : Z := 43.
Definition OK : Z := 100.
Definition ERROR : Z := 101.
Definition PING : Z := 200.
Definition PONG : Z := 201.

Inductive UserStatus : Type := ONLINE | OFFLINE.

(** [struct Message]. *)
Record Message : Type := mkMessage {
  type : Z;
  sender : string;
  receiver : string;
  content : string;
  timestamp : string;
  extra : string
}.

(** [Message(MessageType t)]: the strings start empty. *)
Definition Message_of (t : Z) : Message :=
  mkMessage t EmptyString EmptyString EmptyString EmptyString EmptyString.

(** [Message()]: the type starts as OK. *)
Definition Message_default : Message := Message_of OK.

Definition set_type (m : Message) (t : Z) : Message :=
  mkMessage t (sender m) (receiver m) (content m) (timestamp m) (extra m).
Definition set_sender (m : Message) (s : string) : Message :=
  mkMessage (type m) s (receiver m) (content m) (timestamp m) (extra m).
Definition set_receiver (m : Message) (s : string) : Message :=
  mkMessage (type m) (sender m) s (content m) (timestamp m) (extra m).
Definition set_content (m : Message) (s : string) : Message :=
  mkMessage (type m) (sender m) (receiver m) s (timestamp m) (extra m).
Definition set_timestamp (m : Message) (s : string) : Message :=
  mkMessage (type m) (sender m) (receiver m) (content m) s (extra m).
Definition set_extra (m : Message) (s : string) : Message :=
  mkMessage (type m) (sender m) (receiver m) (content m) (timestamp m) s.

(** The local time read by [getCurrentTimestamp] ([std::tm]). *)
Record tm : Type := mkTm { tm_hour : Z; tm_min : Z; tm_sec : Z }.

(** [setfill('0') << setw(2) << n]: at least two characters. *)
Definition pad2 (n : Z) : string :=
  if (0 <=? n) && (n <? 10) then "0" +:+ dump_int n else dump_int n.

(** [getCurrentTimestamp], as a function of the clock it reads. *)
Definition getCurrentTimestamp (now : tm) : string :=
  pad2 (tm_hour now) +:+ ":" +:+ pad2 (tm_min now) +:+ ":"
    +:+ pad2 (tm_sec now).

Definition byte_of_Z (z : Z) : byte :=
  match Byte.of_N (Z.to_N z) with
  | Some b => b
  | None => Byte.x00
  end.

Definition Z_of_byte (b : byte) : Z := Z.of_N (Byte.to_N b).

(** The object built by [serialize], member by member as the source
    assigns them. *)
Definition message_json (now : tm) (msg : Message) : json :=
  let j := [] in
  let j := obj_set "type" (JInt (type msg)) j in
  let j := obj_set "sender" (JString (sender msg)) j in
  let j := obj_set "receiver" (JString (receiver msg)) j in
  let j := obj_set "content" (JString (content msg)) j in
  let j := obj_set "timestamp"
             (JString (if String.eqb (timestamp msg) EmptyString
                       then getCurrentTimestamp now
                       else timestamp msg)) j in
  let j := obj_set "extra" (JString (extra msg)) j in
  JObject j.

(** The four bytes of the length prefix, most significant first. *)
Definition length_prefix (length : Z) : list byte :=
  [ byte_of_Z (Z.land (Z.shiftr length 24) 255);
    byte_of_Z (Z.land (Z.shiftr length 16) 255);
    byte_of_Z (Z.land (Z.shiftr length 8) 255);
    byte_of_Z (Z.land length 255) ].

(** A frame: the length prefix and the payload. *)
Definition frame (payload : list byte) : list byte :=
  length_prefix (Z.of_nat (List.length payload)) ++ payload.

(** [serialize]: [None] when [dump] throws.  The length is narrowed to
    32 bits and that many bytes are copied.  (For a payload of 2^32 - 4
    bytes or more the 32-bit sum [4 + length] wraps in the source and
    the writes run past the vector; the model keeps the header and the
    bytes copied.) *)
Definition serialize (now : tm) (msg : Message) : option (list byte) :=
  match dump (message_json now msg) with
  | None => None
  | Some payload =>
      let length := (Z.of_nat (String.length payload)) mod 2^32 in
      Some (length_prefix length
            ++ firstn (Z.to_nat length) (list_byte_of_string payload))
  end.

(** The size of the payload [serialize] writes (0 when [dump] throws). *)
Definition payload_size (now : tm) (msg : Message) : Z :=
  match dump (message_json now msg) with
  | Some payload => Z.of_nat (String.length payload)
  | None => 0
  end.

(** The handler of the [catch] in [deserialize]; the fields assigned
    before the exception keep their values. *)
Definition parse_failure (e : json_exception) (msg : Message) : Message :=
  set_content (set_type msg ERROR) ("Parse error: " +:+ what e).

(** [deserialize(data, length)], on the [length] bytes at [data].  The
    [try] block assigns the fields one after the other; an exception
    leaves the ones already assigned. *)
Definition deserialize (data : list byte) : Message :=
  let msg := Message_default in
  let payload := string_of_list_byte data in
  match json_parse payload with
  | inl e => parse_failure e msg
  | inr j =>
  match at_key j "type" with
  | inl e => parse_failure e msg
  | inr tv =>
  match get_int tv with
  | inl e => parse_failure e msg
  | inr t =>
  let msg := set_type msg t in
  match value j "sender" "" with
  | inl e => parse_failure e msg
  | inr s =>
  let msg := set_sender msg s in
  match value j "receiver" "" with
  | inl e => parse_failure e msg
  | inr s =>
  let msg := set_receiver msg s in
  match value j "content" "" with
  | inl e => parse_failure e msg
  | inr s =>
  let msg := set_content msg s in
  match value j "timestamp" "" with
  | inl e => parse_failure e msg
  | inr s =>
  let msg := set_timestamp msg s in
  match value j "extra" "" with
  | inl e => parse_failure e msg
  | inr s => set_extra msg s
  end end end end end end end end.

Definition createOkResponse (now : tm) (content extra : string) : Message :=
  mkMessage OK "" "" content (getCurrentTimestamp now) extra.

Definition createErrorResponse (now : tm) (content : string) : Message :=
  mkMessage ERROR "" "" content (getCurrentTimestamp now) "".

Definition createGlobalMessage (now : tm) (sender content : string)
  : Message :=
  mkMessage MSG_GLOBAL sender "" content (getCurrentTimestamp now) "".

Definition createPrivateMessage (now : tm) (sender receiver content : string)
  : Message :=
  mkMessage MSG_PRIVATE sender receiver content (getCurrentTimestamp now) "".

(** [createOnlineListMessage]: [None] when [dump] throws. *)
Definition createOnlineListMessage (now : tm) (users : list string)
  : option Message :=
  match dump (JArray (map JString users)) with
  | Some text => Some (mkMessage ONLINE_LIST "" "" "" (getCurrentTimestamp now) text)
  | None => None
  end.

Definition createUserStatusMessage (now : tm) (username : string)
  (status : UserStatus) : Message :=
  mkMessage USER_STATUS username ""
    (match status with ONLINE => "online" | OFFLINE => "offline" end)
    (getCurrentTimestamp now) "".

(** *** MessageBuffer *)

Definition MAX_MESSAGE_SIZE : Z := 1024 * 1024.

(** The big-endian length read from the first four bytes. *)
Definition read_length (b0 b1 b2 b3 : byte) : Z :=
  Z.lor (Z.lor (Z.lor (Z.shiftl (Z_of_byte b0) 24)
                      (Z.shiftl (Z_of_byte b1) 16))
               (Z.shiftl (Z_of_byte b2) 8))
        (Z_of_byte b3).

Definition append (buffer_ data : list byte) : list byte := buffer_ ++ data.

Definition hasCompleteMessage (buffer_ : list byte) : bool :=
  match buffer_ with
  | b0 :: b1 :: b2 :: b3 :: _ =>
      let length := read_length b0 b1 b2 b3 in
      if length >? MAX_MESSAGE_SIZE then false
      else Z.of_nat (List.length buffer_) >=? 4 + length
  | _ => false
  end.

(** [extractMessage]: the message returned and the buffer left. *)
Definition extractMessage (buffer_ : list byte) : Message * list byte :=
  match buffer_ with
  | b0 :: b1 :: b2 :: b3 :: body =>
      let length := read_length b0 b1 b2 b3 in
      if length >? MAX_MESSAGE_SIZE then
        (set_content (Message_of ERROR) "Message too large or invalid", [])
      else if Z.of_nat (List.length buffer_) <? 4 + length then
        (Message_of ERROR, buffer_)
      else
        (deserialize (firstn (Z.to_nat length) body),
         skipn (4 + Z.to_nat length) buffer_)
  | _ => (Message_of ERROR, buffer_)
  end.

Definition clear (buffer_ : list byte) : list byte := [].

(** The loop of [ClientSession::processData] on the buffer alone: while
    a complete message is there, extract it.  Every turn removes at
    least four bytes, so the length of the buffer bounds the turns. *)
Fixpoint extract_loop (fuel : nat) (buffer_ : list byte)
  : list Message * list byte :=
  match fuel with
  | O => ([], buffer_)
  | S fuel' =>
      if hasCompleteMessage buffer_ then
        let (msg, rest) := extractMessage buffer_ in
        let (msgs, final) := extract_loop fuel' rest in
        (msg :: msgs, final)
      else ([], buffer_)
  end.

Definition extract_all (buffer_ : list byte) : list Message * list byte :=
  extract_loop (List.length buffer_) buffer_.

(** Fragments appended one after the other, the loop run after each:
    the messages extracted, in order, and the buffer left. *)
Fixpoint feed (buffer_ : list byte) (fragments : list (list byte))
  : list Message * list byte :=
  match fragments with
  | [] => ([], buffer_)
  | data :: more =>
      let (msgs, rest) := extract_all (append buffer_ data) in
      let (msgs', final) := feed rest more in
      (msgs ++ msgs', final)
  end.

(** The value of a C++ [int]. *)
Definition int_range (z : Z) : Prop := - 2^31 <= z < 2^31.

(** The value [deserialize] gives a string field of an object: the
    member when it is a string, empty otherwise. *)
Definition string_field (members : list (string * json)) (key : string)
  : string :=
  match obj_find key members with
  | Some (JString s) => s
  | _ => EmptyString
  end.

(** The five string members of a payload are strings where present. *)
Definition strings_or_absent (members : list (string * json)) : Prop :=
  forall key v,
    In key ["sender"; "receiver"; "content"; "timestamp"; "extra"]%string ->
    obj_find key members = Some v -> exists s, v = JString s.

(** What [serialize] puts on the wire for the time stamp. *)
Definition stamped (now : tm) (msg : Message) : Message :=
  if String.eqb (timestamp msg) EmptyString
  then set_timestamp msg (getCurrentTimestamp now)
  else msg.

(** A message that fits in a frame: its type is an [int], [serialize]
    does not throw, and the payload is within the limit of the
    receiving buffer. *)
Definition sendable (now : tm) (msg : Message) : bool :=
  (- 2^31 <=? type msg) && (type msg <? 2^31) &&
  match dump (message_json now msg) with
  | Some payload => Z.of_nat (String.length payload) <=? MAX_MESSAGE_SIZE
  | None => false
  end.

(** The bytes [serialize] gives for a message (none when it throws). *)
Definition wire (now : tm) (msg : Message) : list byte :=
  match serialize now msg with
  | Some bytes => bytes
  | None => []
  end.

End Protocol.

(** ** The account store (server/Database.h, server/Database.cpp)

    The SQLite file is modelled by its two tables.  Statements are
    assumed to prepare and to run (no I/O failure); what remains of the
    failure paths is the [initialized_] guard every operation starts
    with. *)

Module Database.

(** A row of [users]. *)
Record UserRow : Type := mkUserRow {
  u_id : Z;
  u_username : string;
  u_password : string;
  u_display_name : option string;   (* the column may be NULL *)
  u_role : Z;
  u_is_banned : bool;
  u_is_muted : bool;
  u_created_at : string;
  u_updated_at : string
}.

(** A row of [messages]. *)
Record MessageRow : Type := mkMessageRow {
  m_id : Z;
  m_sender : string;
  m_receiver : option string;       (* NULL for a global message *)
  m_content : string;
  m_message_type : string;
  m_timestamp : string
}.

(** [struct UserInfo]. *)
Record UserInfo : Type := mkUserInfo {
  i_username : string;
  i_displayName : string;
  i_role : Z;
  i_isBanned : bool;
  i_isMuted : bool;
  i_createdAt : string
}.

(** The store: the open flag, the tables in row order, and the highest
    row id each table has given out (AUTOINCREMENT). *)
Record Database : Type := mkDatabase {
  initialized_ : bool;
  users : list UserRow;
  messages : list MessageRow;
  users_seq : Z;
  messages_seq : Z
}.

Definition with_users (db : Database) (us : list UserRow) : Database :=
  mkDatabase (initialized_ db) us (messages db) (users_seq db)
    (messages_seq db).

(** [s.c_str()] bound with length -1: the bytes before the first NUL. *)
Fixpoint c_str (s : string) : string :=
  match s with
  | EmptyString => EmptyString
  | String c r => if (code c =? 0)%N then EmptyString else String c (c_str r)
  end.

(** [WHERE username = ?] with the text bound from [username.c_str()]. *)
Definition matches (username : string) (row : UserRow) : bool :=
  String.eqb (u_username row) (c_str username).

(** The first row a [SELECT ... WHERE username = ?] steps to. *)
Definition select_user (db : Database) (username : string) : option UserRow :=
  List.find (matches username) (users db).

(** [SELECT COUNT( * ) FROM users WHERE username = ?]. *)
Definition count_user (db : Database) (username : string) : Z :=
  Z.of_nat (List.length (List.filter (matches username) (users db))).

(** [UPDATE users SET ... WHERE username = ?]: the new table and
    [sqlite3_changes]. *)
Definition update_user (f : UserRow -> UserRow) (db : Database)
  (username : string) : Database * Z :=
  (with_users db
     (map (fun r => if matches username r then f r else r) (users db)),
   count_user db username).

Definition set_password (h ts : string) (r : UserRow) : UserRow :=
  mkUserRow (u_id r) (u_username r) h (u_display_name r) (u_role r)
    (u_is_banned r) (u_is_muted r) (u_created_at r) ts.
Definition set_display_name (d ts : string) (r : UserRow) : UserRow :=
  mkUserRow (u_id r) (u_username r) (u_password r) (Some d) (u_role r)
    (u_is_banned r) (u_is_muted r) (u_created_at r) ts.
Definition set_role (role : Z) (ts : string) (r : UserRow) : UserRow :=
  mkUserRow (u_id r) (u_username r) (u_password r) (u_display_name r) role
    (u_is_banned r) (u_is_muted r) (u_created_at r) ts.
Definition set_banned (b : bool) (ts : string) (r : UserRow) : UserRow :=
  mkUserRow (u_id r) (u_username r) (u_password r) (u_display_name r)
    (u_role r) b (u_is_muted r) (u_created_at r) ts.
Definition set_muted (b : bool) (ts : string) (r : UserRow) : UserRow :=
  mkUserRow (u_id r) (u_username r) (u_password r) (u_display_name r)
    (u_role r) (u_is_banned r) b (u_created_at r) ts.

(** A hexadecimal digit in lower case, as [std::hex] writes it. *)
Definition nibble (h : Z) (i : Z) : ascii :=
  Json.hex_digit (Z.to_N (Z.land (Z.shiftr h (4 * i)) 15)).

(** [std::hex << std::setfill('0') << std::setw(16)] on a 64-bit
    [size_t]: sixteen digits. *)
Definition hex16 (h : Z) : string :=
  string_of_list_ascii
    (map (nibble h) [15; 14; 13; 12; 11; 10; 9; 8; 7; 6; 5; 4; 3; 2; 1; 0]).

Definition salt : string := "chat_salt_2024".

Section WithHash.

(** [std::hash<std::string>] is the standard library's and is left
    open; its result is narrowed to the 64 bits of a [size_t]. *)
Variable std_hash : string -> Z.

Definition hashPassword (password : string) : string :=
  hex16 (std_hash (password +:+ salt) mod 2^64).

(** [registerUser]; [ts] is the store's CURRENT_TIMESTAMP. *)
Definition registerUser (ts : string) (db : Database)
  (username password displayName : string) : bool * Database :=
  if negb (initialized_ db) then (false, db)
  else if count_user db username >? 0 then (false, db)
  else
    let hashedPassword := hashPassword password in
    let dispName :=
      if String.eqb displayName EmptyString then username else displayName in
    let row :=
      mkUserRow (users_seq db + 1) (c_str username) (c_str hashedPassword)
        (Some (c_str dispName)) 0 false false ts ts in
    (true,
     mkDatabase (initialized_ db) (users db ++ [row]) (messages db)
       (users_seq db + 1) (messages_seq db)).

Definition authenticateUser (db : Database) (username password : string)
  : bool :=
  if negb (initialized_ db) then false
  else
    match select_user db username with
    | Some row => String.eqb (hashPassword password) (u_password row)
    | None => false
    end.

Definition changePassword (ts : string) (db : Database)
  (username oldPassword newPassword : string) : bool * Database :=
  if negb (authenticateUser db username oldPassword) then (false, db)
  else
    let (db', changes) :=
      update_user (set_password (c_str (hashPassword newPassword)) ts)
        db username in
    (changes >? 0, db').

End WithHash.

Definition userExists (db : Database) (username : string) : bool :=
  if negb (initialized_ db) then false
  else count_user db username >? 0.

Definition getDisplayName (db : Database) (username : string) : string :=
  if negb (initialized_ db) then EmptyString
  else
    match select_user db username with
    | Some row =>
        match u_display_name row with
        | Some name => name
        | None => EmptyString
        end
    | None => EmptyString
    end.

Definition updateDisplayName (ts : string) (db : Database)
  (username displayName : string) : bool * Database :=
  if negb (initialized_ db) then (false, db)
  else
    let (db', changes) :=
      update_user (set_display_name (c_str displayName) ts) db username in
    (changes >? 0, db').

Definition getUserRole (db : Database) (username : string) : Z :=
  if negb (initialized_ db) then -1
  else
    match select_user db username with
    | Some row => u_role row
    | None => -1
    end.

Definition isAdmin (db : Database) (username : string) : bool :=
  getUserRole db username =? 1.

Definition setUserRole (ts : string) (db : Database) (username : string)
  (role : Z) : bool * Database :=
  if negb (initialized_ db) then (false, db)
  else
    let (db', changes) := update_user (set_role role ts) db username in
    (changes >? 0, db').

Definition banUser (ts : string) (db : Database) (username : string)
  : bool * Database :=
  if negb (initialized_ db) then (false, db)
  else
    let (db', changes) := update_user (set_banned true ts) db username in
    (changes >? 0, db').

Definition unbanUser (ts : string) (db : Database) (username : string)
  : bool * Database :=
  if negb (initialized_ db) then (false, db)
  else
    let (db', changes) := update_user (set_banned false ts) db username in
    (changes >? 0, db').

Definition isBanned (db : Database) (username : string) : bool :=
  if negb (initialized_ db) then false
  else
    match select_user db username with
    | Some row => u_is_banned row
    | None => false
    end.

Definition getBannedUsers (db : Database) : list string :=
  if negb (initialized_ db) then []
  else map u_username (List.filter u_is_banned (users db)).

Definition muteUser (ts : string) (db : Database) (username : string)
  : bool * Database :=
  if negb (initialized_ db) then (false, db)
  else
    let (db', changes) := update_user (set_muted true ts) db username in
    (changes >? 0, db').

Definition unmuteUser (ts : string) (db : Database) (username : string)
  : bool * Database :=
  if negb (initialized_ db) then (false, db)
  else
    let (db', changes) := update_user (set_muted false ts) db username in
    (changes >? 0, db').

Definition isMuted (db : Database) (username : string) : bool :=
  if negb (initialized_ db) then false
  else
    match select_user db username with
    | Some row => u_is_muted row
    | None => false
    end.

Definition getMutedUsers (db : Database) : list string :=
  if negb (initialized_ db) then []
  else map u_username (List.filter u_is_muted (users db)).

Definition info_of_row (username : string) (row : UserRow) : UserInfo :=
  mkUserInfo username
    (match u_display_name row with Some d => d | None => username end)
    (u_role row) (u_is_banned row) (u_is_muted row) (u_created_at row).

(** [getUserInfo]; the numeric fields of a record that was not found
    are left unset by the source and read as zero here. *)
Definition getUserInfo (db : Database) (username : string) : UserInfo :=
  let info := mkUserInfo username EmptyString 0 false false EmptyString in
  if negb (initialized_ db) then info
  else
    match select_user db username with
    | Some row => info_of_row username row
    | None => info
    end.

(** [ORDER BY username]: insertion into a list sorted by key. *)
Fixpoint insert_by_name (r : UserRow) (l : list UserRow) : list UserRow :=
  match l with
  | [] => [r]
  | x :: l' =>
      match String.compare (u_username r) (u_username x) with
      | Gt => x :: insert_by_name r l'
      | _ => r :: x :: l'
      end
  end.

Definition order_by_username (l : list UserRow) : list UserRow :=
  fold_right insert_by_name [] l.

Definition getAllUsers (db : Database) : list UserInfo :=
  if negb (initialized_ db) then []
  else
    map (fun row => info_of_row (u_username row) row)
      (order_by_username (users db)).

(** [logMessage]: one row appended; an empty receiver is stored as
    NULL. *)
Definition logMessage (ts : string) (db : Database)
  (sender receiver content messageType : string) : bool * Database :=
  if negb (initialized_ db) then (false, db)
  else
    let row :=
      mkMessageRow (messages_seq db + 1) (c_str sender)
        (if String.eqb receiver EmptyString then None
         else Some (c_str receiver))
        (c_str content) (c_str messageType) ts in
    (true,
     mkDatabase (initialized_ db) (users db) (messages db ++ [row])
       (users_seq db) (messages_seq db + 1)).

Definition getMessageCount (db : Database) : Z :=
  if negb (initialized_ db) then 0
  else Z.of_nat (List.length (messages db)).

(** *** Opening and closing the store *)

(** [SELECT MIN(id) FROM users]: NULL on an empty table. *)
Definition min_id (us : list UserRow) : option Z :=
  fold_right
    (fun r least =>
       Some (match least with
             | Some m => Z.min (u_id r) m
             | None => u_id r
             end))
    None us.

(** [SET role = 1]: nothing else of the row changes. *)
Definition make_admin (r : UserRow) : UserRow :=
  mkUserRow (u_id r) (u_username r) (u_password r) (u_display_name r) 1
    (u_is_banned r) (u_is_muted r) (u_created_at r) (u_updated_at r).

(** [createTables] on the tables of the file: what exists is left as it
    is by the CREATE ... IF NOT EXISTS statements and by the
    migrations (every statement is taken to run); then, when no user
    has role 1, the user with the least id is made admin. *)
Definition createTables (db : Database) : Database :=
  if Z.of_nat (List.length (List.filter (fun r => u_role r =? 1) (users db)))
     =? 0
  then
    match min_id (users db) with
    | Some least =>
        with_users db
          (map (fun r => if u_id r =? least then make_admin r else r)
             (users db))
    | None => db
    end
  else db.

Definition set_initialized (db : Database) (b : bool) : Database :=
  mkDatabase b (users db) (messages db) (users_seq db) (messages_seq db).

(** [initialize]; [opened] is whether [sqlite3_open] succeeds. *)
Definition initialize (opened : bool) (db : Database) : bool * Database :=
  if initialized_ db then (true, db)
  else if negb opened then (false, db)
  else (true, set_initialized (createTables db) true).

Definition close (db : Database) : Database := set_initialized db false.

(** *** Vocabulary for the statements about the store *)

(** No two rows of [users] have the same name (the UNIQUE constraint
    of the column). *)
Definition unique_names (db : Database) : Prop :=
  NoDup (map u_username (users db)).

(** An open store with empty tables. *)
Definition empty_store : Database := mkDatabase true [] [] 0 0.

(** Passwords of pairwise different lengths. *)
Fixpoint long_password (k : nat) : string :=
  match k with
  | O => "pass"
  | S k' => String "a" (long_password k')
  end.

End Database.

(** ** The hub and the sessions (server/Server.cpp, server/ClientSession.cpp) *)

Module Server.
Import Json Protocol Database.

(** What one call gets from its environment: the monotonic clock (in
    nanoseconds), the local time of [getCurrentTimestamp], the store's
    CURRENT_TIMESTAMP, and the answers of [send]:
    [send_accepts fd n] tells whether the socket fd, after the n frames
    written to it so far, takes the bytes of one frame more (every
    [send] of the loop in [sendMessage] returns a positive count) or
    not (a [send] returns 0 or an error, as on a connection that the
    peer has closed). *)
Record Env : Type := mkEnv {
  steady_now : Z;
  local_time : tm;
  db_time : string;
  send_accepts : Z -> nat -> bool
}.

(** [class ClientSession].  [sent_] is what the session has written to
    its socket: the frames in order, each given by the message it
    serialises. *)
Record ClientSession : Type := mkClientSession {
  socketFd_ : Z;
  username_ : string;
  displayName_ : string;
  address_ : string;
  authenticated_ : bool;
  active_ : bool;
  buffer_ : list byte;
  rateLimitWindowStart_ : Z;
  rateLimitMessageCount_ : Z;
  sent_ : list Message
}.

(** The shared state a handler runs on: the two maps of [class Server]
    and the singleton store. *)
Record World : Type := mkWorld {
  clients_ : gmap Z ClientSession;
  userToSocket_ : gmap string Z;
  db : Database
}.

Definition RATE_LIMIT_MAX_MESSAGES : Z := 10.
Definition RATE_LIMIT_WINDOW_SECONDS : Z := 1.

(** Ticks of [std::chrono::steady_clock] in one second. *)
Definition STEADY_TICKS_PER_SECOND : Z := 1000000000.

(** The constructor: not authenticated, active, an empty buffer, the
    window opened at construction with no message counted. *)
Definition new_session (env : Env) (socketFd : Z) : ClientSession :=
  mkClientSession socketFd "" "" "" false true [] (steady_now env) 0 [].

Definition with_clients (w : World) (c : gmap Z ClientSession) : World :=
  mkWorld c (userToSocket_ w) (db w).
Definition with_users_map (w : World) (u : gmap string Z) : World :=
  mkWorld (clients_ w) u (db w).
Definition with_db (w : World) (d : Database) : World :=
  mkWorld (clients_ w) (userToSocket_ w) d.

Definition with_sent (s : ClientSession) (l : list Message) : ClientSession :=
  mkClientSession (socketFd_ s) (username_ s) (displayName_ s) (address_ s)
    (authenticated_ s) (active_ s) (buffer_ s) (rateLimitWindowStart_ s)
    (rateLimitMessageCount_ s) l.
Definition with_buffer (s : ClientSession) (b : list byte) : ClientSession :=
  mkClientSession (socketFd_ s) (username_ s) (displayName_ s) (address_ s)
    (authenticated_ s) (active_ s) b (rateLimitWindowStart_ s)
    (rateLimitMessageCount_ s) (sent_ s).
Definition with_rate (s : ClientSession) (start count : Z) : ClientSession :=
  mkClientSession (socketFd_ s) (username_ s) (displayName_ s) (address_ s)
    (authenticated_ s) (active_ s) (buffer_ s) start count (sent_ s).

(** [setAuthenticated], [clearAuthentication], [setInactive]. *)
Definition setAuthenticated (username displayName : string)
  (s : ClientSession) : ClientSession :=
  mkClientSession (socketFd_ s) username displayName (address_ s)
    true (active_ s) (buffer_ s) (rateLimitWindowStart_ s)
    (rateLimitMessageCount_ s) (sent_ s).
Definition clearAuthentication (s : ClientSession) : ClientSession :=
  mkClientSession (socketFd_ s) "" "" (address_ s)
    false (active_ s) (buffer_ s) (rateLimitWindowStart_ s)
    (rateLimitMessageCount_ s) (sent_ s).
Definition setInactive (s : ClientSession) : ClientSession :=
  mkClientSession (socketFd_ s) (username_ s) (displayName_ s) (address_ s)
    (authenticated_ s) false (buffer_ s) (rateLimitWindowStart_ s)
    (rateLimitMessageCount_ s) (sent_ s).

(** [ClientSession::sendMessage] on the session itself: nothing is
    sent by a session that is inactive or has no socket; [None] when
    [serialize] throws; otherwise the frame is handed to [send], and
    the result is [true] with the frame written when the socket takes
    it, [false] when it does not (the bytes of a frame that went out
    in part are not recorded in [sent_]). *)
Definition session_send (env : Env) (msg : Message) (s : ClientSession)
  : option (bool * ClientSession) :=
  if negb (active_ s) || (socketFd_ s <? 0) then Some (false, s)
  else
    match serialize (local_time env) msg with
    | None => None
    | Some _ =>
        if send_accepts env (socketFd_ s) (List.length (sent_ s))
        then Some (true, with_sent s (sent_ s ++ [msg]))
        else Some (false, s)
    end.

(** The session after [sendMessage(msg)] went as far as [send]: with
    the frame written when the socket took it, as it was when not. *)
Definition sent_to (env : Env) (s : ClientSession) (msg : Message)
  : ClientSession :=
  if send_accepts env (socketFd_ s) (List.length (sent_ s))
  then with_sent s (sent_ s ++ [msg])
  else s.

(** [checkRateLimit] on the window of a session: the verdict and the
    new window.  [duration_cast<seconds>] truncates; the counter is an
    [int]. *)
Definition checkRateLimit (now : Z) (start count : Z) : bool * (Z * Z) :=
  let elapsed := Z.quot (now - start) STEADY_TICKS_PER_SECOND in
  if elapsed >=? RATE_LIMIT_WINDOW_SECONDS then (true, (now, 1))
  else
    let count := wrap_int (count + 1) in
    if count >? RATE_LIMIT_MAX_MESSAGES then (false, (start, count))
    else (true, (start, count)).

(** *** Computations on the shared state that may throw *)

Definition M (A : Type) : Type := World -> World * (json_exception + A).

Definition ret {A} (a : A) : M A := fun w => (w, inr a).
Definition bind {A B} (c : M A) (k : A -> M B) : M B :=
  fun w =>
    match c w with
    | (w', inr a) => k a w'
    | (w', inl e) => (w', inl e)
    end.
Definition throw {A} (e : json_exception) : M A := fun w => (w, inl e).
Definition try_catch {A} (c : M A) (h : json_exception -> M A) : M A :=
  fun w =>
    match c w with
    | (w', inl e) => h e w'
    | r => r
    end.
Definition gets {A} (f : World -> A) : M A := fun w => (w, inr (f w)).
Definition modify (f : World -> World) : M unit := fun w => (f w, inr tt).
Definition lift {A} (r : json_exception + A) : M A :=
  match r with
  | inl e => throw e
  | inr a => ret a
  end.

Notation "'do' x <- c1 ; c2" := (bind c1 (fun x => c2))
  (at level 10, x name, c1 at level 100, c2 at level 200).

(** [try { c } catch (...) {}]. *)
Definition ignore_exceptions (c : M unit) : M unit :=
  try_catch c (fun _ => ret tt).

(** The state after running c, whatever it returned. *)
Definition exec {A} (c : M A) (w : World) : World := fst (c w).

(** The session object behind a handler's [this].  A handler only runs
    for a session of [clients_]; the placeholder is never active. *)
Definition this (fd : Z) (w : World) : ClientSession :=
  match clients_ w !! fd with
  | Some s => s
  | None => mkClientSession (-1) "" "" "" false false [] 0 0 []
  end.

Definition update_session (fd : Z) (f : ClientSession -> ClientSession)
  : M unit :=
  modify (fun w => with_clients w (alter f fd (clients_ w))).

(** [sendMessage] of the session with socket fd. *)
Definition sendMessage (env : Env) (fd : Z) (msg : Message) : M bool :=
  fun w =>
    match clients_ w !! fd with
    | None => (w, inr false)
    | Some s =>
        match session_send env msg s with
        | None => (w, inl invalid_utf8)
        | Some (ok, s') => (with_clients w (<[fd := s']> (clients_ w)), inr ok)
        end
    end.

(** *** Server *)

Definition isUserOnline (username : string) : M bool :=
  gets (fun w => bool_decide (is_Some (userToSocket_ w !! username))).

Fixpoint insert_sorted (x : string) (l : list string) : list string :=
  match l with
  | [] => [x]
  | y :: l' =>
      match String.compare x y with
      | Gt => y :: insert_sorted x l'
      | _ => x :: y :: l'
      end
  end.

(** [getOnlineUsers]: the keys of the ordered map, in its order. *)
Definition getOnlineUsers : M (list string) :=
  gets (fun w =>
    fold_right insert_sorted [] (map fst (map_to_list (userToSocket_ w)))).

(** The sessions a broadcast writes to. *)
Definition receives (excludeSocket : Z) (fd : Z) (s : ClientSession) : bool :=
  negb (fd =? excludeSocket) && authenticated_ s.

(** [broadcast]: every authenticated session but the excluded one is
    sent the message.  [serialize] gives the same result for each of
    them, so it throws at the first one that would write, before
    anything is written, or not at all. *)
Definition broadcast (env : Env) (msg : Message) (excludeSocket : Z)
  : M unit :=
  fun w =>
    let writes (fd : Z) (s : ClientSession) : bool :=
      receives excludeSocket fd s && active_ s && negb (socketFd_ s <? 0) in
    match serialize (local_time env) msg with
    | None =>
        if existsb (fun p => writes (fst p) (snd p))
             (map_to_list (clients_ w))
        then (w, inl invalid_utf8)
        else (w, inr tt)
    | Some _ =>
        (with_clients w
           (map_imap (fun fd s =>
              Some (if writes fd s then sent_to env s msg else s))
              (clients_ w)),
         inr tt)
    end.

Definition sendToUser (env : Env) (username : string) (msg : Message)
  : M bool :=
  do socket <- gets (fun w => userToSocket_ w !! username);
  let socketFd := match socket with Some fd => fd | None => -1 end in
  if socketFd <? 0 then ret false
  else
    do found <- gets (fun w => clients_ w !! socketFd);
    match found with
    | Some _ => sendMessage env socketFd msg
    | None => ret false
    end.

Definition registerUser (username : string) (fd : Z) : M unit :=
  modify (fun w =>
    with_users_map w (<[username := socketFd_ (this fd w)]> (userToSocket_ w))).

Definition unregisterUser (username : string) : M unit :=
  modify (fun w => with_users_map w (delete username (userToSocket_ w))).

Definition kickUser (username : string) : M unit :=
  do socket <- gets (fun w => userToSocket_ w !! username);
  match socket with
  | Some socketFd =>
      do _ <- modify (fun w =>
                with_users_map w (delete username (userToSocket_ w)));
      if socketFd >=? 0 then
        update_session socketFd (fun s => clearAuthentication (setInactive s))
      else ret tt
  | None => ret tt
  end.

(** *** Connections: [acceptLoop], [handleClient], [removeClient] *)

Definition with_address (s : ClientSession) (a : string) : ClientSession :=
  mkClientSession (socketFd_ s) (username_ s) (displayName_ s) a
    (authenticated_ s) (active_ s) (buffer_ s) (rateLimitWindowStart_ s)
    (rateLimitMessageCount_ s) (sent_ s).

(** One turn of [acceptLoop] for the socket [accept] returned: an
    error is skipped, a connection over the limit is closed, any other
    gets a session under its socket.  [maxClients_] is compared as a
    [size_t]. *)
Definition acceptClient (env : Env) (maxClients_ : Z) (clientSocket : Z)
  (clientAddress : string) (w : World) : World :=
  if clientSocket <? 0 then w
  else if Z.of_nat (size (clients_ w)) >=? maxClients_ mod 2^64 then w
  else
    with_clients w
      (<[clientSocket :=
           with_address (new_session env clientSocket) clientAddress]>
         (clients_ w)).

Definition removeClient (socketFd : Z) : M unit :=
  modify (fun w => with_clients w (delete socketFd (clients_ w))).

(** The end of [handleClient], after its reading loop: the others are
    told that the user is offline, the name leaves the index, the
    session leaves the map.  A thread that found no session at its
    start has returned before. *)
Definition disconnect (env : Env) (socketFd : Z) : M unit :=
  do found <- gets (fun w => clients_ w !! socketFd);
  match found with
  | None => ret tt
  | Some session =>
      let username := username_ session in
      do _ <- (if negb (String.eqb username "") then
                 do _ <- broadcast env
                           (createUserStatusMessage (local_time env) username
                              OFFLINE) socketFd;
                 unregisterUser username
               else ret tt);
      removeClient socketFd
  end.

(** *** Calls to the store *)

Definition query {A} (f : Database -> A) : M A := gets (fun w => f (db w)).

Definition command (f : Database -> bool * Database) : M bool :=
  fun w => let (ok, d) := f (db w) in (with_db w d, inr ok).

(** [j.dump()] where it may throw. *)
Definition dump_or_throw (j : json) : M string :=
  match dump j with
  | Some text => ret text
  | None => throw invalid_utf8
  end.

(** The state in which the session s, at socket fd, has been sent one
    frame (written when its socket took it) and nothing else has
    changed. *)
Definition replied (env : Env) (fd : Z) (s : ClientSession) (msg : Message)
  (w : World) : World :=
  with_clients w (<[fd := sent_to env s msg]> (clients_ w)).

(** The window of the rate limiter of a session. *)
Definition rate_of (s : ClientSession) : Z * Z :=
  (rateLimitWindowStart_ s, rateLimitMessageCount_ s).

(** The verdicts of the limiter on chat frames arriving at the given
    times, from a window (start, count). *)
Fixpoint run_limiter (start count : Z) (times : list Z) : list bool :=
  match times with
  | [] => []
  | t :: more =>
      let '(ok, (start', count')) := checkRateLimit t start count in
      ok :: run_limiter start' count' more
  end.

(** *** ClientSession: the handlers *)

(** The two strings a request carries in its content: parse the text,
    then read the two members, each of which must be a string.  The
    first exception ends the reading. *)
Definition two_strings (key1 key2 : string) (text : string)
  : json_exception + (string * string) :=
  match json_parse text with
  | inl e => inl e
  | inr j =>
  match at_key j key1 with
  | inl e => inl e
  | inr v1 =>
  match get_string v1 with
  | inl e => inl e
  | inr s1 =>
  match at_key j key2 with
  | inl e => inl e
  | inr v2 =>
  match get_string v2 with
  | inl e => inl e
  | inr s2 => inr (s1, s2)
  end end end end end.

(** The credentials of a REGISTER or LOGIN request. *)
Definition credentials : string -> json_exception + (string * string) :=
  two_strings "username" "password".

(** The passwords of a CHANGE_PASSWORD request. *)
Definition passwords : string -> json_exception + (string * string) :=
  two_strings "oldPassword" "newPassword".

Section Handlers.

Variable std_hash : string -> Z.
Variable env : Env.
(** The socket of the session whose handler runs. *)
Variable fd : Z.

Local Abbreviation now := (local_time env).
Local Abbreviation ts := (db_time env).

(** [sendMessage(msg);] with the result dropped. *)
Definition send (msg : Message) : M unit :=
  do _ <- sendMessage env fd msg; ret tt.

Definition getUsername : M string := gets (fun w => username_ (this fd w)).
Definition authenticated : M bool :=
  gets (fun w => authenticated_ (this fd w)).

Definition session_isAdmin : M bool :=
  do username <- getUsername;
  query (fun d => Database.isAdmin d username).

(** [checkRateLimit()] of this session. *)
Definition session_checkRateLimit : M bool :=
  fun w =>
    let s := this fd w in
    let '(ok, (start, count)) :=
      checkRateLimit (steady_now env) (rateLimitWindowStart_ s)
        (rateLimitMessageCount_ s) in
    (with_clients w (alter (fun s => with_rate s start count) fd (clients_ w)),
     inr ok).

Definition invalid_request_format : M unit :=
  ignore_exceptions (send (createErrorResponse now "Invalid request format")).

Definition handleRegister (msg : Message) : M unit :=
  try_catch
    (do cred <- lift (credentials (content msg));
     let (username, password) := cred in
     if String.eqb username "" || String.eqb password "" then
       send (createErrorResponse now "Username and password are required")
     else if (String.length username <? 3)%nat
             || (20 <? String.length username)%nat then
       send (createErrorResponse now "Username must be 3-20 characters")
     else if (String.length password <? 4)%nat then
       send (createErrorResponse now "Password must be at least 4 characters")
     else
       do ok <- command (fun d =>
                  Database.registerUser std_hash ts d username password "");
       if ok then send (createOkResponse now "Registration successful" "")
       else send (createErrorResponse now "Username already exists"))
    (fun _ => invalid_request_format).

Definition handleLogin (msg : Message) : M unit :=
  do auth <- authenticated;
  if auth then send (createErrorResponse now "Already logged in")
  else
    try_catch
      (do cred <- lift (credentials (content msg));
       let (username, password) := cred in
       do online <- isUserOnline username;
       if online then
         send (createErrorResponse now
                 "User already logged in from another location")
       else
         do banned <- query (fun d => Database.isBanned d username);
         if banned then
           send (createErrorResponse now "Your account has been banned")
         else
           do ok <- query (fun d =>
                      Database.authenticateUser std_hash d username password);
           if ok then
             do displayName <- query (fun d =>
                                 Database.getDisplayName d username);
             do _ <- update_session fd (setAuthenticated username displayName);
             do _ <- registerUser username fd;
             do role <- query (fun d => Database.getUserRole d username);
             do muted <- query (fun d => Database.isMuted d username);
             let response :=
               obj_set "isMuted" (JBool muted)
                 (obj_set "role" (JInt role)
                    (obj_set "displayName" (JString displayName)
                       (obj_set "username" (JString username) []))) in
             do text <- dump_or_throw (JObject response);
             do _ <- send (createOkResponse now "Login successful" text);
             do _ <- broadcast env
                       (createUserStatusMessage now username ONLINE) (-1);
             do users <- getOnlineUsers;
             match createOnlineListMessage now users with
             | Some list => send list
             | None => throw invalid_utf8
             end
           else send (createErrorResponse now "Invalid username or password"))
      (fun _ => invalid_request_format).

Definition handleLogout (msg : Message) : M unit :=
  do auth <- authenticated;
  if negb auth then send (createErrorResponse now "Not logged in")
  else
    do username <- getUsername;
    do self <- gets (fun w => socketFd_ (this fd w));
    do _ <- broadcast env (createUserStatusMessage now username OFFLINE) self;
    do _ <- unregisterUser username;
    do _ <- update_session fd clearAuthentication;
    send (createOkResponse now "Logged out successfully" "").

Definition handleChangePassword (msg : Message) : M unit :=
  do auth <- authenticated;
  if negb auth then
    send (createErrorResponse now "Must be logged in to change password")
  else
    try_catch
      (do pw <- lift (passwords (content msg));
       let (oldPassword, newPassword) := pw in
       if (String.length newPassword <? 4)%nat then
         send (createErrorResponse now
                 "New password must be at least 4 characters")
       else
         do username <- getUsername;
         do ok <- command (fun d =>
                    Database.changePassword std_hash ts d username
                      oldPassword newPassword);
         if ok then send (createOkResponse now "Password changed successfully" "")
         else send (createErrorResponse now "Incorrect old password"))
      (fun _ => send (createErrorResponse now "Invalid request format")).

Definition rate_limit_exceeded : string :=
  "Rate limit exceeded. Please wait before sending more messages.".

Definition handleGlobalMessage (msg : Message) : M unit :=
  do auth <- authenticated;
  if negb auth then
    send (createErrorResponse now "Must be logged in to send messages")
  else
    do username <- getUsername;
    do muted <- query (fun d => Database.isMuted d username);
    if muted then
      send (createErrorResponse now "You are muted and cannot send messages")
    else
      do within <- session_checkRateLimit;
      if negb within then send (createErrorResponse now rate_limit_exceeded)
      else
        let content := content msg in
        if String.eqb content "" then ret tt
        else
          do _ <- command (fun d =>
                    Database.logMessage ts d username "" content "global");
          broadcast env (createGlobalMessage now username content) (-1).

Definition handlePrivateMessage (msg : Message) : M unit :=
  do auth <- authenticated;
  if negb auth then
    send (createErrorResponse now "Must be logged in to send messages")
  else
    do sender <- getUsername;
    do muted <- query (fun d => Database.isMuted d sender);
    if muted then
      send (createErrorResponse now "You are muted and cannot send messages")
    else
      do within <- session_checkRateLimit;
      if negb within then send (createErrorResponse now rate_limit_exceeded)
      else
        let receiver := receiver msg in
        let content := content msg in
        if String.eqb receiver "" then
          send (createErrorResponse now "Receiver not specified")
        else if String.eqb content "" then ret tt
        else if String.eqb receiver sender then
          send (createErrorResponse now "Cannot send message to yourself")
        else
          do _ <- command (fun d =>
                    Database.logMessage ts d sender receiver content "private");
          let privateMsg := createPrivateMessage now sender receiver content in
          do delivered <- sendToUser env receiver privateMsg;
          if negb delivered then
            send (createErrorResponse now ("User not online: " +:+ receiver))
          else send privateMsg.

(** The two checks every admin command starts with; [k] is the rest of
    the handler. *)
Definition admin_only (k : M unit) : M unit :=
  do auth <- authenticated;
  if negb auth then send (createErrorResponse now "Must be logged in")
  else
    do admin <- session_isAdmin;
    if negb admin then send (createErrorResponse now "Admin privileges required")
    else k.

(** ... followed, for a command on a user, by the check of the target. *)
Definition admin_on_target (msg : Message) (k : string -> M unit) : M unit :=
  admin_only
    (let targetUser := receiver msg in
     if String.eqb targetUser "" then
       send (createErrorResponse now "Target user not specified")
     else k targetUser).

Definition handleKickUser (msg : Message) : M unit :=
  admin_on_target msg (fun targetUser =>
    do me <- getUsername;
    if String.eqb targetUser me then
      send (createErrorResponse now "Cannot kick yourself")
    else
      do online <- isUserOnline targetUser;
      if negb online then
        send (createErrorResponse now ("User not online: " +:+ targetUser))
      else
        do me <- getUsername;
        let kickMsg :=
          set_content (Message_of KICKED) ("You have been kicked by " +:+ me) in
        do _ <- sendToUser env targetUser kickMsg;
        do _ <- kickUser targetUser;
        do _ <- send (createOkResponse now ("User kicked: " +:+ targetUser) "");
        broadcast env (createUserStatusMessage now targetUser OFFLINE) (-1)).

Definition handleBanUser (msg : Message) : M unit :=
  admin_on_target msg (fun targetUser =>
    do me <- getUsername;
    if String.eqb targetUser me then
      send (createErrorResponse now "Cannot ban yourself")
    else
      do targetAdmin <- query (fun d => Database.isAdmin d targetUser);
      if targetAdmin then send (createErrorResponse now "Cannot ban an admin")
      else
        do exists_ <- query (fun d => Database.userExists d targetUser);
        if negb exists_ then
          send (createErrorResponse now ("User not found: " +:+ targetUser))
        else
          do ok <- command (fun d => Database.banUser ts d targetUser);
          if ok then
            do online <- isUserOnline targetUser;
            do _ <- (if online then
                       do me <- getUsername;
                       let banMsg :=
                         set_content (Message_of BANNED)
                           ("You have been banned by " +:+ me) in
                       do _ <- sendToUser env targetUser banMsg;
                       do _ <- kickUser targetUser;
                       broadcast env
                         (createUserStatusMessage now targetUser OFFLINE) (-1)
                     else ret tt);
            send (createOkResponse now ("User banned: " +:+ targetUser) "")
          else send (createErrorResponse now "Failed to ban user")).

Definition handleUnbanUser (msg : Message) : M unit :=
  admin_on_target msg (fun targetUser =>
    do exists_ <- query (fun d => Database.userExists d targetUser);
    if negb exists_ then
      send (createErrorResponse now ("User not found: " +:+ targetUser))
    else
      do ok <- command (fun d => Database.unbanUser ts d targetUser);
      if ok then send (createOkResponse now ("User unbanned: " +:+ targetUser) "")
      else send (createErrorResponse now "Failed to unban user")).

(** The notice sent to a user who is online when muted or unmuted. *)
Definition notify_if_online (targetUser : string) (t : Z) (text : string)
  : M unit :=
  do online <- isUserOnline targetUser;
  if online then
    do me <- getUsername;
    do _ <- sendToUser env targetUser
              (set_content (Message_of t) (text +:+ me));
    ret tt
  else ret tt.

Definition handleMuteUser (msg : Message) : M unit :=
  admin_on_target msg (fun targetUser =>
    do me <- getUsername;
    if String.eqb targetUser me then
      send (createErrorResponse now "Cannot mute yourself")
    else
      do targetAdmin <- query (fun d => Database.isAdmin d targetUser);
      if targetAdmin then send (createErrorResponse now "Cannot mute an admin")
      else
        do exists_ <- query (fun d => Database.userExists d targetUser);
        if negb exists_ then
          send (createErrorResponse now ("User not found: " +:+ targetUser))
        else
          do ok <- command (fun d => Database.muteUser ts d targetUser);
          if ok then
            do _ <- notify_if_online targetUser MUTED "You have been muted by ";
            send (createOkResponse now ("User muted: " +:+ targetUser) "")
          else send (createErrorResponse now "Failed to mute user")).

Definition handleUnmuteUser (msg : Message) : M unit :=
  admin_on_target msg (fun targetUser =>
    do exists_ <- query (fun d => Database.userExists d targetUser);
    if negb exists_ then
      send (createErrorResponse now ("User not found: " +:+ targetUser))
    else
      do ok <- command (fun d => Database.unmuteUser ts d targetUser);
      if ok then
        do _ <- notify_if_online targetUser UNMUTED "You have been unmuted by ";
        send (createOkResponse now ("User unmuted: " +:+ targetUser) "")
      else send (createErrorResponse now "Failed to unmute user")).

Definition handlePromoteUser (msg : Message) : M unit :=
  admin_on_target msg (fun targetUser =>
    do exists_ <- query (fun d => Database.userExists d targetUser);
    if negb exists_ then
      send (createErrorResponse now ("User not found: " +:+ targetUser))
    else
      do targetAdmin <- query (fun d => Database.isAdmin d targetUser);
      if targetAdmin then
        send (createErrorResponse now "User is already an admin")
      else
        do ok <- command (fun d => Database.setUserRole ts d targetUser 1);
        if ok then
          send (createOkResponse now
                  ("User promoted to admin: " +:+ targetUser) "")
        else send (createErrorResponse now "Failed to promote user")).

Definition handleDemoteUser (msg : Message) : M unit :=
  admin_on_target msg (fun targetUser =>
    do me <- getUsername;
    if String.eqb targetUser me then
      send (createErrorResponse now "Cannot demote yourself")
    else
      do exists_ <- query (fun d => Database.userExists d targetUser);
      if negb exists_ then
        send (createErrorResponse now ("User not found: " +:+ targetUser))
      else
        do targetAdmin <- query (fun d => Database.isAdmin d targetUser);
        if negb targetAdmin then
          send (createErrorResponse now "User is not an admin")
        else
          do ok <- command (fun d => Database.setUserRole ts d targetUser 0);
          if ok then
            send (createOkResponse now
                    ("User demoted from admin: " +:+ targetUser) "")
          else send (createErrorResponse now "Failed to demote user")).

(** The JSON record of a user in the replies to GET_ALL_USERS and
    USER_INFO. *)
Definition user_json (info : UserInfo) (online : bool) : json :=
  JObject
    (obj_set "isOnline" (JBool online)
       (obj_set "createdAt" (JString (i_createdAt info))
          (obj_set "isMuted" (JBool (i_isMuted info))
             (obj_set "isBanned" (JBool (i_isBanned info))
                (obj_set "role" (JInt (i_role info))
                   (obj_set "displayName" (JString (i_displayName info))
                      (obj_set "username" (JString (i_username info))
                         []))))))).

Definition handleGetAllUsers (msg : Message) : M unit :=
  admin_only
    (do users <- query Database.getAllUsers;
     do index <- gets userToSocket_;
     let j :=
       JArray (map (fun user =>
                      user_json user
                        (bool_decide (is_Some (index !! i_username user))))
                 users) in
     do text <- dump_or_throw j;
     send (set_extra (Message_of GET_ALL_USERS) text)).

Definition handleGetBannedList (msg : Message) : M unit :=
  admin_only
    (do bannedUsers <- query Database.getBannedUsers;
     do text <- dump_or_throw (JArray (map JString bannedUsers));
     send (set_extra (Message_of GET_BANNED_LIST) text)).

Definition handleGetMutedList (msg : Message) : M unit :=
  admin_only
    (do mutedUsers <- query Database.getMutedUsers;
     do text <- dump_or_throw (JArray (map JString mutedUsers));
     send (set_extra (Message_of GET_MUTED_LIST) text)).

Definition handleUserInfo (msg : Message) : M unit :=
  do auth <- authenticated;
  if negb auth then send (createErrorResponse now "Must be logged in")
  else
    do me <- getUsername;
    let targetUser :=
      if String.eqb (receiver msg) "" then me else receiver msg in
    do exists_ <- query (fun d => Database.userExists d targetUser);
    if negb exists_ then
      send (createErrorResponse now ("User not found: " +:+ targetUser))
    else
      do info <- query (fun d => Database.getUserInfo d targetUser);
      do online <- isUserOnline (i_username info);
      do text <- dump_or_throw (user_json info online);
      send (set_extra (Message_of USER_INFO) text).

(** The [switch] of [handleMessage]. *)
Definition dispatch (msg : Message) : M unit :=
  let t := type msg in
  if t =? REGISTER then handleRegister msg
  else if t =? LOGIN then handleLogin msg
  else if t =? LOGOUT then handleLogout msg
  else if t =? CHANGE_PASSWORD then handleChangePassword msg
  else if t =? MSG_GLOBAL then handleGlobalMessage msg
  else if t =? MSG_PRIVATE then handlePrivateMessage msg
  else if t =? PING then send (Message_of PONG)
  else if t =? KICK_USER then handleKickUser msg
  else if t =? BAN_USER then handleBanUser msg
  else if t =? UNBAN_USER then handleUnbanUser msg
  else if t =? MUTE_USER then handleMuteUser msg
  else if t =? UNMUTE_USER then handleUnmuteUser msg
  else if t =? PROMOTE_USER then handlePromoteUser msg
  else if t =? DEMOTE_USER then handleDemoteUser msg
  else if t =? GET_ALL_USERS then handleGetAllUsers msg
  else if t =? GET_BANNED_LIST then handleGetBannedList msg
  else if t =? GET_MUTED_LIST then handleGetMutedList msg
  else if t =? USER_INFO then handleUserInfo msg
  else send (createErrorResponse now "Unknown command").

(** [handleMessage]: the dispatch inside its [try]; an exception that
    reaches it is answered, if that is possible, and goes no further. *)
Definition handleMessage (msg : Message) : M unit :=
  try_catch (dispatch msg)
    (fun _ =>
       ignore_exceptions
         (send (createErrorResponse now "Internal server error"))).

End Handlers.

(** [processData]'s loop: while the buffer of the session holds a
    complete message, extract it and handle it.  [clock i] is what the
    handler of the i-th message reads; every turn removes at least
    four bytes, so the length of the buffer bounds the turns. *)
Fixpoint processLoop (std_hash : string -> Z) (clock : nat -> Env) (fd : Z)
  (fuel : nat) (i : nat) (w : World) : World :=
  match fuel with
  | O => w
  | S fuel' =>
      let buffer := buffer_ (this fd w) in
      if hasCompleteMessage buffer then
        let (msg, rest) := extractMessage buffer in
        let w1 :=
          with_clients w
            (alter (fun s => with_buffer s rest) fd (clients_ w)) in
        let w2 := exec (handleMessage std_hash (clock i) fd msg) w1 in
        processLoop std_hash clock fd fuel' (S i) w2
      else w
  end.

Definition processData (std_hash : string -> Z) (clock : nat -> Env)
  (fd : Z) (data : list byte) (w : World) : World :=
  let w1 :=
    with_clients w
      (alter (fun s => with_buffer s (append (buffer_ s) data)) fd
         (clients_ w)) in
  processLoop std_hash clock fd
    (List.length (buffer_ (this fd w1))) 0%nat w1.

(** *** Vocabulary for the statements about the sessions *)

(** The two maps agree: a session is stored under its socket, which is
    a valid one, and has a name only while it is logged in; and the
    index of users online holds exactly the names of the authenticated
    sessions, each with the socket of its session. *)
Definition consistent (w : World) : Prop :=
  (forall fd s, clients_ w !! fd = Some s ->
     socketFd_ s = fd /\ 0 <= fd /\
     (authenticated_ s = false -> username_ s = EmptyString)) /\
  (forall u fd,
     userToSocket_ w !! u = Some fd <->
     exists s, clients_ w !! fd = Some s /\
               authenticated_ s = true /\ username_ s = u).

(** The turns of the loop of [processData] on a buffer: each message
    extracted, with the buffer it leaves. *)
Fixpoint extract_steps (fuel : nat) (buffer : list byte)
  : list (Message * list byte) :=
  match fuel with
  | O => []
  | S fuel' =>
      if hasCompleteMessage buffer then
        let (msg, rest) := extractMessage buffer in
        (msg, rest) :: extract_steps fuel' rest
      else []
  end.

(** The messages handled one after the other by the session at fd, the
    i-th at the time [clock i], each after the buffer was cut. *)
Fixpoint handle_steps (std_hash : string -> Z) (clock : nat -> Env) (fd : Z)
  (i : nat) (steps : list (Message * list byte)) (w : World) : World :=
  match steps with
  | [] => w
  | (msg, rest) :: more =>
      let w1 :=
        with_clients w (alter (fun s => with_buffer s rest) fd (clients_ w)) in
      handle_steps std_hash clock fd (S i) more
        (exec (handleMessage std_hash (clock i) fd msg) w1)
  end.

(** *** Vocabulary for what a computation leaves alone *)

(** Who a session is: its socket, whether it is logged in, and as
    whom. *)
Definition login_of (s : ClientSession) : Z * bool * string :=
  (socketFd_ s, authenticated_ s, username_ s).

(** [unchanged proj index store w w']: w' has the sessions of w under the
    same sockets, each with the [proj] it had; and, where asked, the
    same index of users online and the same store. *)
Definition unchanged {T} (proj : ClientSession -> T) (index store : bool)
  (w w' : World) : Prop :=
  (forall fd, proj <$> clients_ w' !! fd = proj <$> clients_ w !! fd) /\
  (index = true -> userToSocket_ w' = userToSocket_ w) /\
  (store = true -> db w' = db w).

Definition preserves {T} (proj : ClientSession -> T) (index store : bool)
  {A} (c : M A) : Prop :=
  forall w, unchanged proj index store w (fst (c w)).

Definition keeps_consistent {A} (c : M A) : Prop :=
  forall w, consistent w -> consistent (fst (c w)).

(** *** Vocabulary for the statements about the limiter *)

(** The window a chat frame leaves behind in the session s. *)
Definition window_after (env : Env) (s : ClientSession) : Z * Z :=
  snd (checkRateLimit (steady_now env) (rateLimitWindowStart_ s)
         (rateLimitMessageCount_ s)).

(** The state in which the limiter of the session s, at socket fd, has
    counted one frame and nothing else has changed. *)
Definition counted (env : Env) (fd : Z) (w : World) (s : ClientSession)
  : World :=
  with_clients w
    (<[fd := with_rate s (fst (window_after env s)) (snd (window_after env s))]>
       (clients_ w)).

(** The sessions of w' are those of w, each with the window it had. *)
Definition same_rates (w w' : World) : Prop :=
  forall fd, rate_of <$> clients_ w' !! fd = rate_of <$> clients_ w !! fd.

(** A computation that leaves every window as it was. *)
Definition keeps_rates {A} (c : M A) : Prop :=
  forall w, same_rates w (fst (c w)).

(** How many of the verdicts of the limiter let the frame through. *)
Definition accepted (verdicts : list bool) : nat :=
  List.length (List.filter (fun ok => ok) verdicts).

End Server.

(** ** Sample data for the worked examples *)

Module Samples.
Import Json Protocol Database Server.

Definition sample_time : tm := mkTm 9 5 30.

Definition sample_private : Message :=
  mkMessage MSG_PRIVATE "alice" "bob" "hi" "12:00:00" "".

Definition sample_sent : list (tm * Message) :=
  [ (sample_time, mkMessage MSG_GLOBAL "alice" "" "one" "09:05:30" "");
    (sample_time, sample_private);
    (sample_time, mkMessage PING "" "" "" "09:05:31" "") ].

(** Three frames delivered in three pieces: the first six bytes of the
    first frame; its rest, the second frame and one byte of the third;
    the rest of the third. *)
Definition sample_fragments : list (list byte) :=
  match map (fun x => wire (fst x) (snd x)) sample_sent with
  | [f1; f2; f3] =>
      [ firstn 6 f1; skipn 6 f1 ++ f2 ++ firstn 1 f3; skipn 1 f3 ]
  | _ => []
  end.

(** FNV-1a on 64 bits, one of the hashes in use for
    [std::hash<std::string>]; it stands for the library's hash in the
    examples. *)
Fixpoint fnv1a_from (h : Z) (s : string) : Z :=
  match s with
  | EmptyString => h
  | String c r =>
      fnv1a_from ((Z.lxor h (Z.of_N (code c)) * 1099511628211) mod 2^64) r
  end.

Definition fnv1a (s : string) : Z := fnv1a_from 14695981039346656037 s.

(** The clock of the examples, with sockets that take every frame;
    [at_ms] is the same with the monotonic time at the given
    millisecond, [env_without fd] the same with a socket fd that takes
    no frame (its peer has gone). *)
Definition sample_env : Env :=
  mkEnv 0 sample_time "2024-01-01 00:00:00" (fun _ _ => true).

Definition at_ms (ms : Z) : Env :=
  mkEnv (ms * 1000000) sample_time "2024-01-01 00:00:00" (fun _ _ => true).

Definition env_without (fd : Z) : Env :=
  mkEnv 0 sample_time "2024-01-01 00:00:00" (fun k _ => negb (k =? fd)).

(** Another spelling of a user name: the store reads a name up to its
    first NUL, the sessions and the index keep it whole. *)
Definition alias (username : string) : string :=
  username +:+ String "000"%char "x".

(** The content of a REGISTER or LOGIN request. *)
Definition credentials_text (username password : string) : string :=
  match dump (JObject [("password", JString password);
                       ("username", JString username)]) with
  | Some text => text
  | None => EmptyString
  end.

Definition register_request (username password : string) : Message :=
  mkMessage REGISTER "" "" (credentials_text username password) "" "".

Definition login_request (username password : string) : Message :=
  mkMessage LOGIN "" "" (credentials_text username password) "" "".

(** One message handled by the session at socket fd. *)
Definition step (env : Env) (fd : Z) (msg : Message) (w : World) : World :=
  exec (handleMessage fnv1a env fd msg) w.

(** Two connections, at sockets 4 and 5, and an empty store. *)
Definition world_connected : World :=
  mkWorld (<[4 := new_session sample_env 4]>
             (<[5 := new_session sample_env 5]> ∅))
    ∅ empty_store.

(** alice and bob are registered, alice is logged in on socket 4, the
    connection on socket 5 is anonymous. *)
Definition world_alice : World :=
  step sample_env 4 (login_request "alice" "pw12")
    (step sample_env 5 (register_request "bob" "pw12")
       (step sample_env 4 (register_request "alice" "pw12")
          world_connected)).

(** ... and alice is muted. *)
Definition world_alice_muted : World :=
  with_db world_alice
    (snd (Database.muteUser "2024-01-01 00:00:01" (db world_alice) "alice")).

(** ... or bob is banned. *)
Definition world_bob_banned : World :=
  with_db world_alice
    (snd (Database.banUser "2024-01-01 00:00:01" (db world_alice) "bob")).

(** ... or alice and bob are both admins. *)
Definition world_admins : World :=
  with_db world_alice
    (snd (Database.setUserRole "2024-01-01 00:00:01"
            (snd (Database.setUserRole "2024-01-01 00:00:01"
                    (db world_alice) "alice" 1))
            "bob" 1)).

(** alice is logged in on socket 4 and bob on socket 5. *)
Definition world_both : World :=
  step sample_env 5 (login_request "bob" "pw12") world_alice.

(** alice is logged in on socket 4 and once more on socket 5, there
    under another spelling of her name. *)
Definition world_twice : World :=
  step sample_env 5 (login_request (alias "alice") "pw12") world_alice.

(** alice is an admin, on socket 4; bob is logged in on socket 5 under
    the given spelling of his name. *)
Definition world_admin_and (name : string) : World :=
  let w := step sample_env 5 (login_request name "pw12") world_alice in
  with_db w
    (snd (Database.setUserRole "2024-01-01 00:00:01" (db w) "alice" 1)).

(** A command of an admin on the user [target]. *)
Definition admin_command (t : Z) (target : string) : Message :=
  mkMessage t "" target "" "" "".

Definition global_message (text : string) : Message :=
  mkMessage MSG_GLOBAL "" "" text "" "".

Definition private_message (to text : string) : Message :=
  mkMessage MSG_PRIVATE "" to text "" "".

(** Chat frames of alice at the given milliseconds, one after the
    other. *)
Fixpoint chat_burst (times : list Z) (w : World) : World :=
  match times with
  | [] => w
  | t :: more => chat_burst more (step (at_ms t) 4 (global_message "hi") w)
  end.

(** Ten frames at 900 ms and ten at 1000 ms. *)
Definition burst_times : list Z :=
  repeat 900 10 ++ repeat 1000 10.

End Samples.

(** * Properties of the program *)

Import Json Protocol Database Server Samples.
#[local] Arguments String.append !s1 s2 : simpl nomatch.

(** ** Facts about the JSON reader and writer *)


Lemma code_inj_N c n : code c = n -> c = ascii_of_N n.
Proof. intros <-. unfold code. symmetry. apply ascii_N_embedding. Qed.

Lemma code_bound c : (code c < 256)%N.
Proof. apply N_ascii_bounded. Qed.

Lemma hex_value_digit k : (k < 16)%N -> hex_value (hex_digit k) = Some k.
Proof.
  intros H.
  assert (k = 0 \/ k = 1 \/ k = 2 \/ k = 3 \/ k = 4 \/ k = 5 \/ k = 6 \/ k = 7
          \/ k = 8 \/ k = 9 \/ k = 10 \/ k = 11 \/ k = 12 \/ k = 13 \/ k = 14
          \/ k = 15)%N as Hk by lia.
  repeat (destruct Hk as [-> | Hk]; [reflexivity |]). subst k. reflexivity.
Qed.

Lemma lex_string_plain st c tail st' :
  utf8_step st (code c) = Some st' ->
  (code c =? 34)%N = false -> (code c =? 92)%N = false ->
  (code c <? 32)%N = false ->
  lex_string st (String c tail) = prepend (str1 c) (lex_string st' tail).
Proof.
  intros H H1 H2 H3. destruct st; simpl; rewrite ?H1, ?H2, ?H3;
  simpl in H; rewrite H; reflexivity.
Qed.

Lemma utf8_step_low st n st' :
  utf8_step st n = Some st' -> (n <? 128)%N = true -> st = U_ACCEPT /\ st' = U_ACCEPT.
Proof.
  intros H Hn. apply N.ltb_lt in Hn.
  destruct st; simpl in H; unfold in_range in H;
  repeat match type of H with
  | (if ?b then _ else _) = _ => destruct b eqn:?
  end; try discriminate; try (injection H as <-); auto;
  repeat match goal with
  | E : (_ && _)%bool = true |- _ => apply andb_true_iff in E; destruct E
  | E : (_ <=? _)%N = true |- _ => apply N.leb_le in E
  | E : (_ =? _)%N = true |- _ => apply N.eqb_eq in E
  | E : (_ <? _)%N = false |- _ => apply N.ltb_ge in E
  end; try lia.
Qed.

Lemma lex_step st c st' tail :
  utf8_step st (code c) = Some st' ->
  lex_string st (escape_char c +:+ tail) = prepend (str1 c) (lex_string st' tail).
Proof.
  intros H. unfold escape_char.
  destruct (code c =? 34)%N eqn:E34.
  { apply N.eqb_eq in E34. destruct (utf8_step_low _ _ _ H) as [-> ->]; [rewrite E34; reflexivity|].
    apply code_inj_N in E34. subst c. reflexivity. }
  destruct (code c =? 92)%N eqn:E92.
  { apply N.eqb_eq in E92. destruct (utf8_step_low _ _ _ H) as [-> ->]; [rewrite E92; reflexivity|].
    apply code_inj_N in E92. subst c. reflexivity. }
  destruct (code c =? 8)%N eqn:E8.
  { apply N.eqb_eq in E8. destruct (utf8_step_low _ _ _ H) as [-> ->]; [rewrite E8; reflexivity|].
    apply code_inj_N in E8. subst c. reflexivity. }
  destruct (code c =? 12)%N eqn:E12.
  { apply N.eqb_eq in E12. destruct (utf8_step_low _ _ _ H) as [-> ->]; [rewrite E12; reflexivity|].
    apply code_inj_N in E12. subst c. reflexivity. }
  destruct (code c =? 10)%N eqn:E10.
  { apply N.eqb_eq in E10. destruct (utf8_step_low _ _ _ H) as [-> ->]; [rewrite E10; reflexivity|].
    apply code_inj_N in E10. subst c. reflexivity. }
  destruct (code c =? 13)%N eqn:E13.
  { apply N.eqb_eq in E13. destruct (utf8_step_low _ _ _ H) as [-> ->]; [rewrite E13; reflexivity|].
    apply code_inj_N in E13. subst c. reflexivity. }
  destruct (code c =? 9)%N eqn:E9.
  { apply N.eqb_eq in E9. destruct (utf8_step_low _ _ _ H) as [-> ->]; [rewrite E9; reflexivity|].
    apply code_inj_N in E9. subst c. reflexivity. }
  destruct (code c <? 32)%N eqn:E32.
  2: { apply lex_string_plain; assumption. }
  apply N.ltb_lt in E32.
  destruct (utf8_step_low _ _ _ H) as [-> ->]; [apply N.ltb_lt; lia|].
  simpl.
  unfold hex4. change (hex_value "0") with (Some 0%N).
  rewrite !hex_value_digit.
  2: { apply N.mod_lt. lia. }
  2: { apply N.Div0.div_lt_upper_bound. lia. }
  assert ((((0 * 16 + 0) * 16 + code c / 16) * 16 + code c mod 16)%N = code c) as ->.
  { pose proof (N.div_mod (code c) 16). lia. }
  unfold in_range.
  assert ((55296 <=? code c)%N = false) as -> by (apply N.leb_gt; lia).
  assert ((56320 <=? code c)%N = false) as -> by (apply N.leb_gt; lia).
  simpl. unfold utf8_encode.
  assert ((code c <? 128)%N = true) as -> by (apply N.ltb_lt; lia).
  unfold code. rewrite ascii_N_embedding. reflexivity.
Qed.

Lemma append_assoc (a b c : string) : (a +:+ b) +:+ c = a +:+ (b +:+ c).
Proof. induction a as [|x a IH]; simpl; [reflexivity | rewrite IH; reflexivity]. Qed.

Lemma lex_escape s : forall st body rest,
  escape st s = Some body ->
  lex_string st (body +:+ String dquote rest) = Some (s, rest).
Proof.
  induction s as [|c r IH]; intros st body rest H; simpl in H.
  - destruct st; simpl in H; try discriminate. injection H as <-. reflexivity.
  - destruct (utf8_step st (code c)) as [st'|] eqn:Hs; [|discriminate].
    destruct (escape st' r) as [body'|] eqn:He; [|discriminate].
    injection H as <-. rewrite append_assoc, (lex_step _ _ _ _ Hs).
    rewrite (IH _ _ _ He). reflexivity.
Qed.


Lemma span_digits_stop rest : number_stop rest = true -> span_digits rest = (EmptyString, rest).
Proof.
  destruct rest as [|c r]; [reflexivity|]. simpl. intros H.
  destruct (is_digit c); [discriminate | reflexivity].
Qed.

Lemma lex_fraction_stop rest : number_stop rest = true -> lex_fraction rest = Some (EmptyString, rest).
Proof.
  destruct rest as [|c r]; [reflexivity|]. simpl. intros H.
  destruct (code c =? 46)%N; [|reflexivity].
  rewrite andb_false_r in H. discriminate.
Qed.

Lemma lex_exponent_stop rest : number_stop rest = true -> lex_exponent rest = Some (EmptyString, rest).
Proof.
  destruct rest as [|c r]; [reflexivity|]. simpl. intros H.
  destruct (code c =? 101)%N; [rewrite ?andb_false_r in H; discriminate|].
  destruct (code c =? 69)%N; [rewrite ?andb_false_r in H; discriminate|].
  reflexivity.
Qed.

Lemma span_digits_uint d rest :
  number_stop rest = true ->
  span_digits (NilEmpty.string_of_uint d +:+ rest) = (NilEmpty.string_of_uint d, rest).
Proof.
  intros H. induction d; simpl; [apply span_digits_stop; assumption | ..];
  change (is_digit _) with true; cbv iota; rewrite IHd; reflexivity.
Qed.

Lemma to_uint_head p : forall d', Pos.to_uint p <> Decimal.D0 d'.
Proof.
  intros d' H.
  pose proof (Unsigned.to_of (Pos.to_uint p)) as Hto.
  rewrite Unsigned.of_to in Hto. simpl N.to_uint in Hto.
  unfold Decimal.unorm in Hto.
  destruct (Decimal.nzhead (Pos.to_uint p)) eqn:E;
    try (rewrite Hto in H; discriminate H).
  - rewrite Hto in H. injection H as <-. 
    apply (Unsigned.to_uint_nonzero p). assumption.
  - apply (nzhead_nonzero _ _ E).
Qed.

Lemma digits_value_to_uint p :
  digits_value (NilEmpty.string_of_uint (Pos.to_uint p)) = Z.pos p.
Proof.
  unfold digits_value.
  pose proof (NilZero.usu (Pos.to_uint p) (Unsigned.to_uint_nonnil p)) as H.
  unfold NilZero.string_of_uint in H.
  destruct (Pos.to_uint p) eqn:E; try (exfalso; eapply Unsigned.to_uint_nonnil; eassumption);
  rewrite H; unfold Z.of_uint; rewrite <- E, Unsigned.of_to; reflexivity.
Qed.

Lemma lex_number_digits p :
  exists dc more, NilEmpty.string_of_uint (Pos.to_uint p) = String dc more /\
    is_digit dc = true /\ (code dc =? 45)%N = false /\
    ((code dc =? 48)%N && negb (String.eqb more EmptyString)) = false.
Proof.
  pose proof (to_uint_head p) as Hh.
  pose proof (Unsigned.to_uint_nonnil p) as Hn.
  destruct (Pos.to_uint p) eqn:E; simpl;
    try (exfalso; apply Hn; reflexivity);
    try (exfalso; eapply Hh; reflexivity);
    eexists; eexists; repeat split; reflexivity.
Qed.

Lemma lex_unsigned_digits neg p rest :
  number_stop rest = true ->
  lex_unsigned neg (NilEmpty.string_of_uint (Pos.to_uint p) +:+ rest)
  = Some (JInt (if neg then Z.neg p else Z.pos p), rest).
Proof.
  intros H. unfold lex_unsigned.
  rewrite (span_digits_uint _ _ H).
  destruct (lex_number_digits p) as (dc & more & E & Hd & Hm & Hz).
  rewrite E at 1. rewrite Hz.
  rewrite (lex_fraction_stop _ H), (lex_exponent_stop _ H). simpl.
  rewrite digits_value_to_uint. destruct neg; reflexivity.
Qed.

Lemma string_of_uint_pos p :
  NilZero.string_of_uint (Pos.to_uint p) = NilEmpty.string_of_uint (Pos.to_uint p).
Proof.
  unfold NilZero.string_of_uint. pose proof (Unsigned.to_uint_nonnil p).
  destruct (Pos.to_uint p); congruence.
Qed.

Lemma lex_number_int z rest :
  number_stop rest = true ->
  lex_number (dump_int z +:+ rest) = Some (JInt z, rest).
Proof.
  intros H. unfold dump_int. destruct z as [|p|p]; simpl Z.to_int;
    unfold NilZero.string_of_int.
  - simpl. unfold lex_unsigned. simpl span_digits.
    rewrite (span_digits_stop _ H). simpl.
    rewrite (lex_fraction_stop _ H), (lex_exponent_stop _ H). reflexivity.
  - rewrite string_of_uint_pos.
    destruct (lex_number_digits p) as (dc & more & E & Hd & Hm & Hz).
    pose proof (lex_unsigned_digits false p rest H) as L.
    rewrite E in *. simpl. rewrite Hm. exact L.
  - rewrite string_of_uint_pos. simpl.
    apply (lex_unsigned_digits true p rest H).
Qed.


Lemma skip_ws_dquote r : skip_ws (String dquote r) = String dquote r.
Proof. reflexivity. Qed.

(** One string member followed by a comma. *)
Lemma parse_members_string f acc k kb v vb rest :
  escape U_ACCEPT k = Some kb ->
  escape U_ACCEPT v = Some vb ->
  parse_members (S (S f)) acc
    (quoted kb +:+ ":" +:+ quoted vb +:+ "," +:+ rest)
  = parse_members (S f) (obj_set k (JString v) acc) rest.
Proof.
  intros Hk Hv. unfold quoted. simpl String.append.
  rewrite !append_assoc. simpl String.append.
  cbn [parse_members]. rewrite skip_ws_dquote.
  assert ((code dquote =? 34)%N = true) as -> by reflexivity.
  rewrite (lex_escape _ _ _ _ Hk).
  cbn [skip_ws]. assert (is_ws ":" = false) as -> by reflexivity.
  assert ((code ":" =? 58)%N = true) as -> by reflexivity.
  cbn [parse_value]. rewrite skip_ws_dquote.
  assert ((code dquote =? 123)%N = false) as -> by reflexivity.
  assert ((code dquote =? 91)%N = false) as -> by reflexivity.
  assert ((code dquote =? 34)%N = true) as -> by reflexivity.
  rewrite (lex_escape _ _ _ _ Hv).
  cbn [skip_ws]. assert (is_ws "," = false) as -> by reflexivity.
  assert ((code "," =? 44)%N = true) as -> by reflexivity.
  reflexivity.
Qed.

Lemma dump_int_head z :
  exists c r, dump_int z = String c r /\ (is_digit c = true \/ code c = 45%N).
Proof.
  unfold dump_int. destruct z as [|p|p]; simpl Z.to_int; unfold NilZero.string_of_int.
  - exists "0"%char, EmptyString. split; [reflexivity | left; reflexivity].
  - rewrite string_of_uint_pos.
    destruct (lex_number_digits p) as (dc & more & E & Hd & Hm & Hz).
    exists dc, more. split; [assumption | left; assumption].
  - eexists; eexists. split; [reflexivity | right; reflexivity].
Qed.

Lemma code_eqb_false a c : code a <> code c -> Ascii.eqb a c = false.
Proof.
  intros H. apply Ascii.eqb_neq. intros ->. apply H. reflexivity.
Qed.

Lemma parse_value_int f z tail :
  number_stop tail = true ->
  parse_value (S f) (dump_int z +:+ tail) = POk (JInt z) tail.
Proof.
  intros H. pose proof (lex_number_int z tail H) as L.
  destruct (dump_int_head z) as (c & r & E & Hc). rewrite E in *.
  simpl String.append in *. cbn [parse_value skip_ws].
  assert (code c = 45 \/ 48 <= code c <= 57)%N as Hr.
  { destruct Hc as [Hc | Hc]; [right | left; assumption].
    unfold is_digit, in_range in Hc. apply andb_true_iff in Hc.
    destruct Hc as [H1 H2]. apply N.leb_le in H1, H2. lia. }
  assert (is_ws c = false) as ->.
  { unfold is_ws. repeat rewrite orb_false_iff. repeat split; apply N.eqb_neq; lia. }
  assert ((code c =? 123)%N = false) as -> by (apply N.eqb_neq; lia).
  assert ((code c =? 91)%N = false) as -> by (apply N.eqb_neq; lia).
  assert ((code c =? 34)%N = false) as -> by (apply N.eqb_neq; lia).
  cbn [starts_with].
  rewrite !code_eqb_false by (change (code "t") with 116%N; change (code "f") with 102%N; change (code "n") with 110%N; lia).
  cbn [andb]. rewrite L. reflexivity.
Qed.

(** The last member, an integer, and the closing brace. *)
Lemma parse_members_int_last f acc k kb z rest :
  escape U_ACCEPT k = Some kb ->
  parse_members (S (S f)) acc
    (quoted kb +:+ ":" +:+ dump_int z +:+ "}" +:+ rest)
  = POk (JObject (obj_set k (JInt z) acc)) rest.
Proof.
  intros Hk. unfold quoted. simpl String.append.
  rewrite !append_assoc. simpl String.append.
  cbn [parse_members]. rewrite skip_ws_dquote.
  assert ((code dquote =? 34)%N = true) as -> by reflexivity.
  rewrite (lex_escape _ _ _ _ Hk).
  cbn [skip_ws]. assert (is_ws ":" = false) as -> by reflexivity.
  assert ((code ":" =? 58)%N = true) as -> by reflexivity.
  rewrite parse_value_int by reflexivity.
  cbn [skip_ws]. assert (is_ws "}" = false) as -> by reflexivity.
  assert ((code "}" =? 44)%N = false) as -> by reflexivity.
  assert ((code "}" =? 125)%N = true) as -> by reflexivity.
  reflexivity.
Qed.

Lemma wrap_int_id z : int_range z -> wrap_int z = z.
Proof.
  unfold int_range, wrap_int. intros H.
  rewrite Z.mod_small; lia.
Qed.

(** The payload of a message, member by member. *)
Lemma dump_message_json now msg payload :
  dump (message_json now msg) = Some payload ->
  exists c e r s t,
    escape U_ACCEPT (content msg) = Some c /\
    escape U_ACCEPT (extra msg) = Some e /\
    escape U_ACCEPT (receiver msg) = Some r /\
    escape U_ACCEPT (sender msg) = Some s /\
    escape U_ACCEPT (if String.eqb (timestamp msg) "" then getCurrentTimestamp now else timestamp msg) = Some t /\
    payload =
      "{" +:+ (quoted "content" +:+ ":" +:+ quoted c +:+ "," +:+
              (quoted "extra" +:+ ":" +:+ quoted e +:+ "," +:+
              (quoted "receiver" +:+ ":" +:+ quoted r +:+ "," +:+
              (quoted "sender" +:+ ":" +:+ quoted s +:+ "," +:+
              (quoted "timestamp" +:+ ":" +:+ quoted t +:+ "," +:+
              (quoted "type" +:+ ":" +:+ dump_int (type msg) +:+ "}" +:+ "")))))).
Proof.
  unfold message_json. 
  simpl obj_set. intros H. simpl in H. unfold dump_string in H.
  repeat match type of H with
  | context [escape U_ACCEPT ?x] =>
      let v := fresh "v" in let E := fresh "E" in
      destruct (escape U_ACCEPT x) as [v|] eqn:E; [|discriminate H]
  end.
  injection H as <-. exists v, v0, v1, v2, v3. repeat split; reflexivity.
Qed.

Lemma parse_message_payload now msg payload :
  dump (message_json now msg) = Some payload ->
  json_parse payload = inr (message_json now msg).
Proof.
  intros H. destruct (dump_message_json _ _ _ H) as (c & e & r & s & t & Hc & He & Hr & Hs & Ht & ->).
  unfold json_parse.
  remember (String.length _) as n eqn:Hn.
  assert (exists f, (2 * n)%nat = S (S (S (S (S (S (S f))))))) as [f ->].
  { assert (4 <= n)%nat as Hle.
    { subst n. unfold quoted. simpl String.append. simpl String.length. lia. }
    exists (2 * n - 7)%nat. lia. }
  clear Hn.
  match goal with |- context [parse_value _ ("{" +:+ ?r)] =>
    set (body := r); change ("{" +:+ body) with (String "{" body) end.
  cbn [parse_value skip_ws].
  assert (is_ws "{" = false) as -> by reflexivity.
  assert ((code "{" =? 123)%N = true) as -> by reflexivity.
  cbv iota.
  assert (skip_ws body = body) as -> by reflexivity.
  assert (exists b', body = String dquote b') as [b' Hb] by (eexists; reflexivity).
  rewrite Hb at 1. assert ((code dquote =? 125)%N = false) as -> by reflexivity.
  cbv iota. subst body.
  rewrite (parse_members_string _ _ "content" _ _ _ _ eq_refl Hc).
  rewrite (parse_members_string _ _ "extra" _ _ _ _ eq_refl He).
  rewrite (parse_members_string _ _ "receiver" _ _ _ _ eq_refl Hr).
  rewrite (parse_members_string _ _ "sender" _ _ _ _ eq_refl Hs).
  rewrite (parse_members_string _ _ "timestamp" _ _ _ _ eq_refl Ht).
  rewrite (parse_members_int_last _ _ "type" _ _ _ eq_refl).
  reflexivity.
Qed.


Lemma length_list_byte_of_string s :
  List.length (list_byte_of_string s) = String.length s.
Proof.
  unfold list_byte_of_string. rewrite List.length_map.
  induction s as [|c r IH]; simpl; [reflexivity | rewrite IH; reflexivity].
Qed.

Lemma deserialize_payload now msg payload :
  dump (message_json now msg) = Some payload ->
  int_range (type msg) ->
  deserialize (list_byte_of_string payload) = stamped now msg.
Proof.
  intros H Hr. unfold deserialize.
  rewrite string_of_list_byte_of_string, (parse_message_payload _ _ _ H).
  unfold message_json. simpl. rewrite (wrap_int_id _ Hr).
  unfold stamped, set_timestamp, set_extra, set_content, set_receiver, set_sender, set_type. simpl.
  destruct msg as [t s r c ts e]; simpl. destruct (String.eqb ts ""); reflexivity.
Qed.

Lemma Z_of_byte_of_Z x : 0 <= x < 256 -> Z_of_byte (byte_of_Z x) = x.
Proof.
  intros H. unfold Z_of_byte, byte_of_Z.
  pose proof (Byte.to_of_N_option_map (Z.to_N x)) as E.
  assert ((Z.to_N x <=? 255)%N = true) as Hle by (apply N.leb_le; lia).
  rewrite Hle in E. destruct (Byte.of_N (Z.to_N x)) as [b|]; simpl in E;
    [|discriminate]. injection E as ->. lia.
Qed.

Lemma Z_of_byte_range b : 0 <= Z_of_byte b < 256.
Proof. unfold Z_of_byte. pose proof (Byte.to_N_bounded b). lia. Qed.

Lemma land_255_range x : 0 <= Z.land x 255 < 256.
Proof.
  change 255 with (Z.ones 8). rewrite Z.land_ones by lia.
  apply Z.mod_pos_bound. lia.
Qed.

Lemma testbit_land_255 x n :
  Z.testbit (Z.land x 255) n = Z.testbit x n && (0 <=? n) && (n <? 8).
Proof.
  rewrite Z.land_spec. change 255 with (Z.ones 8).
  rewrite Z.testbit_ones by lia. rewrite andb_assoc. reflexivity.
Qed.

Ltac zb :=
  first [ apply Z.leb_le; lia | apply Z.ltb_lt; lia
        | apply Z.leb_gt; lia | apply Z.ltb_ge; lia ].

Lemma read_length_prefix len :
  0 <= len < 2^32 ->
  exists b0 b1 b2 b3,
    length_prefix len = [b0; b1; b2; b3] /\ read_length b0 b1 b2 b3 = len.
Proof.
  intros H. unfold length_prefix. do 4 eexists. split; [reflexivity|].
  unfold read_length. rewrite !Z_of_byte_of_Z by apply land_255_range.
  apply Z.bits_inj'. intros n Hn.
  rewrite !Z.lor_spec, !Z.shiftl_spec, !testbit_land_255 by lia.
  assert ((0 <=? n) = true) as -> by zb.
  destruct (Z_lt_le_dec n 8); [|destruct (Z_lt_le_dec n 16);
    [|destruct (Z_lt_le_dec n 24); [|destruct (Z_lt_le_dec n 32)]]].
  - assert ((0 <=? n - 24) = false) as -> by zb.
    assert ((0 <=? n - 16) = false) as -> by zb.
    assert ((0 <=? n - 8) = false) as -> by zb.
    assert ((n <? 8) = true) as -> by zb.
    rewrite !andb_true_r, !andb_false_r. reflexivity.
  - assert ((0 <=? n - 24) = false) as -> by zb.
    assert ((0 <=? n - 16) = false) as -> by zb.
    assert ((n <? 8) = false) as -> by zb.
    assert ((0 <=? n - 8) = true) as -> by zb.
    assert ((n - 8 <? 8) = true) as -> by zb.
    rewrite (Z.shiftr_spec len 8) by lia. replace (n - 8 + 8) with n by lia.
    rewrite !andb_true_r, !andb_false_r, !orb_false_r. reflexivity.
  - assert ((0 <=? n - 24) = false) as -> by zb.
    assert ((n <? 8) = false) as -> by zb.
    assert ((n - 8 <? 8) = false) as -> by zb.
    assert ((0 <=? n - 16) = true) as -> by zb.
    assert ((n - 16 <? 8) = true) as -> by zb.
    rewrite (Z.shiftr_spec len 16) by lia. replace (n - 16 + 16) with n by lia.
    rewrite !andb_true_r, !andb_false_r, !orb_false_r. reflexivity.
  - assert ((n <? 8) = false) as -> by zb.
    assert ((n - 8 <? 8) = false) as -> by zb.
    assert ((n - 16 <? 8) = false) as -> by zb.
    assert ((0 <=? n - 24) = true) as -> by zb.
    assert ((n - 24 <? 8) = true) as -> by zb.
    rewrite (Z.shiftr_spec len 24) by lia. replace (n - 24 + 24) with n by lia.
    rewrite !andb_true_r, !andb_false_r, !orb_false_r. reflexivity.
  - assert ((n <? 8) = false) as -> by zb.
    assert ((n - 8 <? 8) = false) as -> by zb.
    assert ((n - 16 <? 8) = false) as -> by zb.
    assert ((n - 24 <? 8) = false) as -> by zb.
    rewrite !andb_false_r. simpl. symmetry.
    destruct (Z.eq_dec len 0) as [-> | Hz]; [apply Z.testbit_0_l|].
    apply Z.bits_above_log2; [lia|].
    assert (Z.log2 len < 32) by (apply Z.log2_lt_pow2; lia). lia.
Qed.

(** ** Frames *)

Lemma MAX_lt : MAX_MESSAGE_SIZE < 2^32.
Proof. reflexivity. Qed.

Lemma frame_complete payload tail :
  Z.of_nat (List.length payload) <= MAX_MESSAGE_SIZE ->
  hasCompleteMessage (frame payload ++ tail) = true.
Proof.
  intros H. unfold frame.
  destruct (read_length_prefix (Z.of_nat (List.length payload)))
    as (b0 & b1 & b2 & b3 & E & R); [pose proof MAX_lt; lia|].
  rewrite E. simpl. rewrite R.
  assert ((Z.of_nat (List.length payload) >? MAX_MESSAGE_SIZE) = false) as ->.
  { rewrite Z.gtb_ltb. apply Z.ltb_ge. lia. }
  rewrite !length_app. apply Z.geb_le. lia.
Qed.

Lemma frame_extract payload tail :
  Z.of_nat (List.length payload) <= MAX_MESSAGE_SIZE ->
  extractMessage (frame payload ++ tail) = (deserialize payload, tail).
Proof.
  intros H. unfold frame.
  destruct (read_length_prefix (Z.of_nat (List.length payload)))
    as (b0 & b1 & b2 & b3 & E & R); [pose proof MAX_lt; lia|].
  rewrite E. cbn [app extractMessage]. rewrite R.
  assert ((Z.of_nat (List.length payload) >? MAX_MESSAGE_SIZE) = false) as ->.
  { rewrite Z.gtb_ltb. apply Z.ltb_ge. lia. }
  match goal with |- context [?a <? ?b] =>
    assert ((a <? b) = false) as ->
  end.
  { apply Z.ltb_ge. cbn [List.length]. rewrite length_app. lia. }
  rewrite Nat2Z.id. rewrite firstn_app, Nat.sub_diag, firstn_all.
  cbn [firstn skipn Nat.add]. rewrite app_nil_r.
  rewrite skipn_app, Nat.sub_diag, skipn_all. reflexivity.
Qed.

(** A buffer that holds a frame only in part has no complete message. *)
Lemma frame_prefix_incomplete payload p q :
  Z.of_nat (List.length payload) <= MAX_MESSAGE_SIZE ->
  frame payload = p ++ q -> q <> [] ->
  hasCompleteMessage p = false.
Proof.
  intros H E Hq. unfold frame in E.
  destruct (read_length_prefix (Z.of_nat (List.length payload)))
    as (b0 & b1 & b2 & b3 & Ep & R); [pose proof MAX_lt; lia|].
  rewrite Ep in E.
  assert (List.length (p ++ q) = (4 + List.length payload)%nat) as Hl.
  { rewrite <- E. simpl. reflexivity. }
  rewrite length_app in Hl.
  assert (List.length q <> 0%nat) by (destruct q; [congruence | simpl; lia]).
  destruct p as [|x0 [|x1 [|x2 [|x3 body]]]]; try reflexivity.
  simpl in E. injection E as -> -> -> -> E.
  cbn [hasCompleteMessage]. rewrite R.
  destruct (_ >? _); [reflexivity|].
  rewrite Z.geb_leb. apply Z.leb_gt. simpl List.length in *. lia.
Qed.

(** ** The extraction loop *)

Lemma hasComplete_shape b :
  hasCompleteMessage b = true ->
  exists b0 b1 b2 b3 body,
    b = b0 :: b1 :: b2 :: b3 :: body /\
    0 <= read_length b0 b1 b2 b3 <= MAX_MESSAGE_SIZE /\
    (Z.to_nat (read_length b0 b1 b2 b3) <= List.length body)%nat.
Proof.
  destruct b as [|b0 [|b1 [|b2 [|b3 body]]]]; try discriminate.
  cbn [hasCompleteMessage]. intros H.
  destruct (_ >? _) eqn:G; [discriminate|].
  rewrite Z.gtb_ltb in G. apply Z.ltb_ge in G.
  rewrite Z.geb_leb in H. apply Z.leb_le in H. cbn [List.length] in H.
  exists b0, b1, b2, b3, body. split; [reflexivity|].
  assert (0 <= read_length b0 b1 b2 b3).
  { unfold read_length. pose proof (Z_of_byte_range b0). pose proof (Z_of_byte_range b1).
    pose proof (Z_of_byte_range b2). pose proof (Z_of_byte_range b3).
    repeat (apply Z.lor_nonneg; split); try apply Z.shiftl_nonneg; lia. }
  split; lia.
Qed.

Lemma extract_complete b :
  hasCompleteMessage b = true ->
  exists b0 b1 b2 b3 body,
    b = b0 :: b1 :: b2 :: b3 :: body /\
    extractMessage b =
      (deserialize (firstn (Z.to_nat (read_length b0 b1 b2 b3)) body),
       skipn (Z.to_nat (read_length b0 b1 b2 b3)) body) /\
    (Z.to_nat (read_length b0 b1 b2 b3) <= List.length body)%nat.
Proof.
  intros H. destruct (hasComplete_shape b H) as (b0 & b1 & b2 & b3 & body & -> & Hr & Hl).
  exists b0, b1, b2, b3, body. split; [reflexivity|]. split; [|assumption].
  cbn [extractMessage].
  assert ((read_length b0 b1 b2 b3 >? MAX_MESSAGE_SIZE) = false) as ->.
  { rewrite Z.gtb_ltb. apply Z.ltb_ge. lia. }
  match goal with |- context [?a <? ?b] => assert ((a <? b) = false) as -> end.
  { apply Z.ltb_ge. cbn [List.length]. lia. }
  reflexivity.
Qed.

Lemma extract_shrinks b :
  hasCompleteMessage b = true ->
  (List.length (snd (extractMessage b)) < List.length b)%nat.
Proof.
  intros H. destruct (extract_complete b H) as (b0 & b1 & b2 & b3 & body & -> & E & Hl).
  rewrite E. cbn [snd List.length]. rewrite length_skipn. lia.
Qed.

Lemma extract_loop_fuel f1 : forall f2 b,
  (List.length b <= f1)%nat -> (List.length b <= f2)%nat ->
  extract_loop f1 b = extract_loop f2 b.
Proof.
  induction f1 as [|f1 IH]; intros f2 b H1 H2.
  - destruct b; [|simpl in H1; lia]. destruct f2; reflexivity.
  - destruct f2 as [|f2].
    + destruct b; [|simpl in H2; lia]. reflexivity.
    + cbn [extract_loop]. destruct (hasCompleteMessage b) eqn:Hc; [|reflexivity].
      pose proof (extract_shrinks b Hc) as Hs.
      destruct (extractMessage b) as [msg rest]. cbn [snd] in Hs.
      rewrite (IH f2 rest) by lia. reflexivity.
Qed.

Lemma extract_all_eq b :
  extract_all b =
  if hasCompleteMessage b then
    let (msg, rest) := extractMessage b in
    let (msgs, final) := extract_all rest in (msg :: msgs, final)
  else ([], b).
Proof.
  unfold extract_all. destruct b as [|x b']; [reflexivity|].
  cbn [List.length extract_loop].
  destruct (hasCompleteMessage (x :: b')) eqn:Hc; [|reflexivity].
  pose proof (extract_shrinks _ Hc) as Hs.
  destruct (extractMessage (x :: b')) as [msg rest]. cbn [snd List.length] in Hs.
  rewrite (extract_loop_fuel (List.length b') (List.length rest) rest) by lia.
  reflexivity.
Qed.

(** The loop stops on a buffer without a complete message. *)
Lemma extract_all_stops b : hasCompleteMessage (snd (extract_all b)) = false.
Proof.
  remember (List.length b) as n eqn:Hn. revert b Hn.
  induction n as [n IH] using lt_wf_ind. intros b ->.
  rewrite extract_all_eq. destruct (hasCompleteMessage b) eqn:Hc; [|exact Hc].
  pose proof (extract_shrinks b Hc) as Hs.
  destruct (extractMessage b) as [msg rest]. cbn [snd] in Hs.
  specialize (IH _ Hs rest eq_refl).
  destruct (extract_all rest) as [msgs final]. exact IH.
Qed.

Lemma complete_app a c :
  hasCompleteMessage a = true ->
  hasCompleteMessage (a ++ c) = true /\
  extractMessage (a ++ c) = (fst (extractMessage a), snd (extractMessage a) ++ c).
Proof.
  intros H. destruct (extract_complete a H) as (b0 & b1 & b2 & b3 & body & -> & E & Hl).
  destruct (hasComplete_shape _ H) as (? & ? & ? & ? & ? & Es & Hr & _).
  injection Es as <- <- <- <- <-.
  rewrite E. cbn [fst snd]. cbn [app hasCompleteMessage extractMessage].
  assert ((read_length b0 b1 b2 b3 >? MAX_MESSAGE_SIZE) = false) as ->.
  { rewrite Z.gtb_ltb. apply Z.ltb_ge. lia. }
  split.
  - rewrite Z.geb_leb. apply Z.leb_le. cbn [List.length]. rewrite length_app. lia.
  - match goal with |- context [?a <? ?b] => assert ((a <? b) = false) as -> end.
    { apply Z.ltb_ge. cbn [List.length]. rewrite length_app. lia. }
    cbn [skipn Nat.add].
    rewrite firstn_app, skipn_app.
    replace (Z.to_nat (read_length b0 b1 b2 b3) - List.length body)%nat with 0%nat by lia.
    cbn [firstn skipn]. rewrite app_nil_r. reflexivity.
Qed.

Lemma extract_all_app a : forall c,
  extract_all (a ++ c) =
  let (m1, r1) := extract_all a in
  let (m2, r2) := extract_all (r1 ++ c) in (m1 ++ m2, r2).
Proof.
  remember (List.length a) as n eqn:Hn. revert a Hn.
  induction n as [n IH] using lt_wf_ind. intros a -> c.
  rewrite (extract_all_eq a). destruct (hasCompleteMessage a) eqn:Hc.
  - destruct (complete_app a c Hc) as [Hc' E'].
    rewrite (extract_all_eq (a ++ c)), Hc', E'.
    pose proof (extract_shrinks a Hc) as Hs.
    destruct (extractMessage a) as [msg rest]. cbn [fst snd] in *.
    rewrite (IH _ Hs rest eq_refl c).
    destruct (extract_all rest) as [m1 r1].
    destruct (extract_all (r1 ++ c)) as [m2 r2]. reflexivity.
  - destruct (extract_all (a ++ c)) as [m2 r2]. reflexivity.
Qed.

Lemma feed_extract_all frags : forall b,
  hasCompleteMessage b = false ->
  feed b frags = extract_all (b ++ concat frags).
Proof.
  induction frags as [|d more IH]; intros b Hb.
  - cbn [feed concat]. rewrite app_nil_r, extract_all_eq, Hb. reflexivity.
  - cbn [feed concat]. unfold append.
    rewrite app_assoc, (extract_all_app (b ++ d) (concat more)).
    pose proof (extract_all_stops (b ++ d)) as Hs.
    destruct (extract_all (b ++ d)) as [m1 r1]. cbn [snd] in Hs.
    rewrite (IH r1 Hs). reflexivity.
Qed.

(** Whole frames followed by a buffer without a complete message. *)
Lemma extract_all_frames payloads : forall tail,
  Forall (fun p => Z.of_nat (List.length p) <= MAX_MESSAGE_SIZE) payloads ->
  hasCompleteMessage tail = false ->
  extract_all (concat (map frame payloads) ++ tail)
  = (map deserialize payloads, tail).
Proof.
  induction payloads as [|p ps IH]; intros tail Hall Ht.
  - cbn [map concat app]. rewrite extract_all_eq, Ht. reflexivity.
  - inversion Hall as [|? ? Hp Hps]; subst.
    cbn [map concat]. rewrite <- app_assoc, extract_all_eq.
    rewrite (frame_complete _ _ Hp), (frame_extract _ _ Hp).
    rewrite (IH tail Hps Ht). reflexivity.
Qed.

(** A prefix of a stream of frames is some whole frames followed by a
    part of the next one. *)
Lemma stream_prefix payloads : forall s t,
  Forall (fun p => Z.of_nat (List.length p) <= MAX_MESSAGE_SIZE) payloads ->
  s ++ t = concat (map frame payloads) ->
  exists j rest,
    s = concat (map frame (firstn j payloads)) ++ rest /\
    hasCompleteMessage rest = false.
Proof.
  induction payloads as [|p ps IH]; intros s t Hall E.
  - cbn [map concat] in E. apply app_eq_nil in E as [-> _].
    exists 0%nat, []. split; reflexivity.
  - inversion Hall as [|? ? Hp Hps]; subst.
    cbn [map concat] in E.
    apply app_eq_app in E as [l [[-> E2] | [E1 E2]]].
    + destruct (IH l t Hps (eq_sym E2)) as (j & rest & -> & Hr).
      exists (S j), rest. cbn [firstn map concat]. rewrite app_assoc. split; [reflexivity | exact Hr].
    + destruct l as [|x l].
      * rewrite app_nil_r in E1. subst s.
        exists 1%nat, []. cbn [firstn map concat]. rewrite !app_nil_r.
        split; reflexivity.
      * exists 0%nat, s. split; [reflexivity|].
        apply (frame_prefix_incomplete p s (x :: l) Hp E1). discriminate.
Qed.

(** ** Serialising a message *)

Lemma serialize_frame now m p :
  dump (message_json now m) = Some p ->
  Z.of_nat (String.length p) < 2^32 ->
  serialize now m = Some (frame (list_byte_of_string p)).
Proof.
  intros H Hl. unfold serialize, frame. rewrite H.
  rewrite Z.mod_small by lia. rewrite Nat2Z.id.
  rewrite firstn_all2 by (rewrite length_list_byte_of_string; lia).
  rewrite length_list_byte_of_string. reflexivity.
Qed.

Lemma skipn_frame payload : skipn 4 (frame payload) = payload.
Proof. reflexivity. Qed.

Lemma stamped_id now m : timestamp m <> EmptyString -> stamped now m = m.
Proof.
  intros H. unfold stamped. destruct (String.eqb_spec (timestamp m) "");
    [contradiction | reflexivity].
Qed.

Lemma sendable_spec now m :
  sendable now m = true ->
  int_range (type m) /\
  exists p, dump (message_json now m) = Some p /\
    Z.of_nat (String.length p) <= MAX_MESSAGE_SIZE /\
    wire now m = frame (list_byte_of_string p).
Proof.
  unfold sendable, int_range. intros H.
  apply andb_true_iff in H as [H Hp]. apply andb_true_iff in H as [H1 H2].
  apply Z.leb_le in H1. apply Z.ltb_lt in H2. split; [lia|].
  destruct (dump (message_json now m)) as [p|] eqn:E; [|discriminate].
  apply Z.leb_le in Hp. exists p. split; [reflexivity|]. split; [assumption|].
  unfold wire. rewrite (serialize_frame _ _ _ E); [reflexivity|].
  pose proof MAX_lt. lia.
Qed.

(** The frames of sendable messages, as payloads: each decodes to the
    message with the time stamp [serialize] wrote. *)
Lemma wire_payloads (sent : list (tm * Message)) :
  Forall (fun x => sendable (fst x) (snd x) = true) sent ->
  exists payloads,
    map (fun x => wire (fst x) (snd x)) sent = map frame payloads /\
    Forall (fun p => Z.of_nat (List.length p) <= MAX_MESSAGE_SIZE) payloads /\
    map deserialize payloads = map (fun x => stamped (fst x) (snd x)) sent.
Proof.
  induction sent as [|[now m] sent IH]; intros H.
  - exists []. repeat split; constructor.
  - inversion H as [|? ? Hs Hrest]; subst. cbn [fst snd] in *.
    destruct (IH Hrest) as (ps & E1 & E2 & E3).
    destruct (sendable_spec _ _ Hs) as (Hr & p & Hd & Hl & Hw).
    exists (list_byte_of_string p :: ps). cbn [map fst snd].
    rewrite Hw, E1, E3, (deserialize_payload _ _ _ Hd Hr).
    repeat split. constructor; [|assumption].
    rewrite length_list_byte_of_string. assumption.
Qed.

(** ** The round trip of a message (C4) *)

(** C4, as the code has it: for a message whose type is an [int], that
    [serialize] accepts (its strings are UTF-8) and whose payload is
    shorter than 2^32 bytes, decoding the payload of the frame gives the
    message with the time stamp [serialize] wrote: the message itself
    when its time stamp is not empty, the message stamped with the
    current time when it is. *)
Theorem serialize_deserialize_roundtrip now m bytes :
  int_range (type m) ->
  serialize now m = Some bytes ->
  payload_size now m < 2^32 ->
  deserialize (skipn 4 bytes) = stamped now m /\
  (timestamp m <> EmptyString -> deserialize (skipn 4 bytes) = m) /\
  (timestamp m = EmptyString ->
   deserialize (skipn 4 bytes) = set_timestamp m (getCurrentTimestamp now)).
Proof.
  intros Hr Hs Hl. unfold payload_size in Hl.
  destruct (dump (message_json now m)) as [p|] eqn:E.
  - rewrite (serialize_frame _ _ _ E Hl) in Hs. injection Hs as <-.
    rewrite skipn_frame, (deserialize_payload _ _ _ E Hr).
    split; [reflexivity|]. split.
    + intros Ht. apply stamped_id. assumption.
    + intros Ht. unfold stamped. rewrite Ht. reflexivity.
  - unfold serialize in Hs. rewrite E in Hs. discriminate.
Qed.


Lemma serialize_deserialize_roundtrip_witness :
  deserialize (skipn 4 (wire sample_time sample_private)) = sample_private.
Proof.
  assert (int_range (type sample_private)) as H1
    by (unfold int_range; change (type sample_private) with 11; lia).
  assert (serialize sample_time sample_private
          = Some (wire sample_time sample_private)) as H2 by reflexivity.
  assert (payload_size sample_time sample_private < 2^32) as H3
    by (vm_compute; reflexivity).
  destruct (serialize_deserialize_roundtrip _ _ _ H1 H2 H3) as [_ [H _]].
  apply H. discriminate.
Defined.

(** C4 as stated fails on a message with an empty time stamp: the
    decoded message carries the time of serialisation. *)
Lemma roundtrip_empty_timestamp_counterexample :
  deserialize (skipn 4 (wire sample_time (Message_of PING)))
  <> Message_of PING.
Proof. vm_compute. discriminate. Qed.

(** ** Reassembling fragments (C5) *)

(** More whole frames than the prefix holds: the first of them would
    be complete in what follows the frames the prefix does hold. *)
Lemma firstn_more {A} (l : list A) j j' :
  (j < j')%nat -> (j' <= List.length l)%nat ->
  exists x more, firstn j' l = firstn j l ++ x :: more /\ In x l.
Proof.
  intros Hlt Hle.
  assert (firstn j' l = firstn j l ++ skipn j (firstn j' l)) as E.
  { rewrite <- (firstn_skipn j (firstn j' l)) at 1.
    rewrite firstn_firstn, Nat.min_l by lia. reflexivity. }
  destruct (skipn j (firstn j' l)) as [|x more] eqn:Es.
  - apply (f_equal (@List.length A)) in Es.
    rewrite length_skipn, length_firstn in Es. cbn in Es. lia.
  - exists x, more. split; [exact E|].
    assert (In x (firstn j' l)) as Hin
      by (rewrite E; apply in_or_app; right; left; reflexivity).
    rewrite <- (firstn_skipn j' l). apply in_or_app. left. exact Hin.
Qed.

Lemma whole_frames_maximal payloads j j' s rest rest' :
  Forall (fun p => Z.of_nat (List.length p) <= MAX_MESSAGE_SIZE) payloads ->
  s = concat (map frame (firstn j payloads)) ++ rest ->
  hasCompleteMessage rest = false ->
  (j' <= List.length payloads)%nat ->
  s = concat (map frame (firstn j' payloads)) ++ rest' ->
  (j' <= j)%nat.
Proof.
  intros Hall E Hr Hle E'. destruct (le_lt_dec j' j) as [|Hlt]; [assumption|].
  exfalso. destruct (firstn_more payloads j j' Hlt Hle) as (p & more & Ef & Hin).
  rewrite E, Ef, map_app, concat_app in E'. cbn [map concat] in E'.
  rewrite <- !app_assoc in E'. apply app_inv_head in E'.
  assert (Z.of_nat (List.length p) <= MAX_MESSAGE_SIZE) as Hp.
  { rewrite List.Forall_forall in Hall. apply Hall. exact Hin. }
  rewrite E', (frame_complete p _ Hp) in Hr. discriminate.
Qed.

(** C5, as the code has it: for messages that fit in a frame (an [int]
    type, UTF-8 strings, a payload of at most 1 MiB), the frames cut at
    arbitrary places and appended in order give back the messages as
    [serialize] wrote them, in order, with an empty buffer at the end:
    each message itself when it carries a time stamp, the message
    stamped with the time of serialisation when it does not.  After
    any number of fragments the messages extracted are those of the
    first j frames, where j is the number of frames that lie wholly
    within the bytes appended so far: the bytes are these j frames
    followed by a rest that holds no complete message, and no larger
    number of frames fits in them. *)
Theorem fragments_reassemble (sent : list (tm * Message))
  (frags : list (list byte)) :
  Forall (fun x => sendable (fst x) (snd x) = true) sent ->
  concat frags = concat (map (fun x => wire (fst x) (snd x)) sent) ->
  let decoded := map (fun x => stamped (fst x) (snd x)) sent in
  let frames l := concat (map (fun x : tm * Message => wire (fst x) (snd x)) l) in
  feed [] frags = (decoded, []) /\
  (Forall (fun x => timestamp (snd x) <> EmptyString) sent ->
   decoded = map snd sent) /\
  forall k, exists j rest,
    feed [] (firstn k frags) = (firstn j decoded, rest) /\
    concat (firstn k frags) = frames (firstn j sent) ++ rest /\
    hasCompleteMessage rest = false /\
    (j <= List.length sent)%nat /\
    (forall j' rest',
       (j' <= List.length sent)%nat ->
       concat (firstn k frags) = frames (firstn j' sent) ++ rest' ->
       (j' <= j)%nat).
Proof.
  intros Hs Hc decoded frames.
  destruct (wire_payloads sent Hs) as (ps & Ew & Hl & Ed).
  assert (List.length ps = List.length sent) as Hlen.
  { apply (f_equal (@List.length _)) in Ew. rewrite !length_map in Ew.
    symmetry. exact Ew. }
  assert (forall n, frames (firstn n sent) = concat (map frame (firstn n ps)))
    as Hfr by (intros n; unfold frames; rewrite <- !firstn_map, Ew; reflexivity).
  split; [|split].
  - rewrite feed_extract_all by reflexivity. cbn [app].
    rewrite Hc, Ew. rewrite <- (app_nil_r (concat _)).
    rewrite (extract_all_frames ps [] Hl eq_refl), Ed. reflexivity.
  - intros Ht. unfold decoded. clear -Ht.
    induction Ht as [|[now m] l Hm Hrest IH]; cbn [map fst snd]; [reflexivity|].
    rewrite (stamped_id now m Hm), IH. reflexivity.
  - intros k. rewrite feed_extract_all by reflexivity. cbn [app].
    assert (concat (firstn k frags) ++ concat (skipn k frags)
            = concat (map frame ps)) as Hsplit.
    { rewrite <- concat_app, firstn_skipn, Hc, Ew. reflexivity. }
    destruct (stream_prefix ps _ _ Hl Hsplit) as (j0 & rest & E & Hr).
    set (j := Nat.min j0 (List.length ps)).
    assert (firstn j ps = firstn j0 ps) as Hj.
    { unfold j. destruct (Nat.min_spec j0 (List.length ps)) as [[_ ->]|[Hge ->]];
        [reflexivity|]. rewrite firstn_all, firstn_all2 by lia. reflexivity. }
    rewrite <- Hj in E.
    exists j, rest. split; [|split; [|split; [|split]]].
    + rewrite E at 1.
      rewrite (extract_all_frames (firstn j ps) rest); [| |exact Hr].
      * unfold decoded. rewrite <- firstn_map, Ed. reflexivity.
      * apply Forall_take. exact Hl.
    + rewrite Hfr. exact E.
    + exact Hr.
    + unfold j. lia.
    + intros j' rest' Hle E'. rewrite Hfr in E'.
      apply (whole_frames_maximal ps j j' _ rest rest' Hl E Hr); [lia|exact E'].
Qed.

Lemma fragments_reassemble_witness :
  feed [] sample_fragments = (map snd sample_sent, []) /\
  feed [] [wire sample_time (Message_of PING)]
  = ([set_timestamp (Message_of PING) (getCurrentTimestamp sample_time)], []).
Proof.
  assert (Forall (fun x => sendable (fst x) (snd x) = true) sample_sent)
    as H1 by (repeat constructor; vm_compute; reflexivity).
  assert (concat sample_fragments
          = concat (map (fun x => wire (fst x) (snd x)) sample_sent)) as H2
    by (vm_compute; reflexivity).
  assert (Forall (fun x => timestamp (snd x) <> EmptyString) sample_sent)
    as H3 by (repeat constructor; discriminate).
  assert (Forall (fun x => sendable (fst x) (snd x) = true)
            [(sample_time, Message_of PING)])
    as H4 by (repeat constructor; vm_compute; reflexivity).
  destruct (fragments_reassemble sample_sent sample_fragments H1 H2)
    as (Hall & Hsame & _).
  destruct (fragments_reassemble [(sample_time, Message_of PING)]
              [wire sample_time (Message_of PING)] H4 eq_refl) as (Hping & _).
  split; [rewrite Hall; f_equal; exact (Hsame H3) | exact Hping].
Defined.

(** C5 as stated fails on a message with an empty time stamp: what the
    buffer gives back carries the time of serialisation. *)
Lemma fragments_empty_timestamp_counterexample :
  fst (feed [] [wire sample_time (Message_of PING)]) <> [Message_of PING].
Proof. vm_compute. discriminate. Qed.

(** ** The reader never runs out of fuel *)

Local Abbreviation len := String.length.

Lemma skip_ws_length s : (len (skip_ws s) <= len s)%nat.
Proof.
  induction s as [|c r IH]; simpl; [lia|].
  destruct (is_ws c); simpl; lia.
Qed.

Lemma skip_ws_cons s c r : skip_ws s = String c r -> (S (len r) <= len s)%nat.
Proof. intros H. pose proof (skip_ws_length s) as L. rewrite H in L. exact L. Qed.

Lemma prepend_some pre res x r :
  prepend pre res = Some (x, r) ->
  exists body, res = Some (body, r).
Proof.
  destruct res as [[body rest]|]; simpl; [|discriminate].
  intros H. injection H as _ <-. exists body. reflexivity.
Qed.

Lemma lex_string_shorter s : forall st x r,
  lex_string st s = Some (x, r) -> (len r < len s)%nat.
Proof.
  remember (len s) as n eqn:Hn. revert s Hn.
  induction n as [n IH] using lt_wf_ind. intros s -> st x r H.
  destruct s as [|c s1]; [discriminate|].
  assert (forall st' s' x', (len s' < len (String c s1))%nat ->
            prepend x' (lex_string st' s') = Some (x, r) ->
            (len r < len (String c s1))%nat) as Hrec.
  { intros st' s' x' Hl Hp. apply prepend_some in Hp as [body Hb].
    pose proof (IH _ Hl s' eq_refl _ _ _ Hb). lia. }
  cbn [lex_string] in H.
  destruct (is_accept st).
  - destruct (code c =? 34)%N.
    { injection H as _ <-. simpl. lia. }
    destruct (code c =? 92)%N.
    { destruct s1 as [|e r1]; [discriminate|].
      destruct (code e =? 117)%N.
      - destruct r1 as [|h1 [|h2 [|h3 [|h4 r2]]]]; try discriminate.
        destruct (hex4 h1 h2 h3 h4) as [hi|]; [|discriminate].
        destruct (in_range 55296 56319 hi).
        + destruct r2 as [|b [|u [|g1 [|g2 [|g3 [|g4 r3]]]]]]; try discriminate.
          destruct ((code b =? 92) && (code u =? 117))%N; [|discriminate].
          destruct (hex4 g1 g2 g3 g4) as [lo|]; [|discriminate].
          destruct (in_range 56320 57343 lo); [|discriminate].
          eapply Hrec; [|exact H]. simpl. lia.
        + destruct (in_range 56320 57343 hi); [discriminate|].
          eapply Hrec; [|exact H]. simpl. lia.
      - destruct (simple_escape e); [|discriminate].
        eapply Hrec; [|exact H]. simpl. lia. }
    destruct (code c <? 32)%N; [discriminate|].
    destruct (utf8_step U_ACCEPT (code c)); [|discriminate].
    eapply Hrec; [|exact H]. simpl. lia.
  - destruct (utf8_step st (code c)); [|discriminate].
    eapply Hrec; [|exact H]. simpl. lia.
Qed.

Lemma span_digits_length s ds r :
  span_digits s = (ds, r) -> len s = (len ds + len r)%nat.
Proof.
  revert ds r. induction s as [|c s IH]; intros ds r H; simpl in H.
  - injection H as <- <-. reflexivity.
  - destruct (is_digit c).
    + destruct (span_digits s) as [ds' r'] eqn:E. injection H as <- <-.
      simpl. rewrite (IH _ _ eq_refl). reflexivity.
    + injection H as <- <-. reflexivity.
Qed.

Lemma lex_fraction_length s fs r :
  lex_fraction s = Some (fs, r) -> (len r <= len s)%nat.
Proof.
  destruct s as [|c s]; simpl; intros H.
  - injection H as _ <-. simpl. lia.
  - destruct (code c =? 46)%N.
    + destruct (span_digits s) as [ds r'] eqn:E.
      pose proof (span_digits_length _ _ _ E).
      destruct ds; [discriminate|]. injection H as _ <-. simpl. lia.
    + injection H as _ <-. simpl. lia.
Qed.

Lemma lex_exponent_length s es r :
  lex_exponent s = Some (es, r) -> (len r <= len s)%nat.
Proof.
  destruct s as [|c s]; simpl; intros H.
  - injection H as _ <-. simpl. lia.
  - destruct ((code c =? 101) || (code c =? 69))%N.
    + destruct s as [|g s'].
      * simpl in H. discriminate.
      * destruct ((code g =? 43) || (code g =? 45))%N.
        -- destruct (span_digits s') as [ds r'] eqn:E.
           pose proof (span_digits_length _ _ _ E).
           destruct ds; [discriminate|]. injection H as _ <-. simpl. lia.
        -- destruct (span_digits (String g s')) as [ds r'] eqn:E.
           pose proof (span_digits_length _ _ _ E) as L.
           destruct ds; [discriminate|]. injection H as _ <-. simpl in *. lia.
    + injection H as _ <-. simpl. lia.
Qed.

Lemma lex_unsigned_shorter neg s v r :
  lex_unsigned neg s = Some (v, r) -> (len r < len s)%nat.
Proof.
  unfold lex_unsigned. destruct (span_digits s) as [ds s2] eqn:E.
  pose proof (span_digits_length _ _ _ E) as L.
  destruct ds as [|dc more]; [discriminate|].
  destruct (_ && _); [discriminate|].
  destruct (lex_fraction s2) as [[fs s3]|] eqn:F; [|discriminate].
  destruct (lex_exponent s3) as [[es s4]|] eqn:X; [|discriminate].
  pose proof (lex_fraction_length _ _ _ F) as L1.
  pose proof (lex_exponent_length _ _ _ X) as L2.
  intros H. destruct (_ && _); injection H as _ <-; simpl in L; lia.
Qed.

Lemma lex_number_shorter s v r :
  lex_number s = Some (v, r) -> (len r < len s)%nat.
Proof.
  destruct s as [|c s]; [discriminate|]. cbn [lex_number].
  destruct (code c =? 45)%N; intros H; apply lex_unsigned_shorter in H; simpl in *; lia.
Qed.

Lemma string_drop_length n s : len (string_drop n s) = (len s - n)%nat.
Proof.
  revert s. induction n as [|n IH]; intros s; [simpl; lia|].
  destruct s as [|c s]; simpl; [lia|]. apply IH.
Qed.

Lemma starts_with_length p : forall s,
  starts_with p s = true -> (len p <= len s)%nat.
Proof.
  induction p as [|a p IH]; intros s H; [simpl; lia|].
  destruct s as [|b s]; [discriminate|]. simpl in H.
  apply andb_true_iff in H as [_ H]. apply IH in H. simpl. lia.
Qed.

Lemma fuel_ok_err {A} n : @fuel_ok A PErr n.
Proof. split; [discriminate | intros; discriminate]. Qed.

Lemma fuel_ok_ok {A} (v : A) r n : (len r < n)%nat -> fuel_ok (POk v r) n.
Proof. intros H. split; [discriminate|]. intros ? ? E. injection E as _ <-. exact H. Qed.

Lemma fuel_ok_weaken {A} (res : presult A) n m :
  fuel_ok res n -> (n <= m)%nat -> fuel_ok res m.
Proof. intros [H1 H2] L. split; [exact H1|]. intros v r E. specialize (H2 v r E). lia. Qed.

Lemma parse_fuel f :
  (forall s, (2 * len s < f)%nat -> fuel_ok (parse_value f s) (len s)) /\
  (forall acc s, (2 * len s + 1 < f)%nat ->
     fuel_ok (parse_elements f acc s) (len s)) /\
  (forall acc s, (2 * len s + 1 < f)%nat ->
     fuel_ok (parse_members f acc s) (len s)).
Proof.
  induction f as [|f (IHv & IHe & IHm)].
  { repeat split; intros; lia. }
  split; [|split].
  - intros s Hs. cbn [parse_value].
    destruct (skip_ws s) as [|c r] eqn:Ews; [apply fuel_ok_err|].
    pose proof (skip_ws_cons _ _ _ Ews) as Lr.
    destruct (code c =? 123)%N.
    { destruct (skip_ws r) as [|c1 r1] eqn:Ews1; [apply fuel_ok_err|].
      pose proof (skip_ws_cons _ _ _ Ews1) as Lr1.
      destruct (code c1 =? 125)%N; [apply fuel_ok_ok; lia|].
      eapply fuel_ok_weaken; [apply IHm; simpl; lia | simpl; lia]. }
    destruct (code c =? 91)%N.
    { destruct (skip_ws r) as [|c1 r1] eqn:Ews1; [apply fuel_ok_err|].
      pose proof (skip_ws_cons _ _ _ Ews1) as Lr1.
      destruct (code c1 =? 93)%N; [apply fuel_ok_ok; lia|].
      eapply fuel_ok_weaken; [apply IHe; simpl; lia | simpl; lia]. }
    destruct (code c =? 34)%N.
    { destruct (lex_string U_ACCEPT r) as [[str rest]|] eqn:El; [|apply fuel_ok_err].
      apply lex_string_shorter in El. apply fuel_ok_ok. lia. }
    destruct (starts_with "true" (String c r)) eqn:E1.
    { apply fuel_ok_ok. apply starts_with_length in E1.
      rewrite string_drop_length. simpl in *. lia. }
    destruct (starts_with "false" (String c r)) eqn:E2.
    { apply fuel_ok_ok. apply starts_with_length in E2.
      rewrite string_drop_length. simpl in *. lia. }
    destruct (starts_with "null" (String c r)) eqn:E3.
    { apply fuel_ok_ok. apply starts_with_length in E3.
      rewrite string_drop_length. simpl in *. lia. }
    destruct (lex_number (String c r)) as [[v rest]|] eqn:En; [|apply fuel_ok_err].
    apply lex_number_shorter in En. apply fuel_ok_ok. simpl in *. lia.
  - intros acc s Hs. cbn [parse_elements].
    destruct (IHv s ltac:(lia)) as [Hf Hl].
    destruct (parse_value f s) as [v rest| |] eqn:Ev;
      [|apply fuel_ok_err|contradiction].
    specialize (Hl v rest eq_refl).
    destruct (skip_ws rest) as [|c r] eqn:Ews; [apply fuel_ok_err|].
    pose proof (skip_ws_cons _ _ _ Ews) as Lr.
    destruct (code c =? 44)%N.
    { eapply fuel_ok_weaken; [apply IHe; lia | lia]. }
    destruct (code c =? 93)%N; [apply fuel_ok_ok; lia | apply fuel_ok_err].
  - intros acc s Hs. cbn [parse_members].
    destruct (skip_ws s) as [|q r] eqn:Ews; [apply fuel_ok_err|].
    pose proof (skip_ws_cons _ _ _ Ews) as Lr.
    destruct (code q =? 34)%N; [|apply fuel_ok_err].
    destruct (lex_string U_ACCEPT r) as [[k rest]|] eqn:El; [|apply fuel_ok_err].
    apply lex_string_shorter in El.
    destruct (skip_ws rest) as [|c r1] eqn:Ews1; [apply fuel_ok_err|].
    pose proof (skip_ws_cons _ _ _ Ews1) as Lr1.
    destruct (code c =? 58)%N; [|apply fuel_ok_err].
    destruct (IHv r1 ltac:(lia)) as [Hf Hl].
    destruct (parse_value f r1) as [v rest1| |] eqn:Ev;
      [|apply fuel_ok_err|contradiction].
    specialize (Hl v rest1 eq_refl).
    destruct (skip_ws rest1) as [|c2 r2] eqn:Ews2; [apply fuel_ok_err|].
    pose proof (skip_ws_cons _ _ _ Ews2) as Lr2.
    destruct (code c2 =? 44)%N.
    { eapply fuel_ok_weaken; [apply IHm; lia | lia]. }
    destruct (code c2 =? 125)%N; [apply fuel_ok_ok; lia | apply fuel_ok_err].
Qed.

(** [json_parse] gives its reader enough fuel. *)
Lemma json_parse_fuel s : parse_value (S (2 * len s)) s <> PFuel.
Proof. destruct (parse_fuel (S (2 * len s))) as [H _]. apply H. lia. Qed.

(** ** Decoding never fails (C9) *)

Lemma starts_with_append p s : starts_with p (p +:+ s) = true.
Proof.
  induction p as [|a p IH]; simpl; [reflexivity|].
  rewrite Ascii.eqb_refl, IH. reflexivity.
Qed.

Lemma parse_failure_shape e msg :
  type (parse_failure e msg) = ERROR /\
  starts_with "Parse error: " (content (parse_failure e msg)) = true.
Proof.
  unfold parse_failure. split; [reflexivity|].
  cbn [content set_content]. apply starts_with_append.
Qed.

Lemma value_string_field members key :
  (forall v, obj_find key members = Some v -> exists s, v = JString s) ->
  value (JObject members) key "" = inr (string_field members key).
Proof.
  intros H. unfold value, string_field.
  destruct (obj_find key members) as [v|]; [|reflexivity].
  destruct (H v eq_refl) as [s ->]. reflexivity.
Qed.

(** C9: [deserialize] returns a message for every input (the reader
    under it never runs out of fuel); a payload that is not JSON, or
    whose [type] member is missing or is not an integer, gives an ERROR
    message whose content starts with "Parse error: "; and for a payload
    with an integer [type] whose string members, where present, are
    strings, every field is the member's value, or empty when the member
    is absent. *)
Theorem deserialize_total (data : list byte) :
  let payload := string_of_list_byte data in
  let msg := deserialize data in
  parse_value (S (2 * String.length payload)) payload <> PFuel /\
  (forall e, json_parse payload = inl e ->
     type msg = ERROR /\ starts_with "Parse error: " (content msg) = true) /\
  (forall j, json_parse payload = inr j ->
     (forall z, at_key j "type" <> inr (JInt z)) ->
     type msg = ERROR /\ starts_with "Parse error: " (content msg) = true) /\
  (forall members z,
     json_parse payload = inr (JObject members) ->
     obj_find "type" members = Some (JInt z) ->
     strings_or_absent members ->
     msg = mkMessage (wrap_int z)
             (string_field members "sender")
             (string_field members "receiver")
             (string_field members "content")
             (string_field members "timestamp")
             (string_field members "extra")).
Proof.
  cbv zeta. split; [apply json_parse_fuel|]. split; [|split].
  - intros e H. unfold deserialize. rewrite H. apply parse_failure_shape.
  - intros j H Ht. unfold deserialize. rewrite H.
    destruct (at_key j "type") as [e|tv] eqn:Ea; [apply parse_failure_shape|].
    destruct tv; try apply parse_failure_shape.
    exfalso. exact (Ht _ eq_refl).
  - intros members z H Ht Hs. unfold deserialize. rewrite H.
    cbn [at_key]. rewrite Ht. cbn [get_int].
    rewrite !value_string_field
      by (intros v Hv; eapply Hs; [|exact Hv]; simpl; tauto).
    reflexivity.
Qed.

(** A PONG with the type alone, and an empty object. *)
Lemma deserialize_total_witness :
  deserialize (list_byte_of_string ("{" +:+ quoted "type" +:+ ":201}"))
  = Message_of PONG /\
  type (deserialize (list_byte_of_string "{}")) = ERROR.
Proof.
  split.
  - destruct (deserialize_total
                (list_byte_of_string ("{" +:+ quoted "type" +:+ ":201}")))
      as (_ & _ & _ & H).
    apply (H [("type"%string, JInt 201)] 201).
    + vm_compute. reflexivity.
    + reflexivity.
    + intros key v Hk Hv. cbn in Hv.
      destruct Hk as [<-|[<-|[<-|[<-|[<-|[]]]]]]; discriminate.
  - destruct (deserialize_total (list_byte_of_string "{}")) as (_ & _ & H & _).
    apply (H (JObject [])).
    + vm_compute. reflexivity.
    + intros z. discriminate.
Defined.

(** ** The account store (C8) *)

Lemma code_hex_digit n : (n < 16)%N -> code (hex_digit n) <> 0%N.
Proof.
  intros H. unfold hex_digit, code.
  destruct (n <? 10)%N; rewrite N_ascii_embedding by lia; lia.
Qed.

Lemma code_nibble h i : code (nibble h i) <> 0%N.
Proof.
  unfold nibble. apply code_hex_digit.
  assert (0 <= Z.land (Z.shiftr h (4 * i)) 15 < 16).
  { change 15 with (Z.ones 4). rewrite Z.land_ones by lia.
    apply Z.mod_pos_bound. lia. }
  lia.
Qed.

Lemma c_str_nonzero l :
  Forall (fun c => code c <> 0%N) l ->
  c_str (string_of_list_ascii l) = string_of_list_ascii l.
Proof.
  induction 1 as [|c l Hc _ IH]; simpl; [reflexivity|].
  destruct (N.eqb_spec (code c) 0); [contradiction|]. rewrite IH. reflexivity.
Qed.

Lemma c_str_hex16 h : c_str (hex16 h) = hex16 h.
Proof.
  unfold hex16. apply c_str_nonzero.
  repeat constructor; apply code_nibble.
Qed.

Lemma find_none_of_count db u :
  count_user db u = 0 -> List.find (matches u) (users db) = None.
Proof.
  unfold count_user. intros H.
  induction (users db) as [|r l IH]; simpl in *; [reflexivity|].
  destruct (matches u r); simpl in H; [lia | apply IH; exact H].
Qed.

Lemma find_app_none {A} (f : A -> bool) l1 l2 :
  List.find f l1 = None -> List.find f (l1 ++ l2) = List.find f l2.
Proof.
  induction l1 as [|x l IH]; simpl; [reflexivity|].
  destruct (f x); [discriminate | exact IH].
Qed.

Section Store.
Variable std_hash : string -> Z.

(** What a successful registration leaves in the table. *)
Lemma registerUser_success ts db u p d db' :
  Database.registerUser std_hash ts db u p d = (true, db') ->
  initialized_ db' = true /\
  exists row, select_user db' u = Some row /\
    u_password row = hashPassword std_hash p /\
    u_role row = 0 /\ u_is_banned row = false /\ u_is_muted row = false.
Proof.
  unfold Database.registerUser. destruct (initialized_ db) eqn:Ei; [|discriminate].
  cbn [negb]. destruct (count_user db u >? 0) eqn:Ec; [discriminate|].
  intros H. apply (f_equal snd) in H. cbn [snd] in H. subst db'.
  cbn [initialized_]. split; [reflexivity|].
  assert (count_user db u = 0) as Hz.
  { rewrite Z.gtb_ltb in Ec. apply Z.ltb_ge in Ec. unfold count_user in *. lia. }
  unfold select_user. cbn [users].
  rewrite (find_app_none _ _ _ (find_none_of_count _ _ Hz)).
  cbn [List.find]. unfold matches at 1. cbn [u_username].
  rewrite String.eqb_refl. eexists. split; [reflexivity|].
  cbn [u_password u_role u_is_banned u_is_muted].
  unfold hashPassword. rewrite c_str_hex16. repeat split.
Qed.

Lemma authenticateUser_spec db u p :
  authenticateUser std_hash db u p = true <->
  initialized_ db = true /\
  exists row, select_user db u = Some row /\
    u_password row = hashPassword std_hash p.
Proof.
  unfold authenticateUser. destruct (initialized_ db); cbn [negb].
  - destruct (select_user db u) as [row|].
    + split.
      * intros H. apply String.eqb_eq in H. split; [reflexivity|].
        exists row. split; [reflexivity | symmetry; exact H].
      * intros [_ (row' & E & Hp)]. injection E as <-.
        apply String.eqb_eq. symmetry. exact Hp.
    + split; [discriminate|]. intros [_ (row & E & _)]. discriminate.
  - split; [discriminate | intros [H _]; discriminate].
Qed.

(** C8, as the code has it: after a successful registration the same
    password authenticates; a password whose salted hash differs from
    the registered one does not; and [authenticateUser] is true exactly
    when the store is open, the user has a row, and the hash of the
    password is the stored one. *)
Theorem register_then_authenticate ts db u p d db' :
  Database.registerUser std_hash ts db u p d = (true, db') ->
  authenticateUser std_hash db' u p = true /\
  (forall p', hashPassword std_hash p' <> hashPassword std_hash p ->
     authenticateUser std_hash db' u p' = false) /\
  (forall db0 u0 p0,
     authenticateUser std_hash db0 u0 p0 = true <->
     initialized_ db0 = true /\
     exists row, select_user db0 u0 = Some row /\
       u_password row = hashPassword std_hash p0).
Proof.
  intros H. destruct (registerUser_success _ _ _ _ _ _ H) as (Hi & row & Hs & Hp & _).
  split; [|split].
  - apply authenticateUser_spec. split; [exact Hi|]. exists row. split; assumption.
  - intros p' Hne. destruct (authenticateUser std_hash db' u p') eqn:E; [|reflexivity].
    apply authenticateUser_spec in E as [_ (row' & Hs' & Hp')].
    rewrite Hs in Hs'. injection Hs' as <-. congruence.
  - intros. apply authenticateUser_spec.
Qed.

End Store.

Lemma register_then_authenticate_witness :
  let db' := snd (Database.registerUser Samples.fnv1a "2024-01-01 00:00:00"
                    empty_store "alice" "pw12" "") in
  authenticateUser Samples.fnv1a db' "alice" "pw12" = true /\
  authenticateUser Samples.fnv1a db' "alice" "pw13" = false.
Proof.
  cbv zeta.
  set (db' := snd (Database.registerUser Samples.fnv1a "2024-01-01 00:00:00"
                     empty_store "alice" "pw12" "")).
  assert (Database.registerUser Samples.fnv1a "2024-01-01 00:00:00"
            empty_store "alice" "pw12" "" = (true, db')) as H
    by (vm_compute; reflexivity).
  destruct (register_then_authenticate Samples.fnv1a _ _ _ _ _ _ H)
    as (Hsame & Hother & _).
  split; [exact Hsame|]. apply Hother. vm_compute. discriminate.
Defined.

Lemma long_password_length k : String.length (long_password k) = (4 + k)%nat.
Proof. induction k as [|k IH]; simpl; [reflexivity | rewrite IH; lia]. Qed.

(** Whatever [std::hash] is, two different passwords have the same
    64-bit salted hash. *)
Lemma hashPassword_collision (std_hash : string -> Z) :
  exists p p', p <> p' /\ hashPassword std_hash p = hashPassword std_hash p'.
Proof.
  set (n := Z.to_nat (2^64)).
  assert (Z.of_nat n = 2^64) as Hn by (subst n; rewrite Z2Nat.id; lia).
  clearbody n.
  destruct (nat_pigeonhole
              (fun k => Z.to_nat (std_hash (long_password k +:+ salt) mod 2^64))
              (S n) n) as (i & j & Hij & E).
  - lia.
  - intros k _. pose proof (Z.mod_pos_bound (std_hash (long_password k +:+ salt)) (2^64)). lia.
  - exists (long_password i), (long_password j). split.
    + intros Heq. apply (f_equal String.length) in Heq.
      rewrite !long_password_length in Heq. lia.
    + unfold hashPassword. f_equal.
      pose proof (Z.mod_pos_bound (std_hash (long_password i +:+ salt)) (2^64)).
      pose proof (Z.mod_pos_bound (std_hash (long_password j +:+ salt)) (2^64)).
      lia.
Qed.

(** C8 as stated asks that no other password authenticates; no hash
    function into 64 bits can give that. *)
Lemma authenticate_collision_counterexample :
  ~ exists std_hash : string -> Z,
      forall ts db u p p' db',
        Database.registerUser std_hash ts db u p "" = (true, db') ->
        p' <> p ->
        authenticateUser std_hash db' u p' = false.
Proof.
  intros [std_hash H].
  destruct (hashPassword_collision std_hash) as (p & p' & Hne & Hh).
  destruct (Database.registerUser std_hash "" empty_store "alice" p "")
    as [ok db'] eqn:E.
  assert (ok = true) as ->.
  { unfold Database.registerUser in E. cbn [empty_store initialized_ negb] in E.
    change (count_user empty_store "alice" >? 0) with false in E.
    cbv iota in E. congruence. }
  pose proof (H _ _ _ _ p' _ E (fun e => Hne (eq_sym e))) as Hf.
  destruct (registerUser_success std_hash _ _ _ _ _ _ E)
    as (Hi & row & Hs & Hp & _).
  assert (authenticateUser std_hash db' "alice" p' = true) as Ht'.
  { apply authenticateUser_spec. split; [exact Hi|].
    exists row. split; [exact Hs | congruence]. }
  congruence.
Qed.

(** ** Flags of an account *)

Lemma find_map_keep (g : UserRow -> UserRow) u l :
  (forall r, matches u (g r) = matches u r) ->
  List.find (matches u) (map g l) = option_map g (List.find (matches u) l).
Proof.
  intros Hg. induction l as [|r l IH]; cbn [map List.find]; [reflexivity|].
  rewrite Hg. destruct (matches u r); [reflexivity | exact IH].
Qed.

Lemma select_update f db u u' :
  (forall r, u_username (f r) = u_username r) ->
  select_user (fst (update_user f db u)) u'
  = option_map (fun r => if matches u r then f r else r) (select_user db u').
Proof.
  intros Hf. unfold select_user, update_user. cbn [fst users with_users].
  apply find_map_keep. intros r. unfold matches at 1 3.
  destruct (matches u r); [rewrite Hf|]; reflexivity.
Qed.

Lemma select_of_count db u :
  0 < count_user db u ->
  exists row, select_user db u = Some row /\ matches u row = true.
Proof.
  unfold count_user, select_user. induction (users db) as [|r l IH];
    cbn [List.filter List.find List.length]; [cbn; lia|].
  destruct (matches u r) eqn:E; [eauto|exact IH].
Qed.

Lemma flag_updated (f : UserRow -> UserRow) (flag : UserRow -> bool) b db u :
  (forall r, u_username (f r) = u_username r) ->
  (forall r, flag (f r) = b) ->
  0 < count_user db u ->
  option_map flag (select_user (fst (update_user f db u)) u) = Some b.
Proof.
  intros Hf Hb Hc. rewrite (select_update f db u u Hf).
  destruct (select_of_count db u Hc) as (row & Hsel & Hrow).
  rewrite Hsel. cbn [option_map]. rewrite Hrow, Hb. reflexivity.
Qed.

(** X7: the four commands on the flags of an account, when they report
    a change, leave the flag as asked: [isBanned] is true after
    [banUser] and false after [unbanUser], [isMuted] is true after
    [muteUser] and false after [unmuteUser]. *)
Theorem flags_follow_commands ts db u :
  (forall db', banUser ts db u = (true, db') -> isBanned db' u = true) /\
  (forall db', unbanUser ts db u = (true, db') -> isBanned db' u = false) /\
  (forall db', muteUser ts db u = (true, db') -> isMuted db' u = true) /\
  (forall db', unmuteUser ts db u = (true, db') -> isMuted db' u = false).
Proof.
  assert (forall (f : UserRow -> UserRow) (flag : UserRow -> bool) b db',
            (forall r, u_username (f r) = u_username r) ->
            (forall r, flag (f r) = b) ->
            (if negb (initialized_ db) then (false, db)
             else let (d, changes) := update_user f db u in (changes >? 0, d))
            = (true, db') ->
            (if negb (initialized_ db') then false
             else match select_user db' u with
                  | Some row => flag row
                  | None => false
                  end) = b) as H.
  { intros f flag b db' Hf Hb. destruct (initialized_ db) eqn:Ei;
      cbn [negb]; [|discriminate].
    destruct (update_user f db u) as [d changes] eqn:Eu. intros E.
    injection E as Hc <-. rewrite Z.gtb_ltb in Hc. apply Z.ltb_lt in Hc.
    assert (changes = count_user db u) as -> by (unfold update_user in Eu; congruence).
    pose proof (flag_updated f flag b db u Hf Hb Hc) as Hsel.
    rewrite Eu in Hsel. cbn [fst] in Hsel.
    assert (initialized_ d = true) as ->.
    { assert (d = fst (update_user f db u)) as -> by (rewrite Eu; reflexivity).
      exact Ei. }
    cbn [negb]. destruct (select_user d u); cbn in Hsel; congruence. }
  repeat split; intros db' E.
  - apply (H (set_banned true ts) u_is_banned true db'); auto.
  - apply (H (set_banned false ts) u_is_banned false db'); auto.
  - apply (H (set_muted true ts) u_is_muted true db'); auto.
  - apply (H (set_muted false ts) u_is_muted false db'); auto.
Qed.

Lemma flags_follow_commands_witness :
  isBanned (snd (banUser "2024-01-01 00:00:01" (Server.db Samples.world_alice) "bob"))
    "bob" = true.
Proof.
  destruct (flags_follow_commands "2024-01-01 00:00:01"
              (Server.db Samples.world_alice) "bob") as (H & _).
  apply H. vm_compute. reflexivity.
Defined.

(** ** Replies can be serialised *)

Lemma escape_total s : forall st,
  utf8_from st s = true -> exists body, escape st s = Some body.
Proof.
  induction s as [|c r IH]; intros st H; simpl in *.
  - rewrite H. eexists. reflexivity.
  - destruct (utf8_step st (code c)) as [st'|]; [|discriminate].
    destruct (IH _ H) as [body ->]. eexists. reflexivity.
Qed.

Lemma dump_string_total s :
  valid_utf8 s = true -> exists text, dump_string s = Some text.
Proof.
  intros H. unfold dump_string. destruct (escape_total _ _ H) as [body ->].
  eexists. reflexivity.
Qed.

Lemma ascii_only_valid s : ascii_only s = true -> valid_utf8 s = true.
Proof.
  unfold valid_utf8. induction s as [|c r IH]; simpl; [reflexivity|].
  intros H. apply andb_true_iff in H as [Hc Hr]. rewrite Hc. apply IH, Hr.
Qed.

Lemma ascii_only_app a b :
  ascii_only (a +:+ b) = ascii_only a && ascii_only b.
Proof.
  induction a as [|c a IH]; simpl; [reflexivity|]. rewrite IH, andb_assoc. reflexivity.
Qed.

Lemma ascii_only_uint d : ascii_only (NilEmpty.string_of_uint d) = true.
Proof. induction d; simpl; try rewrite IHd; reflexivity. Qed.

Lemma ascii_only_dump_int z : ascii_only (dump_int z) = true.
Proof.
  unfold dump_int, NilZero.string_of_int, NilZero.string_of_uint.
  destruct (Z.to_int z) as [d|d]; destruct d; try reflexivity;
    try apply ascii_only_uint;
    change (ascii_only (String "-" ?x)) with (ascii_only x);
    simpl; try rewrite ascii_only_uint; reflexivity.
Qed.

Lemma ascii_only_pad2 n : ascii_only (pad2 n) = true.
Proof.
  unfold pad2. destruct (_ && _); [simpl|]; apply ascii_only_dump_int.
Qed.

Lemma valid_timestamp now : valid_utf8 (getCurrentTimestamp now) = true.
Proof.
  apply ascii_only_valid. unfold getCurrentTimestamp.
  rewrite !ascii_only_app, !ascii_only_pad2. reflexivity.
Qed.

(** A message whose strings are UTF-8 is serialised. *)
Lemma serialize_total now m :
  valid_utf8 (sender m) = true -> valid_utf8 (receiver m) = true ->
  valid_utf8 (content m) = true -> valid_utf8 (timestamp m) = true ->
  valid_utf8 (extra m) = true ->
  exists bytes, serialize now m = Some bytes.
Proof.
  intros Hs Hr Hc Ht He. unfold serialize, message_json. simpl obj_set.
  assert (valid_utf8 (if String.eqb (timestamp m) "" then getCurrentTimestamp now
                      else timestamp m) = true) as Ht'.
  { destruct (String.eqb _ _); [apply valid_timestamp | exact Ht]. }
  simpl dump.
  destruct (dump_string_total _ Hs) as [? ->].
  destruct (dump_string_total _ Hr) as [? ->].
  destruct (dump_string_total _ Hc) as [? ->].
  destruct (dump_string_total _ Ht') as [? ->].
  destruct (dump_string_total _ He) as [? ->].
  eexists. reflexivity.
Qed.

Lemma serialize_error now text :
  valid_utf8 text = true ->
  exists bytes, serialize now (createErrorResponse now text) = Some bytes.
Proof.
  intros H. apply serialize_total; try reflexivity; [exact H|].
  apply valid_timestamp.
Qed.

(** ** Running the handlers *)

(** One step of a computation. *)
Lemma bind_ret {A B} (a : A) (k : A -> M B) w : bind (ret a) k w = k a w.
Proof. reflexivity. Qed.

Lemma bind_gets {A B} (f : World -> A) (k : A -> M B) w :
  bind (gets f) k w = k (f w) w.
Proof. reflexivity. Qed.

Lemma bind_query {A B} (f : Database -> A) (k : A -> M B) w :
  bind (query f) k w = k (f (db w)) w.
Proof. reflexivity. Qed.

Lemma bind_authenticated {B} fd (k : bool -> M B) w :
  bind (authenticated fd) k w = k (authenticated_ (this fd w)) w.
Proof. reflexivity. Qed.

Lemma bind_getUsername {B} fd (k : string -> M B) w :
  bind (getUsername fd) k w = k (username_ (this fd w)) w.
Proof. reflexivity. Qed.

Lemma bind_isUserOnline {B} u (k : bool -> M B) w :
  bind (isUserOnline u) k w
  = k (bool_decide (is_Some (userToSocket_ w !! u))) w.
Proof. reflexivity. Qed.

Lemma bind_lift_inr {A B} (a : A) (k : A -> M B) w :
  bind (lift (inr a)) k w = k a w.
Proof. reflexivity. Qed.

Lemma bind_lift_inl {A B} e (k : A -> M B) w :
  bind (lift (inl e)) k w = (w, inl e).
Proof. reflexivity. Qed.

Lemma bind_command {B} (f : Database -> bool * Database) (k : bool -> M B) w :
  bind (command f) k w = k (fst (f (db w))) (with_db w (snd (f (db w)))).
Proof. unfold bind, command. destruct (f (db w)). reflexivity. Qed.

Lemma bind_checkRateLimit {B} env fd (k : bool -> M B) w :
  bind (session_checkRateLimit env fd) k w
  = let r := checkRateLimit (steady_now env)
               (rateLimitWindowStart_ (this fd w))
               (rateLimitMessageCount_ (this fd w)) in
    k (fst r)
      (with_clients w
         (alter (fun s => with_rate s (fst (snd r)) (snd (snd r))) fd
            (clients_ w))).
Proof.
  unfold bind, session_checkRateLimit. cbv zeta.
  destruct (checkRateLimit _ _ _) as [ok [start count]]. reflexivity.
Qed.

Ltac run :=
  repeat first
    [ rewrite bind_authenticated | rewrite bind_getUsername
    | rewrite bind_query | rewrite bind_gets | rewrite bind_isUserOnline
    | rewrite bind_lift_inr | rewrite bind_lift_inl | rewrite bind_ret
    | rewrite bind_command ].

(** A field that [sendMessage] does not touch, after it. *)
Ltac sent_cases :=
  unfold sent_to; destruct (send_accepts _ _ _); reflexivity.

Section Run.
Variable std_hash : string -> Z.
Variable env : Env.
Variable fd : Z.
Variable w : World.
Variable s : ClientSession.
Hypothesis Hs : clients_ w !! fd = Some s.

Lemma this_here : this fd w = s.
Proof. unfold this. rewrite Hs. reflexivity. Qed.

Lemma send_ok msg bytes :
  active_ s = true -> 0 <= socketFd_ s ->
  serialize (local_time env) msg = Some bytes ->
  send env fd msg w = (replied env fd s msg w, inr tt).
Proof.
  intros Ha Hf Hb. unfold send, bind, sendMessage, session_send.
  rewrite Hs, Ha, Hb. cbn [negb orb].
  assert ((socketFd_ s <? 0) = false) as -> by (apply Z.ltb_ge; lia).
  unfold replied, sent_to. destruct (send_accepts _ _ _); reflexivity.
Qed.

Lemma send_error_ok text :
  active_ s = true -> 0 <= socketFd_ s -> valid_utf8 text = true ->
  send env fd (createErrorResponse (local_time env) text) w
  = (replied env fd s (createErrorResponse (local_time env) text) w, inr tt).
Proof.
  intros Ha Hf Hv. destruct (serialize_error (local_time env) text Hv) as [b Hb].
  exact (send_ok _ _ Ha Hf Hb).
Qed.

Lemma try_catch_ok {A} (c : M A) h w0 w' a :
  c w0 = (w', inr a) -> try_catch c h w0 = (w', inr a).
Proof. unfold try_catch. intros ->. reflexivity. Qed.

Lemma dispatch_global msg :
  type msg = MSG_GLOBAL -> dispatch std_hash env fd msg = handleGlobalMessage env fd msg.
Proof. unfold dispatch. intros ->. reflexivity. Qed.

Lemma dispatch_private msg :
  type msg = MSG_PRIVATE -> dispatch std_hash env fd msg = handlePrivateMessage env fd msg.
Proof. unfold dispatch. intros ->. reflexivity. Qed.

Lemma dispatch_login msg :
  type msg = LOGIN -> dispatch std_hash env fd msg = handleLogin std_hash env fd msg.
Proof. unfold dispatch. intros ->. reflexivity. Qed.

Lemma replied_db msg : db (replied env fd s msg w) = db w.
Proof. reflexivity. Qed.

Lemma replied_users msg : userToSocket_ (replied env fd s msg w) = userToSocket_ w.
Proof. reflexivity. Qed.

Lemma replied_other msg fd' :
  fd' <> fd -> clients_ (replied env fd s msg w) !! fd' = clients_ w !! fd'.
Proof. intros H. unfold replied. cbn [clients_ with_clients]. apply lookup_insert_ne. congruence. Qed.

Lemma replied_this msg :
  clients_ (replied env fd s msg w) !! fd = Some (sent_to env s msg).
Proof. unfold replied. cbn [clients_ with_clients]. apply lookup_insert_eq. Qed.

Lemma muted_global msg :
  authenticated_ s = true -> active_ s = true -> 0 <= socketFd_ s ->
  Database.isMuted (db w) (username_ s) = true ->
  handleGlobalMessage env fd msg w
  = (replied env fd s (createErrorResponse (local_time env)
                     "You are muted and cannot send messages") w, inr tt).
Proof.
  intros Hauth Ha Hf Hm.
  unfold handleGlobalMessage. run. rewrite this_here, Hauth. cbn [negb].
  run. rewrite this_here, Hm. apply send_error_ok; auto.
Qed.

Lemma muted_private msg :
  authenticated_ s = true -> active_ s = true -> 0 <= socketFd_ s ->
  Database.isMuted (db w) (username_ s) = true ->
  handlePrivateMessage env fd msg w
  = (replied env fd s (createErrorResponse (local_time env)
                     "You are muted and cannot send messages") w, inr tt).
Proof.
  intros Hauth Ha Hf Hm.
  unfold handlePrivateMessage. run. rewrite this_here, Hauth. cbn [negb].
  run. rewrite this_here, Hm. apply send_error_ok; auto.
Qed.

Lemma alter_here (f : ClientSession -> ClientSession) :
  alter f fd (clients_ w) = <[fd := f s]> (clients_ w).
Proof.
  apply map_eq. intros k. destruct (decide (k = fd)) as [->|Hne].
  - rewrite lookup_alter_eq, lookup_insert_eq, Hs. reflexivity.
  - rewrite lookup_alter_ne, lookup_insert_ne by congruence. reflexivity.
Qed.

Lemma empty_global msg :
  authenticated_ s = true ->
  Database.isMuted (db w) (username_ s) = false ->
  fst (checkRateLimit (steady_now env) (rateLimitWindowStart_ s)
         (rateLimitMessageCount_ s)) = true ->
  content msg = EmptyString ->
  handleGlobalMessage env fd msg w = (counted env fd w s, inr tt).
Proof.
  intros Hauth Hm Hr Hc.
  unfold handleGlobalMessage. run. rewrite this_here, Hauth. cbn [negb].
  run. rewrite this_here, Hm. rewrite bind_checkRateLimit. cbv zeta.
  rewrite this_here, Hr. cbn [negb]. rewrite Hc. cbn [String.eqb].
  unfold ret, counted, window_after. rewrite alter_here. reflexivity.
Qed.

Lemma empty_private msg :
  authenticated_ s = true ->
  Database.isMuted (db w) (username_ s) = false ->
  fst (checkRateLimit (steady_now env) (rateLimitWindowStart_ s)
         (rateLimitMessageCount_ s)) = true ->
  content msg = EmptyString -> receiver msg <> EmptyString ->
  handlePrivateMessage env fd msg w = (counted env fd w s, inr tt).
Proof.
  intros Hauth Hm Hr Hc Hrcv.
  unfold handlePrivateMessage. run. rewrite this_here, Hauth. cbn [negb].
  run. rewrite this_here, Hm. rewrite bind_checkRateLimit. cbv zeta.
  rewrite this_here, Hr. cbn [negb]. rewrite Hc.
  destruct (String.eqb_spec (receiver msg) ""); [contradiction|].
  cbn [String.eqb].
  unfold ret, counted, window_after. rewrite alter_here. reflexivity.
Qed.

Lemma invalid_request_format_ok :
  active_ s = true -> 0 <= socketFd_ s ->
  invalid_request_format env fd w
  = (replied env fd s (createErrorResponse (local_time env)
                     "Invalid request format") w, inr tt).
Proof.
  intros Ha Hf. unfold invalid_request_format, ignore_exceptions.
  apply try_catch_ok. apply send_error_ok; auto.
Qed.

(** The four rejections of a LOGIN request and the one of a request
    that cannot be read. *)
Lemma login_already msg :
  active_ s = true -> 0 <= socketFd_ s -> authenticated_ s = true ->
  handleLogin std_hash env fd msg w
  = (replied env fd s (createErrorResponse (local_time env) "Already logged in") w,
     inr tt).
Proof.
  intros Ha Hf Hauth. unfold handleLogin. run. rewrite this_here, Hauth.
  apply send_error_ok; auto.
Qed.

Lemma login_unreadable msg e :
  active_ s = true -> 0 <= socketFd_ s -> authenticated_ s = false ->
  credentials (content msg) = inl e ->
  handleLogin std_hash env fd msg w
  = (replied env fd s (createErrorResponse (local_time env)
                     "Invalid request format") w, inr tt).
Proof.
  intros Ha Hf Hauth Hc. unfold handleLogin. run. rewrite this_here, Hauth.
  unfold try_catch. rewrite Hc. run. apply invalid_request_format_ok; auto.
Qed.

Lemma login_duplicate msg u p :
  active_ s = true -> 0 <= socketFd_ s -> authenticated_ s = false ->
  credentials (content msg) = inr (u, p) ->
  is_Some (userToSocket_ w !! u) ->
  handleLogin std_hash env fd msg w
  = (replied env fd s (createErrorResponse (local_time env)
                     "User already logged in from another location") w,
     inr tt).
Proof.
  intros Ha Hf Hauth Hc Ho. unfold handleLogin. run. rewrite this_here, Hauth.
  apply try_catch_ok. rewrite Hc. run.
  rewrite (bool_decide_eq_true_2 _ Ho). apply send_error_ok; auto.
Qed.

Lemma login_banned msg u p :
  active_ s = true -> 0 <= socketFd_ s -> authenticated_ s = false ->
  credentials (content msg) = inr (u, p) ->
  userToSocket_ w !! u = None ->
  Database.isBanned (db w) u = true ->
  handleLogin std_hash env fd msg w
  = (replied env fd s (createErrorResponse (local_time env)
                     "Your account has been banned") w, inr tt).
Proof.
  intros Ha Hf Hauth Hc Ho Hb. unfold handleLogin. run. rewrite this_here, Hauth.
  apply try_catch_ok. rewrite Hc. run.
  rewrite bool_decide_eq_false_2 by (rewrite Ho; intros [? ?]; discriminate).
  run. rewrite Hb. apply send_error_ok; auto.
Qed.

Lemma login_wrong msg u p :
  active_ s = true -> 0 <= socketFd_ s -> authenticated_ s = false ->
  credentials (content msg) = inr (u, p) ->
  userToSocket_ w !! u = None ->
  Database.isBanned (db w) u = false ->
  Database.authenticateUser std_hash (db w) u p = false ->
  handleLogin std_hash env fd msg w
  = (replied env fd s (createErrorResponse (local_time env)
                     "Invalid username or password") w, inr tt).
Proof.
  intros Ha Hf Hauth Hc Ho Hb Hp. unfold handleLogin. run. rewrite this_here, Hauth.
  apply try_catch_ok. rewrite Hc. run.
  rewrite bool_decide_eq_false_2 by (rewrite Ho; intros [? ?]; discriminate).
  run. rewrite Hb. run. rewrite Hp. apply send_error_ok; auto.
Qed.

Lemma this_replied msg : this fd (replied env fd s msg w) = sent_to env s msg.
Proof. unfold this. rewrite replied_this. reflexivity. Qed.

End Run.


(** ** A muted sender (C7) *)

(** C7: a MSG_GLOBAL or MSG_PRIVATE frame from an authenticated session
    whose account is muted is answered with one ERROR frame (written
    when the socket of the session takes it); the store (and with it
    the message log) and every other session are left as they were, so
    nothing is logged and nothing is delivered. *)
Theorem muted_sender_rejected std_hash env fd msg w s :
  clients_ w !! fd = Some s ->
  authenticated_ s = true -> active_ s = true -> 0 <= socketFd_ s ->
  Database.isMuted (db w) (username_ s) = true ->
  type msg = MSG_GLOBAL \/ type msg = MSG_PRIVATE ->
  exists reply w',
    handleMessage std_hash env fd msg w = (w', inr tt) /\
    type reply = ERROR /\
    w' = replied env fd s reply w /\
    clients_ w' !! fd = Some (sent_to env s reply) /\
    (forall fd', fd' <> fd -> clients_ w' !! fd' = clients_ w !! fd') /\
    db w' = db w /\
    userToSocket_ w' = userToSocket_ w.
Proof.
  intros Hs Hauth Ha Hf Hm Ht.
  exists (createErrorResponse (local_time env)
            "You are muted and cannot send messages"), (replied env fd s (createErrorResponse (local_time env)
            "You are muted and cannot send messages") w).
  split; [|split; [reflexivity|split; [reflexivity|split; [|split; [|split]]]]].
  - unfold handleMessage. apply try_catch_ok. destruct Ht as [Ht | Ht].
    + rewrite (dispatch_global _ _ _ _ Ht). apply muted_global; assumption.
    + rewrite (dispatch_private _ _ _ _ Ht). apply muted_private; assumption.
  - apply replied_this.
  - intros fd' Hne. apply replied_other. exact Hne.
  - reflexivity.
  - reflexivity.
Qed.

Lemma muted_sender_rejected_witness :
  exists reply w',
    handleMessage fnv1a sample_env 4 (global_message "x") world_alice_muted
    = (w', inr tt) /\
    type reply = ERROR /\
    w' = replied sample_env 4 (this 4 world_alice_muted) reply world_alice_muted /\
    clients_ w' !! 4
    = Some (with_sent (this 4 world_alice_muted)
              (sent_ (this 4 world_alice_muted) ++ [reply])) /\
    (forall fd', fd' <> 4 ->
       clients_ w' !! fd' = clients_ world_alice_muted !! fd') /\
    db w' = db world_alice_muted /\
    userToSocket_ w' = userToSocket_ world_alice_muted.
Proof.
  apply (muted_sender_rejected fnv1a sample_env 4 (global_message "x")
           world_alice_muted (this 4 world_alice_muted)).
  - vm_compute. reflexivity.
  - vm_compute. reflexivity.
  - vm_compute. reflexivity.
  - vm_compute. discriminate.
  - vm_compute. reflexivity.
  - left. reflexivity.
Defined.

(** ** Empty chat frames (C10) *)

(** C10: a chat frame with empty content from an authenticated,
    unmuted sender within the rate limit (with a receiver, for
    MSG_PRIVATE) changes nothing but the sender's window: no reply, no
    row in the log, nothing delivered.  The frame is counted: while
    the window is open (less than a second since its start) the
    counter of the window goes up by one, and stays within the limit;
    when the window has run out, a new window starts at this frame,
    with this frame as its first. *)
Theorem empty_chat_frame_dropped std_hash env fd msg w s :
  clients_ w !! fd = Some s ->
  authenticated_ s = true ->
  Database.isMuted (db w) (username_ s) = false ->
  fst (checkRateLimit (steady_now env) (rateLimitWindowStart_ s)
         (rateLimitMessageCount_ s)) = true ->
  content msg = EmptyString ->
  type msg = MSG_GLOBAL
  \/ (type msg = MSG_PRIVATE /\ receiver msg <> EmptyString) ->
  let start := rateLimitWindowStart_ s in
  let count := rateLimitMessageCount_ s in
  let elapsed := Z.quot (steady_now env - start) STEADY_TICKS_PER_SECOND in
  let after :=
    if elapsed <? RATE_LIMIT_WINDOW_SECONDS
    then (start, wrap_int (count + 1))
    else (steady_now env, 1) in
  let w' := exec (handleMessage std_hash env fd msg) w in
  handleMessage std_hash env fd msg w
  = (with_clients w
       (<[fd := with_rate s (fst after) (snd after)]> (clients_ w)),
     inr tt) /\
  (elapsed < RATE_LIMIT_WINDOW_SECONDS ->
   rate_of (this fd w') = (start, wrap_int (count + 1)) /\
   wrap_int (count + 1) <= RATE_LIMIT_MAX_MESSAGES) /\
  (RATE_LIMIT_WINDOW_SECONDS <= elapsed ->
   rate_of (this fd w') = (steady_now env, 1)) /\
  (forall fd' s', clients_ w !! fd' = Some s' ->
     exists s'', clients_ w' !! fd' = Some s'' /\ sent_ s'' = sent_ s') /\
  (forall fd', fd' <> fd -> clients_ w' !! fd' = clients_ w !! fd') /\
  db w' = db w /\ userToSocket_ w' = userToSocket_ w.
Proof.
  intros Hs Hauth Hm Hr Hc Ht start count elapsed after w'.
  assert (window_after env s = after /\
          (elapsed < RATE_LIMIT_WINDOW_SECONDS ->
           wrap_int (count + 1) <= RATE_LIMIT_MAX_MESSAGES)) as [Hw Hle].
  { unfold window_after, after, elapsed, start, count. unfold checkRateLimit in *.
    destruct (Z.geb_spec
                (Z.quot (steady_now env - rateLimitWindowStart_ s)
                   STEADY_TICKS_PER_SECOND) RATE_LIMIT_WINDOW_SECONDS)
      as [Hge|Hlt].
    - rewrite (proj2 (Z.ltb_ge _ _)) by lia. split; [reflexivity|lia].
    - rewrite (proj2 (Z.ltb_lt _ _)) by lia.
      destruct (Z.gtb_spec (wrap_int (rateLimitMessageCount_ s + 1))
                  RATE_LIMIT_MAX_MESSAGES) as [Hgt|Hok];
        [discriminate Hr|]. split; [reflexivity|intros _; lia]. }
  assert (handleMessage std_hash env fd msg w
          = (with_clients w
               (<[fd := with_rate s (fst after) (snd after)]> (clients_ w)),
             inr tt)) as Hrun.
  { rewrite <- Hw. unfold handleMessage. apply try_catch_ok.
    destruct Ht as [Ht | [Ht Hrcv]].
    - rewrite (dispatch_global _ _ _ _ Ht).
      apply (empty_global env fd w s Hs); assumption.
    - rewrite (dispatch_private _ _ _ _ Ht).
      apply (empty_private env fd w s Hs); assumption. }
  assert (this fd w' = with_rate s (fst after) (snd after)) as Hthis.
  { unfold w', exec, this. rewrite Hrun. cbn [fst clients_ with_clients].
    rewrite lookup_insert_eq. reflexivity. }
  split; [exact Hrun|]. split; [|split; [|split; [|split; [|split]]]].
  - intros Hlt. split; [|exact (Hle Hlt)]. rewrite Hthis. unfold after.
    rewrite (proj2 (Z.ltb_lt _ _) Hlt). reflexivity.
  - intros Hge. rewrite Hthis. unfold after.
    rewrite (proj2 (Z.ltb_ge _ _) Hge). reflexivity.
  - intros fd' s' Hs'. unfold w', exec. rewrite Hrun.
    cbn [fst clients_ with_clients].
    destruct (decide (fd' = fd)) as [->|Hne].
    + rewrite lookup_insert_eq. eexists. split; [reflexivity|].
      rewrite Hs in Hs'. injection Hs' as <-. reflexivity.
    + rewrite lookup_insert_ne by congruence. exists s'. auto.
  - intros fd' Hne. unfold w', exec. rewrite Hrun.
    cbn [fst clients_ with_clients]. apply lookup_insert_ne. congruence.
  - unfold w', exec. rewrite Hrun. reflexivity.
  - unfold w', exec. rewrite Hrun. reflexivity.
Qed.

Lemma empty_chat_frame_dropped_witness :
  let w := chat_burst [100; 200] world_alice in
  let empty := private_message "bob" "" in
  let soon := exec (handleMessage fnv1a (at_ms 500) 4 empty) w in
  let late := exec (handleMessage fnv1a (at_ms 1500) 4 empty) w in
  rate_of (this 4 w) = (0, 2) /\
  rate_of (this 4 soon) = (0, 3) /\
  rate_of (this 4 late) = (1500000000, 1) /\
  sent_ (this 4 soon) = sent_ (this 4 w) /\
  db soon = db w.
Proof.
  cbv zeta. set (w := chat_burst [100; 200] world_alice).
  assert (clients_ w !! 4 = Some (this 4 w)) as H1
    by (vm_compute; reflexivity).
  assert (authenticated_ (this 4 w) = true) as H2
    by (vm_compute; reflexivity).
  assert (Database.isMuted (db w) (username_ (this 4 w)) = false) as H3
    by (vm_compute; reflexivity).
  assert (forall ms, ms = 500 \/ ms = 1500 ->
            fst (checkRateLimit (steady_now (at_ms ms))
                   (rateLimitWindowStart_ (this 4 w))
                   (rateLimitMessageCount_ (this 4 w))) = true) as H4
    by (intros ms [-> | ->]; vm_compute; reflexivity).
  assert (content (private_message "bob" "") = EmptyString) as H5
    by reflexivity.
  assert (type (private_message "bob" "") = MSG_GLOBAL
          \/ (type (private_message "bob" "") = MSG_PRIVATE
              /\ receiver (private_message "bob" "") <> EmptyString)) as H6
    by (right; split; [reflexivity | discriminate]).
  destruct (empty_chat_frame_dropped fnv1a (at_ms 500) 4
              (private_message "bob" "") w (this 4 w)
              H1 H2 H3 (H4 500 (or_introl eq_refl)) H5 H6)
    as (_ & Hin & _ & Hsent & _ & Hdb & _).
  destruct (empty_chat_frame_dropped fnv1a (at_ms 1500) 4
              (private_message "bob" "") w (this 4 w)
              H1 H2 H3 (H4 1500 (or_intror eq_refl)) H5 H6)
    as (_ & _ & Hout & _).
  split; [vm_compute; reflexivity|]. split; [|split; [|split]].
  - rewrite (proj1 (Hin ltac:(vm_compute; reflexivity))).
    vm_compute. reflexivity.
  - rewrite (Hout ltac:(vm_compute; discriminate)). vm_compute. reflexivity.
  - destruct (Hsent 4 _ H1) as (s'' & E & Es). unfold this at 1. rewrite E.
    exact Es.
  - exact Hdb.
Defined.

(** ** The rejections of LOGIN (C6) *)

(** C6: for a LOGIN frame handled by an active session, the checks come
    in this order: already authenticated; (the content cannot be read);
    the user name is in the index of users online; the account is
    banned; the password does not verify.  Each rejection sends one
    ERROR frame to the session (written when its socket takes it) and
    changes nothing else: the session stays as it was (not
    authenticated, where it was not), the index and the store are
    untouched.  So a LOGIN for a banned account never leaves the
    session authenticated. *)
Theorem login_rejections std_hash env fd msg w s :
  clients_ w !! fd = Some s ->
  active_ s = true -> 0 <= socketFd_ s ->
  type msg = LOGIN ->
  let rejected text :=
    handleMessage std_hash env fd msg w
    = (replied env fd s (createErrorResponse (local_time env) text) w, inr tt) in
  (authenticated_ s = true -> rejected "Already logged in"%string) /\
  (authenticated_ s = false ->
   forall e, credentials (content msg) = inl e ->
     rejected "Invalid request format"%string) /\
  (authenticated_ s = false ->
   forall u p, credentials (content msg) = inr (u, p) ->
     (is_Some (userToSocket_ w !! u) ->
      rejected "User already logged in from another location"%string) /\
     (userToSocket_ w !! u = None ->
      Database.isBanned (db w) u = true ->
      rejected "Your account has been banned"%string) /\
     (userToSocket_ w !! u = None ->
      Database.isBanned (db w) u = false ->
      Database.authenticateUser std_hash (db w) u p = false ->
      rejected "Invalid username or password"%string)) /\
  (forall text, rejected text ->
     let w' := exec (handleMessage std_hash env fd msg) w in
     (exists reply, type reply = ERROR /\
        clients_ w' !! fd = Some (sent_to env s reply)) /\
     (forall fd', fd' <> fd -> clients_ w' !! fd' = clients_ w !! fd') /\
     authenticated_ (this fd w') = authenticated_ s /\
     username_ (this fd w') = username_ s /\
     userToSocket_ w' = userToSocket_ w /\
     db w' = db w) /\
  (authenticated_ s = false ->
   forall u p, credentials (content msg) = inr (u, p) ->
     Database.isBanned (db w) u = true ->
     authenticated_ (this fd (exec (handleMessage std_hash env fd msg) w))
     = false).
Proof.
  intros Hs Ha Hf Ht rejected.
  assert (forall r, handleLogin std_hash env fd msg w = (r, inr tt) ->
                    handleMessage std_hash env fd msg w = (r, inr tt)) as Hm.
  { intros r Hr. unfold handleMessage. apply try_catch_ok.
    rewrite (dispatch_login _ _ _ _ Ht). exact Hr. }
  assert (forall text, rejected text ->
            authenticated_ (this fd (exec (handleMessage std_hash env fd msg) w))
            = authenticated_ s) as Hkeep.
  { intros text Hr. unfold exec. rewrite Hr. cbn [fst].
    rewrite this_replied. sent_cases. }
  split; [|split; [|split; [|split]]].
  - intros Hauth. apply Hm. apply (login_already std_hash env fd w s Hs); assumption.
  - intros Hauth e Hc. apply Hm.
    apply (login_unreadable std_hash env fd w s Hs msg e); assumption.
  - intros Hauth u p Hc. split; [|split].
    + intros Ho. apply Hm.
      apply (login_duplicate std_hash env fd w s Hs msg u p); assumption.
    + intros Ho Hb. apply Hm.
      apply (login_banned std_hash env fd w s Hs msg u p); assumption.
    + intros Ho Hb Hp. apply Hm.
      apply (login_wrong std_hash env fd w s Hs msg u p); assumption.
  - intros text Hr. cbv zeta. unfold exec. rewrite Hr. cbn [fst].
    split; [|split; [|split; [|split; [|split]]]].
    + eexists. split; [|apply (replied_this env fd w s)]. reflexivity.
    + intros fd' Hne. apply (replied_other env fd w s). exact Hne.
    + rewrite this_replied. sent_cases.
    + rewrite this_replied. sent_cases.
    + reflexivity.
    + reflexivity.
  - intros Hauth u p Hc Hb.
    destruct (userToSocket_ w !! u) as [fd'|] eqn:Ho.
    + rewrite (Hkeep "User already logged in from another location"%string);
        [exact Hauth|].
      apply Hm. apply (login_duplicate std_hash env fd w s Hs msg u p); try assumption.
      rewrite Ho. eexists. reflexivity.
    + rewrite (Hkeep "Your account has been banned"%string); [exact Hauth|].
      apply Hm. apply (login_banned std_hash env fd w s Hs msg u p); assumption.
Qed.

Lemma login_rejections_witness :
  handleMessage fnv1a sample_env 5 (login_request "bob" "pw12") world_bob_banned
  = (replied sample_env 5 (this 5 world_bob_banned)
       (createErrorResponse (local_time sample_env)
          "Your account has been banned") world_bob_banned, inr tt).
Proof.
  assert (clients_ world_bob_banned !! 5 = Some (this 5 world_bob_banned))
    as H1 by (vm_compute; reflexivity).
  assert (active_ (this 5 world_bob_banned) = true) as H2
    by (vm_compute; reflexivity).
  assert (0 <= socketFd_ (this 5 world_bob_banned)) as H3
    by (vm_compute; discriminate).
  assert (type (login_request "bob" "pw12") = LOGIN) as H4 by reflexivity.
  destruct (login_rejections fnv1a sample_env 5 (login_request "bob" "pw12")
              world_bob_banned (this 5 world_bob_banned) H1 H2 H3 H4)
    as (_ & _ & H & _).
  assert (authenticated_ (this 5 world_bob_banned) = false) as H5
    by (vm_compute; reflexivity).
  assert (credentials (content (login_request "bob" "pw12"))
          = inr ("bob"%string, "pw12"%string)) as H6
    by (vm_compute; reflexivity).
  destruct (H H5 _ _ H6) as (_ & Hb & _).
  apply Hb; vm_compute; reflexivity.
Defined.

(** ** A private message to a user who is not online (C2) *)

Lemma valid_utf8_ascii_app a b :
  ascii_only a = true -> valid_utf8 (a +:+ b) = valid_utf8 b.
Proof.
  unfold valid_utf8. induction a as [|c a IH]; simpl; [reflexivity|].
  intros H. apply andb_true_iff in H as [Hc Ha]. rewrite Hc. apply IH, Ha.
Qed.

Lemma sendToUser_offline env u msg w :
  userToSocket_ w !! u = None -> sendToUser env u msg w = (w, inr false).
Proof. intros H. unfold sendToUser. run. rewrite H. reflexivity. Qed.

(** C2 (amended): a PRIVATE frame that passes every check, for a
    receiver absent from the index of users online, is first written to
    the message log and then answered with one ERROR frame
    [User not online: <receiver>] (written when the socket of the
    sender takes it); nobody else is written to, and the log has one
    row more. *)
Theorem private_offline_logged std_hash env fd msg w s :
  clients_ w !! fd = Some s ->
  authenticated_ s = true -> active_ s = true -> 0 <= socketFd_ s ->
  initialized_ (db w) = true ->
  Database.isMuted (db w) (username_ s) = false ->
  fst (checkRateLimit (steady_now env) (rateLimitWindowStart_ s)
         (rateLimitMessageCount_ s)) = true ->
  type msg = MSG_PRIVATE ->
  receiver msg <> EmptyString -> content msg <> EmptyString ->
  receiver msg <> username_ s ->
  valid_utf8 (receiver msg) = true ->
  userToSocket_ w !! receiver msg = None ->
  let w' := exec (handleMessage std_hash env fd msg) w in
  let reply := createErrorResponse (local_time env)
                 ("User not online: " +:+ receiver msg) in
  let row := mkMessageRow (messages_seq (db w) + 1) (c_str (username_ s))
               (Some (c_str (receiver msg))) (c_str (content msg))
               "private" (db_time env) in
  snd (handleMessage std_hash env fd msg w) = inr tt /\
  (exists s', clients_ w' !! fd = Some s' /\
     sent_ s' = sent_ (sent_to env s reply)) /\
  (forall fd', fd' <> fd -> clients_ w' !! fd' = clients_ w !! fd') /\
  messages (db w') = messages (db w) ++ [row] /\
  Database.getMessageCount (db w') = Database.getMessageCount (db w) + 1.
Proof.
  intros Hs Hauth Ha Hf Hi Hm Hr Ht Hrcv Hc Hself Hv Hoff w' reply row.
  set (after := snd (checkRateLimit (steady_now env) (rateLimitWindowStart_ s)
                       (rateLimitMessageCount_ s))).
  set (s1 := with_rate s (fst after) (snd after)).
  set (w1 := with_db (with_clients w (<[fd := s1]> (clients_ w)))
               (snd (Database.logMessage (db_time env) (db w) (username_ s)
                       (receiver msg) (content msg) "private"))).
  assert (clients_ w1 !! fd = Some s1) as Hs1 by apply lookup_insert_eq.
  assert (handleMessage std_hash env fd msg w = (replied env fd s1 reply w1, inr tt))
    as Hrun.
  { unfold handleMessage. apply try_catch_ok.
    rewrite (dispatch_private _ _ _ _ Ht).
    unfold handlePrivateMessage. run. rewrite (this_here fd w s Hs), Hauth.
    cbn [negb]. run. rewrite (this_here fd w s Hs), Hm.
    rewrite bind_checkRateLimit. cbv zeta.
    rewrite (this_here fd w s Hs), Hr. cbn [negb].
    destruct (String.eqb_spec (receiver msg) ""); [contradiction|].
    destruct (String.eqb_spec (content msg) ""); [contradiction|].
    destruct (String.eqb_spec (receiver msg) (username_ s)); [contradiction|].
    rewrite (alter_here fd w s Hs). fold after. fold s1.
    rewrite bind_command. cbn [db with_clients].
    destruct (Database.logMessage (db_time env) (db w) (username_ s)
                (receiver msg) (content msg) "private") as [ok d] eqn:El.
    unfold bind at 1. rewrite sendToUser_offline by exact Hoff.
    cbn [negb]. subst w1. cbn [snd].
    apply (send_error_ok env fd _ s1); auto. }
  subst w'. unfold exec. rewrite Hrun. cbn [fst snd].
  split; [reflexivity|]. split; [|split; [|split]].
  - eexists. split; [apply lookup_insert_eq|].
    unfold sent_to, s1. cbn [socketFd_ sent_ with_rate].
    destruct (send_accepts _ _ _); reflexivity.
  - intros fd' Hne. unfold replied, w1. cbn [clients_ with_clients with_db].
    rewrite !lookup_insert_ne by congruence. reflexivity.
  - unfold replied, w1, Database.logMessage. rewrite Hi.
    destruct (String.eqb_spec (receiver msg) ""); [contradiction|]. reflexivity.
  - unfold replied, w1, Database.logMessage, Database.getMessageCount.
    rewrite Hi. cbn [negb snd db with_clients with_db initialized_ messages].
    rewrite length_app. cbn [List.length]. lia.
Qed.

Lemma private_offline_logged_witness :
  let w' := exec (handleMessage fnv1a sample_env 4 (private_message "bob" "hello"))
              world_alice in
  Database.getMessageCount (db world_alice) = 0 /\
  Database.getMessageCount (db w') = 1 /\
  exists s', clients_ w' !! 4 = Some s' /\
    sent_ s' = sent_ (this 4 world_alice)
               ++ [createErrorResponse (local_time sample_env)
                     "User not online: bob"].
Proof.
  assert (clients_ world_alice !! 4 = Some (this 4 world_alice)) as H1
    by (vm_compute; reflexivity).
  assert (authenticated_ (this 4 world_alice) = true) as H2
    by (vm_compute; reflexivity).
  assert (active_ (this 4 world_alice) = true) as H3 by (vm_compute; reflexivity).
  assert (0 <= socketFd_ (this 4 world_alice)) as H4 by (vm_compute; discriminate).
  assert (initialized_ (db world_alice) = true) as H5 by (vm_compute; reflexivity).
  assert (Database.isMuted (db world_alice) (username_ (this 4 world_alice))
          = false) as H6 by (vm_compute; reflexivity).
  assert (fst (checkRateLimit (steady_now sample_env)
                 (rateLimitWindowStart_ (this 4 world_alice))
                 (rateLimitMessageCount_ (this 4 world_alice))) = true) as H7
    by (vm_compute; reflexivity).
  assert (type (private_message "bob" "hello") = MSG_PRIVATE) as H8 by reflexivity.
  assert (receiver (private_message "bob" "hello") <> EmptyString) as H9
    by discriminate.
  assert (content (private_message "bob" "hello") <> EmptyString) as H10
    by discriminate.
  assert (receiver (private_message "bob" "hello")
          <> username_ (this 4 world_alice)) as H11 by (vm_compute; discriminate).
  assert (valid_utf8 (receiver (private_message "bob" "hello")) = true) as H12
    by reflexivity.
  assert (userToSocket_ world_alice !! receiver (private_message "bob" "hello")
          = None) as H13 by (vm_compute; reflexivity).
  destruct (private_offline_logged fnv1a sample_env 4
              (private_message "bob" "hello") world_alice (this 4 world_alice)
              H1 H2 H3 H4 H5 H6 H7 H8 H9 H10 H11 H12 H13)
    as (_ & Hsent & _ & _ & Hcount).
  cbv zeta. split; [vm_compute; reflexivity|]. split.
  - rewrite Hcount. vm_compute; reflexivity.
  - exact Hsent.
Defined.

(** alice, logged in, writes to bob, who is registered and not
    online: every condition holds, and the log is not what it was. *)
Lemma private_offline_counterexample :
  let w := world_alice in
  let msg := private_message "bob" "hello" in
  let s := this 4 w in
  ~ (clients_ w !! 4 = Some s ->
     authenticated_ s = true ->
     Database.isMuted (db w) (username_ s) = false ->
     fst (checkRateLimit (steady_now sample_env) (rateLimitWindowStart_ s)
            (rateLimitMessageCount_ s)) = true ->
     type msg = MSG_PRIVATE ->
     content msg <> EmptyString -> receiver msg <> EmptyString ->
     receiver msg <> username_ s ->
     userToSocket_ w !! receiver msg = None ->
     messages (db (exec (handleMessage fnv1a sample_env 4 msg) w))
     = messages (db w)).
Proof.
  cbv zeta. intros H.
  assert (messages (db (exec (handleMessage fnv1a sample_env 4
                                (private_message "bob" "hello")) world_alice))
          = messages (db world_alice)) as E.
  { apply H; vm_compute; try reflexivity; discriminate. }
  vm_compute in E. discriminate E.
Qed.

(** ** A length prefix above the limit (C1) *)

Lemma with_buffer_twice s a b : with_buffer (with_buffer s a) b = with_buffer s b.
Proof. reflexivity. Qed.

Lemma oversize_incomplete b0 b1 b2 b3 rest :
  MAX_MESSAGE_SIZE < read_length b0 b1 b2 b3 ->
  hasCompleteMessage (b0 :: b1 :: b2 :: b3 :: rest) = false.
Proof.
  intros H. unfold hasCompleteMessage. cbv zeta.
  rewrite Z.gtb_ltb. rewrite (proj2 (Z.ltb_lt _ _) H). reflexivity.
Qed.

Lemma processData_oversize std_hash clock fd w s data b0 b1 b2 b3 rest :
  clients_ w !! fd = Some s ->
  buffer_ s ++ data = b0 :: b1 :: b2 :: b3 :: rest ->
  MAX_MESSAGE_SIZE < read_length b0 b1 b2 b3 ->
  processData std_hash clock fd data w
  = with_clients w (<[fd := with_buffer s (buffer_ s ++ data)]> (clients_ w)).
Proof.
  intros Hs Hb Hn. unfold processData. cbv zeta.
  rewrite (alter_here fd w s Hs). unfold append.
  set (w1 := with_clients w
               (<[fd := with_buffer s (buffer_ s ++ data)]> (clients_ w))).
  assert (buffer_ (this fd w1) = b0 :: b1 :: b2 :: b3 :: rest) as Ht.
  { unfold this, w1. cbn [clients_ with_clients]. rewrite lookup_insert_eq.
    exact Hb. }
  rewrite Ht. cbn [List.length processLoop]. rewrite Ht.
  rewrite (oversize_incomplete _ _ _ _ _ Hn). reflexivity.
Qed.

(** C1 (as the code behaves): once the four bytes at the head of the
    buffer of a session announce more than [MAX_MESSAGE_SIZE] bytes,
    [processData] never finds a complete message again.  This read and
    every later one only append to the buffer: it is not cleared, no
    frame is written to the session, and no message is handled. *)
Theorem oversize_prefix_stalls std_hash clock fd w s data b0 b1 b2 b3 rest :
  clients_ w !! fd = Some s ->
  buffer_ s ++ data = b0 :: b1 :: b2 :: b3 :: rest ->
  MAX_MESSAGE_SIZE < read_length b0 b1 b2 b3 ->
  forall later : list (list byte),
    fold_left (fun w0 d => processData std_hash clock fd d w0) (data :: later) w
    = with_clients w
        (<[fd := with_buffer s (buffer_ s ++ data ++ concat later)]>
           (clients_ w)).
Proof.
  intros Hs Hb Hn later. revert w s data rest Hs Hb.
  induction later as [|d later IH]; intros w s data rest Hs Hb.
  - cbn [fold_left concat]. rewrite app_nil_r.
    apply (processData_oversize _ _ _ _ _ _ _ _ _ _ _ Hs Hb Hn).
  - change (fold_left (fun w0 d0 => processData std_hash clock fd d0 w0)
              (data :: d :: later) w)
      with (fold_left (fun w0 d0 => processData std_hash clock fd d0 w0)
              (d :: later) (processData std_hash clock fd data w)).
    rewrite (processData_oversize _ _ _ _ _ _ _ _ _ _ _ Hs Hb Hn).
    set (s1 := with_buffer s (buffer_ s ++ data)).
    rewrite (IH (with_clients w (<[fd := s1]> (clients_ w))) s1 d (rest ++ d)).
    + cbn [clients_ with_clients]. rewrite insert_insert_eq.
      subst s1. rewrite with_buffer_twice. cbn [buffer_ with_buffer concat].
      rewrite <- !app_assoc. reflexivity.
    + apply lookup_insert_eq.
    + subst s1. cbn [buffer_ with_buffer]. rewrite Hb. reflexivity.
Qed.

Lemma oversize_prefix_stalls_witness :
  let w' := fold_left (fun w0 d => processData fnv1a (fun _ => sample_env) 4 d w0)
              [[Byte.x00; Byte.x10; Byte.x00; Byte.x01]; wire sample_time (Message_of PING)] world_alice in
  buffer_ (this 4 w') = [Byte.x00; Byte.x10; Byte.x00; Byte.x01] ++ wire sample_time (Message_of PING) /\
  sent_ (this 4 w') = sent_ (this 4 world_alice).
Proof.
  assert (clients_ world_alice !! 4 = Some (this 4 world_alice)) as H1
    by (vm_compute; reflexivity).
  assert (buffer_ (this 4 world_alice) ++ [Byte.x00; Byte.x10; Byte.x00; Byte.x01]
          = [Byte.x00; Byte.x10; Byte.x00; Byte.x01]) as H2 by (vm_compute; reflexivity).
  assert (MAX_MESSAGE_SIZE < read_length Byte.x00 Byte.x10 Byte.x00 Byte.x01) as H3
    by (vm_compute; reflexivity).
  pose proof (oversize_prefix_stalls fnv1a (fun _ => sample_env) 4 world_alice
                (this 4 world_alice) [Byte.x00; Byte.x10; Byte.x00; Byte.x01] Byte.x00 Byte.x10 Byte.x00 Byte.x01 []
                H1 H2 H3 [wire sample_time (Message_of PING)]) as H.
  cbv zeta. rewrite H. split; vm_compute; reflexivity.
Defined.

(** X1: a frame of exactly [MAX_MESSAGE_SIZE] bytes is accepted: it is
    complete as soon as its bytes are there, and it is then extracted
    and decoded. *)
Theorem limit_frame_accepted (body : list byte) :
  read_length Byte.x00 Byte.x10 Byte.x00 Byte.x00 = MAX_MESSAGE_SIZE /\
  hasCompleteMessage (Byte.x00 :: Byte.x10 :: Byte.x00 :: Byte.x00 :: body)
  = (MAX_MESSAGE_SIZE <=? Z.of_nat (List.length body)) /\
  extractMessage (Byte.x00 :: Byte.x10 :: Byte.x00 :: Byte.x00 :: body)
  = if MAX_MESSAGE_SIZE <=? Z.of_nat (List.length body)
    then (deserialize (firstn (Z.to_nat MAX_MESSAGE_SIZE) body),
          skipn (Z.to_nat MAX_MESSAGE_SIZE) body)
    else (Message_of ERROR, Byte.x00 :: Byte.x10 :: Byte.x00 :: Byte.x00 :: body).
Proof.
  assert (read_length Byte.x00 Byte.x10 Byte.x00 Byte.x00 = MAX_MESSAGE_SIZE) as Hl
    by (vm_compute; reflexivity).
  split; [exact Hl|]. unfold hasCompleteMessage, extractMessage. cbv zeta.
  rewrite Hl. generalize MAX_MESSAGE_SIZE. intros limit.
  rewrite Z.gtb_ltb, Z.ltb_irrefl, Z.geb_leb.
  assert (Z.of_nat (List.length (Byte.x00 :: Byte.x10 :: Byte.x00 :: Byte.x00 :: body))
          = 4 + Z.of_nat (List.length body)) as ->.
  { cbn [List.length]. lia. }
  destruct (Z.leb_spec limit (Z.of_nat (List.length body))) as [H|H].
  - split; [apply Z.leb_le; lia|].
    rewrite (proj2 (Z.ltb_ge _ _)) by lia. reflexivity.
  - split; [apply Z.leb_gt; lia|].
    rewrite (proj2 (Z.ltb_lt _ _)) by lia. reflexivity.
Qed.

(** ** The windows of the limiter are touched by chat frames only *)

Lemma same_rates_refl w : same_rates w w.
Proof. intros k. reflexivity. Qed.

Lemma same_rates_trans a b c :
  same_rates a b -> same_rates b c -> same_rates a c.
Proof. intros H1 H2 k. rewrite (H2 k). apply H1. Qed.

Lemma same_rates_alter w fd (f : ClientSession -> ClientSession) :
  (forall s, rate_of (f s) = rate_of s) ->
  same_rates w (with_clients w (alter f fd (clients_ w))).
Proof.
  intros Hf k. cbn [clients_ with_clients].
  destruct (decide (k = fd)) as [->|Hne].
  - rewrite lookup_alter_eq. destruct (clients_ w !! fd); cbn; [|reflexivity].
    rewrite Hf. reflexivity.
  - rewrite lookup_alter_ne by congruence. reflexivity.
Qed.

Lemma same_rates_insert w fd s s' :
  clients_ w !! fd = Some s -> rate_of s' = rate_of s ->
  same_rates w (with_clients w (<[fd := s']> (clients_ w))).
Proof.
  intros Hs Hr k. cbn [clients_ with_clients].
  destruct (decide (k = fd)) as [->|Hne].
  - rewrite lookup_insert_eq, Hs. cbn. rewrite Hr. reflexivity.
  - rewrite lookup_insert_ne by congruence. reflexivity.
Qed.

Lemma keeps_ret {A} (a : A) : keeps_rates (ret a).
Proof. intros w. apply same_rates_refl. Qed.

Lemma keeps_throw {A} e : keeps_rates (@throw A e).
Proof. intros w. apply same_rates_refl. Qed.

Lemma keeps_gets {A} (f : World -> A) : keeps_rates (gets f).
Proof. intros w. apply same_rates_refl. Qed.

Lemma keeps_lift {A} (r : json_exception + A) : keeps_rates (lift r).
Proof. destruct r; [apply keeps_throw | apply keeps_ret]. Qed.

Lemma keeps_query {A} (f : Database -> A) : keeps_rates (query f).
Proof. apply keeps_gets. Qed.

Lemma keeps_command f : keeps_rates (command f).
Proof. intros w k. unfold command. destruct (f (db w)). reflexivity. Qed.

Lemma keeps_dump_or_throw j : keeps_rates (dump_or_throw j).
Proof.
  unfold dump_or_throw. destruct (dump j); [apply keeps_ret | apply keeps_throw].
Qed.

Lemma keeps_bind {A B} (c : M A) (k : A -> M B) :
  keeps_rates c -> (forall a, keeps_rates (k a)) -> keeps_rates (bind c k).
Proof.
  intros Hc Hk w. unfold bind. specialize (Hc w).
  destruct (c w) as [w' [e|a]]; cbn [fst] in *; [exact Hc|].
  exact (same_rates_trans _ _ _ Hc (Hk a w')).
Qed.

Lemma try_catch_rates {A} (c : M A) h w :
  (forall e, keeps_rates (h e)) ->
  same_rates (fst (c w)) (fst (try_catch c h w)).
Proof.
  intros Hh. unfold try_catch.
  destruct (c w) as [w' [e|a]]; cbn [fst]; [apply Hh | apply same_rates_refl].
Qed.

Lemma keeps_try_catch {A} (c : M A) h :
  keeps_rates c -> (forall e, keeps_rates (h e)) -> keeps_rates (try_catch c h).
Proof.
  intros Hc Hh w.
  exact (same_rates_trans _ _ _ (Hc w) (try_catch_rates c h w Hh)).
Qed.

Lemma keeps_ignore_exceptions c : keeps_rates c -> keeps_rates (ignore_exceptions c).
Proof. intros Hc. apply keeps_try_catch; [exact Hc|]. intros e. apply keeps_ret. Qed.

Lemma keeps_update_session fd f :
  (forall s, rate_of (f s) = rate_of s) -> keeps_rates (update_session fd f).
Proof. intros Hf w. apply same_rates_alter, Hf. Qed.

Lemma keeps_sendMessage env fd msg : keeps_rates (sendMessage env fd msg).
Proof.
  intros w. unfold sendMessage.
  destruct (clients_ w !! fd) as [s|] eqn:Hs; [|apply same_rates_refl].
  unfold session_send.
  destruct (negb (active_ s) || (socketFd_ s <? 0)); cbn [fst].
  - apply (same_rates_insert _ _ s); [exact Hs | reflexivity].
  - destruct (serialize _ _); cbn [fst]; [|apply same_rates_refl].
    destruct (send_accepts _ _ _);
      (apply (same_rates_insert _ _ s); [exact Hs | reflexivity]).
Qed.

Lemma keeps_send env fd msg : keeps_rates (send env fd msg).
Proof.
  apply keeps_bind; [apply keeps_sendMessage | intros ?; apply keeps_ret].
Qed.

Lemma keeps_broadcast env msg excl : keeps_rates (broadcast env msg excl).
Proof.
  intros w. unfold broadcast. cbv zeta.
  destruct (serialize _ _).
  - intros k. cbn [fst clients_ with_clients]. rewrite map_lookup_imap.
    destruct (clients_ w !! k) as [s|]; cbn; [|reflexivity].
    destruct (_ && _); [|reflexivity].
    unfold sent_to. destruct (send_accepts _ _ _); reflexivity.
  - destruct (existsb _ _); apply same_rates_refl.
Qed.

Lemma keeps_sendToUser env u msg : keeps_rates (sendToUser env u msg).
Proof.
  unfold sendToUser. apply keeps_bind; [apply keeps_gets|]. intros socket.
  cbv zeta. destruct (_ <? 0); [apply keeps_ret|].
  apply keeps_bind; [apply keeps_gets|]. intros [s|];
    [apply keeps_sendMessage | apply keeps_ret].
Qed.

Lemma keeps_users_map (f : World -> gmap string Z) :
  keeps_rates (modify (fun w => with_users_map w (f w))).
Proof. intros w k. reflexivity. Qed.

Lemma keeps_registerUser u fd : keeps_rates (Server.registerUser u fd).
Proof. intros w k. reflexivity. Qed.

Lemma keeps_unregisterUser u : keeps_rates (unregisterUser u).
Proof. intros w k. reflexivity. Qed.

Lemma keeps_kickUser u : keeps_rates (kickUser u).
Proof.
  unfold kickUser. apply keeps_bind; [apply keeps_gets|]. intros [socketFd|];
    [|apply keeps_ret].
  apply keeps_bind; [intros w k; reflexivity|]. intros _.
  destruct (_ >=? 0); [|apply keeps_ret].
  apply keeps_update_session. reflexivity.
Qed.

Lemma keeps_isUserOnline u : keeps_rates (isUserOnline u).
Proof. apply keeps_gets. Qed.

Lemma keeps_getOnlineUsers : keeps_rates getOnlineUsers.
Proof. apply keeps_gets. Qed.

Lemma keeps_getUsername fd : keeps_rates (getUsername fd).
Proof. apply keeps_gets. Qed.

Lemma keeps_authenticated fd : keeps_rates (authenticated fd).
Proof. apply keeps_gets. Qed.

Lemma keeps_session_isAdmin fd : keeps_rates (session_isAdmin fd).
Proof.
  apply keeps_bind; [apply keeps_getUsername | intros ?; apply keeps_query].
Qed.

Create HintDb rates.
#[local] Hint Resolve keeps_ret keeps_throw keeps_gets keeps_lift keeps_query
  keeps_command keeps_dump_or_throw keeps_sendMessage keeps_send
  keeps_broadcast keeps_sendToUser keeps_registerUser keeps_unregisterUser
  keeps_kickUser keeps_isUserOnline keeps_getOnlineUsers keeps_getUsername
  keeps_authenticated keeps_session_isAdmin keeps_users_map : rates.

(** One step through a handler: a call that keeps the windows, a
    sequence, a [try], or a test. *)
Ltac keeps_step :=
  match goal with
  | |- keeps_rates (bind _ _) => apply keeps_bind; [|intros ?]
  | |- keeps_rates (try_catch _ _) => apply keeps_try_catch; [|intros ?]
  | |- keeps_rates (ignore_exceptions _) => apply keeps_ignore_exceptions
  | |- keeps_rates (update_session _ _) =>
      apply keeps_update_session; reflexivity
  | |- keeps_rates (if ?b then _ else _) => destruct b
  | |- keeps_rates (match ?x with _ => _ end) => destruct x
  | |- keeps_rates _ => solve [auto with rates]
  | |- keeps_rates _ => progress cbv zeta
  end.

Ltac keeps := repeat keeps_step.

Section Untouched.
Variable std_hash : string -> Z.
Variable env : Env.
Variable fd : Z.
Variable msg : Message.

Lemma keeps_handleRegister : keeps_rates (handleRegister std_hash env fd msg).
Proof. unfold handleRegister, invalid_request_format. keeps. Qed.

Lemma keeps_handleLogin : keeps_rates (handleLogin std_hash env fd msg).
Proof. unfold handleLogin, invalid_request_format. keeps. Qed.

Lemma keeps_handleLogout : keeps_rates (handleLogout env fd msg).
Proof. unfold handleLogout. keeps. Qed.

Lemma keeps_handleChangePassword :
  keeps_rates (handleChangePassword std_hash env fd msg).
Proof. unfold handleChangePassword. keeps. Qed.

Lemma keeps_handleKickUser : keeps_rates (handleKickUser env fd msg).
Proof. unfold handleKickUser, admin_on_target, admin_only. keeps. Qed.

Lemma keeps_handleBanUser : keeps_rates (handleBanUser env fd msg).
Proof. unfold handleBanUser, admin_on_target, admin_only. keeps. Qed.

Lemma keeps_handleUnbanUser : keeps_rates (handleUnbanUser env fd msg).
Proof. unfold handleUnbanUser, admin_on_target, admin_only. keeps. Qed.

Lemma keeps_handleMuteUser : keeps_rates (handleMuteUser env fd msg).
Proof.
  unfold handleMuteUser, admin_on_target, admin_only, notify_if_online. keeps.
Qed.

Lemma keeps_handleUnmuteUser : keeps_rates (handleUnmuteUser env fd msg).
Proof.
  unfold handleUnmuteUser, admin_on_target, admin_only, notify_if_online. keeps.
Qed.

Lemma keeps_handlePromoteUser : keeps_rates (handlePromoteUser env fd msg).
Proof. unfold handlePromoteUser, admin_on_target, admin_only. keeps. Qed.

Lemma keeps_handleDemoteUser : keeps_rates (handleDemoteUser env fd msg).
Proof. unfold handleDemoteUser, admin_on_target, admin_only. keeps. Qed.

Lemma keeps_handleGetAllUsers : keeps_rates (handleGetAllUsers env fd msg).
Proof. unfold handleGetAllUsers, admin_only. keeps. Qed.

Lemma keeps_handleGetBannedList : keeps_rates (handleGetBannedList env fd msg).
Proof. unfold handleGetBannedList, admin_only. keeps. Qed.

Lemma keeps_handleGetMutedList : keeps_rates (handleGetMutedList env fd msg).
Proof. unfold handleGetMutedList, admin_only. keeps. Qed.

Lemma keeps_handleUserInfo : keeps_rates (handleUserInfo env fd msg).
Proof. unfold handleUserInfo. keeps. Qed.

(** Everything but the two chat frames. *)
Lemma keeps_dispatch :
  type msg <> MSG_GLOBAL -> type msg <> MSG_PRIVATE ->
  keeps_rates (dispatch std_hash env fd msg).
Proof.
  intros Hg Hp. unfold dispatch. cbv zeta.
  repeat match goal with
         | |- keeps_rates (if ?t =? ?c then _ else _) =>
             destruct (Z.eqb_spec t c)
         end;
    try contradiction;
    auto using keeps_handleRegister, keeps_handleLogin, keeps_handleLogout,
      keeps_handleChangePassword, keeps_handleKickUser, keeps_handleBanUser,
      keeps_handleUnbanUser, keeps_handleMuteUser, keeps_handleUnmuteUser,
      keeps_handlePromoteUser, keeps_handleDemoteUser, keeps_handleGetAllUsers,
      keeps_handleGetBannedList, keeps_handleGetMutedList, keeps_handleUserInfo,
      keeps_send.
Qed.

Lemma keeps_internal_error :
  forall e : json_exception,
    keeps_rates
      (ignore_exceptions
         (send env fd
            (createErrorResponse (local_time env) "Internal server error"))).
Proof. intros e. keeps. Qed.

Lemma keeps_handleMessage :
  type msg <> MSG_GLOBAL -> type msg <> MSG_PRIVATE ->
  keeps_rates (handleMessage std_hash env fd msg).
Proof.
  intros Hg Hp. unfold handleMessage. apply keeps_try_catch.
  - apply keeps_dispatch; assumption.
  - apply keeps_internal_error.
Qed.

End Untouched.

(** ** The limiter (C3) *)

Lemma checkRateLimit_reset now start count :
  STEADY_TICKS_PER_SECOND <= now - start ->
  checkRateLimit now start count = (true, (now, 1)).
Proof.
  intros H. unfold checkRateLimit. cbv zeta.
  assert (1 <= Z.quot (now - start) STEADY_TICKS_PER_SECOND) as Hq.
  { apply Z.quot_le_lower_bound; [reflexivity | lia]. }
  unfold RATE_LIMIT_WINDOW_SECONDS. rewrite Z.geb_leb.
  rewrite (proj2 (Z.leb_le _ _) Hq). reflexivity.
Qed.

Lemma elapsed_in_window now start :
  now - start < STEADY_TICKS_PER_SECOND ->
  Z.quot (now - start) STEADY_TICKS_PER_SECOND < 1.
Proof.
  intros H. destruct (Z.le_gt_cases 0 (now - start)) as [Hp|Hn].
  - rewrite Z.quot_small; lia.
  - assert (0 <= Z.quot (- (now - start)) STEADY_TICKS_PER_SECOND) as Hq.
    { apply Z.quot_pos; [lia | reflexivity]. }
    rewrite Z.quot_opp_l in Hq by discriminate. lia.
Qed.

Lemma checkRateLimit_count now start count :
  now - start < STEADY_TICKS_PER_SECOND -> 0 <= count < 2^31 - 1 ->
  checkRateLimit now start count
  = (count + 1 <=? RATE_LIMIT_MAX_MESSAGES, (start, count + 1)).
Proof.
  intros H Hc. unfold checkRateLimit. cbv zeta.
  pose proof (elapsed_in_window _ _ H) as Hq.
  unfold RATE_LIMIT_WINDOW_SECONDS. rewrite Z.geb_leb.
  rewrite (proj2 (Z.leb_gt _ _) Hq).
  rewrite wrap_int_id by (unfold int_range; lia). rewrite Z.gtb_ltb.
  destruct (Z.ltb_spec RATE_LIMIT_MAX_MESSAGES (count + 1)) as [Hl|Hl].
  - rewrite (proj2 (Z.leb_gt _ _) Hl). reflexivity.
  - rewrite (proj2 (Z.leb_le _ _) Hl). reflexivity.
Qed.

(** In one window the k-th frame passes when the counter, k more,
    is at most ten. *)
Lemma run_limiter_window start times : forall count,
  0 <= count -> count + Z.of_nat (List.length times) < 2^31 ->
  Forall (fun t => t - start < STEADY_TICKS_PER_SECOND) times ->
  run_limiter start count times
  = map (fun k => count + Z.of_nat k <=? RATE_LIMIT_MAX_MESSAGES)
      (seq 1 (List.length times)).
Proof.
  induction times as [|t more IH]; intros count Hc Hn Hw; [reflexivity|].
  cbn [List.length] in Hn. inversion Hw as [|? ? Ht Hmore]; subst.
  cbn [run_limiter List.length seq map].
  rewrite (checkRateLimit_count _ _ _ Ht) by lia.
  rewrite (IH (count + 1)) by (auto; lia).
  f_equal. rewrite <- (seq_shift (List.length more) 1), map_map.
  apply map_ext. intros k. f_equal. lia.
Qed.

Lemma accepted_window start times : forall count,
  0 <= count -> count + Z.of_nat (List.length times) < 2^31 ->
  Forall (fun t => t - start < STEADY_TICKS_PER_SECOND) times ->
  Z.of_nat (accepted (run_limiter start count times))
  = Z.min (Z.of_nat (List.length times))
      (Z.max 0 (RATE_LIMIT_MAX_MESSAGES - count)).
Proof.
  unfold accepted.
  induction times as [|t more IH]; intros count Hc Hn Hw.
  - cbn. lia.
  - cbn [List.length] in Hn. inversion Hw as [|? ? Ht Hmore]; subst.
    cbn [run_limiter]. rewrite (checkRateLimit_count _ _ _ Ht) by lia.
    specialize (IH (count + 1) ltac:(lia) ltac:(lia) Hmore).
    cbn [List.filter List.length].
    destruct (Z.leb_spec (count + 1) RATE_LIMIT_MAX_MESSAGES) as [Hl|Hl];
      cbn [List.length]; lia.
Qed.

(** A window from the frame that opens it: that frame and at most nine
    more pass. *)
Lemma accepted_fresh_window start count t0 rest :
  STEADY_TICKS_PER_SECOND <= t0 - start ->
  Z.of_nat (List.length rest) < 2^31 - 1 ->
  Forall (fun t => t - t0 < STEADY_TICKS_PER_SECOND) rest ->
  Z.of_nat (accepted (run_limiter start count (t0 :: rest)))
  = Z.min (1 + Z.of_nat (List.length rest)) RATE_LIMIT_MAX_MESSAGES.
Proof.
  intros H0 Hn Hw. cbn [run_limiter]. rewrite (checkRateLimit_reset _ _ _ H0).
  pose proof (accepted_window t0 rest 1 ltac:(lia) ltac:(lia) Hw) as H.
  unfold accepted in *. cbn [List.filter List.length].
  unfold RATE_LIMIT_MAX_MESSAGES in *. lia.
Qed.

Section Chat.
Variable std_hash : string -> Z.
Variable env : Env.
Variable fd : Z.
Variable w : World.
Variable s : ClientSession.
Hypothesis Hs : clients_ w !! fd = Some s.
Hypothesis Hauth : authenticated_ s = true.
Hypothesis Hm : Database.isMuted (db w) (username_ s) = false.

Lemma chat_rates (k : bool -> M unit) :
  (forall b, keeps_rates (k b)) ->
  same_rates (counted env fd w s)
    (fst (bind (session_checkRateLimit env fd) k w)).
Proof.
  intros Hk. rewrite bind_checkRateLimit. cbv zeta.
  rewrite (this_here fd w s Hs), (alter_here fd w s Hs). apply Hk.
Qed.

Lemma chat_global msg :
  same_rates (counted env fd w s) (fst (handleGlobalMessage env fd msg w)).
Proof.
  unfold handleGlobalMessage. run. rewrite (this_here fd w s Hs), Hauth.
  cbn [negb]. run. rewrite (this_here fd w s Hs), Hm.
  apply chat_rates. intros b. keeps.
Qed.

Lemma chat_private msg :
  same_rates (counted env fd w s) (fst (handlePrivateMessage env fd msg w)).
Proof.
  unfold handlePrivateMessage. run. rewrite (this_here fd w s Hs), Hauth.
  cbn [negb]. run. rewrite (this_here fd w s Hs), Hm.
  apply chat_rates. intros b. keeps.
Qed.

Lemma chat_window msg :
  type msg = MSG_GLOBAL \/ type msg = MSG_PRIVATE ->
  same_rates (counted env fd w s) (exec (handleMessage std_hash env fd msg) w).
Proof.
  intros Ht. unfold exec, handleMessage.
  eapply same_rates_trans; [|apply try_catch_rates, keeps_internal_error].
  destruct Ht as [Ht|Ht].
  - rewrite (dispatch_global _ _ _ _ Ht). apply chat_global.
  - rewrite (dispatch_private _ _ _ _ Ht). apply chat_private.
Qed.

Lemma counted_here :
  clients_ (counted env fd w s) !! fd
  = Some (with_rate s (fst (window_after env s)) (snd (window_after env s))).
Proof. apply lookup_insert_eq. Qed.

Lemma limited msg :
  active_ s = true -> 0 <= socketFd_ s ->
  type msg = MSG_GLOBAL \/ type msg = MSG_PRIVATE ->
  fst (checkRateLimit (steady_now env) (rateLimitWindowStart_ s)
         (rateLimitMessageCount_ s)) = false ->
  handleMessage std_hash env fd msg w
  = (replied env fd
       (with_rate s (fst (window_after env s)) (snd (window_after env s)))
       (createErrorResponse (local_time env) rate_limit_exceeded)
       (counted env fd w s), inr tt).
Proof.
  intros Ha Hf Ht Hr. unfold handleMessage. apply try_catch_ok.
  destruct Ht as [Ht|Ht].
  - rewrite (dispatch_global _ _ _ _ Ht).
    unfold handleGlobalMessage. run. rewrite (this_here fd w s Hs), Hauth.
    cbn [negb]. run. rewrite (this_here fd w s Hs), Hm.
    rewrite bind_checkRateLimit. cbv zeta.
    rewrite (this_here fd w s Hs), Hr, (alter_here fd w s Hs). cbn [negb].
    apply (send_error_ok env fd _ _ counted_here); auto.
  - rewrite (dispatch_private _ _ _ _ Ht).
    unfold handlePrivateMessage. run. rewrite (this_here fd w s Hs), Hauth.
    cbn [negb]. run. rewrite (this_here fd w s Hs), Hm.
    rewrite bind_checkRateLimit. cbv zeta.
    rewrite (this_here fd w s Hs), Hr, (alter_here fd w s Hs). cbn [negb].
    apply (send_error_ok env fd _ _ counted_here); auto.
Qed.

End Chat.




(** ** Other handlers *)

Lemma send_reply_ok env fd w s msg :
  clients_ w !! fd = Some s ->
  active_ s = true -> 0 <= socketFd_ s ->
  valid_utf8 (sender msg) = true -> valid_utf8 (receiver msg) = true ->
  valid_utf8 (content msg) = true -> valid_utf8 (timestamp msg) = true ->
  valid_utf8 (extra msg) = true ->
  send env fd msg w = (replied env fd s msg w, inr tt).
Proof.
  intros Hs Ha Hf H1 H2 H3 H4 H5.
  destruct (serialize_total (local_time env) msg H1 H2 H3 H4 H5) as [b Hb].
  exact (send_ok env fd w s Hs msg b Ha Hf Hb).
Qed.

(** X2: a PING is answered with a PONG, whoever sends it: the session
    need not be authenticated, and a muted user is answered too. *)
Theorem ping_pong std_hash env fd msg w s :
  clients_ w !! fd = Some s ->
  active_ s = true -> 0 <= socketFd_ s ->
  type msg = PING ->
  handleMessage std_hash env fd msg w = (replied env fd s (Message_of PONG) w, inr tt).
Proof.
  intros Hs Ha Hf Ht. unfold handleMessage. apply try_catch_ok.
  unfold dispatch. rewrite Ht. cbn [Z.eqb PING REGISTER LOGIN LOGOUT
    CHANGE_PASSWORD MSG_GLOBAL MSG_PRIVATE Pos.eqb].
  apply (send_reply_ok env fd w s); auto.
Qed.

Lemma ping_pong_witness :
  handleMessage fnv1a sample_env 4 (Message_of PING) world_alice_muted
  = (replied sample_env 4 (this 4 world_alice_muted) (Message_of PONG) world_alice_muted,
     inr tt).
Proof.
  apply ping_pong.
  - vm_compute. reflexivity.
  - vm_compute. reflexivity.
  - vm_compute. discriminate.
  - reflexivity.
Defined.

(** X3: after [kickUser u] the name u is no longer in the index of
    users online, the session it pointed to is inactive and no longer
    authenticated, and nothing else has changed. *)
Theorem kick_removes_user u w fd :
  userToSocket_ w !! u = Some fd -> 0 <= fd ->
  let w' := exec (kickUser u) w in
  userToSocket_ w' !! u = None /\
  (forall u', u' <> u -> userToSocket_ w' !! u' = userToSocket_ w !! u') /\
  (forall s, clients_ w !! fd = Some s ->
     clients_ w' !! fd = Some (clearAuthentication (setInactive s))) /\
  (forall fd', fd' <> fd -> clients_ w' !! fd' = clients_ w !! fd') /\
  db w' = db w.
Proof.
  intros Hu Hf. cbv zeta.
  unfold exec, kickUser, update_session, bind, gets, modify, ret.
  cbn beta iota. rewrite Hu. cbn beta iota.
  rewrite Z.geb_leb, (proj2 (Z.leb_le _ _) Hf).
  cbn [fst clients_ userToSocket_ db with_clients with_users_map].
  split; [apply lookup_delete_eq|].
  split; [intros u' Hne; apply lookup_delete_ne; congruence|].
  split; [intros s Hs; rewrite lookup_alter_eq, Hs; reflexivity|].
  split; [intros fd' Hne; apply lookup_alter_ne; congruence|].
  reflexivity.
Qed.

Lemma kick_removes_user_witness :
  let w' := exec (kickUser "alice") world_alice in
  userToSocket_ w' !! "alice"%string = None /\
  authenticated_ (this 4 w') = false /\ active_ (this 4 w') = false.
Proof.
  cbv zeta.
  assert (userToSocket_ world_alice !! "alice"%string = Some 4) as H1
    by (vm_compute; reflexivity).
  assert (0 <= 4) as H2 by lia.
  destruct (kick_removes_user "alice" world_alice 4 H1 H2) as (Hgone & _ & Hs & _).
  split; [exact Hgone|].
  assert (clients_ world_alice !! 4 = Some (this 4 world_alice)) as H3
    by (vm_compute; reflexivity).
  unfold this. rewrite (Hs _ H3). split; reflexivity.
Defined.

(** X4: the checks of REGISTER on the lengths: a user name of fewer
    than 3 or more than 20 characters and a password of fewer than 4
    are turned away with an ERROR frame and the store is not touched;
    within the bounds the store is asked to register the user, and the
    reply is OK when it did and an ERROR when the name is taken. *)
Theorem register_length_checks std_hash env fd msg w s u p :
  clients_ w !! fd = Some s ->
  active_ s = true -> 0 <= socketFd_ s ->
  type msg = REGISTER ->
  credentials (content msg) = inr (u, p) ->
  u <> EmptyString -> p <> EmptyString ->
  let rejected text :=
    handleMessage std_hash env fd msg w
    = (replied env fd s (createErrorResponse (local_time env) text) w, inr tt) in
  ((String.length u < 3 \/ 20 < String.length u)%nat ->
   rejected "Username must be 3-20 characters"%string) /\
  ((3 <= String.length u <= 20)%nat -> (String.length p < 4)%nat ->
   rejected "Password must be at least 4 characters"%string) /\
  ((3 <= String.length u <= 20)%nat -> (4 <= String.length p)%nat ->
   handleMessage std_hash env fd msg w
   = let r := Database.registerUser std_hash (db_time env) (db w) u p "" in
     (replied env fd s
        (if fst r
         then createOkResponse (local_time env) "Registration successful" ""
         else createErrorResponse (local_time env) "Username already exists")
        (with_db w (snd r)), inr tt)).
Proof.
  intros Hs Ha Hf Ht Hc Hu Hp rejected.
  assert (forall r, handleRegister std_hash env fd msg w = r ->
                    snd r = inr tt ->
                    handleMessage std_hash env fd msg w = r) as Hm.
  { intros [w' r] Hr Hok. cbn [snd] in Hok. subst r.
    unfold handleMessage. apply try_catch_ok.
    unfold dispatch. rewrite Ht. exact Hr. }
  assert ((String.eqb u "" || String.eqb p "") = false) as He.
  { destruct (String.eqb_spec u ""); [contradiction|].
    destruct (String.eqb_spec p ""); [contradiction|]. reflexivity. }
  split; [|split].
  - intros Hl. apply Hm; [|reflexivity].
    unfold handleRegister. apply try_catch_ok. rewrite Hc. run. rewrite He.
    assert (((String.length u <? 3)%nat || (20 <? String.length u)%nat) = true)
      as ->.
    { apply orb_true_iff. destruct Hl as [Hl|Hl]; [left|right];
        apply Nat.ltb_lt; exact Hl. }
    apply (send_error_ok env fd w s Hs); auto.
  - intros Hl Hs4. apply Hm; [|reflexivity].
    unfold handleRegister. apply try_catch_ok. rewrite Hc. run. rewrite He.
    assert (((String.length u <? 3)%nat || (20 <? String.length u)%nat) = false)
      as ->.
    { apply orb_false_iff. split; apply Nat.ltb_ge; lia. }
    rewrite (proj2 (Nat.ltb_lt _ _) Hs4).
    apply (send_error_ok env fd w s Hs); auto.
  - intros Hl Hs4. cbv zeta. apply Hm; [|reflexivity].
    unfold handleRegister. apply try_catch_ok. rewrite Hc. run. rewrite He.
    assert (((String.length u <? 3)%nat || (20 <? String.length u)%nat) = false)
      as ->.
    { apply orb_false_iff. split; apply Nat.ltb_ge; lia. }
    rewrite (proj2 (Nat.ltb_ge _ _) Hs4).
    rewrite bind_command.
    destruct (Database.registerUser std_hash (db_time env) (db w) u p "")
      as [ok d]. cbn [fst snd].
    assert (clients_ (with_db w d) !! fd = Some s) as Hs' by exact Hs.
    destruct ok.
    + apply (send_reply_ok env fd _ s _ Hs'); auto. apply valid_timestamp.
    + apply (send_error_ok env fd _ s Hs'); auto.
Qed.

Lemma register_length_checks_witness :
  handleMessage fnv1a sample_env 5 (register_request "al" "pw12") world_alice
  = (replied sample_env 5 (this 5 world_alice)
       (createErrorResponse (local_time sample_env)
          "Username must be 3-20 characters") world_alice, inr tt) /\
  handleMessage fnv1a sample_env 5 (register_request "carol" "pw1") world_alice
  = (replied sample_env 5 (this 5 world_alice)
       (createErrorResponse (local_time sample_env)
          "Password must be at least 4 characters") world_alice, inr tt).
Proof.
  assert (clients_ world_alice !! 5 = Some (this 5 world_alice)) as H1
    by (vm_compute; reflexivity).
  assert (active_ (this 5 world_alice) = true) as H2 by (vm_compute; reflexivity).
  assert (0 <= socketFd_ (this 5 world_alice)) as H3 by (vm_compute; discriminate).
  split.
  - assert (credentials (content (register_request "al" "pw12"))
            = inr ("al"%string, "pw12"%string)) as H5 by (vm_compute; reflexivity).
    destruct (register_length_checks fnv1a sample_env 5
                (register_request "al" "pw12") world_alice _ _ _
                H1 H2 H3 eq_refl H5 ltac:(discriminate) ltac:(discriminate))
      as (H & _ & _).
    apply H. left. cbn. lia.
  - assert (credentials (content (register_request "carol" "pw1"))
            = inr ("carol"%string, "pw1"%string)) as H5
      by (vm_compute; reflexivity).
    destruct (register_length_checks fnv1a sample_env 5
                (register_request "carol" "pw1") world_alice _ _ _
                H1 H2 H3 eq_refl H5 ltac:(discriminate) ltac:(discriminate))
      as (_ & H & _).
    apply H; cbn; lia.
Defined.

Lemma bind_session_isAdmin {B} fd (k : bool -> M B) w :
  bind (session_isAdmin fd) k w
  = k (Database.isAdmin (db w) (username_ (this fd w))) w.
Proof. reflexivity. Qed.

(** X5: an admin cannot be banned or muted: BAN_USER and MUTE_USER of
    an admin on another admin are answered with an ERROR frame and the
    store is not touched. *)
Theorem admin_target_protected std_hash env fd msg w s :
  clients_ w !! fd = Some s ->
  authenticated_ s = true -> active_ s = true -> 0 <= socketFd_ s ->
  Database.isAdmin (db w) (username_ s) = true ->
  receiver msg <> EmptyString -> receiver msg <> username_ s ->
  Database.isAdmin (db w) (receiver msg) = true ->
  (type msg = BAN_USER ->
   handleMessage std_hash env fd msg w
   = (replied env fd s (createErrorResponse (local_time env) "Cannot ban an admin") w,
      inr tt)) /\
  (type msg = MUTE_USER ->
   handleMessage std_hash env fd msg w
   = (replied env fd s (createErrorResponse (local_time env) "Cannot mute an admin") w,
      inr tt)).
Proof.
  intros Hs Hauth Ha Hf Hadm Hr Hself Ht.
  assert (String.eqb (receiver msg) "" = false) as E1
    by (destruct (String.eqb_spec (receiver msg) ""); [contradiction|reflexivity]).
  assert (String.eqb (receiver msg) (username_ s) = false) as E2
    by (destruct (String.eqb_spec (receiver msg) (username_ s));
        [contradiction|reflexivity]).
  split; intros Hty; unfold handleMessage; apply try_catch_ok;
    unfold dispatch; rewrite Hty;
    cbn [Z.eqb Pos.eqb REGISTER LOGIN LOGOUT CHANGE_PASSWORD MSG_GLOBAL
         MSG_PRIVATE PING KICK_USER BAN_USER UNBAN_USER MUTE_USER].
  - unfold handleBanUser, admin_on_target, admin_only. run.
    rewrite (this_here fd w s Hs), Hauth. cbn [negb].
    rewrite bind_session_isAdmin, (this_here fd w s Hs), Hadm. cbn [negb].
    cbv zeta. rewrite E1. run. rewrite (this_here fd w s Hs), E2.
    run. rewrite Ht. apply (send_error_ok env fd w s Hs); auto.
  - unfold handleMuteUser, admin_on_target, admin_only. run.
    rewrite (this_here fd w s Hs), Hauth. cbn [negb].
    rewrite bind_session_isAdmin, (this_here fd w s Hs), Hadm. cbn [negb].
    cbv zeta. rewrite E1. run. rewrite (this_here fd w s Hs), E2.
    run. rewrite Ht. apply (send_error_ok env fd w s Hs); auto.
Qed.

Lemma admin_target_protected_witness :
  handleMessage fnv1a sample_env 4 (admin_command BAN_USER "bob") world_admins
  = (replied sample_env 4 (this 4 world_admins)
       (createErrorResponse (local_time sample_env) "Cannot ban an admin")
       world_admins, inr tt).
Proof.
  assert (clients_ world_admins !! 4 = Some (this 4 world_admins)) as H1
    by (vm_compute; reflexivity).
  assert (authenticated_ (this 4 world_admins) = true) as H2
    by (vm_compute; reflexivity).
  assert (active_ (this 4 world_admins) = true) as H3 by (vm_compute; reflexivity).
  assert (0 <= socketFd_ (this 4 world_admins)) as H4 by (vm_compute; discriminate).
  assert (Database.isAdmin (db world_admins) (username_ (this 4 world_admins))
          = true) as H5 by (vm_compute; reflexivity).
  assert (receiver (admin_command BAN_USER "bob") <> EmptyString) as H6
    by discriminate.
  assert (receiver (admin_command BAN_USER "bob")
          <> username_ (this 4 world_admins)) as H7 by (vm_compute; discriminate).
  assert (Database.isAdmin (db world_admins)
            (receiver (admin_command BAN_USER "bob")) = true) as H8
    by (vm_compute; reflexivity).
  destruct (admin_target_protected fnv1a sample_env 4
              (admin_command BAN_USER "bob") world_admins _
              H1 H2 H3 H4 H5 H6 H7 H8) as [H _].
  apply H. reflexivity.
Defined.

(** X6: frames that all arrive within one second, wherever the windows
    of the limiter fall: at most twenty pass (ten of the window they
    start in and ten of the one they may open). *)
Theorem rolling_second_bound (a : Z) times : forall start count,
  0 <= count -> count + Z.of_nat (List.length times) < 2^31 ->
  Forall (fun t => a <= t < a + STEADY_TICKS_PER_SECOND) times ->
  Z.of_nat (accepted (run_limiter start count times))
  <= Z.max 0 (RATE_LIMIT_MAX_MESSAGES - count) + RATE_LIMIT_MAX_MESSAGES.
Proof.
  induction times as [|t more IH]; intros start count Hc Hn Hw.
  - unfold accepted, RATE_LIMIT_MAX_MESSAGES. cbn. lia.
  - cbn [List.length] in Hn. inversion Hw as [|? ? Ht Hmore]; subst.
    destruct (Z.le_gt_cases STEADY_TICKS_PER_SECOND (t - start)) as [Hr|Hr].
    + assert (Forall (fun t' => t' - t < STEADY_TICKS_PER_SECOND) more) as Hin.
      { eapply Forall_impl; [exact Hmore|]. cbn. intros t' Ht'. lia. }
      rewrite (accepted_fresh_window start count t more Hr ltac:(lia) Hin).
      unfold RATE_LIMIT_MAX_MESSAGES. lia.
    + specialize (IH start (count + 1) ltac:(lia) ltac:(lia) Hmore).
      unfold accepted in *. cbn [run_limiter].
      rewrite (checkRateLimit_count _ _ _ Hr) by lia.
      cbn [List.filter].
      unfold RATE_LIMIT_MAX_MESSAGES in *.
      destruct (Z.leb_spec (count + 1) 10) as [Hl|Hl]; cbn [List.length]; lia.
Qed.

Lemma rolling_second_bound_witness :
  Z.of_nat (accepted (run_limiter 0 0 (map (fun ms => ms * 1000000) burst_times)))
  <= 20.
Proof.
  apply (rolling_second_bound 900000000
           (map (fun ms => ms * 1000000) burst_times) 0 0).
  - lia.
  - vm_compute. reflexivity.
  - unfold burst_times. cbn [repeat app map].
    repeat (constructor; [unfold STEADY_TICKS_PER_SECOND; lia|]). constructor.
Defined.

(** ** The account store: what the commands do *)

Lemma matches_name u r : matches u r = true <-> u_username r = c_str u.
Proof. unfold matches. apply String.eqb_eq. Qed.

Lemma matches_other u u' r :
  c_str u' <> c_str u -> matches u r = true -> matches u' r = false.
Proof.
  intros Hne Hm. apply matches_name in Hm.
  destruct (matches u' r) eqn:E; [|reflexivity].
  apply matches_name in E. congruence.
Qed.

Lemma count_zero_no_row d u :
  count_user d u = 0 -> forall r, In r (users d) -> matches u r = false.
Proof.
  unfold count_user. induction (users d) as [|x l IH];
    cbn [List.filter List.length]; intros H r Hr; [destruct Hr|].
  destruct (matches u x) eqn:E; [cbn [List.length] in H; lia|].
  destruct Hr as [<-|Hr]; [exact E | apply IH; assumption].
Qed.

Lemma count_user_nonneg d u : 0 <= count_user d u.
Proof. unfold count_user. lia. Qed.

Lemma count_of_select d u :
  count_user d u = 0 <-> select_user d u = None.
Proof.
  unfold count_user, select_user. induction (users d) as [|x l IH];
    cbn [List.filter List.find List.length]; [tauto|].
  destruct (matches u x); [cbn [List.length]; split; [lia | discriminate]|].
  exact IH.
Qed.

Lemma find_app_other (f : UserRow -> bool) l r :
  f r = false -> List.find f (l ++ [r]) = List.find f l.
Proof.
  intros Hr. induction l as [|x l IH]; cbn [app List.find].
  - rewrite Hr. reflexivity.
  - destruct (f x); [reflexivity | exact IH].
Qed.

Lemma select_update_other f d u u' :
  c_str u' <> c_str u ->
  (forall r, u_username (f r) = u_username r) ->
  select_user (fst (update_user f d u)) u' = select_user d u'.
Proof.
  intros Hne Hf. rewrite (select_update f d u u' Hf).
  unfold select_user. destruct (List.find (matches u') (users d)) as [r|] eqn:E;
    [|reflexivity].
  cbn [option_map]. apply find_some in E as [_ Hm].
  destruct (matches u r) eqn:E2; [|reflexivity].
  rewrite (matches_other u' u r) in E2; [discriminate| congruence |exact Hm].
Qed.

Lemma select_update_same f d u :
  (forall r, u_username (f r) = u_username r) ->
  select_user (fst (update_user f d u)) u = option_map f (select_user d u).
Proof.
  intros Hf. rewrite (select_update f d u u Hf).
  unfold select_user. destruct (List.find (matches u) (users d)) as [r|] eqn:E;
    [|reflexivity].
  cbn [option_map]. apply find_some in E as [_ ->]. reflexivity.
Qed.

Section Accounts.
Variable std_hash : string -> Z.

Lemma registerUser_verdict ts d u p dn :
  fst (Database.registerUser std_hash ts d u p dn) = true <->
  initialized_ d = true /\ userExists d u = false.
Proof.
  unfold Database.registerUser, userExists.
  destruct (initialized_ d); cbn [negb fst]; [|split; [discriminate|intros [? _]; discriminate]].
  destruct (count_user d u >? 0); cbn [fst]; split; try discriminate; auto.
  intros [_ ?]. discriminate.
Qed.

(** X8: [registerUser] succeeds exactly on an open store that has no
    row of that name, and otherwise changes nothing.  The account it
    creates is an ordinary member (role 0, not an admin), neither
    banned nor muted, shown under the display name given or, when that
    is empty, under its own name; the other accounts and the message
    log are as before. *)
Theorem register_effects ts d u p dn :
  let r := Database.registerUser std_hash ts d u p dn in
  (fst r = true <-> initialized_ d = true /\ userExists d u = false) /\
  (fst r = false -> snd r = d) /\
  (fst r = true ->
   userExists (snd r) u = true /\
   getUserRole (snd r) u = 0 /\ isAdmin (snd r) u = false /\
   isBanned (snd r) u = false /\ isMuted (snd r) u = false /\
   getDisplayName (snd r) u
   = c_str (if String.eqb dn EmptyString then u else dn) /\
   (forall u', c_str u' <> c_str u ->
      select_user (snd r) u' = select_user d u') /\
   messages (snd r) = messages d).
Proof.
  cbv zeta. split; [apply registerUser_verdict|]. split.
  - unfold Database.registerUser. destruct (initialized_ d); cbn [negb];
      [|reflexivity].
    destruct (count_user d u >? 0); [reflexivity | discriminate].
  - intros Hok.
    destruct (Database.registerUser std_hash ts d u p dn) as [ok d'] eqn:E.
    cbn [fst snd] in *. subst ok.
    destruct (registerUser_success std_hash _ _ _ _ _ _ E)
      as (Hi & row & Hs & _ & Hrole & Hb & Hm).
    assert (userExists d' u = true) as Hex.
    { unfold userExists. rewrite Hi. cbn [negb].
      destruct (Z.gtb_spec (count_user d' u) 0) as [|Hle]; [reflexivity|].
      pose proof (count_user_nonneg d' u).
      assert (count_user d' u = 0) as Hz by lia.
      apply count_of_select in Hz. congruence. }
    unfold getUserRole, isAdmin, getUserRole, isBanned, isMuted, getDisplayName.
    rewrite Hi, Hs, Hrole, Hb, Hm. cbn [negb].
    split; [exact Hex|]. repeat (split; [reflexivity|]).
    revert E. unfold Database.registerUser.
    destruct (initialized_ d); cbn [negb]; [|discriminate].
    destruct (count_user d u >? 0) eqn:Ec; [discriminate|].
    intros E. apply (f_equal snd) in E. cbn [snd] in E. subst d'.
    split; [|split; [|reflexivity]].
    + revert Hs. unfold select_user. cbn [users].
      rewrite Z.gtb_ltb in Ec. apply Z.ltb_ge in Ec.
      pose proof (count_user_nonneg d u).
      assert (count_user d u = 0) as Hz by lia.
      rewrite (find_app_none _ _ _ (find_none_of_count _ _ Hz)).
      cbn [List.find]. unfold matches at 1. cbn [u_username].
      rewrite String.eqb_refl. intros Hs.
      apply (f_equal (option_map u_display_name)) in Hs.
      cbn [option_map u_display_name] in Hs.
      assert (forall a b : option string, Some a = Some b -> a = b) as Hinj
        by (intros a b Hab; congruence).
      rewrite <- (Hinj _ _ Hs). reflexivity.
    + intros u' Hne. unfold select_user. cbn [users].
      apply find_app_other. unfold matches. cbn [u_username].
      apply String.eqb_neq. congruence.
Qed.

Lemma update_result f d u :
  (forall r, u_username (f r) = u_username r) ->
  0 < count_user d u ->
  exists row, select_user d u = Some row /\
              select_user (fst (update_user f d u)) u = Some (f row).
Proof.
  intros Hf Hc. destruct (select_of_count d u Hc) as (row & Hs & _).
  exists row. split; [exact Hs|]. rewrite (select_update_same f d u Hf), Hs.
  reflexivity.
Qed.

Lemma authenticate_counts d u p :
  authenticateUser std_hash d u p = true -> 0 < count_user d u.
Proof.
  intros H. apply authenticateUser_spec in H as (_ & row & Hs & _).
  pose proof (count_user_nonneg d u).
  destruct (Z.eq_dec (count_user d u) 0) as [Hz|]; [|lia].
  apply count_of_select in Hz. congruence.
Qed.

(** X9: [changePassword] succeeds exactly when the old password
    authenticates, and otherwise changes nothing.  After it the new
    password authenticates, a password with another salted hash does
    not (the old one included), and the other accounts are as
    before. *)
Theorem change_password_effects ts d u old new :
  let r := changePassword std_hash ts d u old new in
  (fst r = true <-> authenticateUser std_hash d u old = true) /\
  (fst r = false -> snd r = d) /\
  (fst r = true ->
   authenticateUser std_hash (snd r) u new = true /\
   (forall p, hashPassword std_hash p <> hashPassword std_hash new ->
      authenticateUser std_hash (snd r) u p = false) /\
   isBanned (snd r) u = isBanned d u /\
   isMuted (snd r) u = isMuted d u /\
   getUserRole (snd r) u = getUserRole d u /\
   (forall u', c_str u' <> c_str u ->
      select_user (snd r) u' = select_user d u') /\
   messages (snd r) = messages d).
Proof.
  cbv zeta. unfold changePassword.
  destruct (authenticateUser std_hash d u old) eqn:Ea; cbn [negb].
  - pose proof (authenticate_counts d u old Ea) as Hc.
    set (f := set_password (c_str (hashPassword std_hash new)) ts).
    assert (forall r, u_username (f r) = u_username r) as Hf by reflexivity.
    destruct (update_user f d u) as [d' changes] eqn:Eu.
    assert (changes = count_user d u) as -> by (unfold update_user in Eu; congruence).
    assert (d' = fst (update_user f d u)) as Hd by (rewrite Eu; reflexivity).
    cbn [fst snd].
    assert ((count_user d u >? 0) = true) as Hgt
      by (rewrite Z.gtb_ltb; apply Z.ltb_lt; exact Hc).
    split; [rewrite Hgt; tauto|]. split; [rewrite Hgt; discriminate|].
    intros _. destruct (update_result f d u Hf Hc) as (row & Hs & Hs').
    rewrite <- Hd in Hs'.
    apply authenticateUser_spec in Ea as (Hi & _).
    assert (initialized_ d' = true) as Hi' by (rewrite Hd; exact Hi).
    assert (u_password (f row) = hashPassword std_hash new) as Hp.
    { unfold f, set_password, hashPassword. cbn [u_password].
      apply c_str_hex16. }
    split; [|split].
    + apply authenticateUser_spec. split; [exact Hi'|].
      exists (f row). split; [exact Hs' | exact Hp].
    + intros p Hne.
      destruct (authenticateUser std_hash d' u p) eqn:E; [|reflexivity].
      apply authenticateUser_spec in E as (_ & row' & Hr & Hp').
      rewrite Hs' in Hr.
      assert (u_password row' = u_password (f row)) as Heq.
      { assert (forall a b : UserRow, Some a = Some b -> u_password b = u_password a)
          as Hinj by (intros a b Hab; congruence).
        exact (Hinj _ _ Hr). }
      congruence.
    + unfold isBanned, isMuted, getUserRole. rewrite Hi, Hi', Hs, Hs'.
      cbn [negb]. repeat (split; [reflexivity|]).
      split; [|rewrite Hd; reflexivity].
      intros u' Hne. rewrite Hd. apply select_update_other; assumption.
  - cbn [fst snd]. split; [split; discriminate|]. split; [reflexivity|].
    discriminate.
Qed.

(** X10: the role and the display name written by [setUserRole] and
    [updateDisplayName] are the ones read back ([isAdmin] holds
    exactly for role 1; the display name is kept up to its first NUL);
    the password and the flags of the account, and the other accounts,
    are not touched. *)
Theorem attributes_read_back ts d u :
  (forall role d', setUserRole ts d u role = (true, d') ->
     getUserRole d' u = role /\ isAdmin d' u = (role =? 1) /\
     getDisplayName d' u = getDisplayName d u /\
     isBanned d' u = isBanned d u /\ isMuted d' u = isMuted d u /\
     (forall p, authenticateUser std_hash d' u p
                = authenticateUser std_hash d u p) /\
     (forall u', c_str u' <> c_str u ->
        select_user d' u' = select_user d u')) /\
  (forall dn d', updateDisplayName ts d u dn = (true, d') ->
     getDisplayName d' u = c_str dn /\
     getUserRole d' u = getUserRole d u /\
     isBanned d' u = isBanned d u /\ isMuted d' u = isMuted d u /\
     (forall p, authenticateUser std_hash d' u p
                = authenticateUser std_hash d u p) /\
     (forall u', c_str u' <> c_str u ->
        select_user d' u' = select_user d u')).
Proof.
  assert (forall (f : UserRow -> UserRow) d',
            (forall r, u_username (f r) = u_username r) ->
            (if negb (initialized_ d) then (false, d)
             else let (d0, changes) := update_user f d u in (changes >? 0, d0))
            = (true, d') ->
            initialized_ d = true /\ initialized_ d' = true /\
            (exists row, select_user d u = Some row /\
                         select_user d' u = Some (f row)) /\
            (forall u', c_str u' <> c_str u ->
               select_user d' u' = select_user d u')) as H.
  { intros f d' Hf. destruct (initialized_ d) eqn:Ei; cbn [negb]; [|discriminate].
    destruct (update_user f d u) as [d0 changes] eqn:Eu. intros E.
    assert (changes = count_user d u) as Hch
      by (unfold update_user in Eu; congruence).
    assert (d0 = fst (update_user f d u)) as Hd by (rewrite Eu; reflexivity).
    assert (d' = d0 /\ (changes >? 0) = true) as [-> Hgt].
    { split; congruence. }
    rewrite Hch, Z.gtb_ltb in Hgt. apply Z.ltb_lt in Hgt.
    split; [reflexivity|]. split; [rewrite Hd; exact Ei|]. split.
    - rewrite Hd. apply update_result; assumption.
    - intros u' Hne. rewrite Hd. apply select_update_other; assumption. }
  split.
  - intros role d' E. unfold setUserRole in E.
    destruct (H (set_role role ts) d' ltac:(reflexivity) E)
      as (Hi & Hi' & (row & Hs & Hs') & Hother).
    unfold isAdmin, getUserRole, getDisplayName, isBanned, isMuted,
      authenticateUser.
    rewrite Hi, Hi', Hs, Hs'. cbn [negb].
    repeat match goal with |- _ /\ _ => split end;
      try reflexivity; try exact Hother; intros; reflexivity.
  - intros dn d' E. unfold updateDisplayName in E.
    destruct (H (set_display_name (c_str dn) ts) d' ltac:(reflexivity) E)
      as (Hi & Hi' & (row & Hs & Hs') & Hother).
    unfold getUserRole, getDisplayName, isBanned, isMuted, authenticateUser.
    rewrite Hi, Hi', Hs, Hs'. cbn [negb].
    repeat match goal with |- _ /\ _ => split end;
      try reflexivity; try exact Hother; intros; reflexivity.
Qed.

End Accounts.

(** ** Names are unique *)

Lemma names_update f d u :
  (forall r, u_username (f r) = u_username r) ->
  map u_username (users (fst (update_user f d u))) = map u_username (users d).
Proof.
  intros Hf. unfold update_user. cbn [fst users with_users].
  rewrite map_map. apply map_ext. intros r.
  destruct (matches u r); [apply Hf | reflexivity].
Qed.

Lemma no_row_no_name d u :
  count_user d u = 0 -> ~ In (c_str u) (map u_username (users d)).
Proof.
  intros Hz Hin. apply in_map_iff in Hin as (r & Hr & Hin).
  pose proof (count_zero_no_row d u Hz r Hin) as Hm.
  assert (matches u r = true) by (apply matches_name; exact Hr). congruence.
Qed.

(** X11: no command of the store gives two accounts the same name: if
    the names of the rows of [users] are pairwise different, they
    still are after [registerUser], [changePassword],
    [updateDisplayName], [setUserRole], the four commands on the
    flags, [logMessage] and [initialize]. *)
Theorem names_stay_unique std_hash ts d :
  unique_names d ->
  (forall u p dn,
     unique_names (snd (Database.registerUser std_hash ts d u p dn))) /\
  (forall u old new,
     unique_names (snd (changePassword std_hash ts d u old new))) /\
  (forall u dn, unique_names (snd (updateDisplayName ts d u dn))) /\
  (forall u role, unique_names (snd (setUserRole ts d u role))) /\
  (forall u, unique_names (snd (banUser ts d u)) /\
             unique_names (snd (unbanUser ts d u)) /\
             unique_names (snd (muteUser ts d u)) /\
             unique_names (snd (unmuteUser ts d u))) /\
  (forall a b c k, unique_names (snd (logMessage ts d a b c k))) /\
  (forall opened, unique_names (snd (initialize opened d))).
Proof.
  intros Hu.
  assert (forall (f : UserRow -> UserRow) u,
            (forall r, u_username (f r) = u_username r) ->
            unique_names
              (snd (if negb (initialized_ d) then (false, d)
                    else let (d0, changes) := update_user f d u in
                         (changes >? 0, d0)))) as Hup.
  { intros f u Hf. destruct (initialized_ d); cbn [negb snd]; [|exact Hu].
    destruct (update_user f d u) as [d0 changes] eqn:Eu. cbn [snd].
    assert (d0 = fst (update_user f d u)) as -> by (rewrite Eu; reflexivity).
    unfold unique_names. rewrite (names_update f d u Hf). exact Hu. }
  split; [|split; [|split; [|split; [|split; [|split]]]]].
  - intros u p dn. unfold Database.registerUser.
    destruct (initialized_ d); cbn [negb snd]; [|exact Hu].
    destruct (count_user d u >? 0) eqn:Ec; cbn [snd]; [exact Hu|].
    unfold unique_names. cbn [users]. rewrite map_app. cbn [map u_username].
    rewrite Z.gtb_ltb in Ec. apply Z.ltb_ge in Ec.
    pose proof (count_user_nonneg d u).
    assert (count_user d u = 0) as Hz by lia.
    apply NoDup_app. split; [exact Hu|]. split.
    + intros x Hx Hin. apply list_elem_of_In in Hx, Hin.
      destruct Hin as [<-|[]]. exact (no_row_no_name d u Hz Hx).
    + apply NoDup_singleton.
  - intros u old new. unfold changePassword.
    destruct (authenticateUser std_hash d u old); cbn [negb snd]; [|exact Hu].
    set (f := set_password (c_str (hashPassword std_hash new)) ts).
    destruct (update_user f d u) as [d0 changes] eqn:Eu. cbn [snd].
    assert (d0 = fst (update_user f d u)) as -> by (rewrite Eu; reflexivity).
    unfold unique_names. rewrite (names_update f d u); [exact Hu|reflexivity].
  - intros u dn. apply Hup. reflexivity.
  - intros u role. apply Hup. reflexivity.
  - intros u. repeat split; apply Hup; reflexivity.
  - intros a b c k. unfold logMessage.
    destruct (initialized_ d); cbn [negb snd]; exact Hu.
  - intros opened. unfold initialize.
    destruct (initialized_ d); cbn [snd]; [exact Hu|].
    destruct opened; cbn [negb snd]; [|exact Hu].
    unfold unique_names, set_initialized, createTables. cbn [users].
    destruct (_ =? 0); [|exact Hu].
    destruct (min_id (users d)) as [least|]; [|exact Hu].
    cbn [users with_users]. rewrite map_map.
    erewrite map_ext; [exact Hu|]. intros r. cbn.
    destruct (u_id r =? least); reflexivity.
Qed.

Lemma names_stay_unique_witness :
  unique_names
    (snd (Database.registerUser fnv1a "2024-01-01 00:00:02" (db world_alice)
            "carol" "pw12" "")).
Proof.
  assert (unique_names (db world_alice)) as H.
  { unfold unique_names.
    assert (map u_username (users (db world_alice)) = ["alice"; "bob"]%string)
      as -> by (vm_compute; reflexivity).
    repeat constructor; rewrite ?list_elem_of_In; cbn; intuition discriminate. }
  destruct (names_stay_unique fnv1a "2024-01-01 00:00:02" (db world_alice) H)
    as (Hreg & _).
  apply Hreg.
Defined.

(** ** Lists and flags *)

Lemma unique_row d r1 r2 :
  unique_names d -> In r1 (users d) -> In r2 (users d) ->
  u_username r1 = u_username r2 -> r1 = r2.
Proof.
  unfold unique_names. induction (users d) as [|x l IH]; intros Hu H1 H2 He;
    [destruct H1|].
  cbn [map] in Hu. apply NoDup_cons in Hu as [Hx Hl].
  rewrite list_elem_of_In in Hx.
  destruct H1 as [<-|H1], H2 as [<-|H2].
  - reflexivity.
  - exfalso. apply Hx. rewrite He. apply in_map. exact H2.
  - exfalso. apply Hx. rewrite <- He. apply in_map. exact H1.
  - apply IH; assumption.
Qed.

Lemma select_the_row d u r :
  unique_names d -> In r (users d) -> u_username r = c_str u ->
  select_user d u = Some r.
Proof.
  intros Hu Hr Hn. unfold select_user.
  destruct (List.find (matches u) (users d)) as [r'|] eqn:E.
  - apply find_some in E as [Hin Hm]. apply matches_name in Hm.
    f_equal. apply (unique_row d); congruence.
  - exfalso. apply (find_none _ _ E) in Hr.
    assert (matches u r = true) by (apply matches_name; exact Hn). congruence.
Qed.

Lemma flag_listed (flag : UserRow -> bool) d u :
  unique_names d ->
  (match select_user d u with Some row => flag row | None => false end) = true
  <-> In (c_str u) (map u_username (List.filter flag (users d))).
Proof.
  intros Hu. split.
  - destruct (select_user d u) as [row|] eqn:E; [|discriminate]. intros Hf.
    apply find_some in E as [Hin Hm]. apply matches_name in Hm.
    rewrite <- Hm. apply in_map. apply filter_In. split; assumption.
  - intros Hin. apply in_map_iff in Hin as (r & Hn & Hr).
    apply filter_In in Hr as [Hr Hf].
    rewrite (select_the_row d u r Hu Hr Hn). exact Hf.
Qed.

(** X12: on an open store whose names are unique, the lists agree with
    the flags: a name is in [getBannedUsers] exactly when [isBanned]
    holds for it, and in [getMutedUsers] exactly when [isMuted] does
    (names taken up to their first NUL, as the store binds them). *)
Theorem lists_agree_with_flags d :
  initialized_ d = true -> unique_names d ->
  forall u,
    (isBanned d u = true <-> In (c_str u) (getBannedUsers d)) /\
    (isMuted d u = true <-> In (c_str u) (getMutedUsers d)).
Proof.
  intros Hi Hu u. unfold isBanned, isMuted, getBannedUsers, getMutedUsers.
  rewrite Hi. cbn [negb]. split; apply flag_listed; exact Hu.
Qed.

Lemma lists_agree_with_flags_witness :
  In "bob"%string (getBannedUsers (db world_bob_banned)).
Proof.
  assert (initialized_ (db world_bob_banned) = true) as H1
    by (vm_compute; reflexivity).
  assert (unique_names (db world_bob_banned)) as H2.
  { unfold unique_names.
    assert (map u_username (users (db world_bob_banned))
            = ["alice"; "bob"]%string) as -> by (vm_compute; reflexivity).
    repeat constructor; rewrite ?list_elem_of_In; cbn; intuition discriminate. }
  destruct (lists_agree_with_flags (db world_bob_banned) H1 H2 "bob") as [H _].
  apply H. vm_compute. reflexivity.
Defined.

(** ** The list of all users *)

Lemma insert_by_name_perm r l : Permutation (insert_by_name r l) (r :: l).
Proof.
  induction l as [|x l IH]; cbn [insert_by_name]; [reflexivity|].
  destruct (String.compare (u_username r) (u_username x)); try reflexivity.
  rewrite IH. apply perm_swap.
Qed.

Lemma order_by_username_perm l : Permutation (order_by_username l) l.
Proof.
  induction l as [|x l IH]; cbn; [reflexivity|].
  rewrite insert_by_name_perm. apply perm_skip. exact IH.
Qed.

Lemma insert_by_name_sorted r l :
  Sorted (fun a b => String.compare (u_username a) (u_username b) <> Gt) l ->
  Sorted (fun a b => String.compare (u_username a) (u_username b) <> Gt)
    (insert_by_name r l).
Proof.
  induction 1 as [|x l Hl IH Hx]; cbn [insert_by_name].
  - repeat constructor.
  - destruct (String.compare (u_username r) (u_username x)) eqn:E.
    + constructor; [constructor; assumption|]. constructor. congruence.
    + constructor; [constructor; assumption|]. constructor. congruence.
    + constructor; [exact IH|].
      assert (String.compare (u_username x) (u_username r) <> Gt) as Hxr.
      { rewrite String.compare_antisym, E. discriminate. }
      destruct l as [|y l]; cbn [insert_by_name]; [constructor; exact Hxr|].
      destruct (String.compare (u_username r) (u_username y));
        constructor; try exact Hxr.
      inversion Hx; assumption.
Qed.

Lemma order_by_username_sorted l :
  Sorted (fun a b => String.compare (u_username a) (u_username b) <> Gt)
    (order_by_username l).
Proof.
  induction l as [|x l IH]; cbn; [constructor|].
  apply insert_by_name_sorted. exact IH.
Qed.

Lemma sorted_map {A B} (f : A -> B) (R : B -> B -> Prop) l :
  Sorted (fun a b => R (f a) (f b)) l -> Sorted R (map f l).
Proof.
  induction 1 as [|x l Hl IH Hx]; cbn [map]; constructor; [exact IH|].
  destruct Hx; cbn [map]; constructor. assumption.
Qed.

(** X13: [getAllUsers] on an open store lists every account once, in
    the order of the names (the byte order of [ORDER BY username]),
    each with the attributes of its row. *)
Theorem all_users_in_order d :
  initialized_ d = true ->
  Sorted (fun a b => String.compare a b <> Gt)
    (map i_username (getAllUsers d)) /\
  Permutation (getAllUsers d)
    (map (fun row => info_of_row (u_username row) row) (users d)).
Proof.
  intros Hi. unfold getAllUsers. rewrite Hi. cbn [negb]. split.
  - rewrite map_map. cbn [info_of_row i_username].
    apply sorted_map. apply order_by_username_sorted.
  - apply Permutation_map. apply order_by_username_perm.
Qed.

Lemma all_users_in_order_witness :
  map i_username (getAllUsers (db world_alice)) = ["alice"; "bob"]%string /\
  Sorted (fun a b => String.compare a b <> Gt)
    (map i_username (getAllUsers (db world_alice))).
Proof.
  split; [vm_compute; reflexivity|].
  apply all_users_in_order. vm_compute. reflexivity.
Defined.

(** ** Opening the store *)

Lemma min_id_some us r : In r us -> exists m, min_id us = Some m.
Proof.
  destruct us as [|x l]; [intros []|]. intros _. cbn [min_id fold_right].
  eexists. reflexivity.
Qed.

Lemma min_id_attained us m :
  min_id us = Some m -> exists r, In r us /\ u_id r = m.
Proof.
  revert m. induction us as [|x l IH]; intros m; [discriminate|].
  cbn [min_id fold_right]. fold (min_id l).
  destruct (min_id l) as [m'|] eqn:E.
  - intros [= <-]. destruct (Z.min_spec (u_id x) m') as [[_ ->]|[_ ->]].
    + exists x. split; [left; reflexivity | reflexivity].
    + destruct (IH m' eq_refl) as (r & Hr & Hid).
      exists r. split; [right; exact Hr | exact Hid].
  - intros [= <-]. exists x. split; [left; reflexivity | reflexivity].
Qed.

Lemma no_admin_rows us :
  (Z.of_nat (List.length (List.filter (fun r => u_role r =? 1) us)) =? 0)
  = true ->
  forall r, In r us -> u_role r <> 1.
Proof.
  intros H r Hr Hrole. apply Z.eqb_eq in H.
  assert (In r (List.filter (fun r => u_role r =? 1) us)) as Hin.
  { apply filter_In. split; [exact Hr|]. apply Z.eqb_eq. exact Hrole. }
  destruct (List.filter _ us); [destruct Hin | cbn [List.length] in H; lia].
Qed.

(** X14: opening a closed store makes sure there is an admin: when no
    account has role 1 and there is an account, the accounts with the
    least id are given role 1 and nothing else changes; when an admin
    exists, or the store is open already, or the file cannot be
    opened, nothing changes but, on success, the flag
    [initialized_]. *)
Theorem initialize_ensures_admin opened d :
  let r := initialize opened d in
  (fst r = true <-> initialized_ d = true \/ opened = true) /\
  initialized_ (snd r) = fst r /\
  messages (snd r) = messages d /\
  map u_username (users (snd r)) = map u_username (users d) /\
  (initialized_ d = true \/ opened = false \/
   (exists a, In a (users d) /\ u_role a = 1) ->
   users (snd r) = users d) /\
  (initialized_ d = false -> opened = true ->
   (forall a, In a (users d) -> u_role a <> 1) ->
   exists least,
     (users d <> [] -> min_id (users d) = Some least) /\
     users (snd r)
     = map (fun a => if u_id a =? least then make_admin a else a) (users d) /\
     (users d <> [] -> exists a, In a (users (snd r)) /\ u_role a = 1)).
Proof.
  cbv zeta. unfold initialize.
  destruct (initialized_ d) eqn:Ei; cbn [fst snd].
  { split; [tauto|]. split; [exact Ei|]. split; [reflexivity|].
    split; [reflexivity|]. split; [reflexivity | discriminate]. }
  destruct opened; cbn [negb fst snd].
  2:{ split; [split; [discriminate | intros [|]; discriminate]|].
      split; [exact Ei|]. split; [reflexivity|]. split; [reflexivity|].
      split; [reflexivity | discriminate]. }
  split; [tauto|]. split; [reflexivity|].
  unfold createTables, set_initialized. cbn [users messages].
  destruct (Z.of_nat (List.length (List.filter (fun r => u_role r =? 1) (users d)))
            =? 0) eqn:Ec.
  - pose proof (no_admin_rows _ Ec) as Hno.
    destruct (min_id (users d)) as [least|] eqn:Em; cbn [users messages with_users].
    + split; [reflexivity|]. split.
      { rewrite map_map. apply map_ext. intros a.
        destruct (u_id a =? least); reflexivity. }
      split.
      { intros [|[|(a & Ha & Hr)]]; try discriminate.
        exfalso. exact (Hno a Ha Hr). }
      intros _ _ _. exists least. split; [reflexivity|]. split; [reflexivity|].
      intros _. destruct (min_id_attained _ _ Em) as (a & Ha & Hid).
      exists (make_admin a). split; [|reflexivity].
      apply in_map_iff. exists a. split; [|exact Ha].
      rewrite Hid, Z.eqb_refl. reflexivity.
    + split; [reflexivity|]. split; [reflexivity|]. split; [reflexivity|].
      intros _ _ _. exists 0.
      assert (users d = []) as Hnil.
      { destruct (users d) as [|x l]; [reflexivity|].
        destruct (min_id_some (x :: l) x (or_introl eq_refl)) as [m Hm].
        congruence. }
      rewrite Hnil. split; [intros []; reflexivity|].
      split; [reflexivity | intros []; reflexivity].
  - split; [reflexivity|]. split; [reflexivity|]. split; [reflexivity|].
    intros _ _ Hno. exfalso.
    apply Z.eqb_neq in Ec.
    destruct (List.filter (fun r => u_role r =? 1) (users d)) as [|a l] eqn:Ef;
      [cbn in Ec; lia|].
    assert (In a (List.filter (fun r => u_role r =? 1) (users d))) as Hin
      by (rewrite Ef; left; reflexivity).
    apply filter_In in Hin as [Ha Hr]. apply Z.eqb_eq in Hr.
    exact (Hno a Ha Hr).
Qed.

Lemma initialize_ensures_admin_witness :
  isAdmin (snd (initialize true (close (db world_alice)))) "alice" = true /\
  isAdmin (snd (initialize true (close (db world_alice)))) "bob" = false.
Proof.
  destruct (initialize_ensures_admin true (close (db world_alice)))
    as (_ & _ & _ & _ & _ & H).
  destruct H as (least & _ & Hu & _).
  - reflexivity.
  - reflexivity.
  - intros a Ha. vm_compute in Ha.
    destruct Ha as [<-|[<-|[]]]; cbn; discriminate.
  - split; vm_compute; reflexivity.
Defined.
Lemma register_effects_witness :
  getUserRole
    (snd (Database.registerUser fnv1a "2024-01-01 00:00:00" empty_store
            "root" "pw12" "")) "root" = 0.
Proof.
  destruct (register_effects fnv1a "2024-01-01 00:00:00" empty_store
              "root" "pw12" "") as (_ & _ & H).
  destruct H as (_ & Hrole & _); [vm_compute; reflexivity | exact Hrole].
Defined.

(** ** What the handlers leave alone *)

Lemma with_clients_same w : with_clients w (clients_ w) = w.
Proof. destruct w. reflexivity. Qed.

Section Unchanged.
Context {T : Type}.
Variable proj : ClientSession -> T.
Variables index store : bool.
Hypothesis proj_sent : forall s l, proj (with_sent s l) = proj s.
Hypothesis proj_rate : forall s a b, proj (with_rate s a b) = proj s.

Local Abbreviation same := (unchanged proj index store).
Local Abbreviation pres := (preserves proj index store).

Lemma unchanged_refl w : same w w.
Proof. split; [reflexivity | split; reflexivity]. Qed.

Lemma unchanged_trans a b c : same a b -> same b c -> same a c.
Proof.
  intros (H1 & H2 & H3) (K1 & K2 & K3). split; [|split].
  - intros k. rewrite (K1 k). apply H1.
  - intros Hi. rewrite (K2 Hi). apply H2, Hi.
  - intros Hs. rewrite (K3 Hs). apply H3, Hs.
Qed.

Lemma unchanged_insert w fd s s' :
  clients_ w !! fd = Some s -> proj s' = proj s ->
  same w (with_clients w (<[fd := s']> (clients_ w))).
Proof.
  intros Hs Hp. split; [|split; reflexivity]. intros k.
  cbn [clients_ with_clients]. destruct (decide (k = fd)) as [->|Hne].
  - rewrite lookup_insert_eq, Hs. cbn. rewrite Hp. reflexivity.
  - rewrite lookup_insert_ne by congruence. reflexivity.
Qed.

Lemma unchanged_alter w fd (f : ClientSession -> ClientSession) :
  (forall s, proj (f s) = proj s) ->
  same w (with_clients w (alter f fd (clients_ w))).
Proof.
  intros Hf. split; [|split; reflexivity]. intros k.
  cbn [clients_ with_clients]. destruct (decide (k = fd)) as [->|Hne].
  - rewrite lookup_alter_eq. destruct (clients_ w !! fd); cbn; [|reflexivity].
    rewrite Hf. reflexivity.
  - rewrite lookup_alter_ne by congruence. reflexivity.
Qed.

Lemma pres_ret {A} (a : A) : pres (ret a).
Proof. intros w. apply unchanged_refl. Qed.

Lemma pres_throw {A} e : pres (@throw A e).
Proof. intros w. apply unchanged_refl. Qed.

Lemma pres_gets {A} (f : World -> A) : pres (gets f).
Proof. intros w. apply unchanged_refl. Qed.

Lemma pres_lift {A} (r : json_exception + A) : pres (lift r).
Proof. destruct r; [apply pres_throw | apply pres_ret]. Qed.

Lemma pres_query {A} (f : Database -> A) : pres (query f).
Proof. apply pres_gets. Qed.

Lemma pres_dump_or_throw j : pres (dump_or_throw j).
Proof.
  unfold dump_or_throw. destruct (dump j); [apply pres_ret | apply pres_throw].
Qed.

Lemma pres_bind {A B} (c : M A) (k : A -> M B) :
  pres c -> (forall a, pres (k a)) -> pres (bind c k).
Proof.
  intros Hc Hk w. unfold bind. specialize (Hc w).
  destruct (c w) as [w' [e|a]]; cbn [fst] in *; [exact Hc|].
  exact (unchanged_trans _ _ _ Hc (Hk a w')).
Qed.

Lemma try_catch_unchanged {A} (c : M A) h w :
  (forall e, pres (h e)) -> same (fst (c w)) (fst (try_catch c h w)).
Proof.
  intros Hh. unfold try_catch.
  destruct (c w) as [w' [e|a]]; cbn [fst]; [apply Hh | apply unchanged_refl].
Qed.

Lemma pres_try_catch {A} (c : M A) h :
  pres c -> (forall e, pres (h e)) -> pres (try_catch c h).
Proof.
  intros Hc Hh w.
  exact (unchanged_trans _ _ _ (Hc w) (try_catch_unchanged c h w Hh)).
Qed.

Lemma pres_ignore_exceptions c : pres c -> pres (ignore_exceptions c).
Proof. intros Hc. apply pres_try_catch; [exact Hc|]. intros e. apply pres_ret. Qed.

Lemma pres_update_session fd f :
  (forall s, proj (f s) = proj s) -> pres (update_session fd f).
Proof. intros Hf w. apply unchanged_alter, Hf. Qed.

Lemma pres_sendMessage env fd msg : pres (sendMessage env fd msg).
Proof.
  intros w. unfold sendMessage.
  destruct (clients_ w !! fd) as [s|] eqn:Hs; [|apply unchanged_refl].
  unfold session_send.
  destruct (negb (active_ s) || (socketFd_ s <? 0)); cbn [fst].
  - apply (unchanged_insert _ _ s); [exact Hs | reflexivity].
  - destruct (serialize _ _); cbn [fst]; [|apply unchanged_refl].
    destruct (send_accepts _ _ _);
      (apply (unchanged_insert _ _ s); [exact Hs|]);
      [apply proj_sent | reflexivity].
Qed.

Lemma pres_send env fd msg : pres (send env fd msg).
Proof.
  apply pres_bind; [apply pres_sendMessage | intros ?; apply pres_ret].
Qed.

Lemma pres_broadcast env msg excl : pres (broadcast env msg excl).
Proof.
  intros w. unfold broadcast. cbv zeta.
  destruct (serialize _ _).
  - split; [|split; reflexivity]. intros k.
    cbn [fst clients_ with_clients]. rewrite map_lookup_imap.
    destruct (clients_ w !! k) as [s|]; cbn; [|reflexivity].
    destruct (_ && _); [|reflexivity].
    unfold sent_to. destruct (send_accepts _ _ _);
      [rewrite proj_sent|]; reflexivity.
  - destruct (existsb _ _); apply unchanged_refl.
Qed.

Lemma pres_sendToUser env u msg : pres (sendToUser env u msg).
Proof.
  unfold sendToUser. apply pres_bind; [apply pres_gets|]. intros socket.
  cbv zeta. destruct (_ <? 0); [apply pres_ret|].
  apply pres_bind; [apply pres_gets|]. intros [s|];
    [apply pres_sendMessage | apply pres_ret].
Qed.

Lemma pres_checkRateLimit env fd : pres (session_checkRateLimit env fd).
Proof.
  intros w. unfold session_checkRateLimit. cbv zeta.
  destruct (checkRateLimit _ _ _) as [ok [start count]]. cbn [fst].
  apply unchanged_alter. intros s. apply proj_rate.
Qed.

Lemma pres_isUserOnline u : pres (isUserOnline u).
Proof. apply pres_gets. Qed.

Lemma pres_getOnlineUsers : pres getOnlineUsers.
Proof. apply pres_gets. Qed.

Lemma pres_getUsername fd : pres (getUsername fd).
Proof. apply pres_gets. Qed.

Lemma pres_authenticated fd : pres (authenticated fd).
Proof. apply pres_gets. Qed.

Lemma pres_session_isAdmin fd : pres (session_isAdmin fd).
Proof.
  apply pres_bind; [apply pres_getUsername | intros ?; apply pres_query].
Qed.

Lemma pres_command f : store = false -> pres (command f).
Proof.
  intros Hs w. unfold command. destruct (f (db w)). cbn [fst].
  split; [reflexivity|]. split; [reflexivity|]. rewrite Hs. discriminate.
Qed.

Lemma pres_users_map (f : World -> gmap string Z) :
  index = false -> pres (modify (fun w => with_users_map w (f w))).
Proof.
  intros Hi w. split; [reflexivity|]. split; [rewrite Hi; discriminate|].
  reflexivity.
Qed.

Lemma pres_registerUser u fd : index = false -> pres (Server.registerUser u fd).
Proof. intros Hi. unfold Server.registerUser. apply (pres_users_map _ Hi). Qed.

Lemma pres_unregisterUser u : index = false -> pres (unregisterUser u).
Proof. intros Hi. unfold unregisterUser. apply (pres_users_map _ Hi). Qed.

Lemma pres_kickUser u :
  index = false ->
  (forall s, proj (clearAuthentication (setInactive s)) = proj s) ->
  pres (kickUser u).
Proof.
  intros Hi Hc. unfold kickUser. apply pres_bind; [apply pres_gets|].
  intros [socketFd|]; [|apply pres_ret].
  apply pres_bind; [apply (pres_users_map _ Hi)|]. intros _.
  destruct (_ >=? 0); [|apply pres_ret].
  apply pres_update_session. exact Hc.
Qed.

(** One step through a handler. *)
Ltac pres_step :=
  match goal with
  | |- preserves _ _ _ (bind _ _) => apply pres_bind; [|intros ?]
  | |- preserves _ _ _ (try_catch _ _) => apply pres_try_catch; [|intros ?]
  | |- preserves _ _ _ (ignore_exceptions _) => apply pres_ignore_exceptions
  | |- preserves _ _ _ (if ?b then _ else _) => destruct b
  | |- preserves _ _ _ (match ?x with _ => _ end) => destruct x
  | |- preserves _ _ _ _ =>
      first [ apply pres_ret | apply pres_throw | apply pres_gets
            | apply pres_lift | apply pres_query | apply pres_dump_or_throw
            | apply pres_send | apply pres_sendMessage | apply pres_broadcast
            | apply pres_sendToUser | apply pres_checkRateLimit
            | apply pres_isUserOnline | apply pres_getOnlineUsers
            | apply pres_getUsername | apply pres_authenticated
            | apply pres_session_isAdmin
            | apply pres_command; assumption
            | apply pres_registerUser; assumption
            | apply pres_unregisterUser; assumption
            | apply pres_kickUser; assumption
            | apply pres_update_session; assumption ]
  | |- preserves _ _ _ _ => progress cbv zeta
  end.

Section Handlers.
Hypothesis store_free : store = false.
Variable std_hash : string -> Z.
Variable env : Env.
Variable fd : Z.
Variable msg : Message.

Lemma pres_handleRegister : pres (handleRegister std_hash env fd msg).
Proof. unfold handleRegister, invalid_request_format. repeat pres_step. Qed.

Lemma pres_handleChangePassword :
  pres (handleChangePassword std_hash env fd msg).
Proof. unfold handleChangePassword. repeat pres_step. Qed.

Lemma pres_handleGlobalMessage : pres (handleGlobalMessage env fd msg).
Proof. unfold handleGlobalMessage. repeat pres_step. Qed.

Lemma pres_handlePrivateMessage : pres (handlePrivateMessage env fd msg).
Proof. unfold handlePrivateMessage. repeat pres_step. Qed.

Lemma pres_handleUnbanUser : pres (handleUnbanUser env fd msg).
Proof. unfold handleUnbanUser, admin_on_target, admin_only. repeat pres_step. Qed.

Lemma pres_handleMuteUser : pres (handleMuteUser env fd msg).
Proof.
  unfold handleMuteUser, admin_on_target, admin_only, notify_if_online.
  repeat pres_step.
Qed.

Lemma pres_handleUnmuteUser : pres (handleUnmuteUser env fd msg).
Proof.
  unfold handleUnmuteUser, admin_on_target, admin_only, notify_if_online.
  repeat pres_step.
Qed.

Lemma pres_handlePromoteUser : pres (handlePromoteUser env fd msg).
Proof. unfold handlePromoteUser, admin_on_target, admin_only. repeat pres_step. Qed.

Lemma pres_handleDemoteUser : pres (handleDemoteUser env fd msg).
Proof. unfold handleDemoteUser, admin_on_target, admin_only. repeat pres_step. Qed.

Lemma pres_handleGetAllUsers : pres (handleGetAllUsers env fd msg).
Proof. unfold handleGetAllUsers, admin_only. repeat pres_step. Qed.

Lemma pres_handleGetBannedList : pres (handleGetBannedList env fd msg).
Proof. unfold handleGetBannedList, admin_only. repeat pres_step. Qed.

Lemma pres_handleGetMutedList : pres (handleGetMutedList env fd msg).
Proof. unfold handleGetMutedList, admin_only. repeat pres_step. Qed.

Lemma pres_handleUserInfo : pres (handleUserInfo env fd msg).
Proof. unfold handleUserInfo. repeat pres_step. Qed.

Lemma pres_internal_error (e : json_exception) :
  pres (ignore_exceptions
          (send env fd
             (createErrorResponse (local_time env) "Internal server error"))).
Proof. repeat pres_step. Qed.

Section Logins.
Hypothesis index_free : index = false.
Hypothesis proj_auth : forall u dn s, proj (setAuthenticated u dn s) = proj s.
Hypothesis proj_clear : forall s, proj (clearAuthentication s) = proj s.
Hypothesis proj_kick :
  forall s, proj (clearAuthentication (setInactive s)) = proj s.

Lemma pres_handleLogin : pres (handleLogin std_hash env fd msg).
Proof.
  unfold handleLogin, invalid_request_format. repeat pres_step.
  all: apply pres_update_session; intros ?; apply proj_auth.
Qed.

Lemma pres_handleLogout : pres (handleLogout env fd msg).
Proof. unfold handleLogout. repeat pres_step. Qed.

Lemma pres_handleKickUser : pres (handleKickUser env fd msg).
Proof. unfold handleKickUser, admin_on_target, admin_only. repeat pres_step. Qed.

Lemma pres_handleBanUser : pres (handleBanUser env fd msg).
Proof. unfold handleBanUser, admin_on_target, admin_only. repeat pres_step. Qed.

End Logins.

(** The dispatch, given what the four handlers that log in and out
    do. *)
Lemma pres_dispatch_with :
  (type msg = LOGIN -> pres (handleLogin std_hash env fd msg)) ->
  (type msg = LOGOUT -> pres (handleLogout env fd msg)) ->
  (type msg = KICK_USER -> pres (handleKickUser env fd msg)) ->
  (type msg = BAN_USER -> pres (handleBanUser env fd msg)) ->
  pres (dispatch std_hash env fd msg).
Proof.
  intros H1 H2 H3 H4. unfold dispatch. cbv zeta.
  repeat match goal with
         | |- preserves _ _ _ (if ?t =? ?c then _ else _) =>
             destruct (Z.eqb_spec t c)
         end;
    auto using pres_handleRegister, pres_handleChangePassword,
      pres_handleGlobalMessage, pres_handlePrivateMessage,
      pres_handleUnbanUser, pres_handleMuteUser, pres_handleUnmuteUser,
      pres_handlePromoteUser, pres_handleDemoteUser, pres_handleGetAllUsers,
      pres_handleGetBannedList, pres_handleGetMutedList, pres_handleUserInfo,
      pres_send.
Qed.

Lemma pres_handleMessage_with :
  (type msg = LOGIN -> pres (handleLogin std_hash env fd msg)) ->
  (type msg = LOGOUT -> pres (handleLogout env fd msg)) ->
  (type msg = KICK_USER -> pres (handleKickUser env fd msg)) ->
  (type msg = BAN_USER -> pres (handleBanUser env fd msg)) ->
  pres (handleMessage std_hash env fd msg).
Proof.
  intros H1 H2 H3 H4. unfold handleMessage. apply pres_try_catch.
  - apply pres_dispatch_with; assumption.
  - apply pres_internal_error.
Qed.

End Handlers.
End Unchanged.

(** The same steps, for the lemmas as they are outside their
    section. *)
Ltac pres_auto :=
  repeat match goal with
  | |- preserves _ _ _ (bind _ _) => apply pres_bind
  | |- preserves _ _ _ (try_catch _ _) => apply pres_try_catch
  | |- preserves _ _ _ (ignore_exceptions _) => apply pres_ignore_exceptions
  | |- preserves _ _ _ (if ?b then _ else _) => destruct b
  | |- preserves _ _ _ (match ?x with _ => _ end) => destruct x
  | |- preserves _ _ _ _ =>
      first [ apply pres_ret | apply pres_throw | apply pres_gets
            | apply pres_lift | apply pres_query | apply pres_dump_or_throw
            | apply pres_send | apply pres_sendMessage | apply pres_broadcast
            | apply pres_sendToUser | apply pres_checkRateLimit
            | apply pres_isUserOnline | apply pres_getOnlineUsers
            | apply pres_getUsername | apply pres_authenticated
            | apply pres_session_isAdmin
            | apply pres_command | apply pres_kickUser
            | apply pres_registerUser | apply pres_unregisterUser
            | apply pres_update_session ]
  | |- preserves _ _ _ _ => progress cbv zeta
  | |- forall _, _ => intros ?
  | |- _ = _ => reflexivity
  end.

(** ** The buffer of a session is touched by [processData] alone *)

Lemma handleMessage_keeps_buffers std_hash env fd msg :
  preserves buffer_ false false (handleMessage std_hash env fd msg).
Proof.
  apply pres_handleMessage_with; try reflexivity; intros _.
  - apply pres_handleLogin; reflexivity.
  - apply pres_handleLogout; reflexivity.
  - apply pres_handleKickUser; reflexivity.
  - apply pres_handleBanUser; reflexivity.
Qed.

Lemma buffer_after_handling std_hash env fd msg w s :
  clients_ w !! fd = Some s ->
  exists s', clients_ (exec (handleMessage std_hash env fd msg) w) !! fd = Some s'
             /\ buffer_ s' = buffer_ s.
Proof.
  intros Hs. destruct (handleMessage_keeps_buffers std_hash env fd msg w)
    as (H & _). specialize (H fd). rewrite Hs in H. unfold exec.
  destruct (clients_ (fst (handleMessage std_hash env fd msg w)) !! fd) as [s'|];
    [|discriminate].
  exists s'. split; [reflexivity|]. cbn in H. congruence.
Qed.

Lemma cut_here w fd s rest :
  clients_ w !! fd = Some s ->
  clients_ (with_clients w (alter (fun s0 => with_buffer s0 rest) fd (clients_ w)))
    !! fd = Some (with_buffer s rest).
Proof.
  intros Hs. cbn [clients_ with_clients]. rewrite lookup_alter_eq, Hs. reflexivity.
Qed.

Lemma processLoop_steps std_hash clock fd fuel : forall i w s,
  clients_ w !! fd = Some s ->
  processLoop std_hash clock fd fuel i w
  = handle_steps std_hash clock fd i (extract_steps fuel (buffer_ s)) w /\
  buffer_ (this fd (processLoop std_hash clock fd fuel i w))
  = snd (extract_loop fuel (buffer_ s)).
Proof.
  induction fuel as [|fuel IH]; intros i w s Hs.
  - cbn [processLoop extract_steps handle_steps extract_loop snd].
    unfold this. rewrite Hs. split; reflexivity.
  - assert (this fd w = s) as Ht by (unfold this; rewrite Hs; reflexivity).
    cbn [processLoop extract_steps extract_loop]. cbv zeta. rewrite !Ht.
    destruct (hasCompleteMessage (buffer_ s)).
    + destruct (extractMessage (buffer_ s)) as [msg rest].
      cbn [handle_steps].
      destruct (buffer_after_handling std_hash (clock i) fd msg _ _
                  (cut_here w fd s rest Hs)) as (s' & Hs' & Hb).
      cbn [buffer_ with_buffer] in Hb.
      destruct (IH (S i) _ s' Hs') as [H1 H2]. rewrite Hb in H1, H2.
      split; [exact H1|].
      destruct (extract_loop fuel rest) as [msgs final]. exact H2.
    + cbn [handle_steps snd]. rewrite Ht. split; reflexivity.
Qed.

Lemma extract_steps_messages fuel : forall b,
  map fst (extract_steps fuel b) = fst (extract_loop fuel b).
Proof.
  induction fuel as [|fuel IH]; intros b; [reflexivity|].
  cbn [extract_steps extract_loop]. destruct (hasCompleteMessage b);
    [|reflexivity].
  destruct (extractMessage b) as [msg rest]. cbn [map fst]. rewrite IH.
  destruct (extract_loop fuel rest). reflexivity.
Qed.

(** X15: [processData] handles exactly the messages of the complete
    frames at the head of the buffer with the bytes read appended, in
    their order, each after it was cut from the buffer, and leaves in
    the buffer the bytes that follow them: no handler touches the
    buffer. *)
Theorem processData_handles_frames std_hash clock fd data w s :
  clients_ w !! fd = Some s ->
  let buffer := buffer_ s ++ data in
  let steps := extract_steps (List.length buffer) buffer in
  processData std_hash clock fd data w
  = handle_steps std_hash clock fd 0 steps
      (with_clients w (<[fd := with_buffer s buffer]> (clients_ w))) /\
  map fst steps = fst (extract_all buffer) /\
  buffer_ (this fd (processData std_hash clock fd data w))
  = snd (extract_all buffer).
Proof.
  intros Hs. cbv zeta. unfold processData, extract_all. cbv zeta.
  assert (alter (fun s0 => with_buffer s0 (append (buffer_ s0) data)) fd
            (clients_ w)
          = <[fd := with_buffer s (buffer_ s ++ data)]> (clients_ w)) as ->.
  { apply map_eq. intros k. destruct (decide (k = fd)) as [->|Hne].
    - rewrite lookup_alter_eq, lookup_insert_eq, Hs. reflexivity.
    - rewrite lookup_alter_ne, lookup_insert_ne by congruence. reflexivity. }
  set (w1 := with_clients w
               (<[fd := with_buffer s (buffer_ s ++ data)]> (clients_ w))).
  assert (clients_ w1 !! fd = Some (with_buffer s (buffer_ s ++ data))) as H1
    by apply lookup_insert_eq.
  assert (this fd w1 = with_buffer s (buffer_ s ++ data)) as Ht
    by (unfold this; rewrite H1; reflexivity).
  rewrite Ht. cbn [buffer_ with_buffer].
  destruct (processLoop_steps std_hash clock fd
              (List.length (buffer_ s ++ data)) 0 w1 _ H1) as [Ha Hb].
  cbn [buffer_ with_buffer] in Ha, Hb.
  split; [exact Ha|]. split; [apply extract_steps_messages | exact Hb].
Qed.

Lemma processData_handles_frames_witness :
  let data := wire sample_time (Message_of PING) ++ [Byte.x00] in
  processData fnv1a (fun _ => sample_env) 4 data world_alice
  = exec (handleMessage fnv1a sample_env 4
            (set_timestamp (Message_of PING) (getCurrentTimestamp sample_time)))
      (with_clients world_alice
         (<[4 := with_buffer (this 4 world_alice) [Byte.x00]]>
            (clients_ world_alice))).
Proof.
  cbv zeta.
  assert (clients_ world_alice !! 4 = Some (this 4 world_alice)) as H
    by (vm_compute; reflexivity).
  destruct (processData_handles_frames fnv1a (fun _ => sample_env) 4
              (wire sample_time (Message_of PING) ++ [Byte.x00]) world_alice
              (this 4 world_alice) H) as (Hrun & _).
  rewrite Hrun. vm_compute. reflexivity.
Defined.

(** ** Who is logged in *)

Lemma login_of_eq s s' :
  login_of s = login_of s' ->
  socketFd_ s = socketFd_ s' /\ authenticated_ s = authenticated_ s' /\
  username_ s = username_ s'.
Proof. unfold login_of. intros [= H1 H2 H3]. auto. Qed.

Lemma unchanged_lookup {T} (proj : ClientSession -> T) i st w w' fd s :
  unchanged proj i st w w' -> clients_ w !! fd = Some s ->
  exists s', clients_ w' !! fd = Some s' /\ proj s' = proj s.
Proof.
  intros (F & _) Hs. specialize (F fd). rewrite Hs in F.
  destruct (clients_ w' !! fd) as [s'|]; [|discriminate].
  exists s'. split; [reflexivity|]. cbn in F. congruence.
Qed.

Lemma unchanged_lookup_back {T} (proj : ClientSession -> T) i st w w' fd s' :
  unchanged proj i st w w' -> clients_ w' !! fd = Some s' ->
  exists s, clients_ w !! fd = Some s /\ proj s' = proj s.
Proof.
  intros (F & _) Hs. specialize (F fd). rewrite Hs in F.
  destruct (clients_ w !! fd) as [s|]; [|discriminate].
  exists s. split; [reflexivity|]. cbn in F. congruence.
Qed.

Lemma consistent_unchanged st w w' :
  consistent w -> unchanged login_of true st w w' -> consistent w'.
Proof.
  intros [H1 H2] F. split.
  - intros fd s' Hs'.
    destruct (unchanged_lookup_back _ _ _ _ _ _ _ F Hs') as (s & Hs & Hl).
    apply login_of_eq in Hl as (Ha & Hb & Hc).
    destruct (H1 fd s Hs) as (K1 & K2 & K3).
    rewrite Ha, Hb, Hc. auto.
  - intros u fd. destruct F as (F & Fi & Fs). rewrite (Fi eq_refl), H2.
    assert (unchanged login_of true st w w') as F' by (split; [exact F|split; assumption]).
    split; intros (s & Hs & Ha & Hu).
    + destruct (unchanged_lookup _ _ _ _ _ _ _ F' Hs) as (s' & Hs' & Hl).
      apply login_of_eq in Hl as (_ & Hb & Hc).
      exists s'. split; [exact Hs'|]. split; congruence.
    + destruct (unchanged_lookup_back _ _ _ _ _ _ _ F' Hs) as (s0 & Hs0 & Hl).
      apply login_of_eq in Hl as (_ & Hb & Hc).
      exists s0. split; [exact Hs0|]. split; congruence.
Qed.

(** The state in which the session at fd, logged in as [username_ s],
    is logged out by f. *)
Lemma consistent_logged_out w fd s (f : ClientSession -> ClientSession) :
  consistent w ->
  clients_ w !! fd = Some s -> authenticated_ s = true ->
  socketFd_ (f s) = socketFd_ s -> authenticated_ (f s) = false ->
  username_ (f s) = EmptyString ->
  consistent
    (mkWorld (alter f fd (clients_ w)) (delete (username_ s) (userToSocket_ w))
       (db w)).
Proof.
  intros [H1 H2] Hs Hauth Hf1 Hf2 Hf3.
  assert (userToSocket_ w !! username_ s = Some fd) as Hidx.
  { apply H2. exists s. auto. }
  split; cbn [clients_ userToSocket_].
  - intros k s' Hk. destruct (decide (k = fd)) as [->|Hne].
    + rewrite lookup_alter_eq, Hs in Hk. cbn in Hk.
      assert (s' = f s) as -> by congruence.
      destruct (H1 fd s Hs) as (K1 & K2 & _). rewrite Hf1. auto.
    + rewrite lookup_alter_ne in Hk by congruence. apply H1. exact Hk.
  - intros u k. split.
    + intros Hu. destruct (decide (u = username_ s)) as [->|Hne];
        [rewrite lookup_delete_eq in Hu; discriminate|].
      rewrite lookup_delete_ne in Hu by congruence.
      apply H2 in Hu as (s0 & Hs0 & Ha & Hn).
      assert (k <> fd) as Hk by (intros ->; congruence).
      exists s0. rewrite lookup_alter_ne by congruence. auto.
    + intros (s' & Hs' & Ha & Hn).
      destruct (decide (k = fd)) as [->|Hk].
      * rewrite lookup_alter_eq, Hs in Hs'. cbn in Hs'.
        assert (s' = f s) as -> by congruence. congruence.
      * rewrite lookup_alter_ne in Hs' by congruence.
        assert (userToSocket_ w !! u = Some k) as Hu
          by (apply H2; exists s'; auto).
        rewrite lookup_delete_ne; [exact Hu|]. intros <-. congruence.
Qed.

Lemma consistent_logged_in w fd s u dn :
  consistent w ->
  clients_ w !! fd = Some s -> authenticated_ s = false ->
  userToSocket_ w !! u = None ->
  consistent
    (mkWorld (alter (setAuthenticated u dn) fd (clients_ w))
       (<[u := fd]> (userToSocket_ w)) (db w)).
Proof.
  intros [H1 H2] Hs Hauth Hfree. split; cbn [clients_ userToSocket_].
  - intros k s' Hk. destruct (decide (k = fd)) as [->|Hne].
    + rewrite lookup_alter_eq, Hs in Hk. cbn in Hk.
      assert (s' = setAuthenticated u dn s) as -> by congruence.
      destruct (H1 fd s Hs) as (K1 & K2 & _).
      cbn [setAuthenticated socketFd_ authenticated_ username_].
      repeat split; auto. discriminate.
    + rewrite lookup_alter_ne in Hk by congruence. apply H1. exact Hk.
  - intros u' k. split.
    + intros Hu. destruct (decide (u' = u)) as [->|Hne].
      * rewrite lookup_insert_eq in Hu. assert (k = fd) as -> by congruence.
        exists (setAuthenticated u dn s).
        rewrite lookup_alter_eq, Hs. auto.
      * rewrite lookup_insert_ne in Hu by congruence.
        apply H2 in Hu as (s0 & Hs0 & Ha & Hn).
        assert (k <> fd) as Hk by (intros ->; congruence).
        exists s0. rewrite lookup_alter_ne by congruence. auto.
    + intros (s' & Hs' & Ha & Hn).
      destruct (decide (k = fd)) as [->|Hk].
      * rewrite lookup_alter_eq, Hs in Hs'. cbn in Hs'.
        assert (s' = setAuthenticated u dn s) as -> by congruence.
        cbn [setAuthenticated username_] in Hn. subst u'.
        apply lookup_insert_eq.
      * rewrite lookup_alter_ne in Hs' by congruence.
        assert (userToSocket_ w !! u' = Some k) as Hu
          by (apply H2; exists s'; auto).
        rewrite lookup_insert_ne; [exact Hu|]. intros <-. congruence.
Qed.

Lemma kc_of_pres {A} (c : M A) :
  preserves login_of true false c -> keeps_consistent c.
Proof. intros H w Hw. exact (consistent_unchanged _ _ _ Hw (H w)). Qed.

Lemma kc_bind {A B} (c : M A) (k : A -> M B) :
  keeps_consistent c -> (forall a, keeps_consistent (k a)) ->
  keeps_consistent (bind c k).
Proof.
  intros Hc Hk w Hw. unfold bind. specialize (Hc w Hw).
  destruct (c w) as [w' [e|a]]; cbn [fst] in *; [exact Hc|].
  exact (Hk a w' Hc).
Qed.

Lemma kc_try_catch {A} (c : M A) h :
  keeps_consistent c -> (forall e, keeps_consistent (h e)) ->
  keeps_consistent (try_catch c h).
Proof.
  intros Hc Hh w Hw. unfold try_catch. specialize (Hc w Hw).
  destruct (c w) as [w' [e|a]]; cbn [fst] in *; [exact (Hh e w' Hc) | exact Hc].
Qed.

Lemma kc_kickUser u : keeps_consistent (kickUser u).
Proof.
  intros w Hw. unfold kickUser, update_session, bind, gets, modify, ret.
  cbn beta iota.
  destruct (userToSocket_ w !! u) as [k|] eqn:Hu; cbn [fst]; [|exact Hw].
  pose proof Hw as [H1 H2]. apply H2 in Hu as (s & Hs & Ha & Hn).
  destruct (H1 k s Hs) as (_ & Hk & _).
  rewrite Z.geb_leb, (proj2 (Z.leb_le _ _) Hk). cbn [fst].
  subst u.
  exact (consistent_logged_out w k s (fun s0 => clearAuthentication (setInactive s0))
           Hw Hs Ha eq_refl eq_refl eq_refl).
Qed.

Ltac kc_auto :=
  repeat match goal with
  | |- keeps_consistent (bind _ _) => apply kc_bind
  | |- keeps_consistent (try_catch _ _) => apply kc_try_catch
  | |- keeps_consistent (kickUser _) => apply kc_kickUser
  | |- keeps_consistent (if ?b then _ else _) => destruct b
  | |- keeps_consistent (match ?x with _ => _ end) => destruct x
  | |- keeps_consistent _ => progress cbv zeta
  | |- keeps_consistent _ => apply kc_of_pres; solve [pres_auto]
  | |- forall _, _ => intros ?
  end.

Lemma kc_handleKickUser env fd msg : keeps_consistent (handleKickUser env fd msg).
Proof. unfold handleKickUser, admin_on_target, admin_only. kc_auto. Qed.

Lemma kc_handleBanUser env fd msg : keeps_consistent (handleBanUser env fd msg).
Proof. unfold handleBanUser, admin_on_target, admin_only. kc_auto. Qed.

Lemma bind_modify {B} (g : World -> World) (k : unit -> M B) w :
  bind (modify g) k w = k tt (g w).
Proof. reflexivity. Qed.

Lemma try_catch_consistent {A} (c : M A) h w :
  consistent (fst (c w)) -> (forall e, keeps_consistent (h e)) ->
  consistent (fst (try_catch c h w)).
Proof.
  intros Hc Hh. unfold try_catch.
  destruct (c w) as [w' [e|a]]; cbn [fst] in *; [exact (Hh e w' Hc) | exact Hc].
Qed.

Lemma send_consistent env fd msg w :
  consistent w -> consistent (fst (send env fd msg w)).
Proof.
  intros Hw. apply (kc_of_pres (send env fd msg)); [|exact Hw].
  apply pres_send; reflexivity.
Qed.

Lemma kc_invalid_request_format env fd (e : json_exception) :
  keeps_consistent (invalid_request_format env fd).
Proof. unfold invalid_request_format. kc_auto. Qed.

Lemma login_keeps_consistent std_hash env fd msg w s :
  consistent w -> clients_ w !! fd = Some s ->
  consistent (fst (handleLogin std_hash env fd msg w)).
Proof.
  intros Hw Hs. unfold handleLogin. run. rewrite (this_here fd w s Hs).
  destruct (authenticated_ s) eqn:Ha; [apply send_consistent; exact Hw|].
  apply try_catch_consistent; [|apply kc_invalid_request_format].
  destruct (credentials (content msg)) as [e|[u p]]; run; [exact Hw|].
  destruct (userToSocket_ w !! u) as [k|] eqn:Hu.
  { rewrite bool_decide_eq_true_2 by (eexists; reflexivity).
    apply send_consistent; exact Hw. }
  rewrite bool_decide_eq_false_2 by (intros [? ?]; discriminate).
  run. destruct (Database.isBanned (db w) u); [apply send_consistent; exact Hw|].
  run. destruct (Database.authenticateUser std_hash (db w) u p);
    [|apply send_consistent; exact Hw].
  run. unfold update_session, Server.registerUser. rewrite !bind_modify.
  set (dn := Database.getDisplayName (db w) u).
  set (w2 := with_users_map _ _).
  assert (w2 = mkWorld (alter (setAuthenticated u dn) fd (clients_ w))
                 (<[u := fd]> (userToSocket_ w)) (db w)) as Hw2.
  { unfold w2, with_users_map, with_clients, this.
    cbn [clients_ userToSocket_ db]. rewrite lookup_alter_eq, Hs. cbn.
    destruct Hw as [H1 _]. destruct (H1 fd s Hs) as (-> & _). reflexivity. }
  assert (consistent w2) as Hc2.
  { rewrite Hw2. apply (consistent_logged_in w fd s u dn); assumption. }
  clearbody w2.
  match goal with
  | |- consistent (fst (?tail w2)) =>
      apply (kc_of_pres tail); [|exact Hc2]
  end.
  pres_auto.
Qed.

Lemma logout_keeps_consistent env fd msg w s :
  consistent w -> clients_ w !! fd = Some s ->
  consistent (fst (handleLogout env fd msg w)).
Proof.
  intros Hw Hs. unfold handleLogout. run. rewrite (this_here fd w s Hs).
  destruct (authenticated_ s) eqn:Ha; cbn [negb];
    [|apply send_consistent; exact Hw].
  run. rewrite (this_here fd w s Hs). unfold bind at 1.
  match goal with
  | |- context [broadcast ?e ?m ?x w] =>
      pose proof (pres_broadcast login_of true false
                    ltac:(reflexivity) e m x w) as F;
      destruct (broadcast e m x w) as [w1 [e1|[]]] eqn:Eb
  end; cbn [fst] in F.
  - exact (consistent_unchanged _ _ _ Hw F).
  - pose proof (consistent_unchanged _ _ _ Hw F) as Hw1.
    destruct (unchanged_lookup _ _ _ _ _ _ _ F Hs) as (s1 & Hs1 & Hl).
    apply login_of_eq in Hl as (_ & Hb & Hc).
    unfold unregisterUser, update_session. rewrite !bind_modify.
    apply send_consistent. rewrite <- Hc.
    apply (consistent_logged_out w1 fd s1 clearAuthentication);
      try reflexivity; try assumption. congruence.
Qed.

Lemma dispatch_is std_hash env fd msg :
  (type msg = LOGOUT ->
   dispatch std_hash env fd msg = handleLogout env fd msg) /\
  (type msg = KICK_USER ->
   dispatch std_hash env fd msg = handleKickUser env fd msg) /\
  (type msg = BAN_USER ->
   dispatch std_hash env fd msg = handleBanUser env fd msg).
Proof. unfold dispatch. repeat split; intros ->; reflexivity. Qed.

Lemma handleMessage_consistent std_hash env fd msg w s :
  consistent w -> clients_ w !! fd = Some s ->
  consistent (exec (handleMessage std_hash env fd msg) w).
Proof.
  intros Hw Hs. unfold exec, handleMessage.
  apply try_catch_consistent;
    [|intros e; apply kc_of_pres; pres_auto].
  destruct (dispatch_is std_hash env fd msg) as (D2 & D3 & D4).
  destruct (Z.eq_dec (type msg) LOGIN) as [E|N1].
  { rewrite (dispatch_login std_hash env fd msg E).
    exact (login_keeps_consistent std_hash env fd msg w s Hw Hs). }
  destruct (Z.eq_dec (type msg) LOGOUT) as [E|N2].
  { rewrite (D2 E). exact (logout_keeps_consistent env fd msg w s Hw Hs). }
  destruct (Z.eq_dec (type msg) KICK_USER) as [E|N3].
  { rewrite (D3 E). exact (kc_handleKickUser env fd msg w Hw). }
  destruct (Z.eq_dec (type msg) BAN_USER) as [E|N4].
  { rewrite (D4 E). exact (kc_handleBanUser env fd msg w Hw). }
  apply (kc_of_pres (dispatch std_hash env fd msg)); [|exact Hw].
  apply pres_dispatch_with; try reflexivity; intros; contradiction.
Qed.

Lemma processLoop_consistent std_hash clock fd fuel : forall i w s,
  consistent w -> clients_ w !! fd = Some s ->
  consistent (processLoop std_hash clock fd fuel i w).
Proof.
  induction fuel as [|fuel IH]; intros i w s Hw Hs; [exact Hw|].
  cbn [processLoop]. cbv zeta.
  destruct (hasCompleteMessage (buffer_ (this fd w))); [|exact Hw].
  destruct (extractMessage (buffer_ (this fd w))) as [msg rest].
  pose proof (cut_here w fd s rest Hs) as H1.
  assert (consistent
            (with_clients w
               (alter (fun s0 => with_buffer s0 rest) fd (clients_ w)))) as Hw1.
  { apply (consistent_unchanged false w); [exact Hw|].
    apply unchanged_alter. reflexivity. }
  destruct (buffer_after_handling std_hash (clock i) fd msg _ _ H1)
    as (s2 & Hs2 & _).
  apply (IH _ _ s2); [|exact Hs2].
  exact (handleMessage_consistent std_hash (clock i) fd msg _ _ Hw1 H1).
Qed.

Lemma processData_consistent std_hash clock fd data w s :
  consistent w -> clients_ w !! fd = Some s ->
  consistent (processData std_hash clock fd data w).
Proof.
  intros Hw Hs. unfold processData. cbv zeta.
  eapply processLoop_consistent.
  - apply (consistent_unchanged false w); [exact Hw|].
    apply unchanged_alter. reflexivity.
  - cbn [clients_ with_clients]. rewrite lookup_alter_eq, Hs. reflexivity.
Qed.

Lemma acceptClient_consistent env maxClients fd address w :
  consistent w -> clients_ w !! fd = None ->
  consistent (acceptClient env maxClients fd address w).
Proof.
  intros Hw Hfree. unfold acceptClient.
  destruct (Z.ltb_spec fd 0) as [|Hfd]; [exact Hw|].
  destruct (_ >=? _); [exact Hw|].
  destruct Hw as [H1 H2]. split; cbn [clients_ userToSocket_ with_clients].
  - intros k s' Hk. destruct (decide (k = fd)) as [->|Hne].
    + rewrite lookup_insert_eq in Hk.
      assert (s' = with_address (new_session env fd) address) as -> by congruence.
      cbn. auto.
    + rewrite lookup_insert_ne in Hk by congruence. apply H1. exact Hk.
  - intros u k. rewrite H2. split; intros (s' & Hs' & Ha & Hn).
    + assert (k <> fd) as Hk by (intros ->; congruence).
      exists s'. rewrite lookup_insert_ne by congruence. auto.
    + destruct (decide (k = fd)) as [->|Hk].
      * rewrite lookup_insert_eq in Hs'.
        assert (s' = with_address (new_session env fd) address) as -> by congruence.
        discriminate Ha.
      * rewrite lookup_insert_ne in Hs' by congruence. exists s'. auto.
Qed.

Lemma consistent_removed w fd s :
  consistent w -> clients_ w !! fd = Some s -> authenticated_ s = false ->
  consistent (with_clients w (delete fd (clients_ w))).
Proof.
  intros [H1 H2] Hs Ha. split; cbn [clients_ userToSocket_ with_clients].
  - intros k s' Hk. destruct (decide (k = fd)) as [->|Hne].
    + rewrite lookup_delete_eq in Hk. discriminate.
    + rewrite lookup_delete_ne in Hk by congruence. apply H1. exact Hk.
  - intros u k. rewrite H2. split; intros (s' & Hs' & Ha' & Hn).
    + assert (k <> fd) as Hk by (intros ->; congruence).
      exists s'. rewrite lookup_delete_ne by congruence. auto.
    + destruct (decide (k = fd)) as [->|Hk].
      * rewrite lookup_delete_eq in Hs'. discriminate.
      * rewrite lookup_delete_ne in Hs' by congruence. exists s'. auto.
Qed.

Lemma consistent_left w fd s :
  consistent w -> clients_ w !! fd = Some s -> authenticated_ s = true ->
  consistent
    (mkWorld (delete fd (clients_ w)) (delete (username_ s) (userToSocket_ w))
       (db w)).
Proof.
  intros Hw Hs Ha.
  pose proof (consistent_logged_out w fd s clearAuthentication Hw Hs Ha
                eq_refl eq_refl eq_refl) as Hout.
  assert (clients_ (mkWorld (alter clearAuthentication fd (clients_ w))
                      (delete (username_ s) (userToSocket_ w)) (db w)) !! fd
          = Some (clearAuthentication s)) as Hs'
    by (cbn [clients_]; rewrite lookup_alter_eq, Hs; reflexivity).
  pose proof (consistent_removed _ fd _ Hout Hs' eq_refl) as Hrem.
  unfold with_clients in Hrem. cbn [clients_ userToSocket_ db] in Hrem.
  rewrite delete_alter_eq in Hrem. exact Hrem.
Qed.

Lemma disconnect_consistent env fd w s :
  consistent w -> clients_ w !! fd = Some s ->
  (authenticated_ s = true -> username_ s <> EmptyString) ->
  consistent (exec (disconnect env fd) w) /\
  (snd (disconnect env fd w) = inr tt ->
   clients_ (exec (disconnect env fd) w) !! fd = None /\
   forall u, userToSocket_ (exec (disconnect env fd) w) !! u <> Some fd).
Proof.
  intros Hw Hs Hname. unfold exec, disconnect. run. rewrite Hs.
  cbv zeta. destruct (String.eqb_spec (username_ s) "") as [He|Hne]; cbn [negb].
  - assert (authenticated_ s = false) as Ha.
    { destruct (authenticated_ s); [|reflexivity]. exfalso. apply Hname; auto. }
    run. unfold removeClient, modify. cbn [fst snd].
    pose proof (consistent_removed w fd s Hw Hs Ha) as Hc.
    split; [exact Hc|]. intros _.
    split; [cbn [clients_ with_clients]; apply lookup_delete_eq|].
    intros u Hu. destruct Hc as [_ H2]. apply H2 in Hu as (s' & Hs' & _).
    cbn [clients_ with_clients] in Hs'. rewrite lookup_delete_eq in Hs'.
    discriminate.
  - assert (authenticated_ s = true) as Ha.
    { destruct (authenticated_ s) eqn:E; [reflexivity|].
      destruct Hw as [H1 _]. destruct (H1 fd s Hs) as (_ & _ & Hu).
      exfalso. apply Hne, Hu. exact E. }
    unfold bind.
    match goal with
    | |- context [broadcast ?e ?m ?x w] =>
        pose proof (pres_broadcast login_of true false
                      ltac:(reflexivity) e m x w) as F;
        destruct (broadcast e m x w) as [w1 [e1|[]]] eqn:Eb
    end; cbn [fst] in F.
    + cbn [fst snd]. split; [|discriminate].
      exact (consistent_unchanged _ _ _ Hw F).
    + pose proof (consistent_unchanged _ _ _ Hw F) as Hw1.
      destruct (unchanged_lookup _ _ _ _ _ _ _ F Hs) as (s1 & Hs1 & Hl).
      apply login_of_eq in Hl as (_ & Hb & Hc).
      unfold unregisterUser, removeClient, modify. cbn [fst snd].
      assert (authenticated_ s1 = true) as Ha1 by congruence.
      pose proof (consistent_left w1 fd s1 Hw1 Hs1 Ha1) as Hleft.
      rewrite Hc in Hleft.
      split; [exact Hleft|]. intros _.
      split; [cbn [clients_ with_clients with_users_map];
              apply lookup_delete_eq|].
      intros u Hu. destruct Hleft as [_ H2].
      cbn [userToSocket_ with_clients with_users_map] in Hu.
      apply H2 in Hu as (s' & Hs' & _). cbn [clients_] in Hs'.
      rewrite lookup_delete_eq in Hs'. discriminate.
Qed.

Lemma consistent_connected : consistent world_connected.
Proof.
  split; cbn [world_connected clients_ userToSocket_].
  - intros k s Hk.
    destruct (decide (k = 4)) as [->|N4];
      [rewrite lookup_insert_eq in Hk; injection Hk as <-; cbn; auto with zarith|].
    rewrite lookup_insert_ne in Hk by congruence.
    destruct (decide (k = 5)) as [->|N5];
      [rewrite lookup_insert_eq in Hk; injection Hk as <-; cbn; auto with zarith|].
    rewrite lookup_insert_ne, lookup_empty in Hk by congruence. discriminate.
  - intros u k. rewrite lookup_empty. split; [discriminate|].
    intros (s & Hk & Ha & _). exfalso.
    destruct (decide (k = 4)) as [->|N4];
      [rewrite lookup_insert_eq in Hk; injection Hk as <-; discriminate|].
    rewrite lookup_insert_ne in Hk by congruence.
    destruct (decide (k = 5)) as [->|N5];
      [rewrite lookup_insert_eq in Hk; injection Hk as <-; discriminate|].
    rewrite lookup_insert_ne, lookup_empty in Hk by congruence. discriminate.
Qed.

Lemma consistent_step env fd msg w s :
  consistent w -> clients_ w !! fd = Some s -> consistent (step env fd msg w).
Proof. apply handleMessage_consistent. Qed.

Lemma consistent_with_db w d : consistent w -> consistent (with_db w d).
Proof. intros H. exact H. Qed.

(** The states of the examples with users who are logged in. *)
Lemma consistent_world_alice : consistent world_alice.
Proof.
  unfold world_alice.
  eapply consistent_step; [|vm_compute; reflexivity].
  eapply consistent_step; [|vm_compute; reflexivity].
  eapply consistent_step; [|vm_compute; reflexivity].
  exact consistent_connected.
Qed.

Lemma consistent_world_admin_and name : consistent (world_admin_and name).
Proof.
  unfold world_admin_and. cbv zeta. apply consistent_with_db.
  eapply consistent_step; [exact consistent_world_alice|].
  vm_compute. reflexivity.
Qed.

(** X16: the map of sessions and the index of users online stay
    consistent.  In a consistent state every session is stored under
    its own socket, a session that is not authenticated has no user
    name, and the index maps a name to a socket exactly when the
    session at that socket is authenticated under that name.  A
    consistent state stays so when the session at fd handles any
    message or any received bytes, when a connection is accepted on a
    socket that is not in use, and when the session at fd disconnects
    (given that a logged in session has a name that is not empty);
    after a disconnect that ran to its end, neither the map nor the
    index mentions the socket.  In a consistent state no user name is
    logged in on two sockets.  Names are compared byte for byte there,
    while the store reads a name up to its first NUL: an account is
    on one socket at most as long as no name in the index holds a NUL,
    and can be on two, under two spellings of its name, once a login
    under a name with a NUL is accepted. *)
Theorem consistency_kept std_hash env fd w :
  consistent w ->
  (forall s msg, clients_ w !! fd = Some s ->
     consistent (exec (handleMessage std_hash env fd msg) w)) /\
  (forall s clock data, clients_ w !! fd = Some s ->
     consistent (processData std_hash clock fd data w)) /\
  (forall maxClients address, clients_ w !! fd = None ->
     consistent (acceptClient env maxClients fd address w)) /\
  (forall s, clients_ w !! fd = Some s ->
     (authenticated_ s = true -> username_ s <> EmptyString) ->
     consistent (exec (disconnect env fd) w) /\
     (snd (disconnect env fd w) = inr tt ->
      clients_ (exec (disconnect env fd) w) !! fd = None /\
      forall u, userToSocket_ (exec (disconnect env fd) w) !! u <> Some fd)) /\
  (forall fd1 fd2 s1 s2,
     clients_ w !! fd1 = Some s1 -> clients_ w !! fd2 = Some s2 ->
     authenticated_ s1 = true -> authenticated_ s2 = true ->
     username_ s1 = username_ s2 -> fd1 = fd2) /\
  ((forall u, is_Some (userToSocket_ w !! u) -> Database.c_str u = u) ->
   forall fd1 fd2 s1 s2,
     clients_ w !! fd1 = Some s1 -> clients_ w !! fd2 = Some s2 ->
     authenticated_ s1 = true -> authenticated_ s2 = true ->
     Database.c_str (username_ s1) = Database.c_str (username_ s2) ->
     fd1 = fd2).
Proof.
  intros Hw.
  assert (forall fd1 s1, clients_ w !! fd1 = Some s1 ->
            authenticated_ s1 = true ->
            userToSocket_ w !! username_ s1 = Some fd1) as Hindex
    by (intros fd1 s1 Hs1 Ha1; apply (proj2 Hw); exists s1; auto).
  split; [|split; [|split; [|split; [|split]]]].
  - intros s msg Hs. exact (handleMessage_consistent std_hash env fd msg w s Hw Hs).
  - intros s clock data Hs.
    exact (processData_consistent std_hash clock fd data w s Hw Hs).
  - intros maxClients address Hfree.
    exact (acceptClient_consistent env maxClients fd address w Hw Hfree).
  - intros s Hs Hname. exact (disconnect_consistent env fd w s Hw Hs Hname).
  - intros fd1 fd2 s1 s2 Hs1 Hs2 Ha1 Ha2 Hu.
    pose proof (Hindex fd1 s1 Hs1 Ha1) as E1.
    pose proof (Hindex fd2 s2 Hs2 Ha2) as E2. congruence.
  - intros Hnul fd1 fd2 s1 s2 Hs1 Hs2 Ha1 Ha2 Hu.
    pose proof (Hindex fd1 s1 Hs1 Ha1) as E1.
    pose proof (Hindex fd2 s2 Hs2 Ha2) as E2.
    rewrite (Hnul (username_ s1)), (Hnul (username_ s2)) in Hu by eauto.
    congruence.
Qed.

Lemma consistency_kept_witness :
  userToSocket_ world_alice !! "alice"%string = Some 4 /\
  (forall fd2 s2, clients_ world_alice !! fd2 = Some s2 ->
     authenticated_ s2 = true -> username_ s2 = "alice"%string -> fd2 = 4) /\
  consistent world_twice /\
  authenticated_ (this 4 world_twice) = true /\
  authenticated_ (this 5 world_twice) = true /\
  Database.c_str (username_ (this 5 world_twice))
  = Database.c_str (username_ (this 4 world_twice)) /\
  consistent (exec (disconnect sample_env 4) world_twice).
Proof.
  destruct (consistency_kept fnv1a sample_env 5 world_alice
              consistent_world_alice) as (Hmsg & _ & _ & _ & Hone & _).
  assert (clients_ world_alice !! 5 = Some (this 5 world_alice)) as H5
    by (vm_compute; reflexivity).
  assert (clients_ world_alice !! 4 = Some (this 4 world_alice)) as H4
    by (vm_compute; reflexivity).
  pose proof (Hmsg _ (login_request (alias "alice") "pw12") H5) as Htwice.
  destruct (consistency_kept fnv1a sample_env 4 world_twice Htwice)
    as (_ & _ & _ & Hleft & _).
  split; [vm_compute; reflexivity|]. split.
  { intros fd2 s2 Hs2 Ha2 Hu. symmetry.
    apply (Hone 4 fd2 (this 4 world_alice) s2 H4 Hs2);
      [vm_compute; reflexivity | exact Ha2 | rewrite Hu; vm_compute; reflexivity]. }
  split; [exact Htwice|].
  repeat (split; [vm_compute; reflexivity|]).
  apply (Hleft (this 4 world_twice)); [vm_compute; reflexivity|].
  intros _. vm_compute. discriminate.
Defined.

(** ** What a handler leaves alone *)

Lemma dispatch_keeps_store std_hash env fd msg :
  ~ In (type msg)
      [REGISTER; CHANGE_PASSWORD; MSG_GLOBAL; MSG_PRIVATE; BAN_USER;
       UNBAN_USER; MUTE_USER; UNMUTE_USER; PROMOTE_USER; DEMOTE_USER] ->
  preserves (fun _ : ClientSession => tt) false true
    (dispatch std_hash env fd msg).
Proof.
  intros Hn. unfold dispatch. cbv zeta.
  repeat match goal with
         | |- preserves _ _ _ (if ?t =? ?c then _ else _) =>
             destruct (Z.eqb_spec t c) as [E|]
         end;
    try (exfalso; apply Hn; rewrite E; cbn [In]; tauto).
  - unfold handleLogin, invalid_request_format. pres_auto.
  - unfold handleLogout. pres_auto.
  - pres_auto.
  - unfold handleKickUser, admin_on_target, admin_only. pres_auto.
  - unfold handleGetAllUsers, admin_only. pres_auto.
  - unfold handleGetBannedList, admin_only. pres_auto.
  - unfold handleGetMutedList, admin_only. pres_auto.
  - unfold handleUserInfo. pres_auto.
  - pres_auto.
Qed.

(** X17: what handling a message leaves alone.  No message adds or
    removes a session or changes the socket, the address or the
    unread bytes of one.  Only LOGIN, LOGOUT, KICK_USER and BAN_USER
    change the index of users online or the login state of a session;
    only KICK_USER and BAN_USER deactivate a session; only REGISTER,
    CHANGE_PASSWORD, the two chat messages and the six commands that
    ban, mute and promote write to the store. *)
Theorem handlers_leave_alone std_hash env fd msg w :
  let w' := exec (handleMessage std_hash env fd msg) w in
  unchanged (fun s => (socketFd_ s, address_ s, buffer_ s)) false false w w' /\
  (~ In (type msg) [LOGIN; LOGOUT; KICK_USER; BAN_USER] ->
   unchanged login_of true false w w') /\
  (~ In (type msg) [KICK_USER; BAN_USER] ->
   unchanged active_ false false w w') /\
  (~ In (type msg)
       [REGISTER; CHANGE_PASSWORD; MSG_GLOBAL; MSG_PRIVATE; BAN_USER;
        UNBAN_USER; MUTE_USER; UNMUTE_USER; PROMOTE_USER; DEMOTE_USER] ->
   unchanged (fun _ : ClientSession => tt) false true w w').
Proof.
  cbv zeta. unfold exec. split; [|split; [|split]].
  - apply pres_handleMessage_with; try reflexivity; intros _.
    + apply pres_handleLogin; reflexivity.
    + apply pres_handleLogout; reflexivity.
    + apply pres_handleKickUser; reflexivity.
    + apply pres_handleBanUser; reflexivity.
  - intros Hn.
    apply pres_handleMessage_with; try reflexivity; intros E;
      exfalso; apply Hn; rewrite E; cbn [In]; tauto.
  - intros Hn. apply pres_handleMessage_with; try reflexivity; intros E.
    + apply pres_handleLogin; reflexivity.
    + apply pres_handleLogout; reflexivity.
    + exfalso; apply Hn; rewrite E; cbn [In]; tauto.
    + exfalso; apply Hn; rewrite E; cbn [In]; tauto.
  - intros Hn. unfold handleMessage. apply pres_try_catch.
    + apply dispatch_keeps_store. exact Hn.
    + intros e. pres_auto.
Qed.

(** ** Who may send what *)

(** The comparisons of the dispatch, for a type that is known. *)
Ltac dispatch_on E :=
  unfold handleMessage; apply try_catch_ok; unfold dispatch; cbv zeta;
  rewrite E;
  repeat match goal with
         | |- context [?a =? ?b] =>
             let v := eval vm_compute in (a =? b) in
             change (a =? b) with v
         end;
  cbv beta iota.

Section Access.
Variable std_hash : string -> Z.
Variable env : Env.
Variable fd : Z.
Variable w : World.
Variable s : ClientSession.
Hypothesis Hs : clients_ w !! fd = Some s.
Hypothesis Ha : active_ s = true.
Hypothesis Hf : 0 <= socketFd_ s.

Local Abbreviation rejected_ c text :=
  (c w = (replied env fd s (createErrorResponse (local_time env) text) w, inr tt)).

Lemma admin_only_anonymous k :
  authenticated_ s = false ->
  rejected_ (admin_only env fd k) "Must be logged in"%string.
Proof.
  intros Hn. unfold admin_only. run. rewrite (this_here fd w s Hs), Hn.
  cbn [negb]. apply (send_error_ok env fd w s Hs); auto.
Qed.

Lemma admin_only_user k :
  authenticated_ s = true ->
  Database.isAdmin (db w) (username_ s) = false ->
  rejected_ (admin_only env fd k) "Admin privileges required"%string.
Proof.
  intros Hy Hn. unfold admin_only. run. rewrite (this_here fd w s Hs), Hy.
  cbn [negb]. rewrite bind_session_isAdmin, (this_here fd w s Hs), Hn.
  cbn [negb]. apply (send_error_ok env fd w s Hs); auto.
Qed.

Lemma admin_commands_guarded msg :
  In (type msg)
    [KICK_USER; BAN_USER; UNBAN_USER; MUTE_USER; UNMUTE_USER; PROMOTE_USER;
     DEMOTE_USER; GET_ALL_USERS; GET_BANNED_LIST; GET_MUTED_LIST] ->
  exists k, dispatch std_hash env fd msg = admin_only env fd k.
Proof.
  intros Hin. cbn [In] in Hin. unfold dispatch. cbv zeta.
  repeat (destruct Hin as [E|Hin];
          [rewrite <- E; eexists;
           unfold handleKickUser, handleBanUser, handleUnbanUser,
             handleMuteUser, handleUnmuteUser, handlePromoteUser,
             handleDemoteUser, handleGetAllUsers, handleGetBannedList,
             handleGetMutedList, admin_on_target;
           reflexivity|]).
  contradiction.
Qed.

End Access.

(** X18: who may send what.  For a frame handled by an active session:
    a session that is not logged in gets one ERROR frame, and nothing
    else changes, for LOGOUT, CHANGE_PASSWORD, the two chat messages,
    USER_INFO and the ten admin commands; a session logged in as a user
    who is not an admin gets ERROR [Admin privileges required] for each
    of the ten admin commands, whatever the target; a type that is none
    of the eighteen the server knows is answered with ERROR
    [Unknown command]. *)
Theorem access_control std_hash env fd msg w s :
  clients_ w !! fd = Some s -> active_ s = true -> 0 <= socketFd_ s ->
  let rejected text :=
    handleMessage std_hash env fd msg w
    = (replied env fd s (createErrorResponse (local_time env) text) w, inr tt) in
  let admin_commands :=
    [KICK_USER; BAN_USER; UNBAN_USER; MUTE_USER; UNMUTE_USER; PROMOTE_USER;
     DEMOTE_USER; GET_ALL_USERS; GET_BANNED_LIST; GET_MUTED_LIST] in
  (authenticated_ s = false ->
   (type msg = LOGOUT -> rejected "Not logged in"%string) /\
   (type msg = CHANGE_PASSWORD ->
    rejected "Must be logged in to change password"%string) /\
   (type msg = MSG_GLOBAL \/ type msg = MSG_PRIVATE ->
    rejected "Must be logged in to send messages"%string) /\
   (type msg = USER_INFO \/ In (type msg) admin_commands ->
    rejected "Must be logged in"%string)) /\
  (authenticated_ s = true ->
   Database.isAdmin (db w) (username_ s) = false ->
   In (type msg) admin_commands ->
   rejected "Admin privileges required"%string) /\
  (~ In (type msg)
       ([REGISTER; LOGIN; LOGOUT; CHANGE_PASSWORD; MSG_GLOBAL; MSG_PRIVATE;
         PING; USER_INFO] ++ admin_commands) ->
   rejected "Unknown command"%string).
Proof.
  intros Hs Ha Hf rejected admin_commands.
  subst rejected admin_commands. cbv beta.
  split; [|split].
  - intros Hn. split; [|split; [|split]].
    + intros E. dispatch_on E. unfold handleLogout. run.
      rewrite (this_here fd w s Hs), Hn. cbn [negb].
      apply (send_error_ok env fd w s Hs); auto.
    + intros E. dispatch_on E. unfold handleChangePassword. run.
      rewrite (this_here fd w s Hs), Hn. cbn [negb].
      apply (send_error_ok env fd w s Hs); auto.
    + intros [E|E]; dispatch_on E;
        unfold handleGlobalMessage, handlePrivateMessage; run;
        rewrite (this_here fd w s Hs), Hn; cbn [negb];
        apply (send_error_ok env fd w s Hs); auto.
    + intros [E|Hin].
      * dispatch_on E. unfold handleUserInfo. run.
        rewrite (this_here fd w s Hs), Hn. cbn [negb].
        apply (send_error_ok env fd w s Hs); auto.
      * destruct (admin_commands_guarded std_hash env fd msg Hin) as [k Hk].
        unfold handleMessage. apply try_catch_ok. rewrite Hk.
        apply (admin_only_anonymous env fd w s Hs Ha Hf k Hn).
  - intros Hy Hadm Hin.
    destruct (admin_commands_guarded std_hash env fd msg Hin) as [k Hk].
    unfold handleMessage. apply try_catch_ok. rewrite Hk.
    apply (admin_only_user env fd w s Hs Ha Hf k Hy Hadm).
  - intros Hn. unfold handleMessage. apply try_catch_ok.
    unfold dispatch. cbv zeta.
    repeat match goal with
           | |- context [if ?t =? ?c then _ else _] =>
               destruct (Z.eqb_spec t c) as [E|_];
               [exfalso; apply Hn; rewrite E; cbn [In app]; tauto|]
           end.
    apply (send_error_ok env fd w s Hs); auto.
Qed.

Lemma access_control_witness :
  handleMessage fnv1a sample_env 5 (admin_command GET_ALL_USERS "") world_alice
  = (replied sample_env 5 (this 5 world_alice)
       (createErrorResponse (local_time sample_env) "Must be logged in")
       world_alice, inr tt).
Proof.
  assert (clients_ world_alice !! 5 = Some (this 5 world_alice)) as Hs
    by (vm_compute; reflexivity).
  destruct (access_control fnv1a sample_env 5
              (admin_command GET_ALL_USERS "") world_alice (this 5 world_alice)
              Hs) as (H & _).
  - vm_compute; reflexivity.
  - vm_compute. discriminate.
  - apply H; [vm_compute; reflexivity|]. right. cbn. tauto.
Defined.

(** ** Chat messages that are delivered *)

Lemma broadcast_ok env msg excludeSocket w bytes :
  serialize (local_time env) msg = Some bytes ->
  broadcast env msg excludeSocket w
  = (with_clients w
       (map_imap (fun fd s =>
          Some (if receives excludeSocket fd s && active_ s
                   && negb (socketFd_ s <? 0)
                then sent_to env s msg else s))
          (clients_ w)),
     inr tt).
Proof. intros H. unfold broadcast. rewrite H. reflexivity. Qed.

(** [sendToUser] for a name of the index: the result is the one of
    [sendMessage] on the session the name points to. *)
Lemma sendToUser_run env u msg w fd2 s2 bytes :
  userToSocket_ w !! u = Some fd2 -> 0 <= fd2 ->
  clients_ w !! fd2 = Some s2 ->
  serialize (local_time env) msg = Some bytes ->
  let taken :=
    active_ s2 && negb (socketFd_ s2 <? 0)
    && send_accepts env (socketFd_ s2) (List.length (sent_ s2)) in
  sendToUser env u msg w
  = (with_clients w
       (<[fd2 := if taken then with_sent s2 (sent_ s2 ++ [msg]) else s2]>
          (clients_ w)),
     inr taken).
Proof.
  intros Hu Hfd Hs2 Hb. cbv zeta. unfold sendToUser. run. rewrite Hu.
  cbv zeta. assert ((fd2 <? 0) = false) as -> by (apply Z.ltb_ge; lia).
  run. rewrite Hs2. unfold sendMessage, session_send. rewrite Hs2, Hb.
  destruct (active_ s2); cbn [negb orb andb]; [|reflexivity].
  destruct (socketFd_ s2 <? 0); cbn [negb andb]; [reflexivity|].
  destruct (send_accepts _ _ _); reflexivity.
Qed.

(** X19: a global message that passes the checks is sent to everybody
    who is logged in.  For a MSG_GLOBAL frame with a content that is
    not empty, from a session that is logged in, not muted and within
    its rate limit: the limiter counts the frame; the message is
    stored (by [logMessage], which stores nothing when the store is
    closed, and the frame is sent on all the same); then every session
    that is authenticated and active is sent the message under the
    name of the sender, the sender included, muted users included, and
    has it written when its socket takes it; every other session, the
    index of users online and the accounts stay as they were. *)
Theorem global_message_delivered std_hash env fd msg w s :
  clients_ w !! fd = Some s -> authenticated_ s = true ->
  type msg = MSG_GLOBAL -> content msg <> EmptyString ->
  Database.isMuted (db w) (username_ s) = false ->
  fst (checkRateLimit (steady_now env) (rateLimitWindowStart_ s)
         (rateLimitMessageCount_ s)) = true ->
  valid_utf8 (username_ s) = true -> valid_utf8 (content msg) = true ->
  let out := createGlobalMessage (local_time env) (username_ s) (content msg) in
  let deliver fd' s' :=
    if receives (-1) fd' s' && active_ s' && negb (socketFd_ s' <? 0)
    then sent_to env s' out else s' in
  let w' := exec (handleMessage std_hash env fd msg) w in
  snd (handleMessage std_hash env fd msg w) = inr tt /\
  clients_ w' !! fd
  = Some (deliver fd (with_rate s (fst (window_after env s))
                        (snd (window_after env s)))) /\
  (forall fd', fd' <> fd -> clients_ w' !! fd' = deliver fd' <$> clients_ w !! fd') /\
  userToSocket_ w' = userToSocket_ w /\
  db w' = snd (Database.logMessage (db_time env) (db w) (username_ s) ""
                 (content msg) "global").
Proof.
  intros Hs Hauth Ht Hc Hm Hr Hvu Hvc out deliver w'.
  destruct (serialize_total (local_time env) out Hvu eq_refl Hvc
              (valid_timestamp (local_time env)) eq_refl) as [bytes Hb].
  set (w1 := with_db (counted env fd w s)
               (snd (Database.logMessage (db_time env) (db w) (username_ s) ""
                       (content msg) "global"))).
  assert (handleMessage std_hash env fd msg w
          = (with_clients w1 (map_imap (fun k x => Some (deliver k x))
                                (clients_ w1)), inr tt)) as Hrun.
  { unfold handleMessage. apply try_catch_ok.
    rewrite (dispatch_global _ _ _ _ Ht).
    unfold handleGlobalMessage. run. rewrite (this_here fd w s Hs), Hauth.
    cbn [negb]. run. rewrite (this_here fd w s Hs), Hm.
    rewrite bind_checkRateLimit. cbv zeta.
    rewrite (this_here fd w s Hs), Hr. cbn [negb].
    destruct (String.eqb_spec (content msg) ""); [contradiction|].
    rewrite (alter_here fd w s Hs). rewrite bind_command.
    cbn [db with_clients]. exact (broadcast_ok env out (-1) _ bytes Hb). }
  subst w'. unfold exec. rewrite Hrun. cbn [fst snd].
  split; [reflexivity|]. split; [|split; [|split]].
  - cbn [clients_ with_clients]. rewrite map_lookup_imap.
    unfold w1, counted. cbn [clients_ with_clients with_db].
    rewrite lookup_insert_eq. reflexivity.
  - intros fd' Hne. cbn [clients_ with_clients]. rewrite map_lookup_imap.
    unfold w1, counted. cbn [clients_ with_clients with_db].
    rewrite lookup_insert_ne by congruence.
    destruct (clients_ w !! fd'); reflexivity.
  - reflexivity.
  - reflexivity.
Qed.

Lemma global_message_delivered_witness :
  let w' := exec (handleMessage fnv1a sample_env 4 (global_message "hi"))
              world_both in
  clients_ w' !! 5
  = Some (with_sent (this 5 world_both)
            (sent_ (this 5 world_both)
             ++ [createGlobalMessage (local_time sample_env) "alice" "hi"])).
Proof.
  assert (clients_ world_both !! 4 = Some (this 4 world_both)) as H1
    by (vm_compute; reflexivity).
  assert (authenticated_ (this 4 world_both) = true) as H2
    by (vm_compute; reflexivity).
  assert (content (global_message "hi") <> EmptyString) as H3 by discriminate.
  assert (Database.isMuted (db world_both) (username_ (this 4 world_both))
          = false) as H4 by (vm_compute; reflexivity).
  assert (fst (checkRateLimit (steady_now sample_env)
                 (rateLimitWindowStart_ (this 4 world_both))
                 (rateLimitMessageCount_ (this 4 world_both))) = true) as H5
    by (vm_compute; reflexivity).
  assert (valid_utf8 (username_ (this 4 world_both)) = true) as H6
    by (vm_compute; reflexivity).
  destruct (global_message_delivered fnv1a sample_env 4 (global_message "hi")
              world_both (this 4 world_both) H1 H2 eq_refl H3 H4 H5 H6 eq_refl)
    as (_ & _ & Hothers & _).
  cbv zeta. rewrite (Hothers 5) by discriminate. vm_compute. reflexivity.
Defined.

(** X20: a private message that passes the checks, for a receiver who
    is in the index of users online.  The limiter counts the frame and
    the message is stored; then the session the index gives for the
    receiver is sent the message.  When that [sendMessage] returns
    true (the session is active and its socket takes the frame) the
    receiver has the message and the sender is sent the same message,
    as a copy.  When it returns false (the session is inactive, or its
    socket takes nothing, as when the peer has gone) the receiver gets
    nothing and the sender is sent ERROR [User not online], though
    the receiver is in the index and the message is in the log.  In
    both cases nobody else is written to. *)
Theorem private_message_delivered std_hash env fd msg w s fd2 s2 :
  clients_ w !! fd = Some s ->
  authenticated_ s = true -> active_ s = true -> 0 <= socketFd_ s ->
  type msg = MSG_PRIVATE ->
  receiver msg <> EmptyString -> content msg <> EmptyString ->
  receiver msg <> username_ s ->
  Database.isMuted (db w) (username_ s) = false ->
  fst (checkRateLimit (steady_now env) (rateLimitWindowStart_ s)
         (rateLimitMessageCount_ s)) = true ->
  userToSocket_ w !! receiver msg = Some fd2 -> fd2 <> fd -> 0 <= fd2 ->
  clients_ w !! fd2 = Some s2 ->
  valid_utf8 (username_ s) = true -> valid_utf8 (receiver msg) = true ->
  valid_utf8 (content msg) = true ->
  let out := createPrivateMessage (local_time env) (username_ s) (receiver msg)
               (content msg) in
  let refusal := createErrorResponse (local_time env)
                   ("User not online: " +:+ receiver msg) in
  let taken :=
    active_ s2 && negb (socketFd_ s2 <? 0)
    && send_accepts env (socketFd_ s2) (List.length (sent_ s2)) in
  let s1 := with_rate s (fst (window_after env s)) (snd (window_after env s)) in
  let w' := exec (handleMessage std_hash env fd msg) w in
  snd (handleMessage std_hash env fd msg w) = inr tt /\
  (clients_ w' !! fd2
   = Some (if taken then with_sent s2 (sent_ s2 ++ [out]) else s2)) /\
  (clients_ w' !! fd
   = Some (sent_to env s1 (if taken then out else refusal))) /\
  (forall fd', fd' <> fd -> fd' <> fd2 -> clients_ w' !! fd' = clients_ w !! fd') /\
  userToSocket_ w' = userToSocket_ w /\
  db w' = snd (Database.logMessage (db_time env) (db w) (username_ s)
                 (receiver msg) (content msg) "private").
Proof.
  intros Hs Hauth Ha Hf Ht Hrcv Hc Hself Hm Hr Hu Hne Hfd2 Hs2
    Hvu Hvr Hvc out refusal taken s1 w'.
  destruct (serialize_total (local_time env) out Hvu Hvr Hvc
              (valid_timestamp (local_time env)) eq_refl) as [bytes Hb].
  assert (valid_utf8 ("User not online: " +:+ receiver msg) = true) as Hvt
    by (rewrite valid_utf8_ascii_app by reflexivity; exact Hvr).
  destruct (serialize_error (local_time env) _ Hvt) as [bytes' Hb'].
  set (w1 := with_db (counted env fd w s)
               (snd (Database.logMessage (db_time env) (db w) (username_ s)
                       (receiver msg) (content msg) "private"))).
  set (w2 := with_clients w1
               (<[fd2 := if taken then with_sent s2 (sent_ s2 ++ [out]) else s2]>
                  (clients_ w1))).
  assert (clients_ w1 !! fd2 = Some s2) as Hs2'.
  { unfold w1, counted. cbn [clients_ with_clients with_db].
    rewrite lookup_insert_ne by congruence. exact Hs2. }
  assert (clients_ w2 !! fd = Some s1) as Hs1.
  { unfold w2, w1, counted. cbn [clients_ with_clients with_db].
    rewrite lookup_insert_ne by congruence. apply lookup_insert_eq. }
  assert (handleMessage std_hash env fd msg w
          = (replied env fd s1 (if taken then out else refusal) w2, inr tt))
    as Hrun.
  { unfold handleMessage. apply try_catch_ok.
    rewrite (dispatch_private _ _ _ _ Ht).
    unfold handlePrivateMessage. run. rewrite (this_here fd w s Hs), Hauth.
    cbn [negb]. run. rewrite (this_here fd w s Hs), Hm.
    rewrite bind_checkRateLimit. cbv zeta.
    rewrite (this_here fd w s Hs), Hr. cbn [negb].
    destruct (String.eqb_spec (receiver msg) ""); [contradiction|].
    destruct (String.eqb_spec (content msg) ""); [contradiction|].
    destruct (String.eqb_spec (receiver msg) (username_ s)); [contradiction|].
    rewrite (alter_here fd w s Hs). rewrite bind_command.
    cbn [db with_clients]. unfold bind at 1.
    match goal with
    | |- context [sendToUser _ _ ?m ?x] => change x with w1; change m with out
    end.
    rewrite (sendToUser_run env (receiver msg) out w1 fd2 s2 bytes
               Hu Hfd2 Hs2' Hb).
    fold taken. fold w2. destruct taken; cbn [negb].
    - apply (send_ok env fd w2 s1 Hs1 out bytes); assumption.
    - apply (send_ok env fd w2 s1 Hs1 refusal bytes'); assumption. }
  subst w'. unfold exec. rewrite Hrun. cbn [fst snd].
  split; [reflexivity|]. split; [|split; [|split; [|split]]].
  - unfold replied. cbn [clients_ with_clients].
    rewrite lookup_insert_ne by congruence. unfold w2.
    cbn [clients_ with_clients]. apply lookup_insert_eq.
  - unfold replied. cbn [clients_ with_clients]. apply lookup_insert_eq.
  - intros fd' N1 N2. unfold replied, w2, w1, counted.
    cbn [clients_ with_clients with_db].
    rewrite !lookup_insert_ne by congruence. reflexivity.
  - reflexivity.
  - reflexivity.
Qed.

Lemma private_message_delivered_witness :
  let request := private_message "bob" "hello" in
  let out := createPrivateMessage (local_time sample_env) "alice" "bob" "hello" in
  let heard := exec (handleMessage fnv1a sample_env 4 request) world_both in
  let lost := exec (handleMessage fnv1a (env_without 5) 4 request) world_both in
  (sent_ (this 5 heard) = sent_ (this 5 world_both) ++ [out] /\
   sent_ (this 4 heard) = sent_ (this 4 world_both) ++ [out]) /\
  (sent_ (this 5 lost) = sent_ (this 5 world_both) /\
   sent_ (this 4 lost)
   = sent_ (this 4 world_both)
     ++ [createErrorResponse (local_time sample_env) "User not online: bob"] /\
   Database.getMessageCount (db lost) = 1).
Proof.
  assert (clients_ world_both !! 4 = Some (this 4 world_both)) as H1
    by (vm_compute; reflexivity).
  assert (authenticated_ (this 4 world_both) = true) as H2
    by (vm_compute; reflexivity).
  assert (active_ (this 4 world_both) = true) as H3 by (vm_compute; reflexivity).
  assert (0 <= socketFd_ (this 4 world_both)) as H4 by (vm_compute; discriminate).
  assert (receiver (private_message "bob" "hello") <> EmptyString) as H5
    by discriminate.
  assert (content (private_message "bob" "hello") <> EmptyString) as H6
    by discriminate.
  assert (receiver (private_message "bob" "hello")
          <> username_ (this 4 world_both)) as H7 by (vm_compute; discriminate).
  assert (Database.isMuted (db world_both) (username_ (this 4 world_both))
          = false) as H8 by (vm_compute; reflexivity).
  assert (forall env, steady_now env = 0 ->
            fst (checkRateLimit (steady_now env)
                   (rateLimitWindowStart_ (this 4 world_both))
                   (rateLimitMessageCount_ (this 4 world_both))) = true) as H9
    by (intros env ->; vm_compute; reflexivity).
  assert (userToSocket_ world_both !! receiver (private_message "bob" "hello")
          = Some 5) as H10 by (vm_compute; reflexivity).
  assert (clients_ world_both !! 5 = Some (this 5 world_both)) as H11
    by (vm_compute; reflexivity).
  assert (valid_utf8 (username_ (this 4 world_both)) = true) as H12
    by (vm_compute; reflexivity).
  assert ((5 : Z) <> 4) as H13 by discriminate.
  assert ((0 : Z) <= 5) as H14 by discriminate.
  destruct (private_message_delivered fnv1a sample_env 4
              (private_message "bob" "hello") world_both (this 4 world_both)
              5 (this 5 world_both)
              H1 H2 H3 H4 eq_refl H5 H6 H7 H8 (H9 sample_env eq_refl) H10 H13
              H14 H11 H12 eq_refl eq_refl)
    as (_ & Hthere & Hhere & _).
  destruct (private_message_delivered fnv1a (env_without 5) 4
              (private_message "bob" "hello") world_both (this 4 world_both)
              5 (this 5 world_both)
              H1 H2 H3 H4 eq_refl H5 H6 H7 H8 (H9 (env_without 5) eq_refl) H10
              H13 H14 H11 H12 eq_refl eq_refl)
    as (_ & Hthere' & Hhere' & _ & _ & Hdb).
  cbv zeta. unfold this at 1 3 5 7.
  rewrite Hthere, Hhere, Hthere', Hhere', Hdb.
  repeat split; vm_compute; reflexivity.
Defined.

(** ** Logging in and out *)

Lemma try_catch_from {T A} (proj : ClientSession -> T) i st (c : M A) h w0 w :
  unchanged proj i st w0 (fst (c w)) ->
  (forall e, preserves proj i st (h e)) ->
  unchanged proj i st w0 (fst (try_catch c h w)).
Proof.
  intros Hc Hh. eapply unchanged_trans; [exact Hc|].
  apply try_catch_unchanged. exact Hh.
Qed.

(** The state a LOGIN that passes the checks leaves, up to the frames
    written after the session is logged in. *)
Lemma login_run std_hash env fd msg w s u p :
  clients_ w !! fd = Some s -> authenticated_ s = false ->
  type msg = LOGIN -> credentials (content msg) = inr (u, p) ->
  userToSocket_ w !! u = None ->
  Database.isBanned (db w) u = false ->
  Database.authenticateUser std_hash (db w) u p = true ->
  unchanged (fun x : ClientSession => (login_of x, displayName_ x, active_ x))
    true true
    (mkWorld
       (alter (setAuthenticated u (Database.getDisplayName (db w) u)) fd
          (clients_ w))
       (<[u := socketFd_ s]> (userToSocket_ w)) (db w))
    (exec (handleMessage std_hash env fd msg) w).
Proof.
  intros Hs Hauth Ht Hc Hfree Hban Hok.
  set (dn := Database.getDisplayName (db w) u).
  set (proj := fun x : ClientSession => (login_of x, displayName_ x, active_ x)).
  set (w2 := mkWorld _ _ _).
  unfold exec, handleMessage.
  apply try_catch_from; [|intros e; pres_auto].
  rewrite (dispatch_login std_hash env fd msg Ht).
  unfold handleLogin. run. rewrite (this_here fd w s Hs), Hauth.
  apply try_catch_from;
    [|intros e; unfold invalid_request_format; pres_auto].
  rewrite Hc. run. rewrite Hfree.
  rewrite bool_decide_eq_false_2 by (intros [? ?]; discriminate).
  run. rewrite Hban. run. rewrite Hok. run.
  unfold update_session, Server.registerUser. rewrite !bind_modify.
  fold dn.
  match goal with
  | |- unchanged _ _ _ _ (fst (?tail ?x)) =>
      assert (x = w2) as ->;
      [|cut (preserves proj true true tail);
        [intros Hp; exact (Hp w2)|pres_auto]]
  end.
  unfold w2, with_users_map, with_clients, this.
  cbn [clients_ userToSocket_ db]. rewrite lookup_alter_eq, Hs.
  reflexivity.
Qed.

(** X21: a LOGIN that passes the checks logs the session in, whatever
    happens to the replies.  For a session that is not logged in, a
    content that is read as the name u and a password, with u not
    online, not banned and the password verified: the session is
    authenticated as u with the display name of the store, the index
    maps u to the socket of the session, the store is not written to,
    and no other session changes its login state.  This holds
    whether or not the replies that follow can be written. *)
Theorem login_success std_hash env fd msg w s u p :
  clients_ w !! fd = Some s -> authenticated_ s = false ->
  type msg = LOGIN -> credentials (content msg) = inr (u, p) ->
  userToSocket_ w !! u = None ->
  Database.isBanned (db w) u = false ->
  Database.authenticateUser std_hash (db w) u p = true ->
  let w' := exec (handleMessage std_hash env fd msg) w in
  (exists s', clients_ w' !! fd = Some s' /\
     authenticated_ s' = true /\ username_ s' = u /\
     displayName_ s' = Database.getDisplayName (db w) u /\
     socketFd_ s' = socketFd_ s /\ active_ s' = active_ s) /\
  userToSocket_ w' = <[u := socketFd_ s]> (userToSocket_ w) /\
  db w' = db w /\
  (forall fd', fd' <> fd ->
     login_of <$> clients_ w' !! fd' = login_of <$> clients_ w !! fd').
Proof.
  intros Hs Hauth Ht Hc Hfree Hban Hok w'.
  set (dn := Database.getDisplayName (db w) u).
  set (proj := fun x : ClientSession => (login_of x, displayName_ x, active_ x)).
  set (w2 := mkWorld (alter (setAuthenticated u dn) fd (clients_ w))
               (<[u := socketFd_ s]> (userToSocket_ w)) (db w)).
  assert (unchanged proj true true w2 w') as F
    by exact (login_run std_hash env fd msg w s u p Hs Hauth Ht Hc Hfree Hban Hok).
  destruct F as (Fc & Fi & Fs).
  split; [|split; [|split]].
  - pose proof (Fc fd) as E. unfold w2 in E. cbn [clients_] in E.
    rewrite lookup_alter_eq, Hs in E.
    destruct (clients_ w' !! fd) as [s'|]; [|discriminate].
    exists s'. split; [reflexivity|]. cbn in E.
    unfold proj, login_of in E. injection E as E1 E2 E3 E4 E5.
    cbn in E1, E2, E3, E4, E5. auto.
  - exact (Fi eq_refl).
  - exact (Fs eq_refl).
  - intros fd' Hne. pose proof (Fc fd') as E. unfold w2 in E.
    cbn [clients_] in E. rewrite lookup_alter_ne in E by congruence.
    destruct (clients_ w' !! fd') as [a|], (clients_ w !! fd') as [b|];
      cbn in E |- *; try discriminate; [|reflexivity].
    unfold proj in E. congruence.
Qed.

Lemma login_success_witness :
  userToSocket_ (step sample_env 5 (login_request "bob" "pw12") world_alice)
  = <[ "bob"%string := 5 ]> (userToSocket_ world_alice).
Proof.
  assert (clients_ world_alice !! 5 = Some (this 5 world_alice)) as H1
    by (vm_compute; reflexivity).
  assert (authenticated_ (this 5 world_alice) = false) as H2
    by (vm_compute; reflexivity).
  assert (credentials (content (login_request "bob" "pw12"))
          = inr ("bob"%string, "pw12"%string)) as H3 by (vm_compute; reflexivity).
  assert (userToSocket_ world_alice !! "bob"%string = None) as H4
    by (vm_compute; reflexivity).
  assert (Database.isBanned (db world_alice) "bob" = false) as H5
    by (vm_compute; reflexivity).
  assert (Database.authenticateUser fnv1a (db world_alice) "bob" "pw12" = true)
    as H6 by (vm_compute; reflexivity).
  destruct (login_success fnv1a sample_env 5 (login_request "bob" "pw12")
              world_alice (this 5 world_alice) "bob" "pw12"
              H1 H2 eq_refl H3 H4 H5 H6) as (_ & Hidx & _).
  unfold step. rewrite Hidx. reflexivity.
Defined.

(** X22: a LOGOUT of a session that is logged in (under a name that
    is UTF-8, on the socket it is stored under): every other session
    that is authenticated and active is sent the notice that the user
    is offline, the name leaves the index of users online, the session
    is no longer authenticated, has no user name and is answered OK;
    the store is untouched.  A frame that is sent is written when the
    socket takes it. *)
Theorem logout_effects std_hash env fd msg w s :
  clients_ w !! fd = Some s -> socketFd_ s = fd ->
  authenticated_ s = true -> active_ s = true -> 0 <= fd ->
  type msg = LOGOUT -> valid_utf8 (username_ s) = true ->
  let notice := createUserStatusMessage (local_time env) (username_ s) OFFLINE in
  let told fd' s' :=
    if receives fd fd' s' && active_ s' && negb (socketFd_ s' <? 0)
    then sent_to env s' notice else s' in
  let w' := exec (handleMessage std_hash env fd msg) w in
  snd (handleMessage std_hash env fd msg w) = inr tt /\
  (clients_ w' !! fd
   = Some (sent_to env (clearAuthentication s)
             (createOkResponse (local_time env)
                "Logged out successfully" ""))) /\
  (forall fd', fd' <> fd -> clients_ w' !! fd' = told fd' <$> clients_ w !! fd') /\
  userToSocket_ w' = delete (username_ s) (userToSocket_ w) /\
  db w' = db w.
Proof.
  intros Hs Hfd Hauth Ha Hf Ht Hv notice told w'.
  destruct (serialize_total (local_time env) notice Hv eq_refl eq_refl
              (valid_timestamp (local_time env)) eq_refl) as [b1 Hb1].
  destruct (serialize_total (local_time env)
              (createOkResponse (local_time env) "Logged out successfully" "")
              eq_refl eq_refl eq_refl (valid_timestamp (local_time env)) eq_refl)
    as [b2 Hb2].
  set (w3 := mkWorld
               (alter clearAuthentication fd
                  (map_imap (fun k x => Some (told k x)) (clients_ w)))
               (delete (username_ s) (userToSocket_ w)) (db w)).
  assert (clients_ w3 !! fd = Some (clearAuthentication s)) as Hs3.
  { unfold w3. cbn [clients_]. rewrite lookup_alter_eq, map_lookup_imap, Hs.
    cbn. unfold told, receives. rewrite Z.eqb_refl. reflexivity. }
  assert (handleMessage std_hash env fd msg w
          = (replied env fd (clearAuthentication s)
               (createOkResponse (local_time env) "Logged out successfully" "")
               w3, inr tt)) as Hrun.
  { unfold handleMessage. apply try_catch_ok.
    destruct (dispatch_is std_hash env fd msg) as (D & _). rewrite (D Ht).
    unfold handleLogout. run. rewrite (this_here fd w s Hs), Hauth.
    cbn [negb]. run. rewrite (this_here fd w s Hs), Hfd.
    unfold bind at 1.
    match goal with
    | |- context [broadcast _ ?m _ _] => change m with notice
    end.
    rewrite (broadcast_ok env notice fd w b1 Hb1).
    unfold unregisterUser, update_session. rewrite !bind_modify.
    apply (send_ok env fd w3 _ Hs3 _ b2); [exact Ha| |exact Hb2].
    cbn. lia. }
  subst w'. unfold exec. rewrite Hrun. cbn [fst snd].
  split; [reflexivity|]. split; [|split; [|split]].
  - unfold replied. cbn [clients_ with_clients]. apply lookup_insert_eq.
  - intros fd' Hne. unfold replied, w3. cbn [clients_ with_clients].
    rewrite lookup_insert_ne, lookup_alter_ne, map_lookup_imap by congruence.
    destruct (clients_ w !! fd'); reflexivity.
  - reflexivity.
  - reflexivity.
Qed.

Lemma logout_effects_witness :
  let w' := exec (handleMessage fnv1a sample_env 4 (Message_of LOGOUT))
              world_both in
  userToSocket_ w' = delete "alice"%string (userToSocket_ world_both) /\
  clients_ w' !! 5
  = Some (with_sent (this 5 world_both)
            (sent_ (this 5 world_both)
             ++ [createUserStatusMessage (local_time sample_env) "alice"
                   OFFLINE])).
Proof.
  assert (clients_ world_both !! 4 = Some (this 4 world_both)) as H1
    by (vm_compute; reflexivity).
  assert (socketFd_ (this 4 world_both) = 4) as H2 by (vm_compute; reflexivity).
  assert (authenticated_ (this 4 world_both) = true) as H3
    by (vm_compute; reflexivity).
  assert (active_ (this 4 world_both) = true) as H4 by (vm_compute; reflexivity).
  assert ((0 : Z) <= 4) as H5 by discriminate.
  assert (valid_utf8 (username_ (this 4 world_both)) = true) as H6
    by (vm_compute; reflexivity).
  destruct (logout_effects fnv1a sample_env 4 (Message_of LOGOUT) world_both
              (this 4 world_both) H1 H2 H3 H4 H5 eq_refl H6)
    as (_ & _ & Hothers & Hidx & _).
  cbv zeta. split.
  - rewrite Hidx. vm_compute. reflexivity.
  - rewrite (Hothers 5) by discriminate. vm_compute. reflexivity.
Defined.

(** ** The limit on connections *)

(** X23: the limit on connections.  With a limit that is not
    negative, a state with at most that many sessions stays so when a
    connection is accepted, and a connection that arrives when the
    limit is reached changes nothing.  A connection within the limit
    gets a fresh session under its socket: not authenticated, active,
    with an empty buffer and the address of the connection; the other
    sessions, the index and the store stay as they were.  A limit that
    is negative is no limit: compared as a [size_t] it is above any
    number of sessions below 2^63. *)
Theorem accept_limit env maxClients fd address w :
  let n := Z.of_nat (size (clients_ w)) in
  let w' := acceptClient env maxClients fd address w in
  (0 <= maxClients < 2^31 -> n <= maxClients ->
   Z.of_nat (size (clients_ w')) <= maxClients) /\
  (0 <= maxClients < 2^31 -> maxClients <= n -> w' = w) /\
  (fd < 0 -> w' = w) /\
  (0 <= fd -> n < maxClients mod 2^64 ->
   clients_ w' !! fd
   = Some (mkClientSession fd "" "" address false true [] (steady_now env) 0 []) /\
   (forall fd', fd' <> fd -> clients_ w' !! fd' = clients_ w !! fd') /\
   userToSocket_ w' = userToSocket_ w /\ db w' = db w) /\
  (- 2^31 <= maxClients < 0 -> n < 2^63 -> n < maxClients mod 2^64).
Proof.
  cbv zeta. unfold acceptClient.
  split; [|split; [|split; [|split]]].
  - intros Hm Hn. rewrite Z.mod_small by lia.
    destruct (fd <? 0); [exact Hn|].
    destruct (Z.geb_spec (Z.of_nat (size (clients_ w))) maxClients) as [|Hlt];
      [exact Hn|].
    cbn [clients_ with_clients]. rewrite map_size_insert.
    destruct (clients_ w !! fd); unfold id; lia.
  - intros Hm Hn. rewrite Z.mod_small by lia. destruct (fd <? 0); [reflexivity|].
    destruct (Z.geb_spec (Z.of_nat (size (clients_ w))) maxClients);
      [reflexivity|lia].
  - intros Hfd. apply Z.ltb_lt in Hfd. rewrite Hfd. reflexivity.
  - intros Hfd Hn. assert ((fd <? 0) = false) as -> by (apply Z.ltb_ge; lia).
    destruct (Z.geb_spec (Z.of_nat (size (clients_ w))) (maxClients mod 2^64));
      [lia|].
    cbn [clients_ with_clients userToSocket_ db].
    split; [apply lookup_insert_eq|]. split; [|split; reflexivity].
    intros fd' Hne. apply lookup_insert_ne. congruence.
  - intros Hm Hn.
    assert (maxClients mod 2^64 = maxClients + 2^64) as ->; [|lia].
    symmetry. apply (Z.mod_unique _ _ (-1)); lia.
Qed.

(** ** Kicked and banned users *)

Lemma sendToUser_returns env u msg w bytes :
  serialize (local_time env) msg = Some bytes ->
  exists b, snd (sendToUser env u msg w) = inr b.
Proof.
  intros Hb. unfold sendToUser. run. cbv zeta.
  destruct (_ <? 0); [eexists; reflexivity|]. run.
  destruct (userToSocket_ w !! u) as [k|]; cbn [clients_].
  - destruct (clients_ w !! k) as [x|] eqn:E; [|eexists; reflexivity].
    unfold sendMessage, session_send. rewrite E, Hb.
    destruct (negb (active_ x) || (socketFd_ x <? 0)); [eexists; reflexivity|].
    destruct (send_accepts _ _ _); eexists; reflexivity.
  - destruct (clients_ w !! (-1)) as [x|] eqn:E; [|eexists; reflexivity].
    unfold sendMessage, session_send. rewrite E, Hb.
    destruct (negb (active_ x) || (socketFd_ x <? 0)); [eexists; reflexivity|].
    destruct (send_accepts _ _ _); eexists; reflexivity.
Qed.

Lemma banUser_exists ts d u :
  Database.userExists d u = true ->
  fst (Database.banUser ts d u) = true /\
  Database.isBanned (snd (Database.banUser ts d u)) u = true.
Proof.
  unfold Database.userExists, Database.banUser, Database.isBanned.
  destruct (initialized_ d) eqn:Ei; cbn [negb]; [|discriminate].
  intros Hc. pose proof Hc as Hc'. rewrite Z.gtb_ltb in Hc'.
  apply Z.ltb_lt in Hc'.
  pose proof (flag_updated (set_banned true ts) u_is_banned true d u
                (fun r => eq_refl) (fun r => eq_refl) Hc') as Hflag.
  unfold update_user in *. cbn [fst snd] in *. split; [exact Hc|].
  cbn [initialized_ with_users]. rewrite Ei. cbn [negb].
  destruct (select_user _ u); cbn in Hflag; congruence.
Qed.

Lemma bind_assoc {A B C} (c : M A) (f : A -> M B) (k : B -> M C) w :
  bind (bind c f) k w = bind c (fun a => bind (f a) k) w.
Proof. unfold bind. destruct (c w) as [w1 [e|a]]; reflexivity. Qed.

Section Forced.
Variable w : World.
Variable t : string.

Local Abbreviation state_of :=
  (fun x : ClientSession => (authenticated_ x, active_ x, username_ x)).
Local Abbreviation gone_ d x :=
  (userToSocket_ x !! t = None /\
   (forall u, u <> t -> userToSocket_ x !! u = userToSocket_ w !! u) /\
   (forall fd2 s2,
      userToSocket_ w !! t = Some fd2 -> 0 <= fd2 ->
      clients_ w !! fd2 = Some s2 ->
      exists s2', clients_ x !! fd2 = Some s2' /\
        authenticated_ s2' = false /\ active_ s2' = false /\
        username_ s2' = EmptyString) /\
   (forall k, userToSocket_ w !! t <> Some k ->
      state_of <$> clients_ x !! k = state_of <$> clients_ w !! k) /\
   db x = d).

Lemma gone_stable d x y :
  unchanged state_of true true x y -> gone_ d x -> gone_ d y.
Proof.
  intros (Fc & Fi & Fs) (G1 & G2 & G3 & G4 & G5).
  rewrite (Fi eq_refl), (Fs eq_refl). repeat split; try assumption.
  - intros fd2 s2 H1 H2 H3.
    destruct (G3 fd2 s2 H1 H2 H3) as (x2 & Hx & Ha & Hb & Hc).
    specialize (Fc fd2). rewrite Hx in Fc.
    destruct (clients_ y !! fd2) as [y2|]; [|discriminate].
    exists y2. split; [reflexivity|]. cbn in Fc. injection Fc as E1 E2 E3.
    repeat split; congruence.
  - intros k Hk. rewrite Fc. apply G4, Hk.
Qed.

Lemma gone_pres d {A} (c : M A) x :
  preserves state_of true true c -> gone_ d x -> gone_ d (fst (c x)).
Proof. intros Hc. apply gone_stable, Hc. Qed.

Lemma gone_bind d {A B} (c : M A) (k : A -> M B) x :
  gone_ d (fst (c x)) -> (forall a, preserves state_of true true (k a)) ->
  gone_ d (fst (bind c k x)).
Proof.
  intros Hc Hk. unfold bind. destruct (c x) as [x1 [e|a]]; cbn [fst] in *;
    [exact Hc | apply gone_pres; [apply Hk | exact Hc]].
Qed.

Lemma gone_try_catch d {A} (c : M A) h x :
  gone_ d (fst (c x)) -> (forall e, preserves state_of true true (h e)) ->
  gone_ d (fst (try_catch c h x)).
Proof.
  intros Hc Hh. unfold try_catch. destruct (c x) as [x1 [e|a]]; cbn [fst] in *;
    [apply gone_pres; [apply Hh | exact Hc] | exact Hc].
Qed.

Lemma gone_offline d x :
  userToSocket_ w !! t = None ->
  unchanged state_of true false w x -> db x = d -> gone_ d x.
Proof.
  intros Hoff (Fc & Fi & Fs) Hd. rewrite (Fi eq_refl).
  split; [exact Hoff|]. split; [intros; reflexivity|].
  split; [intros ? ? H; congruence|].
  split; [intros k _; apply Fc | exact Hd].
Qed.

(** The user is told, then kicked; the rest of the handler only
    writes frames. *)
Lemma tell_and_kick env m bytes d {B} (k : unit -> M B) x0 :
  serialize (local_time env) m = Some bytes ->
  unchanged state_of true false w x0 -> db x0 = d ->
  preserves state_of true true (k tt) ->
  gone_ d (fst (bind (sendToUser env t m)
                  (fun _ => bind (kickUser t) k) x0)).
Proof.
  intros Hb F0 Hd Hk.
  destruct (sendToUser_returns env t m x0 bytes Hb) as [b Eb].
  pose proof (pres_sendToUser state_of true true (fun _ _ => eq_refl)
                env t m x0) as F1.
  destruct (sendToUser env t m x0) as [x1 r] eqn:E0.
  cbn [fst snd] in *. subst r.
  assert (bind (sendToUser env t m) (fun _ => bind (kickUser t) k) x0
          = bind (kickUser t) k x1) as ->
    by (unfold bind at 1; rewrite E0; reflexivity).
  destruct F0 as (C0 & I0 & _). destruct F1 as (C1 & I1 & D1).
  specialize (I0 eq_refl). specialize (I1 eq_refl). specialize (D1 eq_refl).
  assert (userToSocket_ w !! t = None \/
          exists fd2, userToSocket_ w !! t = Some fd2) as [Hu|[fd2 Hu]]
    by (destruct (userToSocket_ w !! t); eauto).
  - assert (bind (kickUser t) k x1 = k tt x1) as ->.
    { assert (userToSocket_ x1 !! t = None) as Hu1
        by (rewrite I1, I0; exact Hu).
      unfold kickUser. rewrite bind_assoc, bind_gets, Hu1, bind_ret.
      reflexivity. }
    apply (gone_pres d (k tt) x1 Hk).
    apply gone_offline; [exact Hu| |congruence].
    split; [|split; intros E; [congruence|discriminate E]].
    intros k2. rewrite C1. apply C0.
  - set (x2 := if fd2 >=? 0
               then mkWorld
                      (alter (fun s => clearAuthentication (setInactive s)) fd2
                         (clients_ x1))
                      (delete t (userToSocket_ x1)) (db x1)
               else mkWorld (clients_ x1) (delete t (userToSocket_ x1)) (db x1)).
    assert (bind (kickUser t) k x1 = k tt x2) as ->.
    { assert (userToSocket_ x1 !! t = Some fd2) as Hu1
        by (rewrite I1, I0; exact Hu).
      unfold kickUser, x2.
      rewrite bind_assoc, bind_gets, Hu1, bind_assoc, bind_modify.
      destruct (fd2 >=? 0);
        [unfold update_session; rewrite bind_modify | rewrite bind_ret];
        reflexivity. }
    apply (gone_pres d (k tt) x2 Hk).
    assert (userToSocket_ x2 = delete t (userToSocket_ w)) as Hi
      by (unfold x2; destruct (fd2 >=? 0); cbn; congruence).
    assert (db x2 = d) as Hd2
      by (unfold x2; destruct (fd2 >=? 0); cbn; congruence).
    rewrite Hi. split; [apply lookup_delete_eq|].
    split; [intros u Hne; apply lookup_delete_ne; congruence|].
    split; [|split; [|exact Hd2]].
    + intros k2 s2 E H0 Hs2. assert (k2 = fd2) as -> by congruence.
      unfold x2. destruct (Z.geb_spec fd2 0) as [_|Hlt]; [|lia].
      cbn [clients_]. rewrite lookup_alter_eq.
      specialize (C0 fd2). specialize (C1 fd2). rewrite Hs2 in C0.
      destruct (clients_ x0 !! fd2) as [a0|]; [|discriminate].
      destruct (clients_ x1 !! fd2) as [a1|]; [|discriminate].
      eexists. split; [reflexivity|]. cbn. auto.
    + intros k2 Hk2. assert (k2 <> fd2) as Hne by congruence.
      assert (clients_ x2 !! k2 = clients_ x1 !! k2) as ->.
      { unfold x2. destruct (fd2 >=? 0); cbn [clients_]; [|reflexivity].
        apply lookup_alter_ne. congruence. }
      rewrite C1. apply C0.
Qed.

(** With a consistent state before, and when no name of the index is
    another spelling of the target's, no session of the account is
    left that is logged in. *)
Lemma gone_account d x :
  gone_ d x -> consistent w ->
  (forall u, is_Some (userToSocket_ w !! u) ->
     Database.c_str u = Database.c_str t -> u = t) ->
  forall k s', clients_ x !! k = Some s' -> authenticated_ s' = true ->
    Database.c_str (username_ s') <> Database.c_str t.
Proof.
  intros (G1 & G2 & G3 & G4 & G5) (W1 & W2) Hnul k s' Hs' Ha' Hc.
  assert (userToSocket_ w !! t = Some k \/ userToSocket_ w !! t <> Some k)
    as [Hk|Hk].
  { destruct (userToSocket_ w !! t) as [k'|]; [|right; discriminate].
    destruct (Z.eq_dec k' k) as [->|N]; [left; reflexivity|].
    right. congruence. }
  - destruct (proj1 (W2 t k) Hk) as (s2 & Hs2 & _).
    destruct (W1 k s2 Hs2) as (_ & Hpos & _).
    destruct (G3 k s2 Hk Hpos Hs2) as (s2' & E & Hno & _).
    congruence.
  - specialize (G4 k Hk). rewrite Hs' in G4.
    destruct (clients_ w !! k) as [s0|] eqn:Hs0; [|discriminate].
    cbn in G4. injection G4 as E1 E2 E3.
    assert (userToSocket_ w !! username_ s0 = Some k) as Hi
      by (apply W2; exists s0; repeat split; congruence).
    apply Hk. rewrite <- (Hnul (username_ s0)); [exact Hi|eauto|congruence].
Qed.

End Forced.

(** X24: a kicked or banned user is offline, as far as the index of
    users online knows the user.  After KICK_USER or BAN_USER of an
    admin (with a name that is UTF-8) on a target that is not the
    name of the admin: the target is not in the index of users
    online, the entries of the other names are as before, the session
    the index gave for the target is not authenticated, not active
    and has no user name, and every other session is logged in or not
    as it was, under the name it had.  The index holds names byte for
    byte while the store reads a name up to its first NUL: when the
    state before was consistent and no name in the index was another
    spelling of the target, no session that is logged in belongs to
    the account of the target afterwards; a session of that account
    that is logged in under another spelling is one of the other
    sessions and stays logged in.  KICK_USER leaves the store as it
    is.  BAN_USER on a registered user who is not an admin sets the
    ban in the store, whether or not the user was online, so that
    [isBanned] holds afterwards. *)
Theorem forced_offline std_hash env fd msg w s :
  clients_ w !! fd = Some s -> authenticated_ s = true ->
  Database.isAdmin (db w) (username_ s) = true ->
  receiver msg <> EmptyString -> receiver msg <> username_ s ->
  valid_utf8 (username_ s) = true ->
  let t := receiver msg in
  let w' := exec (handleMessage std_hash env fd msg) w in
  let state_of x := (authenticated_ x, active_ x, username_ x) in
  let gone :=
    userToSocket_ w' !! t = None /\
    (forall u, u <> t -> userToSocket_ w' !! u = userToSocket_ w !! u) /\
    (forall fd2 s2,
       userToSocket_ w !! t = Some fd2 -> 0 <= fd2 ->
       clients_ w !! fd2 = Some s2 ->
       exists s2', clients_ w' !! fd2 = Some s2' /\
         authenticated_ s2' = false /\ active_ s2' = false /\
         username_ s2' = EmptyString) /\
    (forall k, userToSocket_ w !! t <> Some k ->
       state_of <$> clients_ w' !! k = state_of <$> clients_ w !! k) /\
    (consistent w ->
     (forall u, is_Some (userToSocket_ w !! u) ->
        Database.c_str u = Database.c_str t -> u = t) ->
     forall k s', clients_ w' !! k = Some s' -> authenticated_ s' = true ->
       Database.c_str (username_ s') <> Database.c_str t) in
  (type msg = KICK_USER -> gone /\ db w' = db w) /\
  (type msg = BAN_USER ->
   Database.isAdmin (db w) t = false -> Database.userExists (db w) t = true ->
   gone /\
   db w' = snd (Database.banUser (db_time env) (db w) t) /\
   Database.isBanned (db w') t = true).
Proof.
  intros Hs Hauth Hadm Hr Hself Hv t w' state_of gone.
  subst gone state_of w' t.
  assert (String.eqb (receiver msg) "" = false) as E1
    by (destruct (String.eqb_spec (receiver msg) ""); [contradiction|reflexivity]).
  assert (String.eqb (receiver msg) (username_ s) = false) as E2
    by (destruct (String.eqb_spec (receiver msg) (username_ s));
        [contradiction|reflexivity]).
  destruct (dispatch_is std_hash env fd msg) as (_ & D3 & D4).
  assert (forall d,
            let x := exec (handleMessage std_hash env fd msg) w in
            userToSocket_ x !! receiver msg = None /\
            (forall u, u <> receiver msg ->
               userToSocket_ x !! u = userToSocket_ w !! u) /\
            (forall fd2 s2,
               userToSocket_ w !! receiver msg = Some fd2 -> 0 <= fd2 ->
               clients_ w !! fd2 = Some s2 ->
               exists s2', clients_ x !! fd2 = Some s2' /\
                 authenticated_ s2' = false /\ active_ s2' = false /\
                 username_ s2' = EmptyString) /\
            (forall k, userToSocket_ w !! receiver msg <> Some k ->
               (fun x : ClientSession =>
                  (authenticated_ x, active_ x, username_ x))
                 <$> clients_ x !! k
               = (fun x : ClientSession =>
                    (authenticated_ x, active_ x, username_ x))
                   <$> clients_ w !! k) /\
            db x = d ->
            let x := exec (handleMessage std_hash env fd msg) w in
            (userToSocket_ x !! receiver msg = None /\
             (forall u, u <> receiver msg ->
                userToSocket_ x !! u = userToSocket_ w !! u) /\
             (forall fd2 s2,
                userToSocket_ w !! receiver msg = Some fd2 -> 0 <= fd2 ->
                clients_ w !! fd2 = Some s2 ->
                exists s2', clients_ x !! fd2 = Some s2' /\
                  authenticated_ s2' = false /\ active_ s2' = false /\
                  username_ s2' = EmptyString) /\
             (forall k, userToSocket_ w !! receiver msg <> Some k ->
                (fun x : ClientSession =>
                   (authenticated_ x, active_ x, username_ x))
                  <$> clients_ x !! k
                = (fun x : ClientSession =>
                     (authenticated_ x, active_ x, username_ x))
                    <$> clients_ w !! k) /\
             (consistent w ->
              (forall u, is_Some (userToSocket_ w !! u) ->
                 Database.c_str u = Database.c_str (receiver msg) ->
                 u = receiver msg) ->
              forall k s', clients_ x !! k = Some s' ->
                authenticated_ s' = true ->
                Database.c_str (username_ s')
                <> Database.c_str (receiver msg))) /\
            db x = d) as Hall.
  { intros d x G. pose proof (gone_account w (receiver msg) d x G) as Hacc.
    destruct G as (G1 & G2 & G3 & G4 & G5). cbv zeta.
    repeat split; assumption. }
  split.
  - intros Ht. apply (Hall (db w)). cbv zeta.
    unfold exec, handleMessage.
    apply gone_try_catch; [|intros e; pres_auto].
    rewrite (D3 Ht). unfold handleKickUser, admin_on_target, admin_only. run.
    rewrite (this_here fd w s Hs), Hauth. cbn [negb].
    rewrite bind_session_isAdmin, (this_here fd w s Hs), Hadm. cbn [negb].
    cbv zeta. rewrite E1. run. rewrite (this_here fd w s Hs), E2.
    run.
    assert (userToSocket_ w !! receiver msg = None \/
            is_Some (userToSocket_ w !! receiver msg)) as [Hu|Hu]
      by (destruct (userToSocket_ w !! receiver msg); eauto).
    2: { rewrite bool_decide_eq_true_2 by exact Hu. cbn [negb].
      run. rewrite (this_here fd w s Hs).
      destruct (serialize_total (local_time env)
                  (set_content (Message_of KICKED)
                     ("You have been kicked by " +:+ username_ s))
                  eq_refl eq_refl) as [bytes Hb]; try reflexivity.
      { cbn [content set_content]. rewrite valid_utf8_ascii_app by reflexivity.
        exact Hv. }
      apply (tell_and_kick w (receiver msg) env _ bytes (db w)); auto.
      * apply unchanged_refl.
      * pres_auto. }
    rewrite bool_decide_eq_false_2
      by (rewrite Hu; intros [? ?]; discriminate).
    cbn [negb].
    match goal with
    | |- context [fst (?c w)] =>
        apply (gone_pres w (receiver msg) (db w) c w); [pres_auto|]
    end.
    apply gone_offline; [exact Hu|apply unchanged_refl|reflexivity].
  - intros Ht Htadm Hex.
    destruct (banUser_exists (db_time env) (db w) (receiver msg) Hex)
      as (Hok & Hban).
    cut (let x := exec (handleMessage std_hash env fd msg) w in
         userToSocket_ x !! receiver msg = None /\
         (forall u, u <> receiver msg ->
            userToSocket_ x !! u = userToSocket_ w !! u) /\
         (forall fd2 s2,
            userToSocket_ w !! receiver msg = Some fd2 -> 0 <= fd2 ->
            clients_ w !! fd2 = Some s2 ->
            exists s2', clients_ x !! fd2 = Some s2' /\
              authenticated_ s2' = false /\ active_ s2' = false /\
              username_ s2' = EmptyString) /\
         (forall k, userToSocket_ w !! receiver msg <> Some k ->
            (fun x : ClientSession =>
               (authenticated_ x, active_ x, username_ x))
              <$> clients_ x !! k
            = (fun x : ClientSession =>
                 (authenticated_ x, active_ x, username_ x))
                <$> clients_ w !! k) /\
         db x = snd (Database.banUser (db_time env) (db w) (receiver msg))).
    { intros G. destruct (Hall _ G) as (G' & Hd). cbv zeta in G', Hd.
      split; [exact G'|]. rewrite Hd. split; [reflexivity | exact Hban]. }
    cbv zeta. unfold exec, handleMessage.
    apply gone_try_catch; [|intros e; pres_auto].
    rewrite (D4 Ht). unfold handleBanUser, admin_on_target, admin_only. run.
    rewrite (this_here fd w s Hs), Hauth. cbn [negb].
    rewrite bind_session_isAdmin, (this_here fd w s Hs), Hadm. cbn [negb].
    cbv zeta. rewrite E1. run. rewrite (this_here fd w s Hs), E2.
    run. rewrite Htadm. run. rewrite Hex. cbn [negb]. run. rewrite Hok.
    run. cbn [userToSocket_ with_db].
    apply gone_bind; [|intros a; pres_auto].
    assert (userToSocket_ w !! receiver msg = None \/
            is_Some (userToSocket_ w !! receiver msg)) as [Hu|Hu]
      by (destruct (userToSocket_ w !! receiver msg); eauto).
    2: { rewrite bool_decide_eq_true_2 by exact Hu.
      run. unfold this. cbn [clients_ with_db]. rewrite Hs.
      destruct (serialize_total (local_time env)
                  (set_content (Message_of BANNED)
                     ("You have been banned by " +:+ username_ s))
                  eq_refl eq_refl) as [bytes Hb]; try reflexivity.
      { cbn [content set_content]. rewrite valid_utf8_ascii_app by reflexivity.
        exact Hv. }
      apply (tell_and_kick w (receiver msg) env _ bytes); auto.
      * split; [intros k; reflexivity|split; [reflexivity|discriminate]].
      * pres_auto. }
    rewrite bool_decide_eq_false_2
      by (rewrite Hu; intros [? ?]; discriminate).
    apply gone_offline; [exact Hu| |reflexivity].
    split; [intros k; reflexivity|split; [reflexivity|discriminate]].
Qed.

Lemma forced_offline_witness :
  let ban := admin_command BAN_USER "bob" in
  let w := world_admin_and "bob" in
  let w' := exec (handleMessage fnv1a sample_env 4 ban) w in
  let v := world_admin_and (alias "bob") in
  let v' := exec (handleMessage fnv1a sample_env 4 ban) v in
  (userToSocket_ w !! "bob"%string = Some 5 /\
   userToSocket_ w' !! "bob"%string = None /\
   Database.isBanned (db w') "bob" = true /\
   forall k s', clients_ w' !! k = Some s' -> authenticated_ s' = true ->
     Database.c_str (username_ s') <> "bob"%string) /\
  (userToSocket_ v !! alias "bob" = Some 5 /\
   userToSocket_ v !! "bob"%string = None /\
   Database.isBanned (db v') (alias "bob") = true /\
   (fun x => (authenticated_ x, active_ x, username_ x)) <$> clients_ v' !! 5
   = Some (true, true, alias "bob")).
Proof.
  cbv zeta.
  assert (forall name, name = "bob"%string \/ name = alias "bob" ->
            let w := world_admin_and name in
            let ban := admin_command BAN_USER "bob" in
            clients_ w !! 4 = Some (this 4 w) /\
            authenticated_ (this 4 w) = true /\
            Database.isAdmin (db w) (username_ (this 4 w)) = true /\
            receiver ban <> EmptyString /\
            receiver ban <> username_ (this 4 w) /\
            valid_utf8 (username_ (this 4 w)) = true /\
            Database.isAdmin (db w) (receiver ban) = false /\
            Database.userExists (db w) (receiver ban) = true) as Hyp.
  { intros name [-> | ->]; cbv zeta;
      repeat split; (vm_compute; (reflexivity || discriminate)). }
  destruct (Hyp "bob"%string (or_introl eq_refl))
    as (H1 & H2 & H3 & H4 & H5 & H6 & H7 & H8).
  destruct (Hyp (alias "bob") (or_intror eq_refl))
    as (A1 & A2 & A3 & A4 & A5 & A6 & A7 & A8).
  cbv zeta in *.
  destruct (forced_offline fnv1a sample_env 4 (admin_command BAN_USER "bob")
              (world_admin_and "bob") _ H1 H2 H3 H4 H5 H6) as (_ & Hban).
  destruct (forced_offline fnv1a sample_env 4 (admin_command BAN_USER "bob")
              (world_admin_and (alias "bob")) _ A1 A2 A3 A4 A5 A6)
    as (_ & Hban').
  destruct (Hban eq_refl H7 H8) as ((G1 & _ & _ & _ & Gacc) & _ & G3).
  destruct (Hban' eq_refl A7 A8) as ((_ & _ & _ & Gothers & _) & Gdb & _).
  split; [|split; [|split; [|split]]].
  - split; [vm_compute; reflexivity|]. split; [exact G1|].
    split; [exact G3|].
    apply Gacc; [apply consistent_world_admin_and|].
    intros u [k Hk] Hc. apply elem_of_map_to_list in Hk.
    assert (map_to_list (userToSocket_ (world_admin_and "bob"))
            = [("alice"%string, 4); ("bob"%string, 5)]) as E
      by (vm_compute; reflexivity).
    rewrite E in Hk. apply list_elem_of_In in Hk.
    destruct Hk as [Hk|[Hk|[]]]; injection Hk as <- <-;
      [vm_compute in Hc; discriminate Hc | reflexivity].
  - vm_compute. reflexivity.
  - vm_compute. reflexivity.
  - rewrite Gdb. vm_compute. reflexivity.
  - rewrite Gothers by (vm_compute; discriminate). vm_compute. reflexivity.
Defined.

(** ** The list of users online *)

Lemma insert_sorted_perm x l : Permutation (insert_sorted x l) (x :: l).
Proof.
  induction l as [|y l IH]; cbn [insert_sorted]; [reflexivity|].
  destruct (String.compare x y); try reflexivity.
  rewrite IH. apply perm_swap.
Qed.

Lemma insert_sorted_sorted x l :
  Sorted (fun a b => String.compare a b <> Gt) l ->
  Sorted (fun a b => String.compare a b <> Gt) (insert_sorted x l).
Proof.
  induction 1 as [|y l Hl IH Hy]; cbn [insert_sorted].
  - repeat constructor.
  - destruct (String.compare x y) eqn:E.
    + constructor; [constructor; assumption|]. constructor. congruence.
    + constructor; [constructor; assumption|]. constructor. congruence.
    + constructor; [exact IH|].
      assert (String.compare y x <> Gt) as Hyx
        by (rewrite String.compare_antisym, E; discriminate).
      destruct l as [|z l]; cbn [insert_sorted]; [constructor; exact Hyx|].
      destruct (String.compare x z); constructor; try exact Hyx.
      inversion Hy; assumption.
Qed.

Lemma sorted_strictly l :
  Sorted (fun a b => String.compare a b <> Gt) l -> NoDup l ->
  Sorted (fun a b => String.compare a b = Lt) l.
Proof.
  induction 1 as [|x l Hl IH Hx]; intros Hn; constructor.
  - apply IH. apply NoDup_cons in Hn. apply Hn.
  - destruct Hx as [|y l' Hxy]; constructor.
    apply NoDup_cons in Hn as [Hin _].
    destruct (String.compare x y) eqn:E; [|reflexivity|contradiction].
    apply String.compare_eq_iff in E. subst y. exfalso. apply Hin. left.
Qed.

(** X25: the list of users online is the index.  [getOnlineUsers]
    returns every name of the index once, and no other, in ascending
    byte order; so a name is in the list exactly when [isUserOnline]
    says so, and the list has as many names as the index has
    entries. *)
Theorem online_list_is_index w :
  exists users,
    getOnlineUsers w = (w, inr users) /\
    (forall u, In u users <-> isUserOnline u w = (w, inr true)) /\
    NoDup users /\
    Sorted (fun a b => String.compare a b = Lt) users /\
    List.length users = size (userToSocket_ w).
Proof.
  set (keys := map fst (map_to_list (userToSocket_ w))).
  exists (fold_right insert_sorted [] keys).
  assert (Permutation (fold_right insert_sorted [] keys) keys) as Hp.
  { induction keys as [|x l IH]; cbn [fold_right]; [reflexivity|].
    rewrite insert_sorted_perm. apply perm_skip. exact IH. }
  assert (NoDup keys) as Hn by apply NoDup_fst_map_to_list.
  assert (NoDup (fold_right insert_sorted [] keys)) as Hn'
    by (rewrite Hp; exact Hn).
  split; [reflexivity|]. split; [|split; [exact Hn'|split]].
  - intros u. rewrite <- list_elem_of_In, Hp. unfold keys, isUserOnline, gets.
    rewrite list_elem_of_fmap. split.
    + intros ([k v] & -> & Hkv). apply elem_of_map_to_list in Hkv.
      cbn [fst]. rewrite bool_decide_eq_true_2 by (rewrite Hkv; eauto).
      reflexivity.
    + intros E. assert (is_Some (userToSocket_ w !! u)) as [v Hv].
      { destruct (userToSocket_ w !! u) eqn:Hu; [eauto|].
        rewrite bool_decide_eq_false_2 in E by (intros [? ?]; discriminate).
        discriminate. }
      exists (u, v). split; [reflexivity|]. apply elem_of_map_to_list. exact Hv.
  - apply sorted_strictly; [|exact Hn'].
    clear. induction keys as [|x l IH]; cbn [fold_right]; [constructor|].
    apply insert_sorted_sorted. exact IH.
  - rewrite Hp. unfold keys. rewrite length_map. apply length_map_to_list.
Qed.

(** ** Commands of an admin on the admin *)

(** The store reads a name up to its first NUL: two names that are the
    same up to there are one account. *)
Lemma matches_c_str u v : c_str u = c_str v -> matches u = matches v.
Proof. unfold matches. intros ->. reflexivity. Qed.

Lemma account_c_str d u v :
  c_str u = c_str v ->
  Database.isAdmin d u = Database.isAdmin d v /\
  Database.userExists d u = Database.userExists d v /\
  (forall ts role,
     Database.setUserRole ts d u role = Database.setUserRole ts d v role).
Proof.
  intros H. unfold Database.isAdmin, Database.getUserRole,
    Database.userExists, Database.setUserRole, update_user, select_user,
    count_user.
  rewrite (matches_c_str u v H). repeat split.
Qed.

Lemma admin_exists d u :
  Database.isAdmin d u = true ->
  initialized_ d = true /\ 0 < count_user d u.
Proof.
  unfold Database.isAdmin, Database.getUserRole, select_user, count_user.
  destruct (initialized_ d); cbn [negb]; [|discriminate].
  intros H. split; [reflexivity|].
  induction (users d) as [|r l IH]; cbn [List.find List.filter] in *;
    [discriminate|].
  destruct (matches u r); [cbn [List.length]; lia | exact (IH H)].
Qed.

Lemma demoted_no_admin ts d u :
  Database.isAdmin d u = true ->
  fst (Database.setUserRole ts d u 0) = true /\
  Database.isAdmin (snd (Database.setUserRole ts d u 0)) u = false.
Proof.
  intros H. destruct (admin_exists d u H) as (Hi & Hc).
  unfold Database.setUserRole, Database.isAdmin, Database.getUserRole.
  rewrite Hi. cbn [negb].
  pose proof (select_update (set_role 0 ts) d u u (fun r => eq_refl)) as Hsel.
  unfold update_user in *. cbn [fst snd] in *.
  split; [apply Z.gtb_lt; exact Hc|].
  cbn [initialized_ with_users]. rewrite Hi. cbn [negb]. rewrite Hsel.
  destruct (select_of_count d u Hc) as (row & Hrow & Hm).
  rewrite Hrow. cbn [option_map]. rewrite Hm. reflexivity.
Qed.

(** X26: commands of an admin on the own account.  The check against
    a command on oneself compares the target with the name of the
    session byte for byte, while the store takes two names that agree
    up to the first NUL for one account.  For an admin and a target
    that names the account of the admin: with the name as the session
    has it, KICK_USER, BAN_USER, MUTE_USER and DEMOTE_USER are answered
    with one ERROR frame and change nothing else; with another
    spelling of the name, BAN_USER and MUTE_USER are refused as well,
    because the target is an admin, but DEMOTE_USER is carried out:
    it is answered OK and the admin has lost the role.  (KICK_USER
    with another spelling acts on the session logged in under that
    spelling, if there is one.) *)
Theorem no_self_moderation std_hash env fd msg w s :
  clients_ w !! fd = Some s ->
  authenticated_ s = true -> active_ s = true -> 0 <= socketFd_ s ->
  Database.isAdmin (db w) (username_ s) = true ->
  receiver msg <> EmptyString ->
  c_str (receiver msg) = c_str (username_ s) ->
  let rejected text :=
    handleMessage std_hash env fd msg w
    = (replied env fd s (createErrorResponse (local_time env) text) w, inr tt) in
  let demoted :=
    snd (Database.setUserRole (db_time env) (db w) (username_ s) 0) in
  (receiver msg = username_ s ->
   (type msg = KICK_USER -> rejected "Cannot kick yourself"%string) /\
   (type msg = BAN_USER -> rejected "Cannot ban yourself"%string) /\
   (type msg = MUTE_USER -> rejected "Cannot mute yourself"%string) /\
   (type msg = DEMOTE_USER -> rejected "Cannot demote yourself"%string)) /\
  (receiver msg <> username_ s ->
   (type msg = BAN_USER -> rejected "Cannot ban an admin"%string) /\
   (type msg = MUTE_USER -> rejected "Cannot mute an admin"%string) /\
   (type msg = DEMOTE_USER -> valid_utf8 (receiver msg) = true ->
    handleMessage std_hash env fd msg w
    = (replied env fd s
         (createOkResponse (local_time env)
            ("User demoted from admin: " +:+ receiver msg) "")
         (with_db w demoted), inr tt) /\
    Database.isAdmin demoted (username_ s) = false)).
Proof.
  intros Hs Hauth Ha Hf Hadm Hne Hc rejected demoted.
  subst rejected demoted. cbv beta.
  assert (String.eqb (receiver msg) "" = false) as E1
    by (destruct (String.eqb_spec (receiver msg) ""); [contradiction|reflexivity]).
  destruct (account_c_str (db w) _ _ Hc) as (Hsame & Hex & Hrole).
  split.
  - intros Hr.
    assert (String.eqb (receiver msg) (username_ s) = true) as E2
      by (rewrite Hr; apply String.eqb_refl).
    repeat split; intros Ht; dispatch_on Ht;
      unfold handleKickUser, handleBanUser, handleMuteUser, handleDemoteUser,
        admin_on_target, admin_only;
      run; rewrite (this_here fd w s Hs), Hauth; cbn [negb];
      rewrite bind_session_isAdmin, (this_here fd w s Hs), Hadm; cbn [negb];
      cbv zeta; rewrite E1; run; rewrite (this_here fd w s Hs), E2;
      apply (send_error_ok env fd w s Hs); auto.
  - intros Hr.
    assert (String.eqb (receiver msg) (username_ s) = false) as E2
      by (destruct (String.eqb_spec (receiver msg) (username_ s));
          [contradiction|reflexivity]).
    split; [|split].
    + intros Ht. dispatch_on Ht.
      unfold handleBanUser, admin_on_target, admin_only.
      run. rewrite (this_here fd w s Hs), Hauth. cbn [negb].
      rewrite bind_session_isAdmin, (this_here fd w s Hs), Hadm. cbn [negb].
      cbv zeta. rewrite E1. run. rewrite (this_here fd w s Hs), E2.
      run. rewrite Hsame, Hadm. apply (send_error_ok env fd w s Hs); auto.
    + intros Ht. dispatch_on Ht.
      unfold handleMuteUser, admin_on_target, admin_only.
      run. rewrite (this_here fd w s Hs), Hauth. cbn [negb].
      rewrite bind_session_isAdmin, (this_here fd w s Hs), Hadm. cbn [negb].
      cbv zeta. rewrite E1. run. rewrite (this_here fd w s Hs), E2.
      run. rewrite Hsame, Hadm. apply (send_error_ok env fd w s Hs); auto.
    + intros Ht Hv.
      destruct (demoted_no_admin (db_time env) (db w) (username_ s) Hadm)
        as (Hok & Hgone).
      split; [|exact Hgone].
      destruct (admin_exists (db w) (username_ s) Hadm) as (Hi & Hcount).
      assert (Database.userExists (db w) (receiver msg) = true) as Hex'.
      { rewrite Hex. unfold Database.userExists. rewrite Hi. cbn [negb].
        apply Z.gtb_lt. exact Hcount. }
      destruct (serialize_total (local_time env)
                  (createOkResponse (local_time env)
                     ("User demoted from admin: " +:+ receiver msg) "")
                  eq_refl eq_refl) as [bytes Hb]; try reflexivity.
      { cbn [content createOkResponse].
        rewrite valid_utf8_ascii_app by reflexivity. exact Hv. }
      { apply valid_timestamp. }
      dispatch_on Ht.
      unfold handleDemoteUser, admin_on_target, admin_only.
      run. rewrite (this_here fd w s Hs), Hauth. cbn [negb].
      rewrite bind_session_isAdmin, (this_here fd w s Hs), Hadm. cbn [negb].
      cbv zeta. rewrite E1. run. rewrite (this_here fd w s Hs), E2.
      run. rewrite Hex'. cbn [negb]. run. rewrite Hsame, Hadm. cbn [negb].
      rewrite bind_command, (Hrole (db_time env) 0), Hok.
      apply (send_ok env fd (with_db w _) s Hs _ bytes);
        [exact Ha|exact Hf|exact Hb].
Qed.

Lemma no_self_moderation_witness :
  let w := world_admins in
  let own := admin_command DEMOTE_USER "alice" in
  let other := admin_command DEMOTE_USER (alias "alice") in
  handleMessage fnv1a sample_env 4 own w
  = (replied sample_env 4 (this 4 w)
       (createErrorResponse (local_time sample_env) "Cannot demote yourself")
       w, inr tt) /\
  Database.isAdmin (db w) "alice" = true /\
  Database.isAdmin (db (exec (handleMessage fnv1a sample_env 4 other) w))
    "alice" = false.
Proof.
  cbv zeta.
  assert (clients_ world_admins !! 4 = Some (this 4 world_admins)) as H1
    by (vm_compute; reflexivity).
  assert (authenticated_ (this 4 world_admins) = true) as H2
    by (vm_compute; reflexivity).
  assert (active_ (this 4 world_admins) = true) as H3
    by (vm_compute; reflexivity).
  assert (0 <= socketFd_ (this 4 world_admins)) as H4
    by (vm_compute; discriminate).
  assert (Database.isAdmin (db world_admins) (username_ (this 4 world_admins))
          = true) as H5 by (vm_compute; reflexivity).
  assert (forall u, u = "alice"%string \/ u = alias "alice" ->
            receiver (admin_command DEMOTE_USER u) <> EmptyString /\
            c_str (receiver (admin_command DEMOTE_USER u))
            = c_str (username_ (this 4 world_admins))) as H6
    by (intros u [-> | ->];
        (split; [vm_compute; discriminate | vm_compute; reflexivity])).
  destruct (H6 "alice"%string (or_introl eq_refl)) as (N1 & C1).
  destruct (H6 (alias "alice") (or_intror eq_refl)) as (N2 & C2).
  destruct (no_self_moderation fnv1a sample_env 4
              (admin_command DEMOTE_USER "alice") world_admins
              (this 4 world_admins) H1 H2 H3 H4 H5 N1 C1) as (Hown & _).
  destruct (no_self_moderation fnv1a sample_env 4
              (admin_command DEMOTE_USER (alias "alice")) world_admins
              (this 4 world_admins) H1 H2 H3 H4 H5 N2 C2) as (_ & Hother).
  destruct (Hown ltac:(vm_compute; reflexivity)) as (_ & _ & _ & Hrej).
  destruct (Hother ltac:(vm_compute; discriminate)) as (_ & _ & Hdem).
  destruct (Hdem eq_refl ltac:(vm_compute; reflexivity)) as (Hrun & Hlost).
  split; [exact (Hrej eq_refl)|]. split; [vm_compute; reflexivity|].
  unfold exec. rewrite Hrun. exact Hlost.
Defined.

(** ** From registration to login *)

Lemma register_run std_hash env fd msg w u p :
  type msg = REGISTER -> credentials (content msg) = inr (u, p) ->
  (3 <= String.length u <= 20)%nat -> (4 <= String.length p)%nat ->
  unchanged login_of true true
    (with_db w
       (snd (Database.registerUser std_hash (db_time env) (db w) u p "")))
    (exec (handleMessage std_hash env fd msg) w).
Proof.
  intros Ht Hc Hu Hp. unfold exec, handleMessage.
  apply try_catch_from; [|intros e; pres_auto].
  assert (dispatch std_hash env fd msg = handleRegister std_hash env fd msg)
    as -> by (unfold dispatch; rewrite Ht; reflexivity).
  unfold handleRegister.
  apply try_catch_from;
    [|intros e; unfold invalid_request_format; pres_auto].
  rewrite Hc. run.
  assert ((String.eqb u "" || String.eqb p "") = false) as ->.
  { destruct u; [cbn in Hu; lia|]. destruct p; [cbn in Hp; lia|]. reflexivity. }
  assert (((String.length u <? 3)%nat || (20 <? String.length u)%nat) = false)
    as -> by (apply orb_false_iff; split; apply Nat.ltb_ge; lia).
  rewrite (proj2 (Nat.ltb_ge _ _) Hp). rewrite bind_command.
  destruct (fst (Database.registerUser std_hash (db_time env) (db w) u p ""));
    apply pres_send; reflexivity.
Qed.

(** X27: who has registered can log in.  A REGISTER with a name of 3
    to 20 characters that is not taken and a password of 4 or more, on
    an open store, followed by a LOGIN with the same name and password
    on the same connection (the name not being online): after the
    REGISTER the account exists and the session is still not logged
    in; after the LOGIN the session is authenticated under the name,
    the index maps the name to its socket, and the store is as the
    REGISTER left it, with the account an ordinary member that is not
    banned. *)
Theorem register_then_login std_hash env1 env2 fd msg1 msg2 w s u p :
  clients_ w !! fd = Some s -> authenticated_ s = false ->
  type msg1 = REGISTER -> credentials (content msg1) = inr (u, p) ->
  type msg2 = LOGIN -> credentials (content msg2) = inr (u, p) ->
  (3 <= String.length u <= 20)%nat -> (4 <= String.length p)%nat ->
  initialized_ (db w) = true -> Database.userExists (db w) u = false ->
  userToSocket_ w !! u = None ->
  let w1 := exec (handleMessage std_hash env1 fd msg1) w in
  let w2 := exec (handleMessage std_hash env2 fd msg2) w1 in
  (Database.userExists (db w1) u = true /\
   exists s1, clients_ w1 !! fd = Some s1 /\ authenticated_ s1 = false) /\
  (exists s2, clients_ w2 !! fd = Some s2 /\
     authenticated_ s2 = true /\ username_ s2 = u) /\
  userToSocket_ w2 = <[u := socketFd_ s]> (userToSocket_ w) /\
  db w2 = db w1 /\
  Database.isAdmin (db w2) u = false /\ Database.isBanned (db w2) u = false.
Proof.
  intros Hs Hauth Ht1 Hc1 Ht2 Hc2 Hu Hp Hi Hex Hfree w1 w2.
  pose proof (register_run std_hash env1 fd msg1 w u p Ht1 Hc1 Hu Hp) as F1.
  fold w1 in F1.
  destruct (Database.registerUser std_hash (db_time env1) (db w) u p "")
    as [ok d1] eqn:Er.
  assert (ok = true) as ->.
  { pose proof (proj2 (registerUser_verdict std_hash (db_time env1) (db w) u p "")
                  (conj Hi Hex)) as Hv. rewrite Er in Hv. exact Hv. }
  destruct (registerUser_success std_hash _ _ _ _ _ _ Er)
    as (Hi1 & row & Hsel & Hpw & Hrole & Hb & _).
  cbn [snd] in F1.
  destruct (unchanged_lookup _ _ _ _ _ _ _ F1 Hs) as (s1 & Hs1 & Hl1).
  apply login_of_eq in Hl1 as (Hfd1 & Ha1 & _).
  destruct F1 as (_ & Fi1 & Fd1). specialize (Fi1 eq_refl).
  specialize (Fd1 eq_refl). cbn [userToSocket_ db with_db] in Fi1, Fd1.
  assert (Database.isBanned (db w1) u = false) as Hban.
  { rewrite Fd1. unfold Database.isBanned. rewrite Hi1, Hsel. exact Hb. }
  assert (Database.isAdmin (db w1) u = false) as Hadm.
  { rewrite Fd1. unfold Database.isAdmin, Database.getUserRole.
    rewrite Hi1, Hsel, Hrole. reflexivity. }
  assert (Database.authenticateUser std_hash (db w1) u p = true) as Hok.
  { rewrite Fd1. apply authenticateUser_spec. split; [exact Hi1|].
    exists row. split; assumption. }
  assert (authenticated_ s1 = false) as Ha1' by congruence.
  assert (userToSocket_ w1 !! u = None) as Hfree1 by (rewrite Fi1; exact Hfree).
  pose proof (login_run std_hash env2 fd msg2 w1 s1 u p Hs1 Ha1' Ht2 Hc2
                Hfree1 Hban Hok) as F2.
  fold w2 in F2. destruct F2 as (Fc2 & Fi2 & Fd2).
  specialize (Fi2 eq_refl). specialize (Fd2 eq_refl).
  cbn [clients_ userToSocket_ db] in Fc2, Fi2, Fd2.
  split; [split|split; [|split; [|split; [|split]]]].
  - rewrite Fd1. unfold Database.userExists. rewrite Hi1. cbn [negb].
    pose proof (count_user_nonneg d1 u).
    destruct (Z.eq_dec (count_user d1 u) 0) as [Hz|Hz];
      [apply count_of_select in Hz; congruence|].
    apply Z.gtb_lt. lia.
  - exists s1. split; assumption.
  - specialize (Fc2 fd). rewrite lookup_alter_eq, Hs1 in Fc2.
    destruct (clients_ w2 !! fd) as [s2|]; [|discriminate].
    exists s2. split; [reflexivity|]. cbn in Fc2. unfold login_of in Fc2.
    injection Fc2 as E1 E2 E3 E4 E5. cbn in E2, E3. auto.
  - rewrite Fi2, Fi1, Hfd1. reflexivity.
  - exact Fd2.
  - rewrite Fd2. exact Hadm.
  - rewrite Fd2. exact Hban.
Qed.

Lemma register_then_login_witness :
  let w1 := exec (handleMessage fnv1a sample_env 5 (register_request "carol" "pw34"))
              world_alice in
  let w2 := exec (handleMessage fnv1a sample_env 5 (login_request "carol" "pw34"))
              w1 in
  userToSocket_ w2 = <[ "carol"%string := 5 ]> (userToSocket_ world_alice).
Proof.
  assert (clients_ world_alice !! 5 = Some (this 5 world_alice)) as H1
    by (vm_compute; reflexivity).
  assert (authenticated_ (this 5 world_alice) = false) as H2
    by (vm_compute; reflexivity).
  assert (credentials (content (register_request "carol" "pw34"))
          = inr ("carol"%string, "pw34"%string)) as H3
    by (vm_compute; reflexivity).
  assert (credentials (content (login_request "carol" "pw34"))
          = inr ("carol"%string, "pw34"%string)) as H4
    by (vm_compute; reflexivity).
  assert ((3 <= String.length "carol" <= 20)%nat) as H5 by (cbn; lia).
  assert ((4 <= String.length "pw34")%nat) as H6 by (cbn; lia).
  assert (initialized_ (db world_alice) = true) as H7
    by (vm_compute; reflexivity).
  assert (Database.userExists (db world_alice) "carol" = false) as H8
    by (vm_compute; reflexivity).
  assert (userToSocket_ world_alice !! "carol"%string = None) as H9
    by (vm_compute; reflexivity).
  destruct (register_then_login fnv1a sample_env sample_env 5
              (register_request "carol" "pw34") (login_request "carol" "pw34")
              world_alice (this 5 world_alice) "carol" "pw34"
              H1 H2 eq_refl H3 eq_refl H4 H5 H6 H7 H8 H9)
    as (_ & _ & Hidx & _).
  cbv zeta. rewrite Hidx. reflexivity.
Defined.
